(** * A shallow embedding of the block file system of Project_C_FileSystem

    The development follows the C sources file by file:
    - [disk_simulator.h], [disk_simulator.c]: the virtual disk;
    - [fs.h]: the on-disk structures and the run-time state;
    - [fs_ops.c]: formatting, bitmaps, directories, [fs_open];
    - [user_manager.c]: the permission check;
    - [file_ops.c]: [fs_write], [fs_read], [fs_seek].

    Conventions.
    - A C integer of width w is a [Z]; every operation whose result may leave
      the range of its type is wrapped explicitly ([u8], [u16], [u32], [u64],
      [to_int]).
    - Memory that the program reads and writes as raw bytes (disk blocks,
      name buffers, the bitmap array) is a [list byte]; the packed structures
      are laid out little-endian, with an 8-byte [time_t] (LP64).
    - The global variables [g_disk_state] and [g_fs_state] are threaded
      explicitly through every operation as a [world].
    - [time(NULL)] is an argument [now] of the operations that call it.
    - A result [None] of an operation means that the C program derefences the
      NULL bitmap pointer (or that a loop ran out of fuel, which the lemmas
      below exclude).
    - [printf] calls, the disk statistics and the latency averages only
      serve observability and are left out. *)

From Stdlib Require Import ZArith List Lia Bool Sorted.
From coqutil Require Import Byte Word.LittleEndianList.
From stdpp Require Import gmap list.
Import ListNotations.
Local Open Scope Z_scope.

(* ===================================================================== *)
(** ** Machine integers and raw memory *)
(* ===================================================================== *)

Definition u8 (z : Z) : Z := z mod 2 ^ 8.
Definition u16 (z : Z) : Z := z mod 2 ^ 16.
Definition u32 (z : Z) : Z := z mod 2 ^ 32.
Definition u64 (z : Z) : Z := z mod 2 ^ 64.

(** Conversion to [int] (32-bit two's complement). *)
Definition to_int (z : Z) : Z := (z + 2 ^ 31) mod 2 ^ 32 - 2 ^ 31.
(** Conversion to [int64_t]. *)
Definition to_int64 (z : Z) : Z := (z + 2 ^ 63) mod 2 ^ 64 - 2 ^ 63.

Definition int_range (z : Z) : Prop := - 2 ^ 31 <= z < 2 ^ 31.

(** [memset(buf, 0, n)]. *)
Definition zeros (n : nat) : list byte := repeat Byte.x00 n.

(** [memcpy(dst + off, src, length src)]; every use below stays inside
    [dst]. *)
Definition memcpy (dst : list byte) (off : nat) (src : list byte) : list byte :=
  firstn off dst ++ src ++ skipn (off + length src) dst.

(** The [n] bytes at [p + off]. *)
Definition slice (p : list byte) (off n : nat) : list byte :=
  firstn n (skipn off p).

(** [p[i]] for a byte array; the guards of the callers keep [i] in range. *)
Definition byte_at (p : list byte) (i : Z) : byte := nth (Z.to_nat i) p Byte.x00.

(** [a[i]] for an array of integers. *)
Definition word_at (a : list Z) (i : Z) : Z := nth (Z.to_nat i) a 0.

(** A C string: the bytes before the first NUL. *)
Fixpoint c_str (p : list byte) : list byte :=
  match p with
  | [] => []
  | b :: p' => if Byte.eqb b Byte.x00 then [] else b :: c_str p'
  end.

(** [strncpy(dst, src, n)] on a buffer of at least [n] bytes: the string,
    then NUL padding up to [n] bytes. *)
Definition strncpy (src : list byte) (n : nat) : list byte :=
  firstn n (c_str src ++ zeros n).

(** [strchr(s, c) != NULL] for a non-NUL [c]. *)
Definition strchr_found (s : list byte) (c : byte) : bool :=
  existsb (Byte.eqb c) (c_str s).

(** [strcmp(a, b) == 0] on two strings. *)
Fixpoint bytes_eqb (a b : list byte) : bool :=
  match a, b with
  | [], [] => true
  | x :: a', y :: b' => Byte.eqb x y && bytes_eqb a' b'
  | _, _ => false
  end.

(** *** Packed structures

    A structure is written as the list of its fields, each a width in bytes
    and a value; [put_fields] is the memory image and [get_fields] reads the
    fields back from an image. *)

Definition put_fields (fs : list (nat * Z)) : list byte :=
  flat_map (fun f => le_split (fst f) (snd f)) fs.

Fixpoint get_fields (layout : list nat) (p : list byte) : list Z :=
  match layout with
  | [] => []
  | n :: layout' => le_combine (firstn n p) :: get_fields layout' (skipn n p)
  end.

Definition layout_size (layout : list nat) : nat := fold_right Nat.add 0%nat layout.

(* ===================================================================== *)
(** ** disk_simulator.h / disk_simulator.c *)
(* ===================================================================== *)

Definition DISK_BLOCK_SIZE : Z := 1024.
Definition DISK_MAGIC_HEADER : Z := 0x44534B21.
Definition DISK_VERSION : Z := 1.

Definition DISK_SUCCESS : Z := 0.
Definition DISK_ERROR_INVALID_PARAM : Z := -1.
Definition DISK_ERROR_FILE_OPEN : Z := -2.
Definition DISK_ERROR_FILE_CREATE : Z := -3.
Definition DISK_ERROR_FILE_READ : Z := -4.
Definition DISK_ERROR_FILE_WRITE : Z := -5.
Definition DISK_ERROR_FILE_SEEK : Z := -6.
Definition DISK_ERROR_BLOCK_RANGE : Z := -7.
Definition DISK_ERROR_NOT_INIT : Z := -8.
Definition DISK_ERROR_ALREADY_INIT : Z := -9.
Definition DISK_ERROR_DISK_FULL : Z := -10.
Definition DISK_ERROR_IO : Z := -11.
Definition DISK_ERROR_CORRUPTED : Z := -12.

(** One block of zero bytes: what an untouched part of the backing file
    reads as, and the stand-in for an uninitialised local buffer. *)
Definition zero_block : list byte := zeros 1024.

(** [disk_header_t] (packed): the five stable fields, two [time_t], the
    checksum and 32 reserved bytes. *)
Record disk_header_t := mk_disk_header {
  h_magic_number : Z;
  h_version : Z;
  h_block_size : Z;
  h_total_blocks : Z;
  h_disk_size : Z;
  h_created_time : Z;
  h_last_access_time : Z;
  h_checksum : Z
}.

Definition sizeof_disk_header_t : Z := 4 + 4 + 4 + 4 + 4 + 8 + 8 + 4 + 32.

(** The bytes before [created_time] ([offsetof(disk_header_t, created_time)]
    is 20). *)
Definition header_stable_bytes (h : disk_header_t) : list byte :=
  put_fields [(4%nat, h_magic_number h); (4%nat, h_version h);
              (4%nat, h_block_size h); (4%nat, h_total_blocks h);
              (4%nat, h_disk_size h)].

(** [calculate_checksum] of disk_simulator.c: add the byte, rotate left by
    one. *)
Definition calculate_checksum (data : list byte) : Z :=
  fold_left (fun checksum b =>
               let checksum := u32 (checksum + byte.unsigned b) in
               Z.lor (u32 (Z.shiftl checksum 1)) (Z.shiftr checksum 31))
            data 0.

Definition create_disk_header (total_blocks now : Z) : disk_header_t :=
  let h := {| h_magic_number := DISK_MAGIC_HEADER;
              h_version := DISK_VERSION;
              h_block_size := DISK_BLOCK_SIZE;
              h_total_blocks := total_blocks;
              h_disk_size := u32 (total_blocks * DISK_BLOCK_SIZE);
              h_created_time := now;
              h_last_access_time := now;
              h_checksum := 0 |} in
  {| h_magic_number := h_magic_number h; h_version := h_version h;
     h_block_size := h_block_size h; h_total_blocks := h_total_blocks h;
     h_disk_size := h_disk_size h; h_created_time := now;
     h_last_access_time := now;
     h_checksum := calculate_checksum (header_stable_bytes h) |}.

Definition validate_disk_header (h : disk_header_t) : Z :=
  if negb (h_magic_number h =? DISK_MAGIC_HEADER) then DISK_ERROR_CORRUPTED
  else if negb (h_version h =? DISK_VERSION) then DISK_ERROR_CORRUPTED
  else if negb (h_block_size h =? DISK_BLOCK_SIZE) then DISK_ERROR_CORRUPTED
  else if negb (calculate_checksum (header_stable_bytes h) =? h_checksum h)
       then DISK_ERROR_CORRUPTED
  else DISK_SUCCESS.

(** The host file behind the disk: its size ([st_size]), its header and its
    blocks.  A block that was never written reads as zeros (the file is
    extended by a seek). *)
Record host_file := mk_host_file {
  hf_st_size : Z;
  hf_header : disk_header_t;
  hf_blocks : gmap Z (list byte)
}.

(** [disk_state_t], without the file name and the statistics. *)
Record disk_state_t := mk_disk {
  d_is_initialized : bool;
  d_is_read_only : bool;
  d_is_dirty : bool;
  d_total_blocks : Z;
  d_block_size : Z;
  d_disk_size : Z;
  d_blocks : gmap Z (list byte)
}.

(** [memset(&g_disk_state, 0, sizeof(g_disk_state))]. *)
Definition disk_state_zero : disk_state_t :=
  {| d_is_initialized := false; d_is_read_only := false; d_is_dirty := false;
     d_total_blocks := 0; d_block_size := 0; d_disk_size := 0; d_blocks := ∅ |}.

Definition DISK_TOTAL_FILE_SIZE (blocks : Z) : Z :=
  sizeof_disk_header_t + blocks * DISK_BLOCK_SIZE.

(** [disk_init(filename, disk_size)] for a non-NULL file name.  [existing]
    is the host file of that name, if there is one; the host calls
    themselves ([open], [read], [write], [lseek]) are taken to succeed. *)
Definition disk_init (d : disk_state_t) (existing : option host_file)
    (disk_size : Z) : Z * disk_state_t :=
  if disk_size <=? 0 then (DISK_ERROR_INVALID_PARAM, d)
  else if d_is_initialized d then (DISK_ERROR_ALREADY_INIT, d)
  else if negb (disk_size mod DISK_BLOCK_SIZE =? 0) then (DISK_ERROR_INVALID_PARAM, d)
  else
    let total_blocks := u32 (disk_size / DISK_BLOCK_SIZE) in
    if total_blocks =? 0 then (DISK_ERROR_INVALID_PARAM, d)
    else
      let ready tb sz blocks :=
        {| d_is_initialized := true; d_is_read_only := false; d_is_dirty := false;
           d_total_blocks := tb; d_block_size := DISK_BLOCK_SIZE;
           d_disk_size := sz; d_blocks := blocks |} in
      match existing with
      | Some f =>
          if hf_st_size f <? sizeof_disk_header_t
          then (DISK_ERROR_FILE_READ, disk_state_zero)
          else
            let validation_result := validate_disk_header (hf_header f) in
            if negb (validation_result =? DISK_SUCCESS)
            then (validation_result, disk_state_zero)
            else
              let expected_size := DISK_TOTAL_FILE_SIZE (h_total_blocks (hf_header f)) in
              if hf_st_size f <? expected_size
              then (DISK_ERROR_CORRUPTED,
                    {| d_is_initialized := false; d_is_read_only := false;
                       d_is_dirty := false;
                       d_total_blocks := h_total_blocks (hf_header f);
                       d_block_size := 0;
                       d_disk_size := h_disk_size (hf_header f);
                       d_blocks := ∅ |})
              else (DISK_SUCCESS,
                    ready (h_total_blocks (hf_header f)) (h_disk_size (hf_header f))
                          (hf_blocks f))
      | None => (DISK_SUCCESS, ready total_blocks disk_size ∅)
      end.

(** [disk_check_block_bounds(int block_num)]. *)
Definition disk_check_block_bounds (d : disk_state_t) (block_num : Z) : bool :=
  (0 <=? block_num) && d_is_initialized d && (u32 block_num <? d_total_blocks d).

(** The block stored at [block_num] in the backing file, as a read of
    [DISK_BLOCK_SIZE] bytes at its offset returns it. *)
Definition stored_block (d : disk_state_t) (block_num : Z) : list byte :=
  resize (Z.to_nat DISK_BLOCK_SIZE) Byte.x00 (default zero_block (d_blocks d !! block_num)).

(** [disk_write_block(block_num, data)]; [data] is [None] for a NULL
    pointer and otherwise a buffer of one block. *)
Definition disk_write_block (d : disk_state_t) (block_num : Z)
    (data : option (list byte)) : Z * disk_state_t :=
  match data with
  | None => (DISK_ERROR_INVALID_PARAM, d)
  | Some data =>
      if negb (d_is_initialized d) then (DISK_ERROR_NOT_INIT, d)
      else if d_is_read_only d then (DISK_ERROR_IO, d)
      else if negb (disk_check_block_bounds d block_num) then (DISK_ERROR_BLOCK_RANGE, d)
      else (DISK_SUCCESS,
            {| d_is_initialized := d_is_initialized d;
               d_is_read_only := d_is_read_only d;
               d_is_dirty := true;
               d_total_blocks := d_total_blocks d;
               d_block_size := d_block_size d;
               d_disk_size := d_disk_size d;
               d_blocks := <[block_num := data]> (d_blocks d) |})
  end.

(** [disk_read_block(block_num, buffer)]: the result code and the contents
    of the buffer afterwards ([None] for a NULL buffer). *)
Definition disk_read_block (d : disk_state_t) (block_num : Z)
    (buffer : option (list byte)) : Z * option (list byte) :=
  match buffer with
  | None => (DISK_ERROR_INVALID_PARAM, None)
  | Some buf =>
      if negb (d_is_initialized d) then (DISK_ERROR_NOT_INIT, Some buf)
      else if negb (disk_check_block_bounds d block_num) then (DISK_ERROR_BLOCK_RANGE, Some buf)
      else (DISK_SUCCESS, Some (stored_block d block_num))
  end.

(** The two calls as the file system makes them: with the address of a local
    array, and with a [uint32_t] block number converted to [int]. *)
Definition read_block (d : disk_state_t) (block_num : Z) (buf : list byte)
    : Z * list byte :=
  let '(result, buf') := disk_read_block d (to_int block_num) (Some buf) in
  (result, default buf buf').

Definition write_block (d : disk_state_t) (block_num : Z) (data : list byte)
    : Z * disk_state_t :=
  disk_write_block d (to_int block_num) (Some data).

Definition disk_is_initialized (d : disk_state_t) : bool := d_is_initialized d.

(** The disk states the program can be in once [disk_init] has succeeded. *)
Inductive disk_reachable : disk_state_t -> Prop :=
| reach_init d0 existing disk_size d :
    disk_init d0 existing disk_size = (DISK_SUCCESS, d) ->
    disk_reachable d
| reach_write d block_num data result d' :
    disk_reachable d ->
    disk_write_block d block_num data = (result, d') ->
    disk_reachable d'.

(* ===================================================================== *)
(** ** fs.h: constants and structures *)
(* ===================================================================== *)

Definition FS_MAGIC_NUMBER : Z := 0x53465321.
Definition BLOCK_SIZE : Z := 1024.
Definition MAX_FILENAME_LEN : Z := 64.
Definition DIRECT_BLOCKS : Z := 12.
Definition MAX_OPEN_FILES : Z := 64.
Definition MAX_USERS : Z := 32.
Definition ROOT_INODE_NUM : Z := 1.

Definition FS_FILE_TYPE_REGULAR : Z := 1.
Definition FS_FILE_TYPE_DIRECTORY : Z := 2.
Definition FS_FILE_TYPE_SYMLINK : Z := 3.
Definition FS_FILE_TYPE_SPECIAL : Z := 4.

(** [fs_permission_t] (octal 0400, 0200, ... in the source). *)
Definition FS_PERM_OWNER_READ : Z := 256.
Definition FS_PERM_OWNER_WRITE : Z := 128.
Definition FS_PERM_OWNER_EXEC : Z := 64.
Definition FS_PERM_GROUP_READ : Z := 32.
Definition FS_PERM_GROUP_WRITE : Z := 16.
Definition FS_PERM_GROUP_EXEC : Z := 8.
Definition FS_PERM_OTHER_READ : Z := 4.
Definition FS_PERM_OTHER_WRITE : Z := 2.
Definition FS_PERM_OTHER_EXEC : Z := 1.

Definition FS_SUCCESS : Z := 0.
Definition FS_ERROR_INVALID_PARAM : Z := -1.
Definition FS_ERROR_NO_MEMORY : Z := -2.
Definition FS_ERROR_NO_SPACE : Z := -3.
Definition FS_ERROR_FILE_NOT_FOUND : Z := -4.
Definition FS_ERROR_FILE_EXISTS : Z := -5.
Definition FS_ERROR_NOT_DIRECTORY : Z := -6.
Definition FS_ERROR_IS_DIRECTORY : Z := -7.
Definition FS_ERROR_PERMISSION : Z := -8.
Definition FS_ERROR_FILE_OPEN : Z := -9.
Definition FS_ERROR_TOO_MANY_OPEN : Z := -10.
Definition FS_ERROR_IO : Z := -11.
Definition FS_ERROR_CORRUPTED : Z := -12.
Definition FS_ERROR_NOT_MOUNTED : Z := -13.
Definition FS_ERROR_ALREADY_MOUNTED : Z := -14.

(** *** [fs_superblock_t] *)

Record fs_superblock_t := mk_superblock {
  sb_magic_number : Z;
  sb_version : Z;
  sb_block_size : Z;
  sb_total_blocks : Z;
  sb_total_inodes : Z;
  sb_free_blocks : Z;
  sb_free_inodes : Z;
  sb_inode_table_start : Z;
  sb_inode_table_blocks : Z;
  sb_data_blocks_start : Z;
  sb_root_inode : Z;
  sb_mount_count : Z;
  sb_max_mount_count : Z;
  sb_created_time : Z;
  sb_last_mount_time : Z;
  sb_last_write_time : Z;
  sb_last_check_time : Z;
  sb_reserved : list Z;
  sb_checksum : Z
}.

(** Thirteen [uint32_t], four [time_t], [reserved[16]] and the checksum. *)
Definition superblock_layout : list nat :=
  repeat 4%nat 13 ++ repeat 8%nat 4 ++ repeat 4%nat 17.

Definition sizeof_fs_superblock_t : Z := 152.
(** [offsetof(fs_superblock_t, checksum)]. *)
Definition offsetof_checksum : Z := 148.

Definition superblock_values (sb : fs_superblock_t) : list Z :=
  [sb_magic_number sb; sb_version sb; sb_block_size sb; sb_total_blocks sb;
   sb_total_inodes sb; sb_free_blocks sb; sb_free_inodes sb;
   sb_inode_table_start sb; sb_inode_table_blocks sb; sb_data_blocks_start sb;
   sb_root_inode sb; sb_mount_count sb; sb_max_mount_count sb;
   sb_created_time sb; sb_last_mount_time sb; sb_last_write_time sb;
   sb_last_check_time sb]
  ++ sb_reserved sb ++ [sb_checksum sb].

(** The memory image of a superblock. *)
Definition encode_superblock (sb : fs_superblock_t) : list byte :=
  put_fields (combine superblock_layout (superblock_values sb)).

(** The superblock that a memory image holds. *)
Definition decode_superblock (p : list byte) : fs_superblock_t :=
  let v := get_fields superblock_layout p in
  {| sb_magic_number := word_at v 0; sb_version := word_at v 1;
     sb_block_size := word_at v 2; sb_total_blocks := word_at v 3;
     sb_total_inodes := word_at v 4; sb_free_blocks := word_at v 5;
     sb_free_inodes := word_at v 6; sb_inode_table_start := word_at v 7;
     sb_inode_table_blocks := word_at v 8; sb_data_blocks_start := word_at v 9;
     sb_root_inode := word_at v 10; sb_mount_count := word_at v 11;
     sb_max_mount_count := word_at v 12; sb_created_time := word_at v 13;
     sb_last_mount_time := word_at v 14; sb_last_write_time := word_at v 15;
     sb_last_check_time := word_at v 16;
     sb_reserved := firstn 16 (skipn 17 v);
     sb_checksum := word_at v 33 |}.

(** [memset(sb, 0, sizeof(fs_superblock_t))]. *)
Definition superblock_zero : fs_superblock_t :=
  {| sb_magic_number := 0; sb_version := 0; sb_block_size := 0;
     sb_total_blocks := 0; sb_total_inodes := 0; sb_free_blocks := 0;
     sb_free_inodes := 0; sb_inode_table_start := 0;
     sb_inode_table_blocks := 0; sb_data_blocks_start := 0;
     sb_root_inode := 0; sb_mount_count := 0; sb_max_mount_count := 0;
     sb_created_time := 0; sb_last_mount_time := 0; sb_last_write_time := 0;
     sb_last_check_time := 0; sb_reserved := repeat 0 16; sb_checksum := 0 |}.

Definition set_sb_checksum (sb : fs_superblock_t) (c : Z) : fs_superblock_t :=
  {| sb_magic_number := sb_magic_number sb; sb_version := sb_version sb;
     sb_block_size := sb_block_size sb; sb_total_blocks := sb_total_blocks sb;
     sb_total_inodes := sb_total_inodes sb; sb_free_blocks := sb_free_blocks sb;
     sb_free_inodes := sb_free_inodes sb;
     sb_inode_table_start := sb_inode_table_start sb;
     sb_inode_table_blocks := sb_inode_table_blocks sb;
     sb_data_blocks_start := sb_data_blocks_start sb;
     sb_root_inode := sb_root_inode sb; sb_mount_count := sb_mount_count sb;
     sb_max_mount_count := sb_max_mount_count sb;
     sb_created_time := sb_created_time sb;
     sb_last_mount_time := sb_last_mount_time sb;
     sb_last_write_time := sb_last_write_time sb;
     sb_last_check_time := sb_last_check_time sb;
     sb_reserved := sb_reserved sb; sb_checksum := c |}.

Definition set_sb_free (sb : fs_superblock_t) (free_inodes free_blocks : Z)
    : fs_superblock_t :=
  {| sb_magic_number := sb_magic_number sb; sb_version := sb_version sb;
     sb_block_size := sb_block_size sb; sb_total_blocks := sb_total_blocks sb;
     sb_total_inodes := sb_total_inodes sb; sb_free_blocks := free_blocks;
     sb_free_inodes := free_inodes;
     sb_inode_table_start := sb_inode_table_start sb;
     sb_inode_table_blocks := sb_inode_table_blocks sb;
     sb_data_blocks_start := sb_data_blocks_start sb;
     sb_root_inode := sb_root_inode sb; sb_mount_count := sb_mount_count sb;
     sb_max_mount_count := sb_max_mount_count sb;
     sb_created_time := sb_created_time sb;
     sb_last_mount_time := sb_last_mount_time sb;
     sb_last_write_time := sb_last_write_time sb;
     sb_last_check_time := sb_last_check_time sb;
     sb_reserved := sb_reserved sb; sb_checksum := sb_checksum sb |}.

(** *** [fs_inode_t] *)

Record fs_inode_t := mk_inode {
  i_inode_number : Z;
  i_file_type : Z;
  i_permissions : Z;
  i_owner_uid : Z;
  i_owner_gid : Z;
  i_link_count : Z;
  i_file_size : Z;
  i_block_count : Z;
  i_access_time : Z;
  i_modify_time : Z;
  i_change_time : Z;
  i_create_time : Z;
  i_direct_blocks : list Z;
  i_indirect_block : Z;
  i_double_indirect_block : Z;
  i_triple_indirect_block : Z;
  i_flags : Z;
  i_generation : Z;
  i_reserved : list Z
}.

Definition inode_layout : list nat :=
  [4; 2; 2; 4; 4; 4; 8; 4; 8; 8; 8; 8]%nat
  ++ repeat 4%nat 12 ++ repeat 4%nat 5 ++ repeat 4%nat 4.

(** [sizeof(fs_inode_t)]: the sum of the layout. *)
Definition sizeof_fs_inode_t : Z := 148.

Definition inode_values (i : fs_inode_t) : list Z :=
  [i_inode_number i; i_file_type i; i_permissions i; i_owner_uid i;
   i_owner_gid i; i_link_count i; i_file_size i; i_block_count i;
   i_access_time i; i_modify_time i; i_change_time i; i_create_time i]
  ++ i_direct_blocks i
  ++ [i_indirect_block i; i_double_indirect_block i;
      i_triple_indirect_block i; i_flags i; i_generation i]
  ++ i_reserved i.

Definition encode_inode (i : fs_inode_t) : list byte :=
  put_fields (combine inode_layout (inode_values i)).

Definition decode_inode (p : list byte) : fs_inode_t :=
  let v := get_fields inode_layout p in
  {| i_inode_number := word_at v 0; i_file_type := word_at v 1;
     i_permissions := word_at v 2; i_owner_uid := word_at v 3;
     i_owner_gid := word_at v 4; i_link_count := word_at v 5;
     i_file_size := word_at v 6; i_block_count := word_at v 7;
     i_access_time := word_at v 8; i_modify_time := word_at v 9;
     i_change_time := word_at v 10; i_create_time := word_at v 11;
     i_direct_blocks := firstn 12 (skipn 12 v);
     i_indirect_block := word_at v 24;
     i_double_indirect_block := word_at v 25;
     i_triple_indirect_block := word_at v 26;
     i_flags := word_at v 27; i_generation := word_at v 28;
     i_reserved := firstn 4 (skipn 29 v) |}.

(** [memset(&inode, 0, sizeof(fs_inode_t))]. *)
Definition inode_zero : fs_inode_t :=
  {| i_inode_number := 0; i_file_type := 0; i_permissions := 0;
     i_owner_uid := 0; i_owner_gid := 0; i_link_count := 0; i_file_size := 0;
     i_block_count := 0; i_access_time := 0; i_modify_time := 0;
     i_change_time := 0; i_create_time := 0;
     i_direct_blocks := repeat 0 12; i_indirect_block := 0;
     i_double_indirect_block := 0; i_triple_indirect_block := 0;
     i_flags := 0; i_generation := 0; i_reserved := repeat 0 4 |}.

(** The assignments to an inode that the operations make. *)
Definition set_i_direct_blocks (i : fs_inode_t) (direct_blocks : list Z)
    (block_count : Z) : fs_inode_t :=
  {| i_inode_number := i_inode_number i; i_file_type := i_file_type i;
     i_permissions := i_permissions i; i_owner_uid := i_owner_uid i;
     i_owner_gid := i_owner_gid i; i_link_count := i_link_count i;
     i_file_size := i_file_size i; i_block_count := block_count;
     i_access_time := i_access_time i; i_modify_time := i_modify_time i;
     i_change_time := i_change_time i; i_create_time := i_create_time i;
     i_direct_blocks := direct_blocks;
     i_indirect_block := i_indirect_block i;
     i_double_indirect_block := i_double_indirect_block i;
     i_triple_indirect_block := i_triple_indirect_block i;
     i_flags := i_flags i; i_generation := i_generation i;
     i_reserved := i_reserved i |}.

Definition set_i_size (i : fs_inode_t) (file_size block_count : Z) : fs_inode_t :=
  {| i_inode_number := i_inode_number i; i_file_type := i_file_type i;
     i_permissions := i_permissions i; i_owner_uid := i_owner_uid i;
     i_owner_gid := i_owner_gid i; i_link_count := i_link_count i;
     i_file_size := file_size; i_block_count := block_count;
     i_access_time := i_access_time i; i_modify_time := i_modify_time i;
     i_change_time := i_change_time i; i_create_time := i_create_time i;
     i_direct_blocks := i_direct_blocks i;
     i_indirect_block := i_indirect_block i;
     i_double_indirect_block := i_double_indirect_block i;
     i_triple_indirect_block := i_triple_indirect_block i;
     i_flags := i_flags i; i_generation := i_generation i;
     i_reserved := i_reserved i |}.

Definition set_i_times (i : fs_inode_t) (access_time modify_time change_time : Z)
    : fs_inode_t :=
  {| i_inode_number := i_inode_number i; i_file_type := i_file_type i;
     i_permissions := i_permissions i; i_owner_uid := i_owner_uid i;
     i_owner_gid := i_owner_gid i; i_link_count := i_link_count i;
     i_file_size := i_file_size i; i_block_count := i_block_count i;
     i_access_time := access_time; i_modify_time := modify_time;
     i_change_time := change_time; i_create_time := i_create_time i;
     i_direct_blocks := i_direct_blocks i;
     i_indirect_block := i_indirect_block i;
     i_double_indirect_block := i_double_indirect_block i;
     i_triple_indirect_block := i_triple_indirect_block i;
     i_flags := i_flags i; i_generation := i_generation i;
     i_reserved := i_reserved i |}.

Definition set_i_permissions (i : fs_inode_t) (permissions : Z) : fs_inode_t :=
  {| i_inode_number := i_inode_number i; i_file_type := i_file_type i;
     i_permissions := permissions; i_owner_uid := i_owner_uid i;
     i_owner_gid := i_owner_gid i; i_link_count := i_link_count i;
     i_file_size := i_file_size i; i_block_count := i_block_count i;
     i_access_time := i_access_time i; i_modify_time := i_modify_time i;
     i_change_time := i_change_time i; i_create_time := i_create_time i;
     i_direct_blocks := i_direct_blocks i;
     i_indirect_block := i_indirect_block i;
     i_double_indirect_block := i_double_indirect_block i;
     i_triple_indirect_block := i_triple_indirect_block i;
     i_flags := i_flags i; i_generation := i_generation i;
     i_reserved := i_reserved i |}.

(** *** [fs_dir_entry_t] *)

Record fs_dir_entry_t := mk_dir_entry {
  de_inode_number : Z;
  de_entry_length : Z;
  de_filename_length : Z;
  de_file_type : Z;
  de_filename : list byte;
  de_is_valid : Z;
  de_padding : list byte
}.

Definition sizeof_fs_dir_entry_t : Z := 4 + 2 + 1 + 1 + 64 + 1 + 3.

Definition encode_dir_entry (e : fs_dir_entry_t) : list byte :=
  put_fields [(4%nat, de_inode_number e); (2%nat, de_entry_length e);
              (1%nat, de_filename_length e); (1%nat, de_file_type e)]
  ++ de_filename e ++ put_fields [(1%nat, de_is_valid e)] ++ de_padding e.

Definition decode_dir_entry (p : list byte) : fs_dir_entry_t :=
  {| de_inode_number := le_combine (slice p 0 4);
     de_entry_length := le_combine (slice p 4 2);
     de_filename_length := le_combine (slice p 6 1);
     de_file_type := le_combine (slice p 7 1);
     de_filename := slice p 8 64;
     de_is_valid := le_combine (slice p 72 1);
     de_padding := slice p 73 3 |}.

(** [entries[i]] for [entries = (fs_dir_entry_t * )block_data]. *)
Definition entry_at (block_data : list byte) (i : Z) : fs_dir_entry_t :=
  decode_dir_entry (skipn (Z.to_nat (i * sizeof_fs_dir_entry_t)) block_data).

(** The string that [strcmp] reads at [entries[i].filename]. *)
Definition entry_name (block_data : list byte) (i : Z) : list byte :=
  c_str (skipn (Z.to_nat (i * sizeof_fs_dir_entry_t + 8)) block_data).

(** [DISK_BLOCK_SIZE / sizeof(fs_dir_entry_t)]. *)
Definition max_entries : Z := DISK_BLOCK_SIZE / sizeof_fs_dir_entry_t.

(** *** [fs_bitmap_t] *)

Record fs_bitmap_t := mk_bitmap {
  bm_bitmap : option (list byte);      (* [None] is the NULL pointer *)
  bm_total_bits : Z;
  bm_free_count : Z;
  bm_last_allocated : Z
}.

(** [bitmap[bit_num / 8] & (1 << (bit_num % 8))]. *)
Definition bit_is_set (bytes : list byte) (bit_num : Z) : bool :=
  negb (Z.land (byte.unsigned (byte_at bytes (bit_num / 8)))
               (Z.shiftl 1 (bit_num mod 8)) =? 0).

(** [bitmap[bit_num / 8] |= (1 << (bit_num % 8))]. *)
Definition set_bit (bytes : list byte) (bit_num : Z) : list byte :=
  <[Z.to_nat (bit_num / 8) :=
      byte.of_Z (Z.lor (byte.unsigned (byte_at bytes (bit_num / 8)))
                       (Z.shiftl 1 (bit_num mod 8)))]> bytes.

(** [bitmap[bit_num / 8] &= ~(1 << (bit_num % 8))]. *)
Definition clear_bit (bytes : list byte) (bit_num : Z) : list byte :=
  <[Z.to_nat (bit_num / 8) :=
      byte.of_Z (Z.land (byte.unsigned (byte_at bytes (bit_num / 8)))
                        (Z.lnot (Z.shiftl 1 (bit_num mod 8))))]> bytes.

(** *** [fs_file_handle_t], [fs_user_t], [fs_state_t] *)

Record fs_file_handle_t := mk_handle {
  fh_inode_number : Z;
  fh_flags : Z;
  fh_file_position : Z;
  fh_reference_count : Z;
  fh_open_time : Z;
  fh_owner_uid : Z
}.

(** [memset(&handle, 0, sizeof(fs_file_handle_t))]. *)
Definition handle_zero : fs_file_handle_t :=
  {| fh_inode_number := 0; fh_flags := 0; fh_file_position := 0;
     fh_reference_count := 0; fh_open_time := 0; fh_owner_uid := 0 |}.

Definition set_fh_file_position (h : fs_file_handle_t) (pos : Z) : fs_file_handle_t :=
  {| fh_inode_number := fh_inode_number h; fh_flags := fh_flags h;
     fh_file_position := pos; fh_reference_count := fh_reference_count h;
     fh_open_time := fh_open_time h; fh_owner_uid := fh_owner_uid h |}.

(** [fs_user_t] without the password hash and the creation time. *)
Record fs_user_t := mk_user {
  usr_uid : Z;
  usr_gid : Z;
  usr_username : list byte;
  usr_is_active : Z
}.

(** The fields of [fs_state_t] that the modelled operations use. *)
Record fs_state_t := mk_fs_state {
  superblock : fs_superblock_t;
  inode_bitmap : fs_bitmap_t;
  block_bitmap : fs_bitmap_t;
  open_files : list fs_file_handle_t;
  users : list fs_user_t;
  current_user_uid : Z
}.

(** The two globals [g_disk_state] and [g_fs_state]. *)
Record world := mk_world {
  disk : disk_state_t;
  fs : fs_state_t
}.

Definition set_disk (w : world) (d : disk_state_t) : world :=
  {| disk := d; fs := fs w |}.

Definition set_superblock (w : world) (sb : fs_superblock_t) : world :=
  {| disk := disk w;
     fs := {| superblock := sb; inode_bitmap := inode_bitmap (fs w);
              block_bitmap := block_bitmap (fs w); open_files := open_files (fs w);
              users := users (fs w); current_user_uid := current_user_uid (fs w) |} |}.

Definition set_inode_bitmap (w : world) (bm : fs_bitmap_t) : world :=
  {| disk := disk w;
     fs := {| superblock := superblock (fs w); inode_bitmap := bm;
              block_bitmap := block_bitmap (fs w); open_files := open_files (fs w);
              users := users (fs w); current_user_uid := current_user_uid (fs w) |} |}.

Definition set_block_bitmap (w : world) (bm : fs_bitmap_t) : world :=
  {| disk := disk w;
     fs := {| superblock := superblock (fs w); inode_bitmap := inode_bitmap (fs w);
              block_bitmap := bm; open_files := open_files (fs w);
              users := users (fs w); current_user_uid := current_user_uid (fs w) |} |}.

Definition set_open_files (w : world) (tbl : list fs_file_handle_t) : world :=
  {| disk := disk w;
     fs := {| superblock := superblock (fs w); inode_bitmap := inode_bitmap (fs w);
              block_bitmap := block_bitmap (fs w); open_files := tbl;
              users := users (fs w); current_user_uid := current_user_uid (fs w) |} |}.

(** [g_fs_state.open_files[fd]]. *)
Definition handle_at (w : world) (fd : Z) : fs_file_handle_t :=
  nth (Z.to_nat fd) (open_files (fs w)) handle_zero.

(* ===================================================================== *)
(** ** fs_ops.h / fs_ops.c: superblock, bitmaps, inodes *)
(* ===================================================================== *)

Definition FS_SUPERBLOCK_BLOCK : Z := 0.
Definition FS_INODE_BITMAP_BLOCK : Z := 1.
Definition FS_DATA_BITMAP_BLOCK : Z := 2.
Definition FS_INODE_TABLE_START : Z := 8.
Definition FS_DEFAULT_MAX_INODES : Z := 1024.
Definition FS_BITMAP_BLOCKS : Z := 4.
Definition FS_ROOT_PERMISSIONS : Z := 493.     (* 0755 *)
Definition FS_ROOT_UID : Z := 0.
Definition FS_ROOT_GID : Z := 0.

Definition FS_OPEN_READ : Z := 1.
Definition FS_OPEN_WRITE : Z := 2.

(** One round of the inner loop of [fs_ops_calculate_checksum]. *)
Definition crc_shift (checksum : Z) : Z :=
  if negb (Z.land checksum 1 =? 0)
  then Z.lxor (Z.shiftr checksum 1) 0xEDB88320
  else Z.shiftr checksum 1.

(** [fs_ops_calculate_checksum(data, size)] for non-NULL [data] of [size]
    bytes. *)
Definition fs_ops_calculate_checksum (data : list byte) : Z :=
  match data with
  | [] => 0
  | _ =>
      u32 (Z.lnot
             (fold_left
                (fun checksum b =>
                   Nat.iter 8 crc_shift (Z.lxor checksum (byte.unsigned b)))
                data 0xFFFFFFFF))
  end.

(** [fs_ops_calculate_checksum(sb, offsetof(fs_superblock_t, checksum))]. *)
Definition superblock_checksum (sb : fs_superblock_t) : Z :=
  fs_ops_calculate_checksum
    (firstn (Z.to_nat offsetof_checksum) (encode_superblock sb)).

Definition fs_ops_init_superblock (total_blocks now : Z) : fs_superblock_t :=
  let total_inodes := FS_DEFAULT_MAX_INODES in
  let inode_table_start := FS_INODE_TABLE_START in
  let inode_table_blocks :=
    u32 ((total_inodes * sizeof_fs_inode_t + BLOCK_SIZE - 1) / BLOCK_SIZE) in
  let data_blocks_start := u32 (inode_table_start + inode_table_blocks) in
  let sb :=
    {| sb_magic_number := FS_MAGIC_NUMBER; sb_version := 1;
       sb_block_size := BLOCK_SIZE; sb_total_blocks := total_blocks;
       sb_total_inodes := total_inodes;
       sb_free_blocks := u32 (total_blocks - data_blocks_start);
       sb_free_inodes := u32 (total_inodes - 1);
       sb_inode_table_start := inode_table_start;
       sb_inode_table_blocks := inode_table_blocks;
       sb_data_blocks_start := data_blocks_start;
       sb_root_inode := ROOT_INODE_NUM; sb_mount_count := 0;
       sb_max_mount_count := 100; sb_created_time := now;
       sb_last_mount_time := now; sb_last_write_time := now;
       sb_last_check_time := now; sb_reserved := repeat 0 16;
       sb_checksum := 0 |} in
  set_sb_checksum sb (superblock_checksum sb).

Definition fs_ops_write_superblock (d : disk_state_t) (sb : fs_superblock_t)
    : Z * disk_state_t :=
  let buffer := memcpy zero_block 0 (encode_superblock sb) in
  let '(result, d') := write_block d FS_SUPERBLOCK_BLOCK buffer in
  if negb (result =? DISK_SUCCESS) then (FS_ERROR_IO, d') else (FS_SUCCESS, d').

(** [fs_ops_read_superblock(sb)]: the result and the contents of [*sb]
    afterwards. *)
Definition fs_ops_read_superblock (d : disk_state_t) (sb : fs_superblock_t)
    : Z * fs_superblock_t :=
  let '(result, buffer) := read_block d FS_SUPERBLOCK_BLOCK zero_block in
  if negb (result =? DISK_SUCCESS) then (FS_ERROR_IO, sb)
  else
    let sb := decode_superblock buffer in
    if negb (sb_magic_number sb =? FS_MAGIC_NUMBER) then (FS_ERROR_CORRUPTED, sb)
    else
      let stored_checksum := sb_checksum sb in
      let calculated_checksum := superblock_checksum (set_sb_checksum sb 0) in
      if negb (stored_checksum =? calculated_checksum) then (FS_ERROR_CORRUPTED, sb)
      else (FS_SUCCESS, sb).

(** [fs_ops_init_bitmap]; [calloc] is taken to succeed. *)
Definition fs_ops_init_bitmap (bitmap : fs_bitmap_t) (total_bits : Z)
    : Z * fs_bitmap_t :=
  if total_bits =? 0 then (FS_ERROR_INVALID_PARAM, bitmap)
  else
    let bitmap_bytes := u32 (total_bits + 7) / 8 in
    (FS_SUCCESS,
     {| bm_bitmap := Some (zeros (Z.to_nat bitmap_bytes));
        bm_total_bits := total_bits; bm_free_count := total_bits;
        bm_last_allocated := 0 |}).

Definition set_bitmap_bit (bitmap : fs_bitmap_t) (bit_num : Z) : fs_bitmap_t :=
  match bm_bitmap bitmap with
  | None => bitmap
  | Some bytes =>
      if bm_total_bits bitmap <=? bit_num then bitmap
      else if negb (bit_is_set bytes bit_num)
      then {| bm_bitmap := Some (set_bit bytes bit_num);
              bm_total_bits := bm_total_bits bitmap;
              bm_free_count := u32 (bm_free_count bitmap - 1);
              bm_last_allocated := bm_last_allocated bitmap |}
      else bitmap
  end.

(** The loop of [fs_ops_write_bitmap]; [n] counts the blocks that remain
    ([block < block_count]). *)
Fixpoint write_bitmap_loop (n : nat) (block : Z) (d : disk_state_t)
    (bytes : list byte) (bitmap_bytes bytes_written start_block : Z)
    : Z * disk_state_t :=
  match n with
  | O => (FS_SUCCESS, d)
  | S n' =>
      if bytes_written <? bitmap_bytes then
        let bytes_to_copy := Z.min (u32 (bitmap_bytes - bytes_written)) DISK_BLOCK_SIZE in
        let buffer :=
          memcpy zero_block 0
                 (slice bytes (Z.to_nat bytes_written) (Z.to_nat bytes_to_copy)) in
        let '(result, d') := write_block d (u32 (start_block + block)) buffer in
        if negb (result =? DISK_SUCCESS) then (FS_ERROR_IO, d')
        else write_bitmap_loop n' (block + 1) d' bytes bitmap_bytes
                               (u32 (bytes_written + bytes_to_copy)) start_block
      else (FS_SUCCESS, d)
  end.

Definition fs_ops_write_bitmap (d : disk_state_t) (bitmap : fs_bitmap_t)
    (start_block block_count : Z) : Z * disk_state_t :=
  match bm_bitmap bitmap with
  | None => (FS_ERROR_INVALID_PARAM, d)
  | Some bytes =>
      let bitmap_bytes := u32 (bm_total_bits bitmap + 7) / 8 in
      let bytes_per_block := DISK_BLOCK_SIZE in
      let total_bytes_needed :=
        u32 (u32 (bitmap_bytes + bytes_per_block - 1) / bytes_per_block * bytes_per_block) in
      if u32 (block_count * bytes_per_block) <? total_bytes_needed
      then (FS_ERROR_NO_SPACE, d)
      else write_bitmap_loop (Z.to_nat block_count) 0 d bytes bitmap_bytes 0 start_block
  end.

(** The copying loop of [fs_ops_read_bitmap]. *)
Fixpoint read_bitmap_loop (n : nat) (block : Z) (d : disk_state_t)
    (bytes : list byte) (bitmap_bytes bytes_read start_block : Z)
    : Z * list byte :=
  match n with
  | O => (FS_SUCCESS, bytes)
  | S n' =>
      if bytes_read <? bitmap_bytes then
        let '(result, buffer) := read_block d (u32 (start_block + block)) zero_block in
        if negb (result =? DISK_SUCCESS) then (FS_ERROR_IO, bytes)
        else
          let bytes_to_copy := Z.min (u32 (bitmap_bytes - bytes_read)) DISK_BLOCK_SIZE in
          read_bitmap_loop n' (block + 1) d
            (memcpy bytes (Z.to_nat bytes_read) (firstn (Z.to_nat bytes_to_copy) buffer))
            bitmap_bytes (u32 (bytes_read + bytes_to_copy)) start_block
      else (FS_SUCCESS, bytes)
  end.

(** The loop that recomputes the free count: bits [i .. i + n - 1]. *)
Fixpoint count_free_bits (n : nat) (i : Z) (bytes : list byte) (free_count : Z) : Z :=
  match n with
  | O => free_count
  | S n' =>
      count_free_bits n' (i + 1) bytes
        (if negb (bit_is_set bytes i) then u32 (free_count + 1) else free_count)
  end.

Definition fs_ops_read_bitmap (d : disk_state_t) (bitmap : fs_bitmap_t)
    (start_block block_count : Z) : option (Z * fs_bitmap_t) :=
  let bitmap_bytes := u32 (bm_total_bits bitmap + 7) / 8 in
  match bm_bitmap bitmap with
  | Some bytes =>
      let '(result, bytes') :=
        read_bitmap_loop (Z.to_nat block_count) 0 d bytes bitmap_bytes 0 start_block in
      if negb (result =? FS_SUCCESS)
      then Some (result,
                 {| bm_bitmap := Some bytes'; bm_total_bits := bm_total_bits bitmap;
                    bm_free_count := bm_free_count bitmap;
                    bm_last_allocated := bm_last_allocated bitmap |})
      else Some (FS_SUCCESS,
                 {| bm_bitmap := Some bytes'; bm_total_bits := bm_total_bits bitmap;
                    bm_free_count :=
                      count_free_bits (Z.to_nat (bm_total_bits bitmap)) 0 bytes' 0;
                    bm_last_allocated := bm_last_allocated bitmap |})
  | None =>
      (* the array is NULL: the first copy or the first bit test faults *)
      if (0 <? block_count) && (0 <? bitmap_bytes) then
        if negb (fst (read_block d (u32 start_block) zero_block) =? DISK_SUCCESS)
        then Some (FS_ERROR_IO, bitmap)
        else None
      else if bm_total_bits bitmap =? 0 then
        Some (FS_SUCCESS,
              {| bm_bitmap := None; bm_total_bits := 0; bm_free_count := 0;
                 bm_last_allocated := bm_last_allocated bitmap |})
      else None
  end.

(** [DISK_BLOCK_SIZE / sizeof(fs_inode_t)]. *)
Definition inodes_per_block : Z := DISK_BLOCK_SIZE / sizeof_fs_inode_t.

(** [fs_ops_read_inode(inode_number, inode)]: the result and the inode read
    (on failure [*inode] is not written; the model returns [inode_zero]
    there, which no caller uses). *)
Definition fs_ops_read_inode (w : world) (inode_number : Z) : Z * fs_inode_t :=
  if (inode_number =? 0) || (sb_total_inodes (superblock (fs w)) <=? inode_number)
  then (FS_ERROR_INVALID_PARAM, inode_zero)
  else
    let inode_block_num :=
      u32 (sb_inode_table_start (superblock (fs w)) + inode_number / inodes_per_block) in
    let inode_offset := u32 (inode_number mod inodes_per_block * sizeof_fs_inode_t) in
    let '(result, inode_block) := read_block (disk w) inode_block_num zero_block in
    if negb (result =? DISK_SUCCESS) then (FS_ERROR_IO, inode_zero)
    else (FS_SUCCESS, decode_inode (skipn (Z.to_nat inode_offset) inode_block)).

Definition fs_ops_write_inode (w : world) (inode_number : Z) (inode : fs_inode_t)
    : Z * world :=
  if (inode_number =? 0) || (sb_total_inodes (superblock (fs w)) <=? inode_number)
  then (FS_ERROR_INVALID_PARAM, w)
  else
    let inode_block_num :=
      u32 (sb_inode_table_start (superblock (fs w)) + inode_number / inodes_per_block) in
    let inode_offset := u32 (inode_number mod inodes_per_block * sizeof_fs_inode_t) in
    let '(result, inode_block) := read_block (disk w) inode_block_num zero_block in
    if negb (result =? DISK_SUCCESS) then (FS_ERROR_IO, w)
    else
      let inode_block := memcpy inode_block (Z.to_nat inode_offset) (encode_inode inode) in
      let '(result, d') := write_block (disk w) inode_block_num inode_block in
      if negb (result =? DISK_SUCCESS) then (FS_ERROR_IO, set_disk w d')
      else (FS_SUCCESS, set_disk w d').

(* ===================================================================== *)
(** ** user_manager.h / user_manager.c and the permission helper of fs.h *)
(* ===================================================================== *)

Definition USER_MANAGER_ROOT_UID : Z := 0.
Definition USER_MANAGER_ROOT_GID : Z := 0.
Definition USER_MANAGER_DEFAULT_UID : Z := 1000.
Definition USER_MANAGER_DEFAULT_GID : Z := 1000.
Definition USER_MANAGER_ANONYMOUS_UID : Z := 65534.

Definition USER_SUCCESS : Z := 0.
Definition USER_ERROR_INVALID_PARAM : Z := -1.
Definition USER_ERROR_USER_NOT_FOUND : Z := -3.
Definition USER_ERROR_PERMISSION : Z := -6.

Definition user_manager_is_root (uid : Z) : bool := uid =? USER_MANAGER_ROOT_UID.

(** The three groups of [case] labels in the switches of
    [user_manager_check_permission_detailed]. *)
Definition is_read_perm (p : Z) : bool :=
  (p =? FS_PERM_OWNER_READ) || (p =? FS_PERM_GROUP_READ) || (p =? FS_PERM_OTHER_READ).
Definition is_write_perm (p : Z) : bool :=
  (p =? FS_PERM_OWNER_WRITE) || (p =? FS_PERM_GROUP_WRITE) || (p =? FS_PERM_OTHER_WRITE).
Definition is_exec_perm (p : Z) : bool :=
  (p =? FS_PERM_OWNER_EXEC) || (p =? FS_PERM_GROUP_EXEC) || (p =? FS_PERM_OTHER_EXEC).

(** One switch: the read, write or execute bit of a class, or the request
    itself in the default case. *)
Definition switch_perm (required_perm r w x : Z) : Z :=
  if is_read_perm required_perm then r
  else if is_write_perm required_perm then w
  else if is_exec_perm required_perm then x
  else required_perm.

(** [user_manager_check_permission_detailed]; the C truth value is a
    [bool]. *)
Definition user_manager_check_permission_detailed
    (user_uid user_gid file_uid file_gid file_permissions required_perm : Z) : bool :=
  if user_manager_is_root user_uid then true
  else
    let actual_perm :=
      if user_uid =? file_uid then
        switch_perm required_perm FS_PERM_OWNER_READ FS_PERM_OWNER_WRITE FS_PERM_OWNER_EXEC
      else if user_gid =? file_gid then
        switch_perm required_perm FS_PERM_GROUP_READ FS_PERM_GROUP_WRITE FS_PERM_GROUP_EXEC
      else
        switch_perm required_perm FS_PERM_OTHER_READ FS_PERM_OTHER_WRITE FS_PERM_OTHER_EXEC in
    negb (Z.land file_permissions actual_perm =? 0).

(** [fs_check_permission_internal] of fs.h. *)
Definition fs_check_permission_internal
    (file_perms user_uid user_gid file_uid file_gid required : Z) : bool :=
  if user_uid =? 0 then true
  else if user_uid =? file_uid then negb (Z.land file_perms required =? 0)
  else if user_gid =? file_gid then negb (Z.land file_perms (Z.shiftr required 3) =? 0)
  else negb (Z.land file_perms (Z.shiftr required 6) =? 0).

(** [find_user_by_uid]: the first active slot with that uid, from slot [i]
    on; [-1] if there is none. *)
Fixpoint find_user_from (us : list fs_user_t) (i uid : Z) : Z :=
  match us with
  | [] => -1
  | u :: us' =>
      if negb (usr_is_active u =? 0) && (usr_uid u =? uid) then i
      else find_user_from us' (i + 1) uid
  end.

Definition find_user_by_uid (w : world) (uid : Z) : Z :=
  find_user_from (firstn (Z.to_nat MAX_USERS) (users (fs w))) 0 uid.

(** [user_manager_get_user_by_uid]: [None] stands for
    [USER_ERROR_USER_NOT_FOUND]. *)
Definition user_manager_get_user_by_uid (w : world) (uid : Z) : option fs_user_t :=
  let slot := find_user_by_uid w uid in
  if slot <? 0 then None
  else nth_error (users (fs w)) (Z.to_nat slot).

Definition user_manager_get_current_user (w : world) : option fs_user_t :=
  user_manager_get_user_by_uid w (current_user_uid (fs w)).

(** [user_manager_check_permission(inode, required_perm)]. *)
Definition user_manager_check_permission (w : world) (inode : fs_inode_t)
    (required_perm : Z) : bool :=
  match user_manager_get_current_user w with
  | None => false
  | Some current_user =>
      user_manager_check_permission_detailed
        (usr_uid current_user) (usr_gid current_user)
        (i_owner_uid inode) (i_owner_gid inode) (i_permissions inode) required_perm
  end.

Definition user_manager_get_current_uid (w : world) : Z := current_user_uid (fs w).

Definition user_manager_get_current_gid (w : world) : Z :=
  match user_manager_get_current_user w with
  | None => USER_MANAGER_ANONYMOUS_UID
  | Some current_user => usr_gid current_user
  end.

(** [user_manager_chmod(inode_number, new_permissions)]. *)
Definition user_manager_chmod (w : world) (now inode_number new_permissions : Z)
    : Z * world :=
  let '(result, inode) := fs_ops_read_inode w inode_number in
  if negb (result =? FS_SUCCESS) then (USER_ERROR_INVALID_PARAM, w)
  else
    let current_uid := current_user_uid (fs w) in
    if negb (user_manager_is_root current_uid) && negb (current_uid =? i_owner_uid inode)
    then (USER_ERROR_PERMISSION, w)
    else
      let inode := set_i_permissions inode (u16 new_permissions) in
      let inode := set_i_times inode (i_access_time inode) (i_modify_time inode) now in
      let '(result, w') := fs_ops_write_inode w inode_number inode in
      if negb (result =? FS_SUCCESS) then (USER_ERROR_INVALID_PARAM, w')
      else (USER_SUCCESS, w').

(* ===================================================================== *)
(** ** fs_ops.c: formatting *)
(* ===================================================================== *)

Definition dot_entry (name : list byte) : fs_dir_entry_t :=
  {| de_inode_number := ROOT_INODE_NUM;
     de_entry_length := sizeof_fs_dir_entry_t;
     de_filename_length := Z.of_nat (length name);
     de_file_type := FS_FILE_TYPE_DIRECTORY;
     de_filename := memcpy (zeros 64) 0 name;
     de_is_valid := 1;
     de_padding := zeros 3 |}.

Definition fs_ops_create_root_directory (w : world) (now : Z) : Z * world :=
  let sb := superblock (fs w) in
  let root_inode :=
    {| i_inode_number := ROOT_INODE_NUM; i_file_type := FS_FILE_TYPE_DIRECTORY;
       i_permissions := FS_ROOT_PERMISSIONS; i_owner_uid := FS_ROOT_UID;
       i_owner_gid := FS_ROOT_GID; i_link_count := 2;
       i_file_size := 2 * sizeof_fs_dir_entry_t; i_block_count := 1;
       i_access_time := now; i_modify_time := now; i_change_time := now;
       i_create_time := now;
       i_direct_blocks := <[0%nat := sb_data_blocks_start sb]> (repeat 0 12);
       i_indirect_block := 0; i_double_indirect_block := 0;
       i_triple_indirect_block := 0; i_flags := 0; i_generation := 0;
       i_reserved := repeat 0 4 |} in
  let data_block := sb_data_blocks_start sb in
  let dir_block :=
    memcpy (memcpy zero_block 0 (encode_dir_entry (dot_entry [Byte.x2e])))
           (Z.to_nat sizeof_fs_dir_entry_t)
           (encode_dir_entry (dot_entry [Byte.x2e; Byte.x2e])) in
  let '(result, d1) := write_block (disk w) data_block dir_block in
  if negb (result =? DISK_SUCCESS) then (FS_ERROR_IO, set_disk w d1)
  else
    let inode_block_num :=
      u32 (sb_inode_table_start sb + ROOT_INODE_NUM / inodes_per_block) in
    let inode_offset := u32 (ROOT_INODE_NUM mod inodes_per_block * sizeof_fs_inode_t) in
    (* a failed read leaves the zeroed buffer *)
    let inode_block := snd (read_block d1 inode_block_num zero_block) in
    let inode_block := memcpy inode_block (Z.to_nat inode_offset) (encode_inode root_inode) in
    let '(result, d2) := write_block d1 inode_block_num inode_block in
    if negb (result =? DISK_SUCCESS) then (FS_ERROR_IO, set_disk w d2)
    else
      let w := set_disk w d2 in
      let w := set_inode_bitmap w (set_bitmap_bit (inode_bitmap (fs w)) ROOT_INODE_NUM) in
      let w := set_block_bitmap w
                 (set_bitmap_bit (block_bitmap (fs w))
                                 (u32 (data_block - sb_data_blocks_start sb))) in
      (FS_SUCCESS, w).

(** [free(bitmap->bitmap); bitmap->bitmap = NULL]. *)
Definition release_bitmap (bm : fs_bitmap_t) : fs_bitmap_t :=
  {| bm_bitmap := None; bm_total_bits := bm_total_bits bm;
     bm_free_count := bm_free_count bm; bm_last_allocated := bm_last_allocated bm |}.

(** The [cleanup] label of [format_disk]. *)
Definition format_cleanup (w : world) : world :=
  let w := set_inode_bitmap w (release_bitmap (inode_bitmap (fs w))) in
  set_block_bitmap w (release_bitmap (block_bitmap (fs w))).

(** [disk_sync()] on an initialised disk; [fsync] is taken to succeed. *)
Definition disk_sync (d : disk_state_t) : Z * disk_state_t :=
  if negb (d_is_initialized d) then (DISK_ERROR_NOT_INIT, d)
  else (DISK_SUCCESS,
        {| d_is_initialized := d_is_initialized d; d_is_read_only := d_is_read_only d;
           d_is_dirty := false; d_total_blocks := d_total_blocks d;
           d_block_size := d_block_size d; d_disk_size := d_disk_size d;
           d_blocks := d_blocks d |}).

(** [format_disk()]. *)
Definition format_disk (w : world) (now : Z) : world :=
  if negb (disk_is_initialized (disk w)) then w
  else
    let total_blocks := d_total_blocks (disk w) in
    let block_size := d_block_size (disk w) in
    if negb (block_size =? BLOCK_SIZE) then w
    else
      (* steps 1 and 2 *)
      let w := set_superblock w (fs_ops_init_superblock total_blocks now) in
      let '(fs_result, d) := fs_ops_write_superblock (disk w) (superblock (fs w)) in
      let w := set_disk w d in
      if negb (fs_result =? FS_SUCCESS) then w
      else
        (* steps 3 and 4 *)
        let '(fs_result, bm) :=
          fs_ops_init_bitmap (inode_bitmap (fs w)) (sb_total_inodes (superblock (fs w))) in
        let w := set_inode_bitmap w bm in
        if negb (fs_result =? FS_SUCCESS) then w
        else
          let data_blocks_count :=
            u32 (total_blocks - sb_data_blocks_start (superblock (fs w))) in
          let '(fs_result, bm) :=
            fs_ops_init_bitmap (block_bitmap (fs w)) data_blocks_count in
          let w := set_block_bitmap w bm in
          if negb (fs_result =? FS_SUCCESS) then w
          else
            (* step 5 *)
            let '(fs_result, w) := fs_ops_create_root_directory w now in
            if negb (fs_result =? FS_SUCCESS) then format_cleanup w
            else
              (* steps 6 and 7 *)
              let '(fs_result, d) :=
                fs_ops_write_bitmap (disk w) (inode_bitmap (fs w))
                                    FS_INODE_BITMAP_BLOCK FS_BITMAP_BLOCKS in
              let w := set_disk w d in
              if negb (fs_result =? FS_SUCCESS) then format_cleanup w
              else
                let '(fs_result, d) :=
                  fs_ops_write_bitmap (disk w) (block_bitmap (fs w))
                                      FS_DATA_BITMAP_BLOCK FS_BITMAP_BLOCKS in
                let w := set_disk w d in
                if negb (fs_result =? FS_SUCCESS) then format_cleanup w
                else
                  (* step 8 *)
                  let sb := set_sb_free (superblock (fs w))
                                        (bm_free_count (inode_bitmap (fs w)))
                                        (bm_free_count (block_bitmap (fs w))) in
                  let sb := set_sb_checksum sb 0 in
                  let sb := set_sb_checksum sb (superblock_checksum sb) in
                  let w := set_superblock w sb in
                  let '(fs_result, d) := fs_ops_write_superblock (disk w) sb in
                  let w := set_disk w d in
                  if negb (fs_result =? FS_SUCCESS) then format_cleanup w
                  else
                    (* step 9 *)
                    set_disk w (snd (disk_sync (disk w))).

(* ===================================================================== *)
(** ** fs_ops.c: allocation, directories, [fs_create], [fs_open] *)
(* ===================================================================== *)

(** The scanning loop shared by [alloc_bitmap_bit] and
    [alloc_data_block_from_bitmap]: iterations [i .. i + n - 1]; the result
    is the first [bit_num] whose bit is clear. *)
Fixpoint alloc_scan (n : nat) (i : Z) (bytes : list byte)
    (start_bit total_bits : Z) : option Z :=
  match n with
  | O => None
  | S n' =>
      let bit_num := u32 (start_bit + i) mod total_bits in
      if negb (bit_is_set bytes bit_num) then Some bit_num
      else alloc_scan n' (i + 1) bytes start_bit total_bits
  end.

(** [alloc_bitmap_bit(bitmap)]: the returned [uint32_t] and the bitmap
    afterwards. *)
Definition alloc_bitmap_bit (bitmap : fs_bitmap_t) : Z * fs_bitmap_t :=
  match bm_bitmap bitmap with
  | None => (0, bitmap)
  | Some bytes =>
      if bm_free_count bitmap =? 0 then (0, bitmap)
      else
        let start_bit := bm_last_allocated bitmap in
        match alloc_scan (Z.to_nat (bm_total_bits bitmap)) 0 bytes start_bit
                         (bm_total_bits bitmap) with
        | Some bit_num =>
            (bit_num,
             {| bm_bitmap := Some (set_bit bytes bit_num);
                bm_total_bits := bm_total_bits bitmap;
                bm_free_count := u32 (bm_free_count bitmap - 1);
                bm_last_allocated := bit_num |})
        | None => (0, bitmap)
        end
  end.

Definition free_bitmap_bit (bitmap : fs_bitmap_t) (bit_num : Z) : fs_bitmap_t :=
  match bm_bitmap bitmap with
  | None => bitmap
  | Some bytes =>
      if bm_total_bits bitmap <=? bit_num then bitmap
      else if bit_is_set bytes bit_num
      then {| bm_bitmap := Some (clear_bit bytes bit_num);
              bm_total_bits := bm_total_bits bitmap;
              bm_free_count := u32 (bm_free_count bitmap + 1);
              bm_last_allocated := bm_last_allocated bitmap |}
      else bitmap
  end.

Definition slash : byte := Byte.x2f.

(** [parse_path(path, &parent_inode, filename)] for non-NULL arguments: the
    result, [*parent_inode] and the string left in [filename]. *)
Definition parse_path (path : list byte) : Z * Z * list byte :=
  match c_str path with
  | b :: name_start =>
      if Byte.eqb b slash then
        match name_start with
        | [] => (FS_SUCCESS, ROOT_INODE_NUM, [])
        | _ =>
            if strchr_found name_start slash
            then (FS_ERROR_INVALID_PARAM, ROOT_INODE_NUM, [])
            else (FS_SUCCESS, ROOT_INODE_NUM,
                  c_str (strncpy name_start (Z.to_nat (MAX_FILENAME_LEN - 1))))
        end
      else if strchr_found (b :: name_start) slash
      then (FS_ERROR_INVALID_PARAM, ROOT_INODE_NUM, [])
      else (FS_SUCCESS, ROOT_INODE_NUM,
            c_str (strncpy (b :: name_start) (Z.to_nat (MAX_FILENAME_LEN - 1))))
  | [] => (FS_SUCCESS, ROOT_INODE_NUM, [])
  end.

(** The inner loop of [find_file_in_directory]: entries [i .. i + n - 1] of
    one block. *)
Fixpoint find_in_entries (n : nat) (i : Z) (block_data filename : list byte)
    : option Z :=
  match n with
  | O => None
  | S n' =>
      if negb (de_is_valid (entry_at block_data i) =? 0)
         && bytes_eqb (entry_name block_data i) filename
      then Some (de_inode_number (entry_at block_data i))
      else find_in_entries n' (i + 1) block_data filename
  end.

(** The outer loop: blocks [block_idx .. block_idx + n - 1], as long as the
    pointer is not zero. *)
Fixpoint find_in_blocks (n : nat) (block_idx : Z) (d : disk_state_t)
    (dir_inode : fs_inode_t) (filename : list byte) : Z :=
  match n with
  | O => 0
  | S n' =>
      if word_at (i_direct_blocks dir_inode) block_idx =? 0 then 0
      else
        let '(result, block_data) :=
          read_block d (word_at (i_direct_blocks dir_inode) block_idx) zero_block in
        if negb (result =? DISK_SUCCESS)
        then find_in_blocks n' (block_idx + 1) d dir_inode filename
        else
          match find_in_entries (Z.to_nat max_entries) 0 block_data filename with
          | Some inode_number => inode_number
          | None => find_in_blocks n' (block_idx + 1) d dir_inode filename
          end
  end.

Definition find_file_in_directory (w : world) (dir_inode_num : Z)
    (filename : list byte) : Z :=
  if dir_inode_num =? 0 then 0
  else
    let '(result, dir_inode) := fs_ops_read_inode w dir_inode_num in
    if negb (result =? FS_SUCCESS) then 0
    else if negb (i_file_type dir_inode =? FS_FILE_TYPE_DIRECTORY) then 0
    else find_in_blocks (Z.to_nat DIRECT_BLOCKS) 0 (disk w) dir_inode filename.

(** The first [i' >= i] among [n] entries whose [is_valid] is zero. *)
Fixpoint find_free_entry (n : nat) (i : Z) (block_data : list byte) : option Z :=
  match n with
  | O => None
  | S n' =>
      if de_is_valid (entry_at block_data i) =? 0 then Some i
      else find_free_entry n' (i + 1) block_data
  end.

(** The bytes that the assignments to [entries[i]] store: every field but
    the padding. *)
Definition new_entry_bytes (filename : list byte) (file_inode_num : Z) : list byte :=
  put_fields [(4%nat, file_inode_num); (2%nat, sizeof_fs_dir_entry_t);
              (1%nat, Z.of_nat (length (c_str filename)));
              (1%nat, FS_FILE_TYPE_REGULAR)]
  ++ strncpy filename (Z.to_nat (MAX_FILENAME_LEN - 1)) ++ [Byte.x00]
  ++ put_fields [(1%nat, 1)].

(** The block loop of [add_file_to_directory], from [block_idx] on; the
    directory inode is the local copy, written back on success. *)
Fixpoint add_file_loop (n : nat) (block_idx : Z) (w : world)
    (dir_inode_num : Z) (dir_inode : fs_inode_t) (filename : list byte)
    (file_inode_num now : Z) : Z * world :=
  match n with
  | O => (FS_ERROR_NO_SPACE, w)
  | S n' =>
      let found :=
        if word_at (i_direct_blocks dir_inode) block_idx =? 0 then
          let '(new_block, bm) := alloc_bitmap_bit (block_bitmap (fs w)) in
          let w := set_block_bitmap w bm in
          if new_block =? 0 then inl (FS_ERROR_NO_SPACE, w)
          else
            let new_block := u32 (new_block + sb_data_blocks_start (superblock (fs w))) in
            inr (w,
                 set_i_direct_blocks dir_inode
                   (<[Z.to_nat block_idx := new_block]> (i_direct_blocks dir_inode))
                   (u32 (i_block_count dir_inode + 1)),
                 zero_block)
        else
          let '(result, block_data) :=
            read_block (disk w) (word_at (i_direct_blocks dir_inode) block_idx)
                       zero_block in
          if negb (result =? DISK_SUCCESS) then inl (FS_ERROR_IO, w)
          else inr (w, dir_inode, block_data) in
      match found with
      | inl r => r
      | inr (w, dir_inode, block_data) =>
          match find_free_entry (Z.to_nat max_entries) 0 block_data with
          | Some i =>
              let block_data :=
                memcpy block_data (Z.to_nat (i * sizeof_fs_dir_entry_t))
                       (new_entry_bytes filename file_inode_num) in
              let '(result, d) :=
                write_block (disk w) (word_at (i_direct_blocks dir_inode) block_idx)
                            block_data in
              let w := set_disk w d in
              if negb (result =? DISK_SUCCESS) then (FS_ERROR_IO, w)
              else
                let dir_inode :=
                  set_i_size dir_inode (u32 ((block_idx + 1) * DISK_BLOCK_SIZE))
                             (i_block_count dir_inode) in
                let dir_inode := set_i_times dir_inode (i_access_time dir_inode) now now in
                (FS_SUCCESS, snd (fs_ops_write_inode w dir_inode_num dir_inode))
          | None =>
              add_file_loop n' (block_idx + 1) w dir_inode_num dir_inode filename
                            file_inode_num now
          end
      end
  end.

(** [add_file_to_directory(dir_inode_num, filename, file_inode_num)] for a
    non-NULL [filename]. *)
Definition add_file_to_directory (w : world) (now dir_inode_num : Z)
    (filename : list byte) (file_inode_num : Z) : Z * world :=
  if (dir_inode_num =? 0) || (file_inode_num =? 0) then (FS_ERROR_INVALID_PARAM, w)
  else
    let '(result, dir_inode) := fs_ops_read_inode w dir_inode_num in
    if negb (result =? FS_SUCCESS) then (FS_ERROR_IO, w)
    else if negb (i_file_type dir_inode =? FS_FILE_TYPE_DIRECTORY)
    then (FS_ERROR_NOT_DIRECTORY, w)
    else add_file_loop (Z.to_nat DIRECT_BLOCKS) 0 w dir_inode_num dir_inode filename
                       file_inode_num now.

(** [load_filesystem_state()] of fs_ops.c. *)
Definition load_filesystem_state (w : world) : option (Z * world) :=
  let '(result, sb) := fs_ops_read_superblock (disk w) (superblock (fs w)) in
  let w := set_superblock w sb in
  if negb (result =? FS_SUCCESS) then Some (result, w)
  else
    match fs_ops_read_bitmap (disk w) (inode_bitmap (fs w))
                             FS_INODE_BITMAP_BLOCK FS_BITMAP_BLOCKS with
    | None => None
    | Some (result, bm) =>
        let w := set_inode_bitmap w bm in
        if negb (result =? FS_SUCCESS) then Some (result, w)
        else
          match fs_ops_read_bitmap (disk w) (block_bitmap (fs w))
                                   FS_DATA_BITMAP_BLOCK FS_BITMAP_BLOCKS with
          | None => None
          | Some (result, bm) =>
              let w := set_block_bitmap w bm in
              if negb (result =? FS_SUCCESS) then Some (result, w)
              else
                Some (FS_SUCCESS,
                      set_open_files w (repeat handle_zero (Z.to_nat MAX_OPEN_FILES)))
          end
    end.

(** The guard at the head of [fs_create] and [fs_open]. *)
Definition ensure_loaded (w : world) : option (Z * world) :=
  if negb (sb_magic_number (superblock (fs w)) =? FS_MAGIC_NUMBER)
  then load_filesystem_state w
  else Some (FS_SUCCESS, w).

(** [fs_create(path)]; [None] for [path] is the NULL pointer. *)
Definition fs_create (w : world) (now : Z) (path : option (list byte))
    : option (Z * world) :=
  match path with
  | None => Some (FS_ERROR_INVALID_PARAM, w)
  | Some path =>
      match ensure_loaded w with
      | None => None
      | Some (result, w) =>
          if negb (result =? FS_SUCCESS) then Some (result, w)
          else
            let '(result, parent_inode, filename) := parse_path path in
            if negb (result =? FS_SUCCESS) then Some (result, w)
            else if (length filename =? 0)%nat then Some (FS_ERROR_INVALID_PARAM, w)
            else
              let existing_inode := find_file_in_directory w parent_inode filename in
              if negb (existing_inode =? 0) then Some (FS_ERROR_FILE_EXISTS, w)
              else
                let '(new_inode_num, bm) := alloc_bitmap_bit (inode_bitmap (fs w)) in
                let w := set_inode_bitmap w bm in
                if new_inode_num =? 0 then Some (FS_ERROR_NO_SPACE, w)
                else
                  let new_inode :=
                    {| i_inode_number := new_inode_num;
                       i_file_type := FS_FILE_TYPE_REGULAR;
                       i_permissions := 420;       (* 0644 *)
                       i_owner_uid := user_manager_get_current_uid w;
                       i_owner_gid := user_manager_get_current_gid w;
                       i_link_count := 1; i_file_size := 0; i_block_count := 0;
                       i_access_time := now; i_modify_time := now;
                       i_change_time := now; i_create_time := now;
                       i_direct_blocks := repeat 0 12; i_indirect_block := 0;
                       i_double_indirect_block := 0; i_triple_indirect_block := 0;
                       i_flags := 0; i_generation := 0; i_reserved := repeat 0 4 |} in
                  let '(result, w) := fs_ops_write_inode w new_inode_num new_inode in
                  if negb (result =? FS_SUCCESS)
                  then Some (result,
                             set_inode_bitmap w
                               (free_bitmap_bit (inode_bitmap (fs w)) new_inode_num))
                  else
                    let '(result, w) :=
                      add_file_to_directory w now parent_inode filename new_inode_num in
                    if negb (result =? FS_SUCCESS)
                    then Some (result,
                               set_inode_bitmap w
                                 (free_bitmap_bit (inode_bitmap (fs w)) new_inode_num))
                    else
                      let sb := superblock (fs w) in
                      Some (FS_SUCCESS,
                            set_superblock w
                              (set_sb_free sb (bm_free_count (inode_bitmap (fs w)))
                                           (sb_free_blocks sb)))
      end
  end.

(** The descriptor loop of [fs_open]: the first [fd' >= fd] whose
    [reference_count] is zero. *)
Fixpoint find_free_fd (tbl : list fs_file_handle_t) (fd : Z) : option Z :=
  match tbl with
  | [] => None
  | h :: tbl' =>
      if fh_reference_count h =? 0 then Some fd else find_free_fd tbl' (fd + 1)
  end.

(** [fs_open(path)]. *)
Definition fs_open (w : world) (now : Z) (path : option (list byte))
    : option (Z * world) :=
  match path with
  | None => Some (FS_ERROR_INVALID_PARAM, w)
  | Some path =>
      match ensure_loaded w with
      | None => None
      | Some (result, w) =>
          if negb (result =? FS_SUCCESS) then Some (result, w)
          else
            let '(result, parent_inode, filename) := parse_path path in
            if negb (result =? FS_SUCCESS) then Some (result, w)
            else if (length filename =? 0)%nat then Some (FS_ERROR_INVALID_PARAM, w)
            else
              let file_inode_num := find_file_in_directory w parent_inode filename in
              if file_inode_num =? 0 then Some (FS_ERROR_FILE_NOT_FOUND, w)
              else
                let '(result, file_inode) := fs_ops_read_inode w file_inode_num in
                if negb (result =? FS_SUCCESS) then Some (result, w)
                else if i_file_type file_inode =? FS_FILE_TYPE_DIRECTORY
                then Some (FS_ERROR_IS_DIRECTORY, w)
                else if negb (user_manager_check_permission w file_inode FS_PERM_OWNER_READ)
                then Some (FS_ERROR_PERMISSION, w)
                else
                  match find_free_fd (firstn (Z.to_nat MAX_OPEN_FILES) (open_files (fs w))) 0 with
                  | Some fd =>
                      let handle :=
                        {| fh_inode_number := file_inode_num;
                           fh_flags := Z.lor FS_OPEN_READ FS_OPEN_WRITE;
                           fh_file_position := 0; fh_reference_count := 1;
                           fh_open_time := now;
                           fh_owner_uid := user_manager_get_current_uid w |} in
                      let w := set_open_files w (<[Z.to_nat fd := handle]> (open_files (fs w))) in
                      let file_inode :=
                        set_i_times file_inode now (i_modify_time file_inode)
                                    (i_change_time file_inode) in
                      Some (fd, snd (fs_ops_write_inode w file_inode_num file_inode))
                  | None => Some (FS_ERROR_TOO_MANY_OPEN, w)
                  end
      end
  end.

(** [fs_close(fd)]. *)
Definition fs_close (w : world) (fd : Z) : world :=
  if (fd <? 0) || (MAX_OPEN_FILES <=? fd) then w
  else if fh_reference_count (handle_at w fd) =? 0 then w
  else
    let h := handle_at w fd in
    let reference_count := u32 (fh_reference_count h - 1) in
    let h' :=
      if reference_count =? 0 then handle_zero
      else {| fh_inode_number := fh_inode_number h; fh_flags := fh_flags h;
              fh_file_position := fh_file_position h;
              fh_reference_count := reference_count;
              fh_open_time := fh_open_time h; fh_owner_uid := fh_owner_uid h |} in
    set_open_files w (<[Z.to_nat fd := h']> (open_files (fs w))).

(* ===================================================================== *)
(** ** file_ops.h / file_ops.c *)
(* ===================================================================== *)

Definition SEEK_SET : Z := 0.
Definition SEEK_CUR : Z := 1.
Definition SEEK_END : Z := 2.

(** [file_ops_calculate_block_position]: the two outputs. *)
Definition block_index_of (file_offset : Z) : Z := u32 (file_offset / BLOCK_SIZE).
Definition block_offset_of (file_offset : Z) : Z := u32 (file_offset mod BLOCK_SIZE).

Definition file_ops_get_data_block (inode : fs_inode_t) (block_index : Z) : Z :=
  if block_index <? DIRECT_BLOCKS then word_at (i_direct_blocks inode) block_index
  else 0.

Definition file_ops_validate_fd (w : world) (fd : Z) : Z :=
  if (fd <? 0) || (MAX_OPEN_FILES <=? fd) then FS_ERROR_INVALID_PARAM
  else if fh_reference_count (handle_at w fd) =? 0 then FS_ERROR_INVALID_PARAM
  else FS_SUCCESS.

(** [load_filesystem_state_if_needed()] of file_ops.c: unlike the loader of
    fs_ops.c it leaves the table of open files alone. *)
Definition load_filesystem_state_if_needed (w : world) : option (Z * world) :=
  if negb (sb_magic_number (superblock (fs w)) =? FS_MAGIC_NUMBER) then
    let '(result, sb) := fs_ops_read_superblock (disk w) (superblock (fs w)) in
    let w := set_superblock w sb in
    if negb (result =? FS_SUCCESS) then Some (result, w)
    else
      match fs_ops_read_bitmap (disk w) (inode_bitmap (fs w))
                               FS_INODE_BITMAP_BLOCK FS_BITMAP_BLOCKS with
      | None => None
      | Some (result, bm) =>
          let w := set_inode_bitmap w bm in
          if negb (result =? FS_SUCCESS) then Some (result, w)
          else
            match fs_ops_read_bitmap (disk w) (block_bitmap (fs w))
                                     FS_DATA_BITMAP_BLOCK FS_BITMAP_BLOCKS with
            | None => None
            | Some (result, bm) =>
                let w := set_block_bitmap w bm in
                if negb (result =? FS_SUCCESS) then Some (result, w)
                else Some (FS_SUCCESS, w)
            end
      end
  else Some (FS_SUCCESS, w).

(** file_ops.c keeps private copies of the two inode routines, with the
    same text as those of fs_ops.c. *)
Definition read_inode_from_disk (w : world) (inode_number : Z) : Z * fs_inode_t :=
  fs_ops_read_inode w inode_number.

Definition write_inode_to_disk (w : world) (inode_number : Z) (inode : fs_inode_t)
    : Z * world :=
  fs_ops_write_inode w inode_number inode.

(** [alloc_data_block_from_bitmap()]: the block number (0 for none) and the
    state afterwards.  The function does not test the array pointer. *)
Definition alloc_data_block_from_bitmap (w : world) : option (Z * world) :=
  let bitmap := block_bitmap (fs w) in
  if bm_free_count bitmap =? 0 then Some (0, w)
  else if bm_total_bits bitmap <=? 0 then Some (0, w)
  else
    match bm_bitmap bitmap with
    | None => None
    | Some bytes =>
        match alloc_scan (Z.to_nat (bm_total_bits bitmap)) 0 bytes
                         (bm_last_allocated bitmap) (bm_total_bits bitmap) with
        | Some bit_num =>
            Some (u32 (bit_num + sb_data_blocks_start (superblock (fs w))),
                  set_block_bitmap w
                    {| bm_bitmap := Some (set_bit bytes bit_num);
                       bm_total_bits := bm_total_bits bitmap;
                       bm_free_count := u32 (bm_free_count bitmap - 1);
                       bm_last_allocated := bit_num |})
        | None => Some (0, w)
        end
    end.

(** [file_ops_allocate_data_block(inode, block_index)]: the block number,
    the state and the inode afterwards. *)
Definition file_ops_allocate_data_block (w : world) (inode : fs_inode_t)
    (block_index : Z) : option (Z * world * fs_inode_t) :=
  if block_index <? DIRECT_BLOCKS then
    if word_at (i_direct_blocks inode) block_index =? 0 then
      match alloc_data_block_from_bitmap w with
      | None => None
      | Some (new_block, w) =>
          if 0 <? new_block
          then Some (new_block, w,
                     set_i_direct_blocks inode
                       (<[Z.to_nat block_index := new_block]> (i_direct_blocks inode))
                       (i_block_count inode))
          else Some (word_at (i_direct_blocks inode) block_index, w, inode)
      end
    else Some (word_at (i_direct_blocks inode) block_index, w, inode)
  else Some (0, w, inode).

(** The block loop of [fs_write].  [data] holds at least [size] bytes.  The
    result is the state, the local inode and [bytes_written] when the loop
    is left; [None] also when [fuel] runs out. *)
Fixpoint write_loop (fuel : nat) (w : world) (inode : fs_inode_t)
    (data : list byte) (size current_offset end_offset bytes_written : Z)
    : option (world * fs_inode_t * Z) :=
  match fuel with
  | O => None
  | S fuel' =>
      if current_offset <? end_offset then
        let block_index := block_index_of current_offset in
        let block_offset := block_offset_of current_offset in
        let block_num := file_ops_get_data_block inode block_index in
        match (if block_num =? 0
               then file_ops_allocate_data_block w inode block_index
               else Some (block_num, w, inode)) with
        | None => None
        | Some (block_num, w, inode) =>
            if block_num =? 0 then Some (w, inode, bytes_written)
            else
              let '(disk_result, block_data) :=
                read_block (disk w) block_num zero_block in
              if negb (disk_result =? DISK_SUCCESS) then Some (w, inode, bytes_written)
              else
                let bytes_to_write :=
                  Z.min (u32 (BLOCK_SIZE - block_offset)) (u32 (size - bytes_written)) in
                let block_data :=
                  memcpy block_data (Z.to_nat block_offset)
                         (slice data (Z.to_nat bytes_written) (Z.to_nat bytes_to_write)) in
                let '(disk_result, d) := write_block (disk w) block_num block_data in
                let w := set_disk w d in
                if negb (disk_result =? DISK_SUCCESS) then Some (w, inode, bytes_written)
                else
                  write_loop fuel' w inode data size
                             (u64 (current_offset + bytes_to_write)) end_offset
                             (to_int (bytes_written + bytes_to_write))
        end
      else Some (w, inode, bytes_written)
  end.

Definition set_position (w : world) (fd pos : Z) : world :=
  set_open_files w
    (<[Z.to_nat fd := set_fh_file_position (handle_at w fd) pos]> (open_files (fs w))).

(** [fs_write(fd, data, size)]; [None] for [data] is the NULL pointer. *)
Definition fs_write (w : world) (now fd : Z) (data : option (list byte)) (size : Z)
    : option (Z * world) :=
  match data with
  | None => Some (FS_ERROR_INVALID_PARAM, w)
  | Some data =>
      if size <=? 0 then Some (FS_ERROR_INVALID_PARAM, w)
      else
        let result := file_ops_validate_fd w fd in
        if negb (result =? FS_SUCCESS) then Some (result, w)
        else
          match load_filesystem_state_if_needed w with
          | None => None
          | Some (result, w) =>
              if negb (result =? FS_SUCCESS) then Some (result, w)
              else
                let handle := handle_at w fd in
                let '(result, inode) := read_inode_from_disk w (fh_inode_number handle) in
                if negb (result =? FS_SUCCESS) then Some (result, w)
                else if negb (i_file_type inode =? FS_FILE_TYPE_REGULAR)
                then Some (FS_ERROR_INVALID_PARAM, w)
                else if negb (user_manager_check_permission w inode FS_PERM_OWNER_WRITE)
                then Some (FS_ERROR_PERMISSION, w)
                else
                  let start_offset := fh_file_position handle in
                  let end_offset := u64 (start_offset + size) in
                  match write_loop (S (Z.to_nat size)) w inode data size
                                   start_offset end_offset 0 with
                  | None => None
                  | Some (w, inode, bytes_written) =>
                      if 0 <? bytes_written then
                        let new_size := u64 (fh_file_position handle + bytes_written) in
                        let inode :=
                          if i_file_size inode <? new_size
                          then set_i_size inode new_size
                                 (u32 (u64 (new_size + BLOCK_SIZE - 1) / BLOCK_SIZE))
                          else inode in
                        let inode := set_i_times inode (i_access_time inode) now now in
                        let w := snd (write_inode_to_disk w (fh_inode_number handle) inode) in
                        let w := set_position w fd
                                   (u64 (fh_file_position handle + bytes_written)) in
                        Some (bytes_written, w)
                      else Some (bytes_written, w)
                  end
          end
  end.

(** The block loop of [fs_read]: [bytes_read] and the caller's buffer when
    the loop is left; [None] when [fuel] runs out. *)
Fixpoint read_loop (fuel : nat) (d : disk_state_t) (inode : fs_inode_t)
    (buffer : list byte) (size current_offset end_offset bytes_read : Z)
    : option (Z * list byte) :=
  match fuel with
  | O => None
  | S fuel' =>
      if current_offset <? end_offset then
        let block_index := block_index_of current_offset in
        let block_offset := block_offset_of current_offset in
        let block_num := file_ops_get_data_block inode block_index in
        if block_num =? 0 then Some (bytes_read, buffer)
        else
          let '(disk_result, block_data) := read_block d block_num zero_block in
          if negb (disk_result =? DISK_SUCCESS) then Some (bytes_read, buffer)
          else
            let bytes_to_read :=
              Z.min (u32 (BLOCK_SIZE - block_offset)) (u32 (size - bytes_read)) in
            let buffer :=
              memcpy buffer (Z.to_nat bytes_read)
                     (slice block_data (Z.to_nat block_offset) (Z.to_nat bytes_to_read)) in
            read_loop fuel' d inode buffer size
                      (u64 (current_offset + bytes_to_read)) end_offset
                      (to_int (bytes_read + bytes_to_read))
      else Some (bytes_read, buffer)
  end.

(** [fs_read(fd, buffer, size)]: the returned [int], the buffer and the
    state afterwards; [None] for [buffer] is the NULL pointer. *)
Definition fs_read (w : world) (now fd : Z) (buffer : option (list byte)) (size : Z)
    : option (Z * option (list byte) * world) :=
  match buffer with
  | None => Some (FS_ERROR_INVALID_PARAM, None, w)
  | Some buf =>
      if size <=? 0 then Some (FS_ERROR_INVALID_PARAM, buffer, w)
      else
        let result := file_ops_validate_fd w fd in
        if negb (result =? FS_SUCCESS) then Some (result, buffer, w)
        else
          match load_filesystem_state_if_needed w with
          | None => None
          | Some (result, w) =>
              if negb (result =? FS_SUCCESS) then Some (result, buffer, w)
              else
                let handle := handle_at w fd in
                let '(result, inode) := read_inode_from_disk w (fh_inode_number handle) in
                if negb (result =? FS_SUCCESS) then Some (result, buffer, w)
                else if negb (i_file_type inode =? FS_FILE_TYPE_REGULAR)
                then Some (FS_ERROR_INVALID_PARAM, buffer, w)
                else if negb (user_manager_check_permission w inode FS_PERM_OWNER_READ)
                then Some (FS_ERROR_PERMISSION, buffer, w)
                else if i_file_size inode <=? fh_file_position handle
                then Some (0, buffer, w)
                else
                  let available_bytes := u64 (i_file_size inode - fh_file_position handle) in
                  let size := if available_bytes <? size then to_int available_bytes else size in
                  let start_offset := fh_file_position handle in
                  let end_offset := u64 (start_offset + size) in
                  match read_loop (S (Z.to_nat size)) (disk w) inode buf size
                                  start_offset end_offset 0 with
                  | None => None
                  | Some (bytes_read, buf) =>
                      if 0 <? bytes_read then
                        let w := set_position w fd
                                   (u64 (fh_file_position handle + bytes_read)) in
                        let inode :=
                          set_i_times inode now (i_modify_time inode) (i_change_time inode) in
                        let w := snd (write_inode_to_disk w (fh_inode_number handle) inode) in
                        Some (bytes_read, Some buf, w)
                      else Some (bytes_read, Some buf, w)
                  end
          end
  end.

(** [fs_seek(fd, offset, whence)]. *)
Definition fs_seek (w : world) (fd offset whence : Z) : option (Z * world) :=
  let result := file_ops_validate_fd w fd in
  if negb (result =? FS_SUCCESS) then Some (result, w)
  else
    match load_filesystem_state_if_needed w with
    | None => None
    | Some (result, w) =>
        if negb (result =? FS_SUCCESS) then Some (result, w)
        else
          let handle := handle_at w fd in
          let '(result, inode) := read_inode_from_disk w (fh_inode_number handle) in
          if negb (result =? FS_SUCCESS) then Some (result, w)
          else
            let new_position :=
              if whence =? SEEK_SET then Some (u64 offset)
              else if whence =? SEEK_CUR then Some (u64 (fh_file_position handle + offset))
              else if whence =? SEEK_END then Some (u64 (i_file_size inode + offset))
              else None in
            match new_position with
            | None => Some (FS_ERROR_INVALID_PARAM, w)
            | Some new_position =>
                if to_int64 new_position <? 0 then Some (FS_ERROR_INVALID_PARAM, w)
                else Some (to_int new_position, set_position w fd new_position)
            end
    end.

(* ===================================================================== *)
(** ** Vocabulary of the statements *)
(* ===================================================================== *)

(** The file system state has been loaded (by [format_disk] or by a loader):
    the guard at the head of every operation is passed. *)
Definition fs_loaded (w : world) : Prop :=
  sb_magic_number (superblock (fs w)) = FS_MAGIC_NUMBER.

(** What [disk_init] establishes and every later disk operation keeps. *)
Definition disk_ready (d : disk_state_t) : Prop :=
  d_is_initialized d = true /\ d_is_read_only d = false /\
  d_block_size d = DISK_BLOCK_SIZE.

(** Every field of a structure fits its width. *)
Definition fields_in_range (fs : list (nat * Z)) : Prop :=
  Forall (fun f => 0 <= snd f < 2 ^ (Z.of_nat (fst f) * 8)) fs.

Definition inode_wf (i : fs_inode_t) : Prop :=
  length (i_direct_blocks i) = 12%nat /\ length (i_reserved i) = 4%nat /\
  fields_in_range (combine inode_layout (inode_values i)).

Definition superblock_wf (sb : fs_superblock_t) : Prop :=
  length (sb_reserved sb) = 16%nat /\
  fields_in_range (combine superblock_layout (superblock_values sb)).

(** [(total_bits + 7) / 8], the size of the bitmap array. *)
Definition bitmap_bytes (total_bits : Z) : Z := u32 (total_bits + 7) / 8.

(** The number of clear bits among the first [total_bits], counted as
    [fs_ops_read_bitmap] counts them. *)
Definition zero_bits (bytes : list byte) (total_bits : Z) : Z :=
  count_free_bits (Z.to_nat total_bits) 0 bytes 0.

(** The invariant of [fs_bitmap_t]: the array is allocated with the size
    that [fs_ops_init_bitmap] gave it, the free count is the number of clear
    bits, and the cursor is a bit index. *)
Record bitmap_wf (bm : fs_bitmap_t) (bytes : list byte) : Prop := mk_bitmap_wf {
  wf_array : bm_bitmap bm = Some bytes;
  wf_total : 0 < bm_total_bits bm <= 2 ^ 31;
  wf_length : Z.of_nat (length bytes) = bitmap_bytes (bm_total_bits bm);
  wf_free : bm_free_count bm = zero_bits bytes (bm_total_bits bm);
  wf_last : 0 <= bm_last_allocated bm < bm_total_bits bm
}.

(** Bit [(start + k) mod total_bits] is the first clear bit of a forward
    scan with wrap-around that starts at bit [start]. *)
Definition first_free_from (bytes : list byte) (total_bits start k : Z) : Prop :=
  0 <= k < total_bits /\
  bit_is_set bytes ((start + k) mod total_bits) = false /\
  forall j, 0 <= j < k -> bit_is_set bytes ((start + j) mod total_bits) = true.

(** The allocator as the specification words it: the scan starts at the bit
    just after the last allocated one. *)
Definition spec_allocate (bitmap : fs_bitmap_t) : Z * fs_bitmap_t :=
  match bm_bitmap bitmap with
  | None => (0, bitmap)
  | Some bytes =>
      if bm_free_count bitmap =? 0 then (0, bitmap)
      else
        match alloc_scan (Z.to_nat (bm_total_bits bitmap)) 0 bytes
                         (bm_last_allocated bitmap + 1) (bm_total_bits bitmap) with
        | Some bit_num =>
            (bit_num,
             {| bm_bitmap := Some (set_bit bytes bit_num);
                bm_total_bits := bm_total_bits bitmap;
                bm_free_count := u32 (bm_free_count bitmap - 1);
                bm_last_allocated := bit_num |})
        | None => (0, bitmap)
        end
  end.

(** [fd] is an open descriptor of the regular file with inode [inode], and
    the current user passes the check for [perm]. *)
Definition open_regular (w : world) (fd : Z) (inode : fs_inode_t) (perm : Z) : Prop :=
  fs_loaded w /\
  file_ops_validate_fd w fd = FS_SUCCESS /\
  read_inode_from_disk w (fh_inode_number (handle_at w fd)) = (FS_SUCCESS, inode) /\
  i_file_type inode = FS_FILE_TYPE_REGULAR /\
  user_manager_check_permission w inode perm = true.

(** [path] names the regular file with inode [file_inode] in the root
    directory. *)
Definition names_regular_file (w : world) (path : list byte)
    (file_inode_num : Z) (file_inode : fs_inode_t) : Prop :=
  exists filename,
    parse_path path = (FS_SUCCESS, ROOT_INODE_NUM, filename) /\
    filename <> [] /\
    find_file_in_directory w ROOT_INODE_NUM filename = file_inode_num /\
    file_inode_num <> 0 /\
    fs_ops_read_inode w file_inode_num = (FS_SUCCESS, file_inode) /\
    i_file_type file_inode = FS_FILE_TYPE_REGULAR.

(** The read bit that applies to a user: of the owner, the group or the
    others. *)
Definition applicable_read_bit (u : fs_user_t) (file_inode : fs_inode_t) : Z :=
  if usr_uid u =? i_owner_uid file_inode then FS_PERM_OWNER_READ
  else if usr_gid u =? i_owner_gid file_inode then FS_PERM_GROUP_READ
  else FS_PERM_OTHER_READ.

(** The number of non-zero entries of [direct_blocks]. *)
Definition blocks_in_use (inode : fs_inode_t) : Z :=
  Z.of_nat (length (List.filter (fun b => negb (b =? 0)) (i_direct_blocks inode))).

(** The cursor of an open descriptor. *)
Definition cursor (w : world) (fd : Z) : Z := fh_file_position (handle_at w fd).

(** The byte of a file at offset [off], as the block that [inode] maps
    there holds it on the disk [d]. *)
Definition file_byte (d : disk_state_t) (inode : fs_inode_t) (off : Z) : byte :=
  nth (Z.to_nat (block_offset_of off))
      (stored_block d (to_int (file_ops_get_data_block inode (block_index_of off))))
      Byte.x00.

(** The [n] bytes of the file from offset [start] on. *)
Definition file_bytes (d : disk_state_t) (inode : fs_inode_t) (start n : Z)
    : list byte :=
  map (fun k => file_byte d inode (start + Z.of_nat k)) (seq 0 (Z.to_nat n)).

(** The block under offset [off] is mapped, and the disk reads it. *)
Definition block_readable (d : disk_state_t) (inode : fs_inode_t) (off : Z) : Prop :=
  file_ops_get_data_block inode (block_index_of off) <> 0 /\
  fst (read_block d (file_ops_get_data_block inode (block_index_of off)) zero_block)
  = DISK_SUCCESS.

(** The blocks of a file are its own: a pointer that is not 0 is a block of
    the data area that the block bitmap marks as used, and no block has two
    pointers. *)
Definition file_blocks_owned (w : world) (inode : fs_inode_t) (bytes : list byte)
    : Prop :=
  let ds := sb_data_blocks_start (superblock (fs w)) in
  (forall j b, i_direct_blocks inode !! j = Some b -> b <> 0 ->
     ds <= b < ds + bm_total_bits (block_bitmap (fs w)) /\
     bit_is_set bytes (b - ds) = true) /\
  (forall i j b, i_direct_blocks inode !! i = Some b ->
     i_direct_blocks inode !! j = Some b -> b <> 0 -> i = j).

(** The data area does not begin at block 0 and lies on a disk that can be
    written and whose block numbers fit an [int]. *)
Definition data_area_on_disk (w : world) : Prop :=
  0 < sb_data_blocks_start (superblock (fs w)) /\
  sb_data_blocks_start (superblock (fs w)) + bm_total_bits (block_bitmap (fs w))
    <= d_total_blocks (disk w) < 2 ^ 31 /\
  d_is_initialized (disk w) = true /\ d_is_read_only (disk w) = false.

(* ===================================================================== *)
(** ** Further vocabulary of the statements and proofs *)
(* ===================================================================== *)

(** The number of clear bits among bits [i .. i + n - 1], without the
    wrap-around of the C counter. *)
Fixpoint clear_bits (n : nat) (i : Z) (bytes : list byte) : Z :=
  match n with
  | O => 0
  | S n' => (if bit_is_set bytes i then 0 else 1) + clear_bits n' (i + 1) bytes
  end.

(** Two disk states with the same geometry accept the same block numbers. *)
Definition same_geometry (d d' : disk_state_t) : Prop :=
  d_is_initialized d' = d_is_initialized d /\
  d_is_read_only d' = d_is_read_only d /\
  d_total_blocks d' = d_total_blocks d /\
  d_block_size d' = d_block_size d.

(** Every element is a [uint32_t]. *)
Definition u32_list (l : list Z) : Prop := Forall (fun z => 0 <= z < 2 ^ 32) l.

(** The superblock, the table of open files and the geometry of the disk
    are the same in both states. *)
Definition same_files (w w' : world) : Prop :=
  superblock (fs w') = superblock (fs w) /\
  open_files (fs w') = open_files (fs w) /\
  same_geometry (disk w) (disk w').

(** The second inode is the first with other direct block pointers. *)
Definition same_but_blocks (inode inode' : fs_inode_t) : Prop :=
  exists db, inode' = set_i_direct_blocks inode db (i_block_count inode).

(** [offs] are offsets of the range [lo, hi) in different blocks, in
    increasing order, none of which [inode] maps. *)
Definition unmapped_blocks_in (inode : fs_inode_t) (lo hi : Z) (offs : list Z) : Prop :=
  Forall (fun off => lo <= off < hi /\
                     file_ops_get_data_block inode (block_index_of off) = 0) offs /\
  StronglySorted (fun a b => a / BLOCK_SIZE < b / BLOCK_SIZE) offs.

(* ===================================================================== *)
(** ** Concrete states *)
(* ===================================================================== *)

(** The bitmaps of a zeroed [g_fs_state]. *)
Definition no_bitmap : fs_bitmap_t :=
  {| bm_bitmap := None; bm_total_bits := 0; bm_free_count := 0; bm_last_allocated := 0 |}.

Definition root_user : fs_user_t :=
  {| usr_uid := 0; usr_gid := 0; usr_username := []; usr_is_active := 1 |}.

Definition alice : fs_user_t :=
  {| usr_uid := 1000; usr_gid := 1000; usr_username := []; usr_is_active := 1 |}.

Definition unused_user : fs_user_t :=
  {| usr_uid := 0; usr_gid := 0; usr_username := []; usr_is_active := 0 |}.

(** A disk of [blocks] blocks just initialised, and the state of a program
    that has two users, is logged in as [uid] and has not loaded a file
    system yet. *)
Definition blank_disk (blocks : Z) : disk_state_t :=
  snd (disk_init disk_state_zero None (blocks * DISK_BLOCK_SIZE)).

Definition world_at_start (blocks uid : Z) : world :=
  {| disk := blank_disk blocks;
     fs := {| superblock := superblock_zero;
              inode_bitmap := no_bitmap; block_bitmap := no_bitmap;
              open_files := repeat handle_zero (Z.to_nat MAX_OPEN_FILES);
              users := root_user :: alice :: repeat unused_user 30;
              current_user_uid := uid |} |}.

(** The state that a call leaves. *)
Definition state_after (r : option (Z * world)) (w : world) : world :=
  match r with
  | Some (_, w') => w'
  | None => w
  end.

Definition file_a : list byte := [Byte.x61].

(** Format, then create the file [a]; the first [fs_create] after a format
    returns [FS_ERROR_NO_SPACE], the second one creates inode 2. *)
Definition with_file_a (w : world) : world :=
  let w := format_disk w 1000 in
  let w := state_after (fs_create w 1001 (Some file_a)) w in
  state_after (fs_create w 1002 (Some file_a)) w.

Definition with_file_a_open (w : world) : world :=
  let w := with_file_a w in
  state_after (fs_open w 1003 (Some file_a)) w.

(** The file [a] opened a second time. *)
Definition w_open_twice : world :=
  let w := with_file_a_open (world_at_start 200 0) in
  state_after (fs_open w 1004 (Some file_a)) w.

(** The cursor of the empty file [a] set to offset 2048, on a disk of 200
    blocks; then one byte written there. *)
Definition w_seeked : world :=
  let w := with_file_a_open (world_at_start 200 0) in
  state_after (fs_seek w 0 2048 SEEK_SET) w.

Definition w_written : world :=
  state_after (fs_write w_seeked 1004 0 (Some [Byte.x41]) 1) w_seeked.

(** The file [a] with 1024 bytes [A] in its first block, no second block
    and one byte in its third block; the cursor is set back to 0. *)
Definition w_gap : world :=
  let w := with_file_a_open (world_at_start 200 0) in
  let w := state_after (fs_write w 1004 0 (Some (repeat Byte.x41 1024)) 1024) w in
  let w := state_after (fs_seek w 0 2048 SEEK_SET) w in
  let w := state_after (fs_write w 1005 0 (Some [Byte.x42]) 1) w in
  state_after (fs_seek w 0 0 SEEK_SET) w.

(** The file [a] of user 1000, with every permission bit taken away by its
    owner. *)
Definition w_locked : world :=
  let w := with_file_a (world_at_start 200 1000) in
  snd (user_manager_chmod w 1003 2 0).

(** A disk with two data blocks: the root directory has one, one is free. *)
Definition w_small : world := with_file_a_open (world_at_start 158 0).

(** A bitmap of 8 bits after four allocations and the release of the last
    one. *)
Definition bitmap_after_free : fs_bitmap_t :=
  let bm := snd (fs_ops_init_bitmap no_bitmap 8) in
  let bm := snd (alloc_bitmap_bit bm) in
  let bm := snd (alloc_bitmap_bit bm) in
  let bm := snd (alloc_bitmap_bit bm) in
  let bm := snd (alloc_bitmap_bit bm) in
  free_bitmap_bit bm 3.

(** The root directory of a formatted disk of 200 blocks after twelve more
    names: the first block is full and a second one holds the last name. *)
Fixpoint add_names (n : nat) (inode_number : Z) (w : world) : world :=
  match n with
  | O => w
  | S n' =>
      add_names n' (inode_number + 1)
                (snd (add_file_to_directory w 1001 ROOT_INODE_NUM file_a inode_number))
  end.

Definition w_two_blocks : world :=
  add_names 12 2 (format_disk (world_at_start 200 0) 1000).

(** The same directory with the entry of slot 2 of its first block deleted:
    [is_valid], the byte at offset 72 of the entry, is 0. *)
Definition w_deleted_entry : world :=
  let block := snd (read_block (disk w_two_blocks) 156 zero_block) in
  set_disk w_two_blocks
    (snd (write_block (disk w_two_blocks) 156
            (memcpy block (Z.to_nat (2 * sizeof_fs_dir_entry_t + 72)) [Byte.x00]))).

(** The inode stored under a number. *)
Definition inode_of (w : world) (inode_number : Z) : fs_inode_t :=
  snd (fs_ops_read_inode w inode_number).

(* ===================================================================== *)
(** ** disk_simulator.c: the other operations *)
(* ===================================================================== *)

(** [disk_close()]: a due [disk_sync] does not change what the reset
    leaves. *)
Definition disk_close (d : disk_state_t) : Z * disk_state_t :=
  if negb (d_is_initialized d) then (DISK_ERROR_NOT_INIT, d)
  else (DISK_SUCCESS, disk_state_zero).

(** [disk_get_info(&total_blocks, &block_size, &disk_size)] with three
    non-NULL pointers: the result and the three variables afterwards. *)
Definition disk_get_info (d : disk_state_t) (out : Z * Z * Z) : Z * (Z * Z * Z) :=
  if negb (d_is_initialized d) then (DISK_ERROR_NOT_INIT, out)
  else (DISK_SUCCESS, (d_total_blocks d, d_block_size d, d_disk_size d)).

Definition disk_get_block_count (d : disk_state_t) : Z :=
  if d_is_initialized d then d_total_blocks d else 0.

Definition disk_is_valid_block (d : disk_state_t) (block_num : Z) : bool :=
  disk_check_block_bounds d block_num.

(** The loop of [disk_format]: blocks [i .. i + n - 1]; the [uint32_t]
    counter is converted to the [int] parameter of [disk_write_block]. *)
Fixpoint disk_format_loop (n : nat) (i : Z) (d : disk_state_t)
    (block_data : list byte) : Z * disk_state_t :=
  match n with
  | O => (DISK_SUCCESS, d)
  | S n' =>
      let '(result, d') := disk_write_block d (to_int i) (Some block_data) in
      if negb (result =? DISK_SUCCESS) then (result, d')
      else disk_format_loop n' (u32 (i + 1)) d' block_data
  end.

(** [disk_format(pattern)]. *)
Definition disk_format (d : disk_state_t) (pattern : byte) : Z * disk_state_t :=
  if negb (d_is_initialized d) then (DISK_ERROR_NOT_INIT, d)
  else if d_is_read_only d then (DISK_ERROR_IO, d)
  else
    let block_data := repeat pattern (Z.to_nat DISK_BLOCK_SIZE) in
    let '(result, d') :=
      disk_format_loop (Z.to_nat (d_total_blocks d)) 0 d block_data in
    if negb (result =? DISK_SUCCESS) then (result, d')
    else disk_sync d'.

(** The loop of [disk_write_blocks]: rounds [i .. i + n - 1]; [data] holds
    [block_count] blocks.  The offset [i * DISK_BLOCK_SIZE] into [data] is a
    product of two [int]: from round [2 ^ 21] on it does not fit, and the
    pointer that the wrapped product gives lies before the buffer; the
    result is [None] then. *)
Fixpoint disk_write_blocks_loop (n : nat) (i : Z) (d : disk_state_t)
    (start_block : Z) (data : list byte) : option (Z * disk_state_t) :=
  match n with
  | O => Some (DISK_SUCCESS, d)
  | S n' =>
      let off := to_int (i * DISK_BLOCK_SIZE) in
      if off <? 0 then None
      else
        let '(result, d') :=
          disk_write_block d (to_int (start_block + i))
            (Some (slice data (Z.to_nat off) (Z.to_nat DISK_BLOCK_SIZE))) in
        if negb (result =? DISK_SUCCESS) then Some (result, d')
        else disk_write_blocks_loop n' (i + 1) d' start_block data
  end.

(** [disk_write_blocks(start_block, block_count, data)]. *)
Definition disk_write_blocks (d : disk_state_t) (start_block block_count : Z)
    (data : option (list byte)) : option (Z * disk_state_t) :=
  match data with
  | None => Some (DISK_ERROR_INVALID_PARAM, d)
  | Some data =>
      if block_count <=? 0 then Some (DISK_ERROR_INVALID_PARAM, d)
      else disk_write_blocks_loop (Z.to_nat block_count) 0 d start_block data
  end.

(** The loop of [disk_read_blocks]; [buffer] has room for [block_count]
    blocks.  The offset into [buffer] is the same product of two [int]. *)
Fixpoint disk_read_blocks_loop (n : nat) (i : Z) (d : disk_state_t)
    (start_block : Z) (buffer : list byte) : option (Z * list byte) :=
  match n with
  | O => Some (DISK_SUCCESS, buffer)
  | S n' =>
      let off := to_int (i * DISK_BLOCK_SIZE) in
      if off <? 0 then None
      else
        let '(result, block) :=
          disk_read_block d (to_int (start_block + i))
                          (Some (slice buffer (Z.to_nat off) (Z.to_nat DISK_BLOCK_SIZE))) in
        if negb (result =? DISK_SUCCESS) then Some (result, buffer)
        else disk_read_blocks_loop n' (i + 1) d start_block
                                   (memcpy buffer (Z.to_nat off) (default [] block))
  end.

(** [disk_read_blocks(start_block, block_count, buffer)]: the result and
    the buffer afterwards. *)
Definition disk_read_blocks (d : disk_state_t) (start_block block_count : Z)
    (buffer : option (list byte)) : option (Z * option (list byte)) :=
  match buffer with
  | None => Some (DISK_ERROR_INVALID_PARAM, None)
  | Some buf =>
      if block_count <=? 0 then Some (DISK_ERROR_INVALID_PARAM, Some buf)
      else
        match disk_read_blocks_loop (Z.to_nat block_count) 0 d start_block buf with
        | None => None
        | Some (result, buf') => Some (result, Some buf')
        end
  end.

Definition disk_zero_block (d : disk_state_t) (block_num : Z) : Z * disk_state_t :=
  disk_write_block d block_num (Some zero_block).

(** [disk_copy_block(src_block, dst_block)]. *)
Definition disk_copy_block (d : disk_state_t) (src_block dst_block : Z)
    : Z * disk_state_t :=
  let '(result, buffer) := disk_read_block d src_block (Some zero_block) in
  if negb (result =? DISK_SUCCESS) then (result, d)
  else disk_write_block d dst_block buffer.

(* ===================================================================== *)
(** ** file_ops.c: [fs_tell], [fs_size], release of a data block *)
(* ===================================================================== *)

(** [fs_tell(fd)]: the position converted to the [int] result. *)
Definition fs_tell (w : world) (fd : Z) : Z :=
  let result := file_ops_validate_fd w fd in
  if negb (result =? FS_SUCCESS) then result
  else to_int (fh_file_position (handle_at w fd)).

(** [fs_size(fd)]. *)
Definition fs_size (w : world) (fd : Z) : option (Z * world) :=
  let result := file_ops_validate_fd w fd in
  if negb (result =? FS_SUCCESS) then Some (result, w)
  else
    match load_filesystem_state_if_needed w with
    | None => None
    | Some (result, w) =>
        if negb (result =? FS_SUCCESS) then Some (result, w)
        else
          let handle := handle_at w fd in
          let '(result, inode) := read_inode_from_disk w (fh_inode_number handle) in
          if negb (result =? FS_SUCCESS) then Some (result, w)
          else Some (to_int (i_file_size inode), w)
    end.

(** [free_data_block_to_bitmap(block_num)]; [None] when the array pointer,
    which the function does not test, is NULL. *)
Definition free_data_block_to_bitmap (w : world) (block_num : Z) : option world :=
  let bitmap := block_bitmap (fs w) in
  if block_num <? sb_data_blocks_start (superblock (fs w)) then Some w
  else
    let bit_num := u32 (block_num - sb_data_blocks_start (superblock (fs w))) in
    if bm_total_bits bitmap <=? bit_num then Some w
    else
      match bm_bitmap bitmap with
      | None => None
      | Some bytes =>
          if bit_is_set bytes bit_num
          then Some (set_block_bitmap w
                       {| bm_bitmap := Some (clear_bit bytes bit_num);
                          bm_total_bits := bm_total_bits bitmap;
                          bm_free_count := u32 (bm_free_count bitmap + 1);
                          bm_last_allocated := bm_last_allocated bitmap |})
          else Some w
      end.

(* ===================================================================== *)
(** ** user_manager.c: the user table *)
(* ===================================================================== *)

Definition USER_ERROR_USER_EXISTS : Z := -2.
Definition USER_ERROR_NO_SPACE : Z := -5.
Definition USER_ERROR_NOT_LOGGED_IN : Z := -7.

(** [sizeof(g_fs_state.users[0].username)]. *)
Definition USERNAME_SIZE : Z := 32.

Definition set_users (w : world) (us : list fs_user_t) : world :=
  {| disk := disk w;
     fs := {| superblock := superblock (fs w); inode_bitmap := inode_bitmap (fs w);
              block_bitmap := block_bitmap (fs w); open_files := open_files (fs w);
              users := us; current_user_uid := current_user_uid (fs w) |} |}.

Definition set_current_user_uid (w : world) (uid : Z) : world :=
  {| disk := disk w;
     fs := {| superblock := superblock (fs w); inode_bitmap := inode_bitmap (fs w);
              block_bitmap := block_bitmap (fs w); open_files := open_files (fs w);
              users := users (fs w); current_user_uid := uid |} |}.

(** A slot of the user table after [memset]. *)
Definition user_zero : fs_user_t :=
  {| usr_uid := 0; usr_gid := 0; usr_username := zeros (Z.to_nat USERNAME_SIZE);
     usr_is_active := 0 |}.

(** [find_user_by_username]: the first active slot with that name, from
    slot [i] on; [-1] if there is none. *)
Fixpoint find_name_from (us : list fs_user_t) (i : Z) (username : list byte) : Z :=
  match us with
  | [] => -1
  | u :: us' =>
      if negb (usr_is_active u =? 0) && bytes_eqb (c_str (usr_username u)) (c_str username)
      then i
      else find_name_from us' (i + 1) username
  end.

Definition find_user_by_username (w : world) (username : list byte) : Z :=
  find_name_from (firstn (Z.to_nat MAX_USERS) (users (fs w))) 0 username.

(** [find_free_user_slot]: the first slot that is not active. *)
Fixpoint find_free_slot_from (us : list fs_user_t) (i : Z) : Z :=
  match us with
  | [] => -1
  | u :: us' => if usr_is_active u =? 0 then i else find_free_slot_from us' (i + 1)
  end.

Definition find_free_user_slot (w : world) : Z :=
  find_free_slot_from (firstn (Z.to_nat MAX_USERS) (users (fs w))) 0.

(** The loop of [get_next_available_uid]: [n] candidates from [uid] on; 0
    when all of them are taken. *)
Fixpoint next_uid_from (n : nat) (w : world) (uid : Z) : Z :=
  match n with
  | O => 0
  | S n' => if find_user_by_uid w uid <? 0 then uid else next_uid_from n' w (uid + 1)
  end.

Definition get_next_available_uid (w : world) : Z :=
  next_uid_from (Z.to_nat (USER_MANAGER_ANONYMOUS_UID - USER_MANAGER_DEFAULT_UID))
                w USER_MANAGER_DEFAULT_UID.

(** [user_manager_create_user(username, password, uid, gid)], on the fields
    that [fs_user_t] has here: the password only decides the hash that is
    stored.  [None] for [username] is the NULL pointer. *)
Definition user_manager_create_user (w : world) (username : option (list byte))
    (uid gid : Z) : Z * world :=
  match username with
  | None => (USER_ERROR_INVALID_PARAM, w)
  | Some username =>
      if (length (c_str username) =? 0)%nat then (USER_ERROR_INVALID_PARAM, w)
      else if USERNAME_SIZE <=? Z.of_nat (length (c_str username))
      then (USER_ERROR_INVALID_PARAM, w)
      else if 0 <=? find_user_by_username w username then (USER_ERROR_USER_EXISTS, w)
      else
        let assigned :=
          if uid =? 0 then
            let uid := get_next_available_uid w in
            if uid =? 0 then inl USER_ERROR_NO_SPACE else inr uid
          else if 0 <=? find_user_by_uid w uid then inl USER_ERROR_USER_EXISTS
          else inr uid in
        match assigned with
        | inl e => (e, w)
        | inr uid =>
            let gid := if gid =? 0 then USER_MANAGER_DEFAULT_GID else gid in
            let slot := find_free_user_slot w in
            if slot <? 0 then (USER_ERROR_NO_SPACE, w)
            else
              (USER_SUCCESS,
               set_users w
                 (<[Z.to_nat slot :=
                      {| usr_uid := uid; usr_gid := gid;
                         usr_username :=
                           strncpy username (Z.to_nat (USERNAME_SIZE - 1)) ++ [Byte.x00];
                         usr_is_active := 1 |}]> (users (fs w))))
        end
  end.

(** The two names of [user_manager_init]. *)
Definition name_root : list byte :=
  [Byte.x72; Byte.x6f; Byte.x6f; Byte.x74].
Definition name_anonymous : list byte :=
  [Byte.x61; Byte.x6e; Byte.x6f; Byte.x6e; Byte.x79; Byte.x6d; Byte.x6f; Byte.x75; Byte.x73].

(** [user_manager_init()]. *)
Definition user_manager_init (w : world) : Z * world :=
  let w := set_users w (repeat user_zero (Z.to_nat MAX_USERS)) in
  let '(result, w) :=
    user_manager_create_user w (Some name_root)
                             USER_MANAGER_ROOT_UID USER_MANAGER_ROOT_GID in
  if negb (result =? USER_SUCCESS) then (result, w)
  else
    let '(result, w) :=
      user_manager_create_user w (Some name_anonymous)
                               USER_MANAGER_ANONYMOUS_UID USER_MANAGER_ANONYMOUS_UID in
    if negb (result =? USER_SUCCESS) then (result, w)
    else (USER_SUCCESS, set_current_user_uid w USER_MANAGER_ROOT_UID).

(** [user_manager_logout()]. *)
Definition user_manager_logout (w : world) : Z * world :=
  if current_user_uid (fs w) =? USER_MANAGER_ANONYMOUS_UID
  then (USER_ERROR_NOT_LOGGED_IN, w)
  else (USER_SUCCESS, set_current_user_uid w USER_MANAGER_ANONYMOUS_UID).

(** [user_manager_get_user_by_name]: [None] stands for
    [USER_ERROR_USER_NOT_FOUND]. *)
Definition user_manager_get_user_by_name (w : world) (username : list byte)
    : option fs_user_t :=
  let slot := find_user_by_username w username in
  if slot <? 0 then None
  else nth_error (users (fs w)) (Z.to_nat slot).

Definition set_i_owner (i : fs_inode_t) (uid gid : Z) : fs_inode_t :=
  {| i_inode_number := i_inode_number i; i_file_type := i_file_type i;
     i_permissions := i_permissions i; i_owner_uid := uid;
     i_owner_gid := gid; i_link_count := i_link_count i;
     i_file_size := i_file_size i; i_block_count := i_block_count i;
     i_access_time := i_access_time i; i_modify_time := i_modify_time i;
     i_change_time := i_change_time i; i_create_time := i_create_time i;
     i_direct_blocks := i_direct_blocks i; i_indirect_block := i_indirect_block i;
     i_double_indirect_block := i_double_indirect_block i;
     i_triple_indirect_block := i_triple_indirect_block i;
     i_flags := i_flags i; i_generation := i_generation i;
     i_reserved := i_reserved i |}.

(** [user_manager_chown(inode_number, new_uid, new_gid)]. *)
Definition user_manager_chown (w : world) (now inode_number new_uid new_gid : Z)
    : Z * world :=
  if negb (user_manager_is_root (current_user_uid (fs w))) then (USER_ERROR_PERMISSION, w)
  else
    let '(result, inode) := fs_ops_read_inode w inode_number in
    if negb (result =? FS_SUCCESS) then (USER_ERROR_INVALID_PARAM, w)
    else
      let inode := set_i_owner inode new_uid new_gid in
      let inode := set_i_times inode (i_access_time inode) (i_modify_time inode) now in
      let '(result, w') := fs_ops_write_inode w inode_number inode in
      if negb (result =? FS_SUCCESS) then (USER_ERROR_INVALID_PARAM, w')
      else (USER_SUCCESS, w').

(** [user_manager_permissions_to_string(permissions, buffer)]: the ten
    bytes stored. *)
Definition user_manager_permissions_to_string (permissions : Z) : list byte :=
  let flag (bit : Z) (c : byte) : byte :=
    if negb (Z.land permissions bit =? 0) then c else Byte.x2d in
  [flag FS_PERM_OWNER_READ Byte.x72; flag FS_PERM_OWNER_WRITE Byte.x77;
   flag FS_PERM_OWNER_EXEC Byte.x78;
   flag FS_PERM_GROUP_READ Byte.x72; flag FS_PERM_GROUP_WRITE Byte.x77;
   flag FS_PERM_GROUP_EXEC Byte.x78;
   flag FS_PERM_OTHER_READ Byte.x72; flag FS_PERM_OTHER_WRITE Byte.x77;
   flag FS_PERM_OTHER_EXEC Byte.x78; Byte.x00].

(* ===================================================================== *)
(** ** fs.h: the permission macros *)
(* ===================================================================== *)

Definition FS_IS_READABLE (perms uid gid file_uid file_gid : Z) : bool :=
  fs_check_permission_internal perms uid gid file_uid file_gid FS_PERM_OWNER_READ.

Definition FS_IS_WRITABLE (perms uid gid file_uid file_gid : Z) : bool :=
  fs_check_permission_internal perms uid gid file_uid file_gid FS_PERM_OWNER_WRITE.

Definition FS_IS_EXECUTABLE (perms uid gid file_uid file_gid : Z) : bool :=
  fs_check_permission_internal perms uid gid file_uid file_gid FS_PERM_OWNER_EXEC.

(* ===================================================================== *)
(** ** Vocabulary of the further statements *)
(* ===================================================================== *)

(** The position of the permission bits of a user's class in the mode:
    owner, group, others. *)
Definition class_shift (user_uid user_gid file_uid file_gid : Z) : Z :=
  if user_uid =? file_uid then 6 else if user_gid =? file_gid then 3 else 0.

(** The nine single permission bits. *)
Definition single_permission_bits : list Z :=
  [FS_PERM_OWNER_READ; FS_PERM_OWNER_WRITE; FS_PERM_OWNER_EXEC;
   FS_PERM_GROUP_READ; FS_PERM_GROUP_WRITE; FS_PERM_GROUP_EXEC;
   FS_PERM_OTHER_READ; FS_PERM_OTHER_WRITE; FS_PERM_OTHER_EXEC].

(** Buffers of several blocks, block by block. *)
Definition block_list (blocks : list (list byte)) : Prop :=
  Forall (fun blk => length blk = Z.to_nat DISK_BLOCK_SIZE) blocks.

(** An inode that shares no block with the data of its file: the block of
    the inode table that holds the inode lies below the data area, the
    numbers of the data blocks that the bitmap covers fit 32 bits, and the
    blocks of the file lie in the data area. *)
Definition data_area_apart (w : world) (inode_number : Z) (inode : fs_inode_t) : Prop :=
  let sb := superblock (fs w) in
  0 <= inode_number < 2 ^ 32 /\
  0 <= sb_inode_table_start sb /\
  sb_inode_table_start sb + inode_number / inodes_per_block < sb_data_blocks_start sb /\
  sb_data_blocks_start sb + bm_total_bits (block_bitmap (fs w)) <= 2 ^ 32 /\
  Forall (fun b => b = 0 \/ sb_data_blocks_start sb <= b) (i_direct_blocks inode).

(* ===================================================================== *)
(** ** Further concrete states *)
(* ===================================================================== *)

(** A block filled with one byte. *)
Definition block_of (b : byte) : list byte := repeat b (Z.to_nat DISK_BLOCK_SIZE).

(** The image of a disk of 200 blocks that [disk_init] created at time
    1000 and on which block 3 was written; and a file of the same size that
    some other program wrote. *)
Definition image_200 : host_file :=
  {| hf_st_size := DISK_TOTAL_FILE_SIZE 200;
     hf_header := create_disk_header 200 1000;
     hf_blocks := {[ 3 := block_of Byte.x41 ]} |}.

Definition foreign_file : host_file :=
  {| hf_st_size := DISK_TOTAL_FILE_SIZE 200;
     hf_header := {| h_magic_number := 0; h_version := 0; h_block_size := 0;
                     h_total_blocks := 0; h_disk_size := 0; h_created_time := 0;
                     h_last_access_time := 0; h_checksum := 0 |};
     hf_blocks := ∅ |}.

(** A bitmap of 8 bits after three allocations. *)
Definition bitmap_of_three : fs_bitmap_t :=
  let bm := snd (fs_ops_init_bitmap no_bitmap 8) in
  let bm := snd (alloc_bitmap_bit bm) in
  let bm := snd (alloc_bitmap_bit bm) in
  snd (alloc_bitmap_bit bm).

(** A formatted disk of 200 blocks with the file [a] on it, the user being
    uid 0 or uid 1000; the same with the file open; and the state of a
    program that starts on that disk with its memory zeroed. *)
Definition w_file (uid : Z) : world := with_file_a (world_at_start 200 uid).

(** The disk of 200 blocks right after the format. *)
Definition w_formatted : world := format_disk (world_at_start 200 0) 1000.

Definition w_open (uid : Z) : world := with_file_a_open (world_at_start 200 uid).

Definition w_restarted : world :=
  {| disk := disk (w_file 0); fs := fs (world_at_start 200 0) |}.

Definition file_b : list byte := [Byte.x62].

(** Three bytes written to the open file [a]. *)
Definition abc : list byte := [Byte.x41; Byte.x42; Byte.x43].

Definition w_abc : world := state_after (fs_write (w_open 0) 1004 0 (Some abc) 3) (w_open 0).

(** The name in an array of 5 bytes. *)
Definition name_bob : list byte := [Byte.x62; Byte.x6f; Byte.x62; Byte.x00; Byte.x00].

(** The superblock that the disk of [w_file] holds: the one of
    [format_disk]. *)
Definition sb_on_disk : fs_superblock_t :=
  snd (fs_ops_read_superblock (disk (w_file 0)) superblock_zero).

(** The block that one round of the loop of [fs_write] writes to: the
    mapped one, or a new one. *)
Definition chosen_block (w : world) (inode : fs_inode_t) (block_index : Z)
    : option (Z * world * fs_inode_t) :=
  if file_ops_get_data_block inode block_index =? 0
  then file_ops_allocate_data_block w inode block_index
  else Some (file_ops_get_data_block inode block_index, w, inode).

(* ********************************************************************* *)
(** * Lemmas and theorems *)
(* ********************************************************************* *)

(* ===================================================================== *)
(** ** Machine integers *)
(* ===================================================================== *)

Lemma u32_small z : 0 <= z < 2 ^ 32 -> u32 z = z.
Proof. intros H. unfold u32. apply Z.mod_small. exact H. Qed.

Lemma u64_small z : 0 <= z < 2 ^ 64 -> u64 z = z.
Proof. intros H. unfold u64. apply Z.mod_small. exact H. Qed.

Lemma u32_range z : 0 <= u32 z < 2 ^ 32.
Proof. unfold u32. apply Z.mod_pos_bound. lia. Qed.

Lemma u64_range z : 0 <= u64 z < 2 ^ 64.
Proof. unfold u64. apply Z.mod_pos_bound. lia. Qed.

Lemma to_int_small z : - 2 ^ 31 <= z < 2 ^ 31 -> to_int z = z.
Proof. intros H. unfold to_int. rewrite Z.mod_small; lia. Qed.

Lemma to_int_range z : int_range (to_int z).
Proof.
  unfold int_range, to_int.
  pose proof (Z.mod_pos_bound (z + 2 ^ 31) (2 ^ 32)). lia.
Qed.

(** A value that converts to a non-negative [int] is that [int]. *)
Lemma to_int_u32_nonneg z : 0 <= z < 2 ^ 32 -> 0 <= to_int z -> to_int z = z.
Proof.
  unfold to_int. intros Hz Hn.
  destruct (Z_lt_le_dec z (2 ^ 31)) as [Hlt | Hge].
  - rewrite Z.mod_small; lia.
  - replace (z + 2 ^ 31) with (z - 2 ^ 31 + 1 * 2 ^ 32) in * by lia.
    rewrite Z.mod_add in * by lia. rewrite Z.mod_small in * by lia. lia.
Qed.

(* ===================================================================== *)
(** ** The disk *)
(* ===================================================================== *)

Lemma disk_init_ready d0 existing disk_size d :
  disk_init d0 existing disk_size = (DISK_SUCCESS, d) -> disk_ready d.
Proof.
  unfold disk_init, disk_ready.
  repeat case_match; intros Heq; inversion Heq; subst; cbn; auto.
  match goal with H : negb (?v =? DISK_SUCCESS) = true, H' : ?v = DISK_SUCCESS |- _ =>
    rewrite H' in H; discriminate H end.
Qed.

Lemma disk_write_block_ready d block_num data result d' :
  disk_write_block d block_num data = (result, d') -> disk_ready d -> disk_ready d'.
Proof.
  unfold disk_write_block, disk_ready.
  repeat case_match; intros [= <- <-]; cbn; intuition congruence.
Qed.

Lemma disk_reachable_ready d : disk_reachable d -> disk_ready d.
Proof.
  induction 1 as [d0 existing disk_size d Hinit | d block_num data result d' _ IH Hw].
  - eapply disk_init_ready; eauto.
  - eapply disk_write_block_ready; eauto.
Qed.

(** C5. On an initialised disk, a block number below 0 or at or beyond
    [total_blocks] makes both [disk_read_block] and [disk_write_block] fail
    with [DISK_ERROR_BLOCK_RANGE]; the caller's buffer and the whole disk
    state, hence every stored block, stay as they are. *)
Theorem block_range_error_leaves_disk (d : disk_state_t) (b : Z)
    (buf data : list byte) :
  disk_reachable d -> int_range b ->
  b < 0 \/ d_total_blocks d <= b ->
  disk_read_block d b (Some buf) = (DISK_ERROR_BLOCK_RANGE, Some buf) /\
  disk_write_block d b (Some data) = (DISK_ERROR_BLOCK_RANGE, d).
Proof.
  intros Hreach Hint Hb.
  destruct (disk_reachable_ready d Hreach) as (Hi & Hro & _).
  assert (Hbounds : disk_check_block_bounds d b = false).
  { unfold disk_check_block_bounds. rewrite Hi.
    destruct (Z_lt_le_dec b 0) as [Hneg | Hpos].
    - replace (0 <=? b) with false by (symmetry; apply Z.leb_gt; lia). reflexivity.
    - unfold int_range in Hint.
      rewrite u32_small by lia.
      replace (b <? d_total_blocks d) with false by (symmetry; apply Z.ltb_ge; lia).
      rewrite andb_false_r. reflexivity. }
  unfold disk_read_block, disk_write_block.
  rewrite Hi, Hro, Hbounds. cbn. split; reflexivity.
Qed.

(* ===================================================================== *)
(** ** Result codes *)
(* ===================================================================== *)

(** Unfold the result codes, to compare them. *)
Ltac codes :=
  unfold FS_SUCCESS, FS_ERROR_INVALID_PARAM, FS_ERROR_NO_MEMORY, FS_ERROR_NO_SPACE,
    FS_ERROR_FILE_NOT_FOUND, FS_ERROR_FILE_EXISTS, FS_ERROR_NOT_DIRECTORY,
    FS_ERROR_IS_DIRECTORY, FS_ERROR_PERMISSION, FS_ERROR_TOO_MANY_OPEN,
    FS_ERROR_IO, FS_ERROR_CORRUPTED, DISK_SUCCESS, DISK_ERROR_BLOCK_RANGE,
    DISK_ERROR_INVALID_PARAM, DISK_ERROR_NOT_INIT, DISK_ERROR_IO in *.

(** Turn the boolean tests in the hypotheses into propositions. *)
Ltac boolp :=
  repeat match goal with
  | H : negb _ = true |- _ => apply negb_true_iff in H
  | H : negb _ = false |- _ => apply negb_false_iff in H
  | H : (_ =? _) = true |- _ => apply Z.eqb_eq in H
  | H : (_ =? _) = false |- _ => apply Z.eqb_neq in H
  | H : (_ <? _) = true |- _ => apply Z.ltb_lt in H
  | H : (_ <? _) = false |- _ => apply Z.ltb_ge in H
  | H : (_ <=? _) = true |- _ => apply Z.leb_le in H
  | H : (_ <=? _) = false |- _ => apply Z.leb_gt in H
  | H : (_ && _) = true |- _ => apply andb_true_iff in H; destruct H
  | H : (_ || _) = false |- _ => apply orb_false_iff in H; destruct H
  end.

Lemma fs_ops_read_superblock_code d sb :
  fst (fs_ops_read_superblock d sb) <= 0.
Proof.
  unfold fs_ops_read_superblock.
  destruct (read_block d FS_SUPERBLOCK_BLOCK zero_block) as [result buffer].
  repeat case_match; cbn; codes; lia.
Qed.

Lemma read_bitmap_loop_code n : forall block d bytes nbytes bytes_read start_block,
  fst (read_bitmap_loop n block d bytes nbytes bytes_read start_block) <= 0.
Proof.
  induction n as [| n IH]; intros; cbn [read_bitmap_loop].
  - cbn. codes. lia.
  - destruct (bytes_read <? nbytes); [| cbn; codes; lia].
    destruct (read_block d (u32 (start_block + block)) zero_block) as [result buffer].
    destruct (negb (result =? DISK_SUCCESS)); [cbn; codes; lia |].
    apply IH.
Qed.

Lemma fs_ops_read_bitmap_code d bitmap start_block block_count result bm :
  fs_ops_read_bitmap d bitmap start_block block_count = Some (result, bm) ->
  result <= 0.
Proof.
  unfold fs_ops_read_bitmap.
  destruct (bm_bitmap bitmap) as [bytes |].
  - pose proof (read_bitmap_loop_code (Z.to_nat block_count) 0 d bytes
                  (u32 (bm_total_bits bitmap + 7) / 8) 0 start_block) as Hc.
    destruct (read_bitmap_loop _ _ _ _ _ _ _) as [r bytes']. cbn in Hc.
    destruct (negb (r =? FS_SUCCESS)); intros [= <- <-]; [exact Hc | codes; lia].
  - repeat case_match; intros [= <- <-]; codes; lia.
Qed.

Lemma load_filesystem_state_code w result w' :
  load_filesystem_state w = Some (result, w') -> result <= 0.
Proof.
  unfold load_filesystem_state.
  pose proof (fs_ops_read_superblock_code (disk w) (superblock (fs w))) as Hsb.
  destruct (fs_ops_read_superblock _ _) as [r sb]. cbn in Hsb.
  destruct (negb (r =? FS_SUCCESS)); [intros [= <- <-]; exact Hsb |].
  destruct (fs_ops_read_bitmap _ _ _ _) as [[r1 bm1] |] eqn:H1; [| discriminate].
  apply fs_ops_read_bitmap_code in H1.
  destruct (negb (r1 =? FS_SUCCESS)); [intros [= <- <-]; exact H1 |].
  destruct (fs_ops_read_bitmap _ _ _ _) as [[r2 bm2] |] eqn:H2; [| discriminate].
  apply fs_ops_read_bitmap_code in H2.
  destruct (negb (r2 =? FS_SUCCESS)); intros [= <- <-]; [exact H2 | codes; lia].
Qed.

Lemma ensure_loaded_code w result w' :
  ensure_loaded w = Some (result, w') -> result <= 0.
Proof.
  unfold ensure_loaded. case_match.
  - apply load_filesystem_state_code.
  - intros [= <- <-]. codes. lia.
Qed.

Lemma ensure_loaded_loaded w : fs_loaded w -> ensure_loaded w = Some (FS_SUCCESS, w).
Proof.
  unfold fs_loaded, ensure_loaded. intros ->. rewrite Z.eqb_refl. reflexivity.
Qed.

Lemma load_filesystem_state_users w result w' :
  load_filesystem_state w = Some (result, w') ->
  users (fs w') = users (fs w) /\ current_user_uid (fs w') = current_user_uid (fs w).
Proof.
  unfold load_filesystem_state.
  destruct (fs_ops_read_superblock _ _) as [r sb].
  destruct (negb (r =? FS_SUCCESS)); [intros [= <- <-]; cbn; auto |].
  destruct (fs_ops_read_bitmap _ _ _ _) as [[r1 bm1] |]; [| discriminate].
  destruct (negb (r1 =? FS_SUCCESS)); [intros [= <- <-]; cbn; auto |].
  destruct (fs_ops_read_bitmap _ _ _ _) as [[r2 bm2] |]; [| discriminate].
  destruct (negb (r2 =? FS_SUCCESS)); intros [= <- <-]; cbn; auto.
Qed.

Lemma ensure_loaded_users w result w' :
  ensure_loaded w = Some (result, w') ->
  users (fs w') = users (fs w) /\ current_user_uid (fs w') = current_user_uid (fs w).
Proof.
  unfold ensure_loaded. case_match.
  - apply load_filesystem_state_users.
  - intros [= <- <-]. auto.
Qed.

Lemma parse_path_code path : fst (fst (parse_path path)) <= 0.
Proof.
  unfold parse_path. repeat case_match; cbn; codes; lia.
Qed.

Lemma fs_ops_read_inode_code w inode_number :
  fst (fs_ops_read_inode w inode_number) <= 0.
Proof.
  unfold fs_ops_read_inode. repeat case_match; cbn; codes; lia.
Qed.

Lemma fs_ops_write_inode_fs w inode_number inode :
  fs (snd (fs_ops_write_inode w inode_number inode)) = fs w.
Proof.
  unfold fs_ops_write_inode. repeat case_match; reflexivity.
Qed.

(* ===================================================================== *)
(** ** The table of open files *)
(* ===================================================================== *)

Lemma find_free_fd_spec tbl : forall fd0 fd,
  find_free_fd tbl fd0 = Some fd ->
  fd0 <= fd < fd0 + Z.of_nat (length tbl) /\
  fh_reference_count (nth (Z.to_nat (fd - fd0)) tbl handle_zero) = 0 /\
  forall k, fd0 <= k < fd ->
            fh_reference_count (nth (Z.to_nat (k - fd0)) tbl handle_zero) <> 0.
Proof.
  induction tbl as [| h tbl IH]; intros fd0 fd; cbn [find_free_fd]; [discriminate |].
  destruct (fh_reference_count h =? 0) eqn:Hh.
  - apply Z.eqb_eq in Hh.
    intros [= <-]. rewrite Z.sub_diag. cbn.
    split; [lia |]. split; [exact Hh |]. intros k Hk. lia.
  - apply Z.eqb_neq in Hh.
    intros Hfind. apply IH in Hfind as (Hr & Hz & Hlow).
    cbn [length]. split; [lia |]. split.
    + replace (Z.to_nat (fd - fd0)) with (S (Z.to_nat (fd - (fd0 + 1)))) by lia.
      exact Hz.
    + intros k Hk. destruct (Z.eq_dec k fd0) as [-> | Hne].
      * rewrite Z.sub_diag. exact Hh.
      * replace (Z.to_nat (k - fd0)) with (S (Z.to_nat (k - (fd0 + 1)))) by lia.
        apply Hlow. lia.
Qed.

Lemma find_free_fd_none tbl : forall fd0,
  find_free_fd tbl fd0 = None ->
  forall h, In h tbl -> fh_reference_count h <> 0.
Proof.
  induction tbl as [| h tbl IH]; intros fd0; cbn [find_free_fd]; [intros _ h [] |].
  destruct (fh_reference_count h =? 0) eqn:Hh; [discriminate |].
  apply Z.eqb_neq in Hh.
  intros Hfind h' [<- | Hin]; [lia | eauto].
Qed.

Lemma nth_firstn_lt {A} (l : list A) (n k : nat) (x : A) :
  (k < n)%nat -> nth k (firstn n l) x = nth k l x.
Proof.
  revert n k. induction l as [| a l IH]; intros [| n] [| k] Hk; cbn; try lia; auto.
  apply IH. lia.
Qed.

Lemma handle_at_insert w fd h :
  (Z.to_nat fd < length (open_files (fs w)))%nat ->
  handle_at (set_open_files w (<[Z.to_nat fd := h]> (open_files (fs w)))) fd = h.
Proof.
  intros Hlt. unfold handle_at, set_open_files. cbn.
  apply nth_lookup_Some with (d := handle_zero).
  apply list_lookup_insert_eq. exact Hlt.
Qed.

(** C10. When [fs_open] returns a descriptor, it is the lowest index of the
    table of open files whose [reference_count] is 0 (the table as the
    loader left it, which is the caller's table once the file system state
    is loaded), and the handle stored there has position 0, reference count
    1, the read and write flags and the uid of the current user. *)
Theorem fs_open_lowest_free_descriptor (w : world) (now : Z)
    (path : option (list byte)) (fd : Z) (w' : world) :
  fs_open w now path = Some (fd, w') -> 0 <= fd ->
  exists w1,
    ensure_loaded w = Some (FS_SUCCESS, w1) /\
    (fs_loaded w -> w1 = w) /\
    fd < MAX_OPEN_FILES /\
    fh_reference_count (handle_at w1 fd) = 0 /\
    (forall k, 0 <= k < fd -> fh_reference_count (handle_at w1 k) <> 0) /\
    fh_file_position (handle_at w' fd) = 0 /\
    fh_reference_count (handle_at w' fd) = 1 /\
    fh_flags (handle_at w' fd) = Z.lor FS_OPEN_READ FS_OPEN_WRITE /\
    fh_owner_uid (handle_at w' fd) = current_user_uid (fs w).
Proof.
  unfold fs_open. intros Hopen Hfd.
  destruct path as [path |]; [| injection Hopen as <- <-; codes; lia].
  destruct (ensure_loaded w) as [[r w1] |] eqn:Hload; [| discriminate].
  pose proof (ensure_loaded_code _ _ _ Hload) as Hr.
  destruct (negb (r =? FS_SUCCESS)) eqn:Hrs;
    [injection Hopen as <- <-; boolp; codes; lia |].
  boolp. subst r.
  pose proof (parse_path_code path) as Hpp.
  destruct (parse_path path) as [[r parent_inode] filename]. cbn in Hpp.
  destruct (negb (r =? FS_SUCCESS)) eqn:Hrs;
    [injection Hopen as <- <-; boolp; codes; lia |].
  destruct (length filename =? 0)%nat; [injection Hopen as <- <-; codes; lia |].
  destruct (find_file_in_directory w1 parent_inode filename =? 0);
    [injection Hopen as <- <-; codes; lia |].
  pose proof (fs_ops_read_inode_code w1 (find_file_in_directory w1 parent_inode filename)) as Hri.
  destruct (fs_ops_read_inode w1 _) as [r' file_inode]. cbn in Hri.
  destruct (negb (r' =? FS_SUCCESS)) eqn:Hrs';
    [injection Hopen as <- <-; boolp; codes; lia |].
  destruct (i_file_type file_inode =? FS_FILE_TYPE_DIRECTORY);
    [injection Hopen as <- <-; codes; lia |].
  destruct (negb (user_manager_check_permission w1 file_inode FS_PERM_OWNER_READ));
    [injection Hopen as <- <-; codes; lia |].
  destruct (find_free_fd _ 0) as [fd' |] eqn:Hfind;
    [| injection Hopen as <- <-; codes; lia].
  injection Hopen as <- <-.
  apply find_free_fd_spec in Hfind as (Hrange & Hzero & Hlow).
  rewrite Z.sub_0_r in Hzero.
  assert (Hlen : (Z.to_nat fd' < length (open_files (fs w1)))%nat).
  { rewrite length_firstn in Hrange. lia. }
  assert (H64 : fd' < MAX_OPEN_FILES).
  { rewrite length_firstn in Hrange. unfold MAX_OPEN_FILES in *. lia. }
  exists w1. split; [reflexivity |].
  split.
  { intros Hl. rewrite (ensure_loaded_loaded _ Hl) in Hload. congruence. }
  split; [exact H64 |].
  split.
  { unfold handle_at. rewrite <- Hzero. f_equal. symmetry. apply nth_firstn_lt.
    unfold MAX_OPEN_FILES in *. lia. }
  split.
  { intros k Hk. specialize (Hlow k Hk). rewrite Z.sub_0_r in Hlow.
    unfold handle_at. rewrite <- (nth_firstn_lt _ (Z.to_nat MAX_OPEN_FILES)); [exact Hlow |].
    unfold MAX_OPEN_FILES in *. lia. }
  unfold handle_at at 1 2 3 4. rewrite !fs_ops_write_inode_fs.
  fold (handle_at (set_open_files w1
          (<[Z.to_nat fd' := {| fh_inode_number := find_file_in_directory w1 parent_inode filename;
                                fh_flags := Z.lor FS_OPEN_READ FS_OPEN_WRITE;
                                fh_file_position := 0; fh_reference_count := 1;
                                fh_open_time := now;
                                fh_owner_uid := user_manager_get_current_uid w1 |}]>
             (open_files (fs w1)))) fd').
  rewrite handle_at_insert by exact Hlen. cbn.
  repeat split. unfold user_manager_get_current_uid.
  apply (ensure_loaded_users _ _ _ Hload).
Qed.

(* ===================================================================== *)
(** ** Permissions *)
(* ===================================================================== *)

(** The check for reading, computed: the superuser passes, anybody else
    needs the read bit of their class. *)
Lemma check_read_permission w inode u :
  user_manager_get_current_user w = Some u ->
  user_manager_check_permission w inode FS_PERM_OWNER_READ =
  (usr_uid u =? 0) || negb (Z.land (i_permissions inode) (applicable_read_bit u inode) =? 0).
Proof.
  intros Hu. unfold user_manager_check_permission. rewrite Hu.
  unfold user_manager_check_permission_detailed, user_manager_is_root,
    USER_MANAGER_ROOT_UID, applicable_read_bit.
  destruct (usr_uid u =? 0); [reflexivity |]. cbn [orb].
  destruct (usr_uid u =? i_owner_uid inode); [reflexivity |].
  destruct (usr_gid u =? i_owner_gid inode); reflexivity.
Qed.

(** The permission helper of fs.h agrees with the check of
    user_manager.c on read requests. *)
Lemma fs_check_permission_internal_read perms uid gid file_uid file_gid :
  fs_check_permission_internal perms uid gid file_uid file_gid FS_PERM_OWNER_READ =
  user_manager_check_permission_detailed uid gid file_uid file_gid perms FS_PERM_OWNER_READ.
Proof.
  unfold fs_check_permission_internal, user_manager_check_permission_detailed,
    user_manager_is_root, USER_MANAGER_ROOT_UID.
  destruct (uid =? 0); [reflexivity |].
  destruct (uid =? file_uid); [reflexivity |].
  destruct (gid =? file_gid); reflexivity.
Qed.

(** C4, as the code has it.  For a current user of the user table and a
    regular file of the root directory: [fs_open] answers
    [FS_ERROR_PERMISSION] when the user is not the superuser and the read
    bit of their class (owner, else group, else others) is clear, the owner
    included; when the user is the superuser, or holds that bit, the open is
    not refused: it returns the lowest free descriptor, or
    [FS_ERROR_TOO_MANY_OPEN] when the table is full. *)
Theorem fs_open_read_permission (w : world) (now : Z) (path : list byte)
    (file_inode_num : Z) (file_inode : fs_inode_t) (u : fs_user_t) :
  fs_loaded w ->
  names_regular_file w path file_inode_num file_inode ->
  user_manager_get_current_user w = Some u ->
  (usr_uid u <> 0 ->
   Z.land (i_permissions file_inode) (applicable_read_bit u file_inode) = 0 ->
   fs_open w now (Some path) = Some (FS_ERROR_PERMISSION, w)) /\
  (usr_uid u = 0 \/
   Z.land (i_permissions file_inode) (applicable_read_bit u file_inode) <> 0 ->
   match find_free_fd (firstn (Z.to_nat MAX_OPEN_FILES) (open_files (fs w))) 0 with
   | Some fd => 0 <= fd /\ exists w', fs_open w now (Some path) = Some (fd, w')
   | None => fs_open w now (Some path) = Some (FS_ERROR_TOO_MANY_OPEN, w)
   end).
Proof.
  intros Hloaded (filename & Hparse & Hname & Hfind & Hnum & Hread & Htype) Hu.
  assert (Hopen : fs_open w now (Some path) =
    if negb (user_manager_check_permission w file_inode FS_PERM_OWNER_READ)
    then Some (FS_ERROR_PERMISSION, w)
    else
      match find_free_fd (firstn (Z.to_nat MAX_OPEN_FILES) (open_files (fs w))) 0 with
      | Some fd =>
          Some (fd,
                snd (fs_ops_write_inode
                       (set_open_files w
                          (<[Z.to_nat fd :=
                               {| fh_inode_number := file_inode_num;
                                  fh_flags := Z.lor FS_OPEN_READ FS_OPEN_WRITE;
                                  fh_file_position := 0; fh_reference_count := 1;
                                  fh_open_time := now;
                                  fh_owner_uid := user_manager_get_current_uid w |}]>
                             (open_files (fs w))))
                       file_inode_num
                       (set_i_times file_inode now (i_modify_time file_inode)
                                    (i_change_time file_inode))))
      | None => Some (FS_ERROR_TOO_MANY_OPEN, w)
      end).
  { unfold fs_open. rewrite (ensure_loaded_loaded _ Hloaded).
    cbn [negb]. rewrite Z.eqb_refl. cbn [negb].
    rewrite Hparse. rewrite Z.eqb_refl. cbn [negb].
    destruct filename as [| c filename]; [congruence |]. cbn [length Nat.eqb].
    rewrite Hfind.
    destruct (file_inode_num =? 0) eqn:Hz; [boolp; congruence |].
    rewrite Hread. rewrite Z.eqb_refl. cbn [negb].
    rewrite Htype. reflexivity. }
  rewrite Hopen, (check_read_permission _ _ _ Hu). split.
  - intros Hnr Hbit. rewrite Hbit.
    destruct (usr_uid u =? 0) eqn:Hz; [boolp; congruence |]. reflexivity.
  - intros Hok.
    assert (Hpass : (usr_uid u =? 0)
                    || negb (Z.land (i_permissions file_inode)
                                    (applicable_read_bit u file_inode) =? 0) = true).
    { destruct Hok as [-> | Hbit]; [reflexivity |].
      apply orb_true_iff. right. apply negb_true_iff, Z.eqb_neq. exact Hbit. }
    rewrite Hpass. cbn [negb].
    destruct (find_free_fd _ 0) as [fd |] eqn:Hfd; [| reflexivity].
    apply find_free_fd_spec in Hfd. split; [lia | eauto].
Qed.

(* ===================================================================== *)
(** ** Bits of the bitmap array *)
(* ===================================================================== *)

Lemma land_pow2_testbit v o :
  0 <= o -> (Z.land v (Z.shiftl 1 o) =? 0) = negb (Z.testbit v o).
Proof.
  intros Ho. rewrite Z.shiftl_1_l.
  destruct (Z.testbit v o) eqn:Hb; cbn [negb].
  - apply Z.eqb_neq. intros Hz.
    assert (Ht : Z.testbit (Z.land v (2 ^ o)) o = true).
    { rewrite Z.land_spec, Hb, Z.pow2_bits_true by lia. reflexivity. }
    rewrite Hz, Z.bits_0 in Ht. discriminate.
  - apply Z.eqb_eq. apply Z.bits_inj'. intros n Hn.
    rewrite Z.land_spec, Z.bits_0, Z.pow2_bits_eqb by lia.
    destruct (Z.eqb_spec o n) as [-> | Hne]; [rewrite Hb; reflexivity |].
    apply andb_false_r.
Qed.

Lemma bit_is_set_testbit bytes i :
  bit_is_set bytes i = Z.testbit (byte.unsigned (byte_at bytes (i / 8))) (i mod 8).
Proof.
  unfold bit_is_set. rewrite land_pow2_testbit.
  - apply negb_involutive.
  - apply Z.mod_pos_bound. lia.
Qed.

Lemma testbit_byte_of_Z z o :
  0 <= o < 8 -> Z.testbit (byte.unsigned (byte.of_Z z)) o = Z.testbit z o.
Proof.
  intros Ho. rewrite byte.unsigned_of_Z. unfold byte.wrap.
  apply Z.mod_pow2_bits_low. lia.
Qed.

Lemma byte_at_insert_eq bytes i v :
  0 <= i < Z.of_nat (length bytes) -> byte_at (<[Z.to_nat i := v]> bytes) i = v.
Proof.
  intros Hi. unfold byte_at. apply nth_lookup_Some.
  apply list_lookup_insert_eq. lia.
Qed.

Lemma byte_at_insert_ne bytes i j v :
  0 <= i -> 0 <= j -> i <> j -> byte_at (<[Z.to_nat i := v]> bytes) j = byte_at bytes j.
Proof.
  intros Hi Hj Hne. unfold byte_at. rewrite !nth_lookup.
  rewrite list_lookup_insert_ne by lia. reflexivity.
Qed.

(** Setting bit [b] sets it and leaves the other bits. *)
Lemma bit_is_set_set_bit bytes b i :
  0 <= b -> 0 <= i -> b / 8 < Z.of_nat (length bytes) ->
  bit_is_set (set_bit bytes b) i = (i =? b) || bit_is_set bytes i.
Proof.
  intros Hb Hi Hlen. rewrite !bit_is_set_testbit. unfold set_bit.
  pose proof (Z.mod_pos_bound i 8 ltac:(lia)) as Hio.
  pose proof (Z.mod_pos_bound b 8 ltac:(lia)) as Hbo.
  assert (0 <= b / 8) by (apply Z.div_pos; lia).
  assert (0 <= i / 8) by (apply Z.div_pos; lia).
  destruct (Z.eq_dec (i / 8) (b / 8)) as [Heq | Hne].
  - rewrite Heq, byte_at_insert_eq by lia.
    rewrite testbit_byte_of_Z by lia.
    rewrite Z.lor_spec, Z.shiftl_1_l, Z.pow2_bits_eqb by lia.
    rewrite orb_comm. f_equal.
    destruct (Z.eqb_spec (b mod 8) (i mod 8)) as [Hm | Hm];
      destruct (Z.eqb_spec i b) as [Hib | Hib]; try reflexivity.
    + exfalso. apply Hib.
      rewrite (Z.div_mod i 8), (Z.div_mod b 8) by lia. lia.
    + exfalso. subst. lia.
  - rewrite byte_at_insert_ne by lia.
    destruct (Z.eqb_spec i b) as [-> | _]; [contradiction | reflexivity].
Qed.

(** Clearing bit [b] clears it and leaves the other bits. *)
Lemma bit_is_set_clear_bit bytes b i :
  0 <= b -> 0 <= i -> b / 8 < Z.of_nat (length bytes) ->
  bit_is_set (clear_bit bytes b) i = negb (i =? b) && bit_is_set bytes i.
Proof.
  intros Hb Hi Hlen. rewrite !bit_is_set_testbit. unfold clear_bit.
  pose proof (Z.mod_pos_bound i 8 ltac:(lia)) as Hio.
  pose proof (Z.mod_pos_bound b 8 ltac:(lia)) as Hbo.
  assert (0 <= b / 8) by (apply Z.div_pos; lia).
  assert (0 <= i / 8) by (apply Z.div_pos; lia).
  destruct (Z.eq_dec (i / 8) (b / 8)) as [Heq | Hne].
  - rewrite Heq, byte_at_insert_eq by lia.
    rewrite testbit_byte_of_Z by lia.
    rewrite Z.land_spec, Z.lnot_spec, Z.shiftl_1_l, Z.pow2_bits_eqb by lia.
    rewrite andb_comm. f_equal.
    destruct (Z.eqb_spec (b mod 8) (i mod 8)) as [Hm | Hm];
      destruct (Z.eqb_spec i b) as [Hib | Hib]; try reflexivity.
    + exfalso. apply Hib.
      rewrite (Z.div_mod i 8), (Z.div_mod b 8) by lia. lia.
    + exfalso. subst. lia.
  - rewrite byte_at_insert_ne by lia.
    destruct (Z.eqb_spec i b) as [-> | _]; [contradiction | reflexivity].
Qed.

Lemma byte_at_zeros n i : byte_at (zeros n) i = Byte.x00.
Proof.
  unfold byte_at, zeros.
  destruct (Nat.lt_ge_cases (Z.to_nat i) n) as [Hlt | Hge].
  - apply nth_repeat_lt. exact Hlt.
  - apply nth_overflow. rewrite repeat_length. exact Hge.
Qed.

Lemma bit_is_set_zeros n i : bit_is_set (zeros n) i = false.
Proof. unfold bit_is_set. rewrite byte_at_zeros. reflexivity. Qed.

(* ===================================================================== *)
(** ** Counting the clear bits *)
(* ===================================================================== *)

Lemma clear_bits_range n : forall i bytes, 0 <= clear_bits n i bytes <= Z.of_nat n.
Proof.
  induction n as [| n IH]; intros i bytes; cbn [clear_bits]; [lia |].
  specialize (IH (i + 1) bytes). destruct (bit_is_set bytes i); lia.
Qed.

Lemma count_free_bits_clear_bits n : forall i bytes acc,
  0 <= acc -> acc + Z.of_nat n < 2 ^ 32 ->
  count_free_bits n i bytes acc = acc + clear_bits n i bytes.
Proof.
  induction n as [| n IH]; intros i bytes acc Hacc Hsum; cbn [count_free_bits clear_bits].
  - lia.
  - destruct (bit_is_set bytes i); cbn [negb].
    + rewrite IH by lia. lia.
    + rewrite u32_small by lia. rewrite IH by lia. lia.
Qed.

Lemma zero_bits_clear_bits bytes total :
  0 <= total < 2 ^ 32 ->
  zero_bits bytes total = clear_bits (Z.to_nat total) 0 bytes.
Proof.
  intros Ht. unfold zero_bits. rewrite count_free_bits_clear_bits by lia. lia.
Qed.

Lemma clear_bits_all_set n : forall i bytes,
  (forall j, i <= j < i + Z.of_nat n -> bit_is_set bytes j = true) ->
  clear_bits n i bytes = 0.
Proof.
  induction n as [| n IH]; intros i bytes Hall; cbn [clear_bits]; [reflexivity |].
  rewrite Hall by lia. rewrite IH; [reflexivity |]. intros j Hj. apply Hall. lia.
Qed.

Lemma clear_bits_exists n : forall i bytes,
  clear_bits n i bytes <> 0 ->
  exists j, i <= j < i + Z.of_nat n /\ bit_is_set bytes j = false.
Proof.
  induction n as [| n IH]; intros i bytes; cbn [clear_bits]; [lia |].
  destruct (bit_is_set bytes i) eqn:Hb.
  - intros Hc. destruct (IH (i + 1) bytes ltac:(lia)) as (j & Hj & Hclear).
    exists j. split; [lia | exact Hclear].
  - intros _. exists i. split; [lia | exact Hb].
Qed.

(** Setting a clear bit of the range removes one clear bit. *)
Lemma clear_bits_set_bit n : forall i bytes b,
  0 <= i -> 0 <= b -> b / 8 < Z.of_nat (length bytes) ->
  clear_bits n i (set_bit bytes b) =
  clear_bits n i bytes
  - (if (i <=? b) && (b <? i + Z.of_nat n) && negb (bit_is_set bytes b) then 1 else 0).
Proof.
  induction n as [| n IH]; intros i bytes b Hi Hb Hlen; cbn [clear_bits].
  - replace (b <? i + Z.of_nat 0) with (negb (i <=? b)) by
      (destruct (Z.leb_spec i b), (Z.ltb_spec b (i + Z.of_nat 0)); cbn; auto; lia).
    destruct (i <=? b); cbn; lia.
  - rewrite IH by lia. rewrite bit_is_set_set_bit by lia.
    destruct (Z.eqb_spec i b) as [-> | Hne]; cbn [orb].
    + replace (b + 1 <=? b) with false by (symmetry; apply Z.leb_gt; lia).
      replace (b <=? b) with true by (symmetry; apply Z.leb_le; lia).
      replace (b <? b + Z.of_nat (S n)) with true by (symmetry; apply Z.ltb_lt; lia).
      cbn [andb]. destruct (bit_is_set bytes b); cbn [negb]; lia.
    + replace (i + 1 <=? b) with (i <=? b) by
        (destruct (Z.leb_spec i b), (Z.leb_spec (i + 1) b); auto; lia).
      replace (b <? i + 1 + Z.of_nat n) with (b <? i + Z.of_nat (S n)) by
        (destruct (Z.ltb_spec b (i + 1 + Z.of_nat n)), (Z.ltb_spec b (i + Z.of_nat (S n)));
         auto; lia).
      lia.
Qed.

(** Clearing a set bit of the range adds one clear bit. *)
Lemma clear_bits_clear_bit n : forall i bytes b,
  0 <= i -> 0 <= b -> b / 8 < Z.of_nat (length bytes) ->
  clear_bits n i (clear_bit bytes b) =
  clear_bits n i bytes
  + (if (i <=? b) && (b <? i + Z.of_nat n) && bit_is_set bytes b then 1 else 0).
Proof.
  induction n as [| n IH]; intros i bytes b Hi Hb Hlen; cbn [clear_bits].
  - replace (b <? i + Z.of_nat 0) with (negb (i <=? b)) by
      (destruct (Z.leb_spec i b), (Z.ltb_spec b (i + Z.of_nat 0)); cbn; auto; lia).
    destruct (i <=? b); cbn; lia.
  - rewrite IH by lia. rewrite bit_is_set_clear_bit by lia.
    destruct (Z.eqb_spec i b) as [-> | Hne]; cbn [negb andb].
    + replace (b + 1 <=? b) with false by (symmetry; apply Z.leb_gt; lia).
      replace (b <=? b) with true by (symmetry; apply Z.leb_le; lia).
      replace (b <? b + Z.of_nat (S n)) with true by (symmetry; apply Z.ltb_lt; lia).
      cbn [andb]. destruct (bit_is_set bytes b); lia.
    + replace (i + 1 <=? b) with (i <=? b) by
        (destruct (Z.leb_spec i b), (Z.leb_spec (i + 1) b); auto; lia).
      replace (b <? i + 1 + Z.of_nat n) with (b <? i + Z.of_nat (S n)) by
        (destruct (Z.ltb_spec b (i + 1 + Z.of_nat n)), (Z.ltb_spec b (i + Z.of_nat (S n)));
         auto; lia).
      lia.
Qed.

(* ===================================================================== *)
(** ** The allocator *)
(* ===================================================================== *)

Lemma alloc_scan_some n : forall i bytes start total b,
  alloc_scan n i bytes start total = Some b ->
  exists k, i <= k < i + Z.of_nat n /\
            b = u32 (start + k) mod total /\
            bit_is_set bytes b = false /\
            forall j, i <= j < k -> bit_is_set bytes (u32 (start + j) mod total) = true.
Proof.
  induction n as [| n IH]; intros i bytes start total b; cbn [alloc_scan]; [discriminate |].
  destruct (bit_is_set bytes (u32 (start + i) mod total)) eqn:Hb; cbn [negb].
  - intros Hs. apply IH in Hs as (k & Hk & -> & Hclear & Hbefore).
    exists k. split; [lia |]. split; [reflexivity |]. split; [exact Hclear |].
    intros j Hj. destruct (Z.eq_dec j i) as [-> | Hne]; [exact Hb | apply Hbefore; lia].
  - intros [= <-]. exists i. split; [lia |]. split; [reflexivity |].
    split; [exact Hb |]. intros j Hj. lia.
Qed.

Lemma alloc_scan_none n : forall i bytes start total,
  alloc_scan n i bytes start total = None ->
  forall j, i <= j < i + Z.of_nat n -> bit_is_set bytes (u32 (start + j) mod total) = true.
Proof.
  induction n as [| n IH]; intros i bytes start total; cbn [alloc_scan]; [intros _ j Hj; lia |].
  destruct (bit_is_set bytes (u32 (start + i) mod total)) eqn:Hb; cbn [negb]; [| discriminate].
  intros Hs j Hj. destruct (Z.eq_dec j i) as [-> | Hne]; [exact Hb |].
  apply (IH _ _ _ _ Hs). lia.
Qed.

(** A scan of [total] steps from [start] visits every bit. *)
Lemma scan_visits_every_bit start total i :
  0 <= start < total -> 0 <= i < total ->
  exists j, 0 <= j < total /\ (start + j) mod total = i.
Proof.
  intros Hs Hi. exists ((i - start) mod total).
  pose proof (Z.mod_pos_bound (i - start) total ltac:(lia)) as Hm.
  split; [exact Hm |].
  rewrite Zplus_mod_idemp_r. replace (start + (i - start)) with i by lia.
  apply Z.mod_small. exact Hi.
Qed.

(** With a clear bit in the bitmap, the scan of the allocator finds the
    first one from the cursor on. *)
Lemma alloc_scan_first_free bm bytes :
  bitmap_wf bm bytes -> bm_free_count bm <> 0 ->
  exists k,
    first_free_from bytes (bm_total_bits bm) (bm_last_allocated bm) k /\
    alloc_scan (Z.to_nat (bm_total_bits bm)) 0 bytes (bm_last_allocated bm)
               (bm_total_bits bm)
    = Some ((bm_last_allocated bm + k) mod bm_total_bits bm).
Proof.
  intros [Harr [Ht0 Ht1] Hlen Hfree [Hl0 Hl1]] Hnz.
  rewrite Hfree, zero_bits_clear_bits in Hnz by lia.
  apply clear_bits_exists in Hnz as (i & Hi & Hclear).
  destruct (alloc_scan (Z.to_nat (bm_total_bits bm)) 0 bytes (bm_last_allocated bm)
                       (bm_total_bits bm)) as [b |] eqn:Hscan.
  - apply alloc_scan_some in Hscan as (k & Hk & -> & Hb & Hbefore).
    exists k. rewrite u32_small in * by lia. split; [| reflexivity].
    split; [lia |]. split; [exact Hb |].
    intros j Hj. specialize (Hbefore j ltac:(lia)).
    rewrite u32_small in Hbefore by lia. exact Hbefore.
  - exfalso.
    destruct (scan_visits_every_bit (bm_last_allocated bm) (bm_total_bits bm) i
                ltac:(lia) ltac:(lia)) as (j & Hj & Hji).
    pose proof (alloc_scan_none _ _ _ _ _ Hscan j ltac:(lia)) as Hset.
    rewrite u32_small, Hji in Hset by lia. congruence.
Qed.

(** Setting a clear bit of a bitmap that satisfies its invariant takes one
    from the number of clear bits. *)
Lemma set_clear_bit_counts bm bytes bit_num :
  bitmap_wf bm bytes ->
  0 <= bit_num < bm_total_bits bm ->
  bit_is_set bytes bit_num = false ->
  bit_is_set (set_bit bytes bit_num) bit_num = true /\
  zero_bits (set_bit bytes bit_num) (bm_total_bits bm) = bm_free_count bm - 1 /\
  0 < bm_free_count bm <= bm_total_bits bm.
Proof.
  intros [Harr [Ht0 Ht1] Hlen Hfree [Hl0 Hl1]] Hbit Hclear.
  assert (Hin : bit_num / 8 < Z.of_nat (length bytes)).
  { rewrite Hlen. unfold bitmap_bytes. rewrite u32_small by lia.
    apply Z.div_lt_upper_bound; [lia |].
    pose proof (Z.mul_div_le (bm_total_bits bm + 7) 8 ltac:(lia)).
    pose proof (Z.mod_pos_bound (bm_total_bits bm + 7) 8 ltac:(lia)).
    pose proof (Z.div_mod (bm_total_bits bm + 7) 8 ltac:(lia)). lia. }
  assert (Hcount : zero_bits (set_bit bytes bit_num) (bm_total_bits bm)
                   = bm_free_count bm - 1).
  { rewrite zero_bits_clear_bits by lia.
    rewrite clear_bits_set_bit by lia.
    rewrite Hfree, zero_bits_clear_bits by lia. rewrite Hclear.
    replace (0 <=? bit_num) with true by (symmetry; apply Z.leb_le; lia).
    replace (bit_num <? 0 + Z.of_nat (Z.to_nat (bm_total_bits bm))) with true
      by (symmetry; apply Z.ltb_lt; lia).
    reflexivity. }
  pose proof (clear_bits_range (Z.to_nat (bm_total_bits bm)) 0 bytes) as Hr.
  pose proof (clear_bits_range (Z.to_nat (bm_total_bits bm)) 0 (set_bit bytes bit_num))
    as Hr'.
  split; [rewrite bit_is_set_set_bit by lia; rewrite Z.eqb_refl; reflexivity |].
  split; [exact Hcount |].
  rewrite zero_bits_clear_bits in Hcount by lia.
  rewrite Hfree, zero_bits_clear_bits in Hcount by lia.
  rewrite Hfree, zero_bits_clear_bits by lia. lia.
Qed.

(** C2, as the code has it.  With a free count of 0 the allocator returns 0
    and changes nothing.  Otherwise it scans forward with wrap-around
    starting at the last allocated index itself, sets the first clear bit
    that it meets, decrements the free count, moves the cursor to that bit
    and returns its index.  The allocator of file_ops.c does the same to the
    block bitmap and returns the number of the block, the index plus
    [data_blocks_start]. *)
Theorem alloc_bitmap_bit_scans_from_cursor (bm : fs_bitmap_t) (bytes : list byte) :
  bitmap_wf bm bytes ->
  (bm_free_count bm = 0 -> alloc_bitmap_bit bm = (0, bm)) /\
  (bm_free_count bm <> 0 ->
   exists k,
     first_free_from bytes (bm_total_bits bm) (bm_last_allocated bm) k /\
     let bit_num := (bm_last_allocated bm + k) mod bm_total_bits bm in
     alloc_bitmap_bit bm =
       (bit_num,
        {| bm_bitmap := Some (set_bit bytes bit_num);
           bm_total_bits := bm_total_bits bm;
           bm_free_count := bm_free_count bm - 1;
           bm_last_allocated := bit_num |}) /\
     bit_is_set (set_bit bytes bit_num) bit_num = true /\
     zero_bits (set_bit bytes bit_num) (bm_total_bits bm) = bm_free_count bm - 1) /\
  (forall w,
     block_bitmap (fs w) = bm ->
     alloc_data_block_from_bitmap w =
     Some (if bm_free_count bm =? 0 then (0, w)
           else (u32 (fst (alloc_bitmap_bit bm) + sb_data_blocks_start (superblock (fs w))),
                 set_block_bitmap w (snd (alloc_bitmap_bit bm))))).
Proof.
  intros Hwf. pose proof Hwf as [Harr [Ht0 Ht1] Hlen Hfree [Hl0 Hl1]].
  unfold alloc_bitmap_bit. rewrite Harr. split; [| split].
  - intros ->. reflexivity.
  - intros Hnz. destruct (alloc_scan_first_free bm bytes Hwf Hnz) as (k & Hfirst & Hscan).
    exists k. split; [exact Hfirst |]. cbn zeta.
    destruct (bm_free_count bm =? 0) eqn:Hz; [boolp; contradiction |].
    rewrite Hscan.
    set (bit_num := (bm_last_allocated bm + k) mod bm_total_bits bm).
    pose proof (Z.mod_pos_bound (bm_last_allocated bm + k) (bm_total_bits bm) ltac:(lia))
      as Hbit. fold bit_num in Hbit.
    destruct Hfirst as (Hk & Hclear & _). fold bit_num in Hclear.
    destruct (set_clear_bit_counts bm bytes bit_num Hwf Hbit Hclear)
      as (Hset & Hcount & Hpos).
    rewrite u32_small by lia.
    split; [reflexivity |]. split; [exact Hset | exact Hcount].
  - intros w Hbm. unfold alloc_data_block_from_bitmap. rewrite Hbm, Harr.
    destruct (bm_free_count bm =? 0) eqn:Hz; [reflexivity |]. boolp.
    destruct (bm_total_bits bm <=? 0) eqn:Ht; [boolp; lia |].
    destruct (alloc_scan_first_free bm bytes Hwf Hz) as (k & _ & Hscan).
    rewrite Hscan. reflexivity.
Qed.

(** *** The invariant of the bitmaps is kept by the operations on them *)

Lemma bitmap_bytes_covers total b :
  0 < total <= 2 ^ 31 -> 0 <= b < total -> b / 8 < bitmap_bytes total.
Proof.
  intros Ht Hb. unfold bitmap_bytes. rewrite u32_small by lia.
  apply Z.div_lt_upper_bound; [lia |].
  pose proof (Z.mod_pos_bound (total + 7) 8 ltac:(lia)).
  pose proof (Z.div_mod (total + 7) 8 ltac:(lia)). lia.
Qed.

Lemma zero_bits_range bytes total :
  0 <= total < 2 ^ 32 -> 0 <= zero_bits bytes total <= total.
Proof.
  intros Ht. rewrite zero_bits_clear_bits by lia.
  pose proof (clear_bits_range (Z.to_nat total) 0 bytes). lia.
Qed.

Lemma fs_ops_init_bitmap_wf bitmap total_bits bm :
  0 < total_bits <= 2 ^ 31 ->
  fs_ops_init_bitmap bitmap total_bits = (FS_SUCCESS, bm) ->
  bitmap_wf bm (zeros (Z.to_nat (bitmap_bytes total_bits))) /\
  bm_total_bits bm = total_bits /\ bm_free_count bm = total_bits.
Proof.
  intros Ht. unfold fs_ops_init_bitmap.
  destruct (total_bits =? 0) eqn:Hz; [boolp; lia |].
  intros [= <-]. cbn. split; [| split; reflexivity].
  assert (Hb : 0 <= bitmap_bytes total_bits).
  { unfold bitmap_bytes. apply Z.div_pos; [apply u32_range | lia]. }
  constructor; cbn; try lia.
  - reflexivity.
  - unfold zeros. rewrite repeat_length. lia.
  - rewrite zero_bits_clear_bits by lia.
    assert (Hall : forall n i, clear_bits n i (zeros (Z.to_nat (bitmap_bytes total_bits)))
                               = Z.of_nat n).
    { induction n as [| n IH]; intros i; cbn [clear_bits]; [reflexivity |].
      rewrite bit_is_set_zeros, IH. lia. }
    rewrite Hall. lia.
Qed.

Lemma set_bitmap_bit_wf bm bytes bit_num :
  bitmap_wf bm bytes -> 0 <= bit_num ->
  exists bytes', bitmap_wf (set_bitmap_bit bm bit_num) bytes'.
Proof.
  intros Hwf Hb. pose proof Hwf as [Harr [Ht0 Ht1] Hlen Hfree [Hl0 Hl1]].
  unfold set_bitmap_bit. rewrite Harr.
  destruct (bm_total_bits bm <=? bit_num) eqn:Hrange; [exists bytes; exact Hwf |].
  boolp.
  destruct (bit_is_set bytes bit_num) eqn:Hset; cbn [negb]; [exists bytes; exact Hwf |].
  exists (set_bit bytes bit_num).
  pose proof (bitmap_bytes_covers (bm_total_bits bm) bit_num ltac:(lia) ltac:(lia)) as Hin.
  pose proof (zero_bits_range bytes (bm_total_bits bm) ltac:(lia)) as Hzr.
  constructor; cbn; try lia.
  - reflexivity.
  - unfold set_bit. rewrite length_insert. exact Hlen.
  - rewrite zero_bits_clear_bits by lia. rewrite clear_bits_set_bit by lia.
    rewrite Hset. cbn [negb].
    replace (0 <=? bit_num) with true by (symmetry; apply Z.leb_le; lia).
    replace (bit_num <? 0 + Z.of_nat (Z.to_nat (bm_total_bits bm))) with true
      by (symmetry; apply Z.ltb_lt; lia).
    cbn [andb].
    assert (Hpos : clear_bits (Z.to_nat (bm_total_bits bm)) 0 bytes <> 0).
    { intros Hz.
      assert (Hcontra : clear_bits (Z.to_nat (bm_total_bits bm)) 0 (set_bit bytes bit_num)
                        = -1).
      { rewrite clear_bits_set_bit by lia. rewrite Hset, Hz. cbn [negb].
        replace (0 <=? bit_num) with true by (symmetry; apply Z.leb_le; lia).
        replace (bit_num <? 0 + Z.of_nat (Z.to_nat (bm_total_bits bm))) with true
          by (symmetry; apply Z.ltb_lt; lia).
        reflexivity. }
      pose proof (clear_bits_range (Z.to_nat (bm_total_bits bm)) 0 (set_bit bytes bit_num)).
      lia. }
    rewrite Hfree, zero_bits_clear_bits by lia.
    pose proof (clear_bits_range (Z.to_nat (bm_total_bits bm)) 0 bytes).
    rewrite u32_small by lia. reflexivity.
Qed.

Lemma alloc_bitmap_bit_wf bm bytes :
  bitmap_wf bm bytes ->
  exists bytes', bitmap_wf (snd (alloc_bitmap_bit bm)) bytes'.
Proof.
  intros Hwf. pose proof Hwf as [Harr [Ht0 Ht1] Hlen Hfree [Hl0 Hl1]].
  unfold alloc_bitmap_bit. rewrite Harr.
  destruct (bm_free_count bm =? 0) eqn:Hz; [exists bytes; exact Hwf |].
  boolp.
  destruct (alloc_scan_first_free bm bytes Hwf Hz) as (k & (Hk & Hclear & _) & Hscan).
  rewrite Hscan. cbn [snd].
  set (bit_num := (bm_last_allocated bm + k) mod bm_total_bits bm) in *.
  pose proof (Z.mod_pos_bound (bm_last_allocated bm + k) (bm_total_bits bm) ltac:(lia))
    as Hbit. fold bit_num in Hbit.
  destruct (set_clear_bit_counts bm bytes bit_num Hwf Hbit Hclear)
    as (_ & Hcount & Hpos).
  exists (set_bit bytes bit_num).
  constructor; cbn; try lia.
  - reflexivity.
  - unfold set_bit. rewrite length_insert. exact Hlen.
  - rewrite u32_small by lia. symmetry. exact Hcount.
Qed.

Lemma free_bitmap_bit_wf bm bytes bit_num :
  bitmap_wf bm bytes -> 0 <= bit_num ->
  exists bytes', bitmap_wf (free_bitmap_bit bm bit_num) bytes'.
Proof.
  intros Hwf Hb. pose proof Hwf as [Harr [Ht0 Ht1] Hlen Hfree [Hl0 Hl1]].
  unfold free_bitmap_bit. rewrite Harr.
  destruct (bm_total_bits bm <=? bit_num) eqn:Hrange; [exists bytes; exact Hwf |].
  boolp.
  destruct (bit_is_set bytes bit_num) eqn:Hset; [| exists bytes; exact Hwf].
  exists (clear_bit bytes bit_num).
  pose proof (bitmap_bytes_covers (bm_total_bits bm) bit_num ltac:(lia) ltac:(lia)) as Hin.
  constructor; cbn; try lia.
  - reflexivity.
  - unfold clear_bit. rewrite length_insert. exact Hlen.
  - rewrite zero_bits_clear_bits by lia. rewrite clear_bits_clear_bit by lia.
    rewrite Hset.
    replace (0 <=? bit_num) with true by (symmetry; apply Z.leb_le; lia).
    replace (bit_num <? 0 + Z.of_nat (Z.to_nat (bm_total_bits bm))) with true
      by (symmetry; apply Z.ltb_lt; lia).
    cbn [andb].
    pose proof (clear_bits_range (Z.to_nat (bm_total_bits bm)) 0 (clear_bit bytes bit_num))
      as Hr.
    rewrite clear_bits_clear_bit in Hr by lia. rewrite Hset in Hr.
    replace (0 <=? bit_num) with true in Hr by (symmetry; apply Z.leb_le; lia).
    replace (bit_num <? 0 + Z.of_nat (Z.to_nat (bm_total_bits bm))) with true in Hr
      by (symmetry; apply Z.ltb_lt; lia).
    cbn [andb] in Hr.
    rewrite Hfree, zero_bits_clear_bits by lia.
    pose proof (clear_bits_range (Z.to_nat (bm_total_bits bm)) 0 bytes).
    rewrite u32_small by lia. reflexivity.
Qed.

(* ===================================================================== *)
(** ** Reading and writing blocks *)
(* ===================================================================== *)

Lemma same_geometry_refl d : same_geometry d d.
Proof. unfold same_geometry. auto. Qed.

Lemma same_geometry_trans d1 d2 d3 :
  same_geometry d1 d2 -> same_geometry d2 d3 -> same_geometry d1 d3.
Proof. unfold same_geometry. intuition congruence. Qed.

Lemma same_geometry_bounds d d' b :
  same_geometry d d' -> disk_check_block_bounds d' b = disk_check_block_bounds d b.
Proof.
  intros (Hi & _ & Ht & _). unfold disk_check_block_bounds. rewrite Hi, Ht. reflexivity.
Qed.

(** The two outcomes of a write. *)
Lemma write_block_inv d n data rc d' :
  write_block d n data = (rc, d') ->
  (rc = DISK_SUCCESS /\
   d_is_initialized d = true /\ d_is_read_only d = false /\
   disk_check_block_bounds d (to_int n) = true /\
   d_blocks d' = <[to_int n := data]> (d_blocks d) /\
   same_geometry d d') \/
  (rc < 0 /\ d' = d).
Proof.
  unfold write_block, disk_write_block.
  destruct (d_is_initialized d) eqn:Hi; cbn [negb];
    [| intros [= <- <-]; right; codes; split; [lia | reflexivity]].
  destruct (d_is_read_only d) eqn:Hro;
    [intros [= <- <-]; right; codes; split; [lia | reflexivity] |].
  destruct (disk_check_block_bounds d (to_int n)) eqn:Hb; cbn [negb];
    [| intros [= <- <-]; right; codes; split; [lia | reflexivity]].
  intros [= <- <-]. left. unfold same_geometry. cbn. auto 10.
Qed.

Lemma write_block_ok d n data :
  d_is_initialized d = true -> d_is_read_only d = false ->
  disk_check_block_bounds d (to_int n) = true ->
  exists d', write_block d n data = (DISK_SUCCESS, d') /\
             d_blocks d' = <[to_int n := data]> (d_blocks d) /\
             same_geometry d d'.
Proof.
  intros Hi Hro Hb. unfold write_block, disk_write_block. rewrite Hi, Hro, Hb. cbn [negb].
  eexists. split; [reflexivity |]. unfold same_geometry. cbn. auto.
Qed.

(** The two outcomes of a read. *)
Lemma read_block_inv d n buf rc data :
  read_block d n buf = (rc, data) ->
  (rc = DISK_SUCCESS /\ d_is_initialized d = true /\
   disk_check_block_bounds d (to_int n) = true /\
   data = stored_block d (to_int n)) \/
  (rc < 0 /\ data = buf).
Proof.
  unfold read_block, disk_read_block.
  destruct (d_is_initialized d) eqn:Hi; cbn [negb];
    [| intros [= <- <-]; right; codes; split; [lia | reflexivity]].
  destruct (disk_check_block_bounds d (to_int n)) eqn:Hb; cbn [negb];
    [| intros [= <- <-]; right; codes; split; [lia | reflexivity]].
  intros [= <- <-]. left. auto.
Qed.

Lemma read_block_ok d n buf :
  d_is_initialized d = true -> disk_check_block_bounds d (to_int n) = true ->
  read_block d n buf = (DISK_SUCCESS, stored_block d (to_int n)).
Proof.
  intros Hi Hb. unfold read_block, disk_read_block. rewrite Hi, Hb. reflexivity.
Qed.

Lemma read_block_length d n buf rc data :
  read_block d n buf = (rc, data) -> rc = DISK_SUCCESS ->
  length data = 1024%nat.
Proof.
  intros Hr ->. apply read_block_inv in Hr as [(_ & _ & _ & ->) | (Hneg & _)].
  - unfold stored_block. rewrite length_resize. reflexivity.
  - codes. lia.
Qed.

Lemma stored_block_written d d' b data :
  d_blocks d' = <[b := data]> (d_blocks d) -> length data = 1024%nat ->
  stored_block d' b = data.
Proof.
  intros Hd Hlen. unfold stored_block. rewrite Hd, lookup_insert_eq. cbn [default].
  replace (Z.to_nat DISK_BLOCK_SIZE) with (length data) by (rewrite Hlen; reflexivity).
  apply resize_all.
Qed.

Lemma stored_block_same d d' b :
  d_blocks d' !! b = d_blocks d !! b -> stored_block d' b = stored_block d b.
Proof. intros H. unfold stored_block. rewrite H. reflexivity. Qed.

(** Block numbers that differ by less than [2 ^ 32] stay different after
    the conversions of the call. *)
Lemma to_int_u32_inj a b :
  to_int (u32 a) = to_int (u32 b) -> - 2 ^ 32 < a - b < 2 ^ 32 -> a = b.
Proof.
  unfold to_int, u32. intros Heq Hab.
  rewrite !Zplus_mod_idemp_l in Heq.
  pose proof (Z.div_mod (a + 2 ^ 31) (2 ^ 32) ltac:(lia)) as Ha.
  pose proof (Z.div_mod (b + 2 ^ 31) (2 ^ 32) ltac:(lia)) as Hb.
  assert (Hr : (a + 2 ^ 31) mod 2 ^ 32 = (b + 2 ^ 31) mod 2 ^ 32) by lia.
  rewrite Hr in Ha. lia.
Qed.

(* ===================================================================== *)
(** ** Raw memory *)
(* ===================================================================== *)

Lemma length_memcpy dst off src :
  (off + length src <= length dst)%nat ->
  length (memcpy dst off src) = length dst.
Proof.
  intros H. unfold memcpy. rewrite !length_app, length_firstn, length_skipn. lia.
Qed.

Lemma length_slice p off n :
  (off + n <= length p)%nat -> length (slice p off n) = n.
Proof.
  intros H. unfold slice. rewrite length_firstn, length_skipn. lia.
Qed.

Lemma length_zero_block : length zero_block = 1024%nat.
Proof. reflexivity. Qed.

(** What was copied can be read back. *)
Lemma skipn_memcpy dst off src :
  (off <= length dst)%nat ->
  skipn off (memcpy dst off src) = src ++ skipn (off + length src) dst.
Proof.
  intros H. unfold memcpy.
  rewrite skipn_app, length_firstn.
  replace (off - Nat.min off (length dst))%nat with 0%nat by lia.
  rewrite skipn_all2 by (rewrite length_firstn; lia).
  reflexivity.
Qed.

Lemma firstn_app_exact {A} (l1 l2 : list A) n :
  n = length l1 -> firstn n (l1 ++ l2) = l1.
Proof. intros ->. rewrite firstn_app, Nat.sub_diag, firstn_all. cbn. apply app_nil_r. Qed.

Lemma firstn_memcpy_next dst off src :
  (off <= length dst)%nat ->
  firstn (off + length src) (memcpy dst off src) = firstn off dst ++ src.
Proof.
  intros H. unfold memcpy. rewrite app_assoc.
  apply firstn_app_exact. rewrite length_app, length_firstn. lia.
Qed.

Lemma firstn_memcpy_head dst src n :
  n = length src -> firstn n (memcpy dst 0 src) = src.
Proof.
  intros ->. unfold memcpy. change (firstn 0 dst) with (@nil byte).
  rewrite app_nil_l. apply firstn_app_exact. reflexivity.
Qed.

Lemma firstn_slice_next p off n :
  firstn off p ++ slice p off n = firstn (off + n) p.
Proof.
  unfold slice. revert p. induction off as [| off IH]; intros p; cbn.
  - reflexivity.
  - destruct p as [| a p]; cbn.
    + rewrite firstn_nil. reflexivity.
    + rewrite IH. reflexivity.
Qed.

(* ===================================================================== *)
(** ** Persisting and reloading a bitmap *)
(* ===================================================================== *)

(** The writing loop keeps the geometry of the disk and only touches the
    blocks of its span. *)
Lemma write_bitmap_loop_frame n : forall block d bytes bitmap_bytes bw start rc d',
  write_bitmap_loop n block d bytes bitmap_bytes bw start = (rc, d') ->
  same_geometry d d' /\
  forall b, (forall j, block <= j < block + Z.of_nat n -> to_int (u32 (start + j)) <> b) ->
            d_blocks d' !! b = d_blocks d !! b.
Proof.
  induction n as [| n IH]; intros block d bytes N bw start rc d'; cbn [write_bitmap_loop].
  - intros [= <- <-]. split; [apply same_geometry_refl | reflexivity].
  - destruct (bw <? N); [| intros [= <- <-]; split; [apply same_geometry_refl | reflexivity]].
    destruct (write_block d (u32 (start + block)) _) as [r d1] eqn:Hw.
    apply write_block_inv in Hw as [(-> & _ & _ & _ & Hblocks & Hgeo) | (Hneg & ->)].
    + cbn [negb Z.eqb DISK_SUCCESS]. intros Hrest. apply IH in Hrest as (Hgeo' & Hframe).
      split; [eapply same_geometry_trans; eauto |].
      intros b Hb. rewrite Hframe by (intros j Hj; apply Hb; lia).
      rewrite Hblocks. apply lookup_insert_ne. apply Hb. lia.
    + destruct (negb (r =? DISK_SUCCESS)) eqn:Hr; [| boolp; codes; lia].
      intros [= <- <-]. split; [apply same_geometry_refl | reflexivity].
Qed.

(** When all writes succeed, reading the span back rebuilds the array. *)
Lemma bitmap_loops_roundtrip bytes N start n :
  forall block d d' bw cur,
  Z.of_nat (length bytes) = N -> N < 2 ^ 32 ->
  0 <= block -> block + Z.of_nat n <= 2 ^ 32 ->
  0 <= bw <= N -> (bw < N -> bw = DISK_BLOCK_SIZE * block) ->
  N <= bw + DISK_BLOCK_SIZE * Z.of_nat n ->
  write_bitmap_loop n block d bytes N bw start = (FS_SUCCESS, d') ->
  length cur = length bytes ->
  firstn (Z.to_nat bw) cur = firstn (Z.to_nat bw) bytes ->
  read_bitmap_loop n block d' cur N bw start = (FS_SUCCESS, bytes).
Proof.
  unfold DISK_BLOCK_SIZE.
  assert (Hdone : forall bw cur, Z.of_nat (length bytes) = N -> N <= bw <= N ->
                    length cur = length bytes ->
                    firstn (Z.to_nat bw) cur = firstn (Z.to_nat bw) bytes -> cur = bytes).
  { intros bw cur HN Hbw Hlen Hfirst.
    rewrite <- (firstn_all cur), <- (firstn_all bytes), Hlen.
    replace (length bytes) with (Z.to_nat bw) by lia. exact Hfirst. }
  induction n as [| n IH]; intros block d d' bw cur HN HN32 Hblock Hspan Hbw Halign Henough;
    cbn [write_bitmap_loop read_bitmap_loop].
  - intros _ Hlen Hfirst. f_equal. apply (Hdone bw); auto. lia.
  - destruct (bw <? N) eqn:Hlt; boolp;
      [| intros _ Hlen Hfirst; f_equal; apply (Hdone bw); auto; lia].
    specialize (Halign Hlt). unfold DISK_BLOCK_SIZE.
    rewrite (u32_small (N - bw)) by lia.
    set (btc := Z.min (N - bw) 1024).
    assert (Hbtc : 0 < btc <= 1024 /\ bw + btc <= N) by (unfold btc; lia).
    set (chunk := slice bytes (Z.to_nat bw) (Z.to_nat btc)).
    assert (Hchunk : length chunk = Z.to_nat btc).
    { unfold chunk. apply length_slice. lia. }
    set (buffer := memcpy zero_block 0 chunk).
    assert (Hbuf : length buffer = 1024%nat).
    { unfold buffer. rewrite length_memcpy; [reflexivity |].
      rewrite Hchunk, length_zero_block. lia. }
    destruct (write_block d (u32 (start + block)) buffer) as [r d1] eqn:Hw.
    apply write_block_inv in Hw as [(-> & Hi & Hro & Hb & Hblocks & Hgeo) | (Hneg & ->)];
      [| destruct (negb (r =? DISK_SUCCESS)) eqn:Hr;
         [intros Hbad; injection Hbad as Hbad _; codes; lia | boolp; codes; lia]].
    cbn [negb Z.eqb DISK_SUCCESS]. intros Hrest Hlen Hfirst.
    destruct (write_bitmap_loop_frame _ _ _ _ _ _ _ _ _ Hrest) as (Hgeo' & Hframe).
    pose proof (same_geometry_trans _ _ _ Hgeo Hgeo') as Hg.
    rewrite read_block_ok; cycle 1.
    { destruct Hg as (Hi' & _). congruence. }
    { rewrite (same_geometry_bounds _ _ _ Hg). exact Hb. }
    cbn [negb Z.eqb DISK_SUCCESS].
    assert (Hstored : stored_block d' (to_int (u32 (start + block))) = buffer).
    { rewrite (stored_block_same d1 d').
      - apply (stored_block_written d); assumption.
      - apply Hframe. intros j Hj Heq.
        apply to_int_u32_inj in Heq; lia. }
    rewrite Hstored.
    assert (Hread : firstn (Z.to_nat btc) buffer = chunk).
    { unfold buffer. apply firstn_memcpy_head. lia. }
    rewrite Hread.
    rewrite (u32_small (bw + btc)) by lia.
    rewrite (u32_small (bw + btc)) in Hrest by lia.
    apply (IH (block + 1) d1 d' (bw + btc)); auto; try lia.
    + rewrite length_memcpy; [exact Hlen | lia].
    + replace (Z.to_nat (bw + btc)) with (Z.to_nat bw + length chunk)%nat by lia.
      rewrite firstn_memcpy_next by lia.
      rewrite Hfirst, Hchunk. unfold chunk.
      apply firstn_slice_next.
Qed.

(** C9. A bitmap that satisfies its invariant is written to its span of
    blocks; reading the span back into a bitmap of the same [total_bits]
    gives the same array, hence the same allocated bits, and the same free
    count, which the reload obtains by counting the clear bits. *)
Theorem bitmap_persist_reload (d d' : disk_state_t) (bm dst : fs_bitmap_t)
    (bytes old_bytes : list byte) (start_block block_count : Z) :
  bitmap_wf bm bytes ->
  0 <= start_block < 2 ^ 32 -> 0 <= block_count < 2 ^ 32 ->
  fs_ops_write_bitmap d bm start_block block_count = (FS_SUCCESS, d') ->
  bm_bitmap dst = Some old_bytes -> length old_bytes = length bytes ->
  bm_total_bits dst = bm_total_bits bm ->
  exists dst',
    fs_ops_read_bitmap d' dst start_block block_count = Some (FS_SUCCESS, dst') /\
    bm_bitmap dst' = Some bytes /\
    (forall i, bit_is_set (default [] (bm_bitmap dst')) i = bit_is_set bytes i) /\
    bm_free_count dst' = zero_bits bytes (bm_total_bits bm) /\
    bm_free_count dst' = bm_free_count bm.
Proof.
  intros [Harr [Ht0 Ht1] Hlen Hfree [Hl0 Hl1]] Hstart Hcount Hwrite Hdst Holen Htotal.
  unfold fs_ops_write_bitmap in Hwrite. rewrite Harr in Hwrite.
  fold (bitmap_bytes (bm_total_bits bm)) in Hwrite.
  set (N := bitmap_bytes (bm_total_bits bm)) in *.
  assert (HN : 0 <= N < 2 ^ 29).
  { unfold N, bitmap_bytes. rewrite u32_small by lia. split.
    - apply Z.div_pos; lia.
    - apply Z.div_lt_upper_bound; lia. }
  unfold DISK_BLOCK_SIZE in Hwrite.
  destruct (u32 (block_count * 1024) <? u32 (u32 (N + 1024 - 1) / 1024 * 1024)) eqn:Hguard;
    [injection Hwrite as Hbad _; codes; lia |].
  boolp.
  assert (Henough : N <= 1024 * block_count).
  { rewrite (u32_small (N + 1024 - 1)) in Hguard by lia.
    pose proof (Z.div_mod (N + 1024 - 1) 1024 ltac:(lia)) as Hdm.
    pose proof (Z.mod_pos_bound (N + 1024 - 1) 1024 ltac:(lia)) as Hmb.
    rewrite (u32_small ((N + 1024 - 1) / 1024 * 1024)) in Hguard by lia.
    assert (u32 (block_count * 1024) <= block_count * 1024).
    { unfold u32. apply Z.mod_le; lia. }
    lia. }
  unfold fs_ops_read_bitmap. rewrite Hdst, Htotal.
  fold (bitmap_bytes (bm_total_bits bm)). fold N.
  rewrite (bitmap_loops_roundtrip bytes N start_block (Z.to_nat block_count)
             0 d d' 0 old_bytes); auto; try (unfold DISK_BLOCK_SIZE; lia).
  cbn [negb Z.eqb FS_SUCCESS].
  eexists. split; [reflexivity |]. cbn [bm_bitmap bm_free_count default].
  split; [reflexivity |]. split; [reflexivity |].
  split; [reflexivity |]. fold (zero_bits bytes (bm_total_bits bm)). congruence.
Qed.

(* ===================================================================== *)
(** ** Packed structures: reading back what was stored *)
(* ===================================================================== *)

Lemma length_put_fields fs :
  length (put_fields fs) = layout_size (map fst fs).
Proof.
  unfold put_fields, layout_size.
  induction fs as [| f fs IH]; cbn; [reflexivity |].
  rewrite length_app, length_le_split, IH. reflexivity.
Qed.

Lemma get_put_fields fs : forall rest,
  fields_in_range fs ->
  get_fields (map fst fs) (put_fields fs ++ rest) = map snd fs.
Proof.
  unfold fields_in_range, put_fields.
  induction fs as [| [n z] fs IH]; intros rest Hr; cbn [map get_fields flat_map fst snd];
    [reflexivity |].
  inversion Hr as [| ? ? Hz Hrest]; subst. cbn [fst snd] in Hz.
  rewrite <- app_assoc.
  rewrite firstn_app_exact by (symmetry; apply length_le_split).
  rewrite le_combine_split, Z.mod_small by exact Hz.
  f_equal.
  rewrite skipn_app, length_le_split, Nat.sub_diag.
  rewrite skipn_all2 by (rewrite length_le_split; lia).
  cbn [skipn app]. apply IH. exact Hrest.
Qed.

Lemma length_get_fields layout : forall p, length (get_fields layout p) = length layout.
Proof.
  induction layout as [| n layout IH]; intros p; cbn; [reflexivity |].
  rewrite IH. reflexivity.
Qed.

(** Whatever the image, the fields read from it fit their widths. *)
Lemma get_fields_in_range layout : forall p,
  fields_in_range (combine layout (get_fields layout p)).
Proof.
  unfold fields_in_range.
  induction layout as [| n layout IH]; intros p; cbn [get_fields combine]; constructor.
  - cbn [fst snd].
    pose proof (le_combine_bound (firstn n p)) as Hb.
    rewrite length_firstn in Hb.
    assert (Hle : 2 ^ (8 * Z.of_nat (Nat.min n (length p))) <= 2 ^ (Z.of_nat n * 8)).
    { apply Z.pow_le_mono_r; lia. }
    lia.
  - apply IH.
Qed.

Lemma map_fst_combine {A B} (l1 : list A) : forall (l2 : list B),
  length l1 = length l2 -> map fst (combine l1 l2) = l1.
Proof.
  induction l1 as [| a l1 IH]; intros [| b l2] H; cbn in *; try lia; [reflexivity |].
  f_equal. apply IH. lia.
Qed.

Lemma map_snd_combine {A B} (l1 : list A) : forall (l2 : list B),
  length l1 = length l2 -> map snd (combine l1 l2) = l2.
Proof.
  induction l1 as [| a l1 IH]; intros [| b l2] H; cbn in *; try lia; [reflexivity |].
  f_equal. apply IH. lia.
Qed.

(** *** Inodes *)

Lemma length_inode_values i :
  length (i_direct_blocks i) = 12%nat -> length (i_reserved i) = 4%nat ->
  length (inode_values i) = length inode_layout.
Proof.
  intros Hd Hr. unfold inode_values. rewrite !length_app, Hd, Hr. reflexivity.
Qed.

Lemma length_encode_inode i :
  inode_wf i -> length (encode_inode i) = 148%nat.
Proof.
  intros (Hd & Hr & _). unfold encode_inode.
  rewrite length_put_fields, map_fst_combine by (symmetry; apply length_inode_values; auto).
  reflexivity.
Qed.

Lemma get_fields_encode_inode i rest :
  inode_wf i -> get_fields inode_layout (encode_inode i ++ rest) = inode_values i.
Proof.
  intros (Hd & Hr & Hrange). unfold encode_inode.
  pose proof (length_inode_values i Hd Hr) as Hlen.
  rewrite <- (map_fst_combine inode_layout (inode_values i)) at 1
    by (symmetry; exact Hlen).
  rewrite get_put_fields by exact Hrange.
  apply map_snd_combine. symmetry. exact Hlen.
Qed.

Lemma decode_encode_inode i rest :
  inode_wf i -> decode_inode (encode_inode i ++ rest) = i.
Proof.
  intros Hwf. unfold decode_inode. rewrite (get_fields_encode_inode i rest Hwf).
  destruct Hwf as (Hd & Hr & _).
  destruct i as [a0 a1 a2 a3 a4 a5 a6 a7 a8 a9 a10 a11 db a12 a13 a14 a15 a16 rs].
  cbn [i_direct_blocks i_reserved] in Hd, Hr.
  do 12 (destruct db as [| ? db]; [discriminate Hd |]).
  destruct db; [| discriminate Hd].
  do 4 (destruct rs as [| ? rs]; [discriminate Hr |]).
  destruct rs; [| discriminate Hr].
  reflexivity.
Qed.

Lemma inode_values_decode p :
  inode_values (decode_inode p) = get_fields inode_layout p.
Proof.
  unfold decode_inode.
  pose proof (length_get_fields inode_layout p) as Hlen.
  set (v := get_fields inode_layout p) in *.
  do 33 (destruct v as [| ? v]; [discriminate Hlen |]).
  destruct v; [| discriminate Hlen].
  reflexivity.
Qed.

(** An inode read from any image is well formed. *)
Lemma decode_inode_wf p : inode_wf (decode_inode p).
Proof.
  unfold inode_wf. rewrite inode_values_decode.
  split; [| split; [| apply get_fields_in_range]].
  - unfold decode_inode. cbn [i_direct_blocks].
    rewrite length_firstn, length_skipn, length_get_fields. reflexivity.
  - unfold decode_inode. cbn [i_reserved].
    rewrite length_firstn, length_skipn, length_get_fields. reflexivity.
Qed.

(** *** Superblocks *)

Lemma length_superblock_values sb :
  length (sb_reserved sb) = 16%nat ->
  length (superblock_values sb) = length superblock_layout.
Proof.
  intros Hr. unfold superblock_values. rewrite !length_app, Hr. reflexivity.
Qed.

Lemma length_encode_superblock sb :
  superblock_wf sb -> length (encode_superblock sb) = 152%nat.
Proof.
  intros (Hr & _). unfold encode_superblock.
  rewrite length_put_fields, map_fst_combine
    by (symmetry; apply length_superblock_values; auto).
  reflexivity.
Qed.

Lemma get_fields_encode_superblock sb rest :
  superblock_wf sb ->
  get_fields superblock_layout (encode_superblock sb ++ rest) = superblock_values sb.
Proof.
  intros (Hr & Hrange). unfold encode_superblock.
  pose proof (length_superblock_values sb Hr) as Hlen.
  rewrite <- (map_fst_combine superblock_layout (superblock_values sb)) at 1
    by (symmetry; exact Hlen).
  rewrite get_put_fields by exact Hrange.
  apply map_snd_combine. symmetry. exact Hlen.
Qed.

Lemma decode_encode_superblock sb rest :
  superblock_wf sb -> decode_superblock (encode_superblock sb ++ rest) = sb.
Proof.
  intros Hwf. unfold decode_superblock.
  rewrite (get_fields_encode_superblock sb rest Hwf).
  destruct Hwf as (Hr & _).
  destruct sb as [a0 a1 a2 a3 a4 a5 a6 a7 a8 a9 a10 a11 a12 a13 a14 a15 a16 rs a17].
  cbn [sb_reserved] in Hr.
  do 16 (destruct rs as [| ? rs]; [discriminate Hr |]).
  destruct rs; [| discriminate Hr].
  reflexivity.
Qed.

(* ===================================================================== *)
(** ** Formatting *)
(* ===================================================================== *)

(** Projections of an updated state. *)
Ltac simpl_world :=
  cbn [disk fs superblock inode_bitmap block_bitmap open_files users current_user_uid
       set_disk set_superblock set_inode_bitmap set_block_bitmap set_open_files] in *.

Lemma block_in_bounds d n :
  d_is_initialized d = true -> 0 <= n < d_total_blocks d -> n < 2 ^ 31 ->
  disk_check_block_bounds d (to_int n) = true.
Proof.
  intros Hi Hn H31. unfold disk_check_block_bounds.
  rewrite to_int_small by lia. rewrite Hi, u32_small by lia.
  apply andb_true_iff. split; [apply andb_true_iff; split |].
  - apply Z.leb_le. lia.
  - reflexivity.
  - apply Z.ltb_lt. lia.
Qed.

Lemma block_in_bounds_inv d n :
  0 <= n < 2 ^ 32 -> disk_check_block_bounds d (to_int n) = true ->
  to_int n = n /\ 0 <= n < d_total_blocks d.
Proof.
  intros Hn Hb. unfold disk_check_block_bounds in Hb. boolp.
  pose proof (to_int_u32_nonneg n Hn ltac:(lia)) as Heq.
  rewrite Heq in *. rewrite u32_small in * by lia. lia.
Qed.

Lemma fs_ops_calculate_checksum_range data :
  0 <= fs_ops_calculate_checksum data < 2 ^ 32.
Proof.
  unfold fs_ops_calculate_checksum. destruct data; [lia | apply u32_range].
Qed.

Lemma fs_ops_write_superblock_ok d sb :
  d_is_initialized d = true -> d_is_read_only d = false -> 0 < d_total_blocks d ->
  exists d', fs_ops_write_superblock d sb = (FS_SUCCESS, d') /\
             d_blocks d' = <[0 := memcpy zero_block 0 (encode_superblock sb)]> (d_blocks d) /\
             same_geometry d d'.
Proof.
  intros Hi Hro Ht. unfold fs_ops_write_superblock, FS_SUPERBLOCK_BLOCK.
  destruct (write_block_ok d 0 (memcpy zero_block 0 (encode_superblock sb)) Hi Hro)
    as (d' & Hw & Hb & Hg).
  { apply block_in_bounds; auto; lia. }
  rewrite Hw. cbn [negb Z.eqb DISK_SUCCESS]. exists d'. auto.
Qed.

(** The writing loop succeeds when the disk accepts the blocks of the span. *)
Lemma write_bitmap_loop_ok n : forall block d bytes N bw start,
  d_is_initialized d = true -> d_is_read_only d = false ->
  (forall j, block <= j < block + Z.of_nat n ->
             disk_check_block_bounds d (to_int (u32 (start + j))) = true) ->
  exists d', write_bitmap_loop n block d bytes N bw start = (FS_SUCCESS, d') /\
             same_geometry d d' /\
             forall b, (forall j, block <= j < block + Z.of_nat n ->
                                  to_int (u32 (start + j)) <> b) ->
                       d_blocks d' !! b = d_blocks d !! b.
Proof.
  induction n as [| n IH]; intros block d bytes N bw start Hi Hro Hb;
    cbn [write_bitmap_loop].
  - exists d. split; [reflexivity |]. split; [apply same_geometry_refl | reflexivity].
  - destruct (bw <? N);
      [| exists d; split; [reflexivity |]; split; [apply same_geometry_refl | reflexivity]].
    match goal with |- context [write_block d ?n ?data] =>
      destruct (write_block_ok d n data Hi Hro) as (d1 & Hw & Hblocks & Hg) end.
    { apply Hb. lia. }
    rewrite Hw. cbn [negb Z.eqb DISK_SUCCESS].
    destruct (IH (block + 1) d1 bytes N
                 (u32 (bw + Z.min (u32 (N - bw)) DISK_BLOCK_SIZE)) start)
      as (d' & Hloop & Hg' & Hframe).
    { destruct Hg as (-> & _). exact Hi. }
    { destruct Hg as (_ & -> & _). exact Hro. }
    { intros j Hj. rewrite (same_geometry_bounds _ _ _ Hg). apply Hb. lia. }
    exists d'. split; [exact Hloop |]. split; [eapply same_geometry_trans; eauto |].
    intros b Hne. rewrite Hframe by (intros j Hj; apply Hne; lia).
    rewrite Hblocks. apply lookup_insert_ne. apply Hne. lia.
Qed.

Lemma fs_ops_write_bitmap_ok d bm bytes start :
  bm_bitmap bm = Some bytes -> 0 < bm_total_bits bm <= 32768 ->
  d_is_initialized d = true -> d_is_read_only d = false ->
  0 < start -> start + 4 <= d_total_blocks d -> d_total_blocks d < 2 ^ 31 ->
  exists d', fs_ops_write_bitmap d bm start FS_BITMAP_BLOCKS = (FS_SUCCESS, d') /\
             same_geometry d d' /\
             d_blocks d' !! 0 = d_blocks d !! 0.
Proof.
  intros Harr Ht Hi Hro Hs Hfit H31. unfold fs_ops_write_bitmap. rewrite Harr.
  unfold FS_BITMAP_BLOCKS, DISK_BLOCK_SIZE.
  assert (HN : 0 <= u32 (bm_total_bits bm + 7) / 8 <= 4096).
  { rewrite u32_small by lia. split.
    - apply Z.div_pos; lia.
    - assert (H : (bm_total_bits bm + 7) / 8 < 4097)
        by (apply Z.div_lt_upper_bound; lia).
      lia. }
  set (N := u32 (bm_total_bits bm + 7) / 8) in *.
  replace (u32 (4 * 1024) <? u32 (u32 (N + 1024 - 1) / 1024 * 1024)) with false.
  - destruct (write_bitmap_loop_ok (Z.to_nat 4) 0 d bytes N 0 start Hi Hro)
      as (d' & Hloop & Hg & Hframe).
    { intros j Hj. rewrite u32_small by lia. apply block_in_bounds; auto; lia. }
    exists d'. split; [exact Hloop |]. split; [exact Hg |].
    apply Hframe. intros j Hj. rewrite u32_small, to_int_small by lia. lia.
  - symmetry. apply Z.ltb_ge.
    rewrite (u32_small (N + 1024 - 1)) by lia.
    assert ((N + 1024 - 1) / 1024 < 5) by (apply Z.div_lt_upper_bound; lia).
    assert (0 <= (N + 1024 - 1) / 1024) by (apply Z.div_pos; lia).
    rewrite (u32_small ((N + 1024 - 1) / 1024 * 1024)) by lia.
    change (u32 (4 * 1024)) with 4096. lia.
Qed.

Lemma fs_ops_create_root_directory_ok w now :
  d_is_initialized (disk w) = true -> d_is_read_only (disk w) = false ->
  156 < d_total_blocks (disk w) < 2 ^ 31 ->
  sb_data_blocks_start (superblock (fs w)) = 156 ->
  sb_inode_table_start (superblock (fs w)) = 8 ->
  exists d',
    fs_ops_create_root_directory w now =
      (FS_SUCCESS,
       set_block_bitmap
         (set_inode_bitmap (set_disk w d')
                           (set_bitmap_bit (inode_bitmap (fs w)) ROOT_INODE_NUM))
         (set_bitmap_bit (block_bitmap (fs w)) 0)) /\
    same_geometry (disk w) d'.
Proof.
  intros Hi Hro Ht Hdata Htable. unfold fs_ops_create_root_directory.
  rewrite Hdata, Htable.
  match goal with |- context [write_block (disk w) 156 ?data] =>
    destruct (write_block_ok (disk w) 156 data Hi Hro) as (d1 & Hw1 & _ & Hg1) end.
  { apply block_in_bounds; auto; lia. }
  rewrite Hw1. cbn [negb Z.eqb DISK_SUCCESS].
  change (u32 (8 + ROOT_INODE_NUM / inodes_per_block)) with 8.
  match goal with |- context [write_block d1 8 ?data] =>
    destruct (write_block_ok d1 8 data) as (d2 & Hw2 & _ & Hg2) end.
  { destruct Hg1 as (-> & _). exact Hi. }
  { destruct Hg1 as (_ & -> & _). exact Hro. }
  { apply block_in_bounds.
    - destruct Hg1 as (-> & _). exact Hi.
    - destruct Hg1 as (_ & _ & -> & _). lia.
    - lia. }
  rewrite Hw2. cbn [negb Z.eqb DISK_SUCCESS]. simpl_world.
  exists d2. split; [reflexivity | eapply same_geometry_trans; eauto].
Qed.

Ltac simpl_superblock :=
  cbn [set_sb_checksum set_sb_free sb_magic_number sb_version sb_block_size
       sb_total_blocks sb_total_inodes sb_free_blocks sb_free_inodes
       sb_inode_table_start sb_inode_table_blocks sb_data_blocks_start sb_root_inode
       sb_mount_count sb_max_mount_count sb_created_time sb_last_mount_time
       sb_last_write_time sb_last_check_time sb_reserved sb_checksum] in *.

(** The superblock that [format_disk] writes last is well formed. *)
Lemma formatted_superblock_wf total now fi fb c :
  0 <= total < 2 ^ 32 -> 0 <= now < 2 ^ 64 ->
  0 <= fi < 2 ^ 32 -> 0 <= fb < 2 ^ 32 -> 0 <= c < 2 ^ 32 ->
  superblock_wf (set_sb_checksum (set_sb_free (fs_ops_init_superblock total now) fi fb) c).
Proof.
  intros Ht Hnow Hfi Hfb Hc. unfold superblock_wf. split; [reflexivity |].
  unfold fields_in_range, superblock_values, superblock_layout, fs_ops_init_superblock.
  simpl_superblock. cbn [repeat app combine].
  unfold FS_MAGIC_NUMBER, BLOCK_SIZE, FS_DEFAULT_MAX_INODES, FS_INODE_TABLE_START,
    ROOT_INODE_NUM.
  repeat (apply Forall_cons_2; [cbn [fst snd]; try apply u32_range; try lia |]).
  apply Forall_nil_2.
Qed.

Lemma sb_checksum_set sb c : sb_checksum (set_sb_checksum sb c) = c.
Proof. reflexivity. Qed.

Lemma sb_magic_number_set sb c :
  sb_magic_number (set_sb_checksum sb c) = sb_magic_number sb.
Proof. reflexivity. Qed.

Lemma set_sb_checksum_twice sb c c' :
  set_sb_checksum (set_sb_checksum sb c) c' = set_sb_checksum sb c'.
Proof. reflexivity. Qed.

(** Reading back a superblock that was written with its checksum. *)
Lemma read_written_superblock d sb sb0 :
  d_is_initialized d = true -> 0 < d_total_blocks d ->
  d_blocks d !! 0 = Some (memcpy zero_block 0 (encode_superblock sb)) ->
  superblock_wf sb ->
  sb_magic_number sb = FS_MAGIC_NUMBER ->
  sb_checksum sb = superblock_checksum (set_sb_checksum sb 0) ->
  fs_ops_read_superblock d sb0 = (FS_SUCCESS, sb).
Proof.
  intros Hi Ht Hblock Hwf Hmagic Hsum. unfold fs_ops_read_superblock, FS_SUPERBLOCK_BLOCK.
  rewrite read_block_ok; [| exact Hi | apply block_in_bounds; auto; lia].
  cbn [negb Z.eqb DISK_SUCCESS].
  pose proof (length_encode_superblock sb Hwf) as Hlen.
  assert (Hstored : stored_block d (to_int 0) = memcpy zero_block 0 (encode_superblock sb)).
  { unfold stored_block. change (to_int 0) with 0. rewrite Hblock. cbn [default].
    apply resize_all_alt. rewrite length_memcpy; [reflexivity |].
    rewrite Hlen. cbn. lia. }
  rewrite Hstored.
  assert (Hdec : decode_superblock (memcpy zero_block 0 (encode_superblock sb)) = sb).
  { unfold memcpy. change (firstn 0 zero_block) with (@nil byte). rewrite app_nil_l.
    apply decode_encode_superblock. exact Hwf. }
  rewrite Hdec, Hmagic, Z.eqb_refl. cbn [negb].
  rewrite <- Hsum, Z.eqb_refl. reflexivity.
Qed.

(** C3, as the code has it.  On an initialised disk of 157 to 32924 blocks
    (the data region starts at block 156, and a bitmap span of 4 blocks
    holds 32768 bits), formatting and then reading the superblock back
    succeeds and yields [free_inodes = total_inodes - 1] and
    [free_blocks = total_blocks - data_blocks_start - 1]. *)
Theorem format_then_read_superblock (w : world) (now : Z) (sb_buf : fs_superblock_t) :
  disk_reachable (disk w) -> 0 <= now < 2 ^ 63 ->
  157 <= d_total_blocks (disk w) <= 32924 ->
  exists sb,
    fs_ops_read_superblock (disk (format_disk w now)) sb_buf = (FS_SUCCESS, sb) /\
    sb_total_blocks sb = d_total_blocks (disk w) /\
    sb_total_inodes sb = FS_DEFAULT_MAX_INODES /\
    sb_data_blocks_start sb = 156 /\
    sb_free_inodes sb = sb_total_inodes sb - 1 /\
    sb_free_blocks sb = sb_total_blocks sb - sb_data_blocks_start sb - 1.
Proof.
  intros Hreach Hnow Htotal.
  destruct (disk_reachable_ready _ Hreach) as (Hi & Hro & Hbs).
  set (total := d_total_blocks (disk w)) in *.
  unfold format_disk, disk_is_initialized. rewrite Hi. cbn [negb].
  rewrite Hbs. change (DISK_BLOCK_SIZE =? BLOCK_SIZE) with true. cbn [negb].
  fold total.
  set (sb0 := fs_ops_init_superblock total now).
  assert (Hsb0 : sb_total_inodes sb0 = 1024 /\ sb_data_blocks_start sb0 = 156 /\
                 sb_inode_table_start sb0 = 8) by (repeat split; reflexivity).
  destruct Hsb0 as (Hinodes & Hdata & Htable).
  simpl_world.
  (* steps 1 and 2 *)
  destruct (fs_ops_write_superblock_ok (disk w) sb0 Hi Hro ltac:(fold total; lia))
    as (d1 & Hw1 & _ & Hg1).
  rewrite Hw1. cbn [negb Z.eqb FS_SUCCESS]. simpl_world.
  (* steps 3 and 4 *)
  rewrite Hinodes, Hdata.
  unfold fs_ops_init_bitmap at 1. change (1024 =? 0) with false. cbn iota.
  rewrite (u32_small (total - 156)) by lia.
  unfold fs_ops_init_bitmap at 1.
  destruct (total - 156 =? 0) eqn:Hz; [boolp; lia |]. clear Hz.
  cbn [negb Z.eqb FS_SUCCESS]. simpl_world.
  (* step 5 *)
  set (bmi := {| bm_bitmap := Some (zeros (Z.to_nat (u32 (1024 + 7) / 8)));
                 bm_total_bits := 1024; bm_free_count := 1024; bm_last_allocated := 0 |}).
  set (bmb := {| bm_bitmap := Some (zeros (Z.to_nat (u32 (total - 156 + 7) / 8)));
                 bm_total_bits := total - 156; bm_free_count := total - 156;
                 bm_last_allocated := 0 |}).
  assert (Hg1' : d_is_initialized d1 = true /\ d_is_read_only d1 = false /\
                 d_total_blocks d1 = total).
  { destruct Hg1 as (-> & -> & -> & _). auto. }
  destruct Hg1' as (Hi1 & Hro1 & Ht1).
  match goal with |- context [fs_ops_create_root_directory ?w0 now] =>
    destruct (fs_ops_create_root_directory_ok w0 now) as (d2 & Hroot & Hg2) end;
    simpl_world; auto; try lia.
  rewrite Hroot. cbn [negb Z.eqb FS_SUCCESS]. simpl_world.
  assert (Hg2' : d_is_initialized d2 = true /\ d_is_read_only d2 = false /\
                 d_total_blocks d2 = total).
  { destruct Hg2 as (-> & -> & -> & _). auto. }
  destruct Hg2' as (Hi2 & Hro2 & Ht2).
  (* the two bits of the root directory *)
  assert (Hbmi : set_bitmap_bit bmi ROOT_INODE_NUM =
                 {| bm_bitmap := Some (set_bit (zeros (Z.to_nat (u32 (1024 + 7) / 8))) 1);
                    bm_total_bits := 1024; bm_free_count := 1023;
                    bm_last_allocated := 0 |}) by reflexivity.
  assert (Hbmb : set_bitmap_bit bmb 0 =
                 {| bm_bitmap := Some (set_bit (zeros (Z.to_nat (u32 (total - 156 + 7) / 8))) 0);
                    bm_total_bits := total - 156; bm_free_count := total - 157;
                    bm_last_allocated := 0 |}).
  { unfold set_bitmap_bit, bmb. cbn [bm_bitmap bm_total_bits bm_free_count bm_last_allocated].
    destruct (total - 156 <=? 0) eqn:Hz; [boolp; lia |].
    rewrite bit_is_set_zeros. cbn [negb]. rewrite (u32_small (total - 156 - 1)) by lia.
    replace (total - 156 - 1) with (total - 157) by lia. reflexivity. }
  rewrite Hbmi, Hbmb.
  (* steps 6 and 7 *)
  match goal with |- context [fs_ops_write_bitmap d2 ?bm FS_INODE_BITMAP_BLOCK _] =>
    destruct (fs_ops_write_bitmap_ok d2 bm
                (set_bit (zeros (Z.to_nat (u32 (1024 + 7) / 8))) 1) FS_INODE_BITMAP_BLOCK)
      as (d3 & Hw3 & Hg3 & _) end;
    cbn [bm_bitmap bm_total_bits]; unfold FS_INODE_BITMAP_BLOCK; auto; try lia.
  unfold FS_INODE_BITMAP_BLOCK in *. rewrite Hw3. cbn [negb Z.eqb FS_SUCCESS]. simpl_world.
  assert (Hg3' : d_is_initialized d3 = true /\ d_is_read_only d3 = false /\
                 d_total_blocks d3 = total).
  { destruct Hg3 as (-> & -> & -> & _). auto. }
  destruct Hg3' as (Hi3 & Hro3 & Ht3).
  match goal with |- context [fs_ops_write_bitmap d3 ?bm FS_DATA_BITMAP_BLOCK _] =>
    destruct (fs_ops_write_bitmap_ok d3 bm
                (set_bit (zeros (Z.to_nat (u32 (total - 156 + 7) / 8))) 0) FS_DATA_BITMAP_BLOCK)
      as (d4 & Hw4 & Hg4 & _) end;
    cbn [bm_bitmap bm_total_bits]; unfold FS_DATA_BITMAP_BLOCK; auto; try lia.
  unfold FS_DATA_BITMAP_BLOCK in *. rewrite Hw4. cbn [negb Z.eqb FS_SUCCESS]. simpl_world.
  assert (Hg4' : d_is_initialized d4 = true /\ d_is_read_only d4 = false /\
                 d_total_blocks d4 = total).
  { destruct Hg4 as (-> & -> & -> & _). auto. }
  destruct Hg4' as (Hi4 & Hro4 & Ht4).
  (* step 8 *)
  cbn [bm_free_count]. rewrite set_sb_checksum_twice.
  set (sbf := set_sb_checksum (set_sb_free sb0 1023 (total - 157)) 0).
  set (sb1 := set_sb_checksum (set_sb_free sb0 1023 (total - 157)) (superblock_checksum sbf)).
  destruct (fs_ops_write_superblock_ok d4 sb1 Hi4 Hro4 ltac:(lia))
    as (d5 & Hw5 & Hb5 & Hg5).
  rewrite Hw5. cbn [negb Z.eqb FS_SUCCESS]. simpl_world.
  (* step 9, and the read *)
  exists sb1. split.
  - apply read_written_superblock.
    + unfold disk_sync. destruct Hg5 as (-> & _). rewrite Hi4. reflexivity.
    + unfold disk_sync. destruct Hg5 as (Hi5 & _ & Ht5 & _). rewrite Hi5, Hi4.
      cbn. rewrite Ht5. lia.
    + unfold disk_sync. destruct Hg5 as (Hi5 & _). rewrite Hi5, Hi4. cbn.
      rewrite Hb5. apply lookup_insert_eq.
    + apply formatted_superblock_wf; try lia.
      apply fs_ops_calculate_checksum_range.
    + unfold sb1. rewrite sb_magic_number_set. reflexivity.
    + unfold sb1, sbf. rewrite sb_checksum_set, set_sb_checksum_twice. reflexivity.
  - unfold sb1. clearbody sbf. generalize (superblock_checksum sbf). intros c.
    repeat split; try reflexivity.
    unfold sb0, fs_ops_init_superblock. simpl_superblock.
    unfold FS_DEFAULT_MAX_INODES. change (u32 (1024 - 1)) with 1023.
    change (u32 (FS_INODE_TABLE_START +
                 u32 ((1024 * sizeof_fs_inode_t + BLOCK_SIZE - 1) / BLOCK_SIZE))) with 156.
    lia.
Qed.

(* ===================================================================== *)
(** ** Offsets and blocks *)
(* ===================================================================== *)

Lemma block_offset_small off : 0 <= off -> block_offset_of off = off mod BLOCK_SIZE.
Proof.
  intros H. unfold block_offset_of, BLOCK_SIZE.
  pose proof (Z.mod_pos_bound off 1024 ltac:(lia)). apply u32_small. lia.
Qed.

(** The offsets up to the end of the block of [cur] have its block index. *)
Lemma same_block_index cur off :
  0 <= cur -> cur <= off < cur + (BLOCK_SIZE - cur mod BLOCK_SIZE) ->
  block_index_of off = block_index_of cur.
Proof.
  unfold block_index_of, BLOCK_SIZE. intros Hc Hoff. f_equal.
  pose proof (Z.div_mod cur 1024 ltac:(lia)) as Hdm.
  pose proof (Z.mod_pos_bound cur 1024 ltac:(lia)) as Hmb.
  symmetry. apply (Z.div_unique off 1024 (cur / 1024) (off - 1024 * (cur / 1024))); lia.
Qed.

(** The number of bytes moved in one round of the loops. *)
Lemma chunk_size cur size done :
  0 <= cur -> 0 <= done < size -> size < 2 ^ 31 ->
  let n := Z.min (u32 (BLOCK_SIZE - block_offset_of cur)) (u32 (size - done)) in
  0 < n /\ n <= size - done /\ n <= BLOCK_SIZE - cur mod BLOCK_SIZE.
Proof.
  intros Hc Hd Hs. rewrite block_offset_small by lia. unfold BLOCK_SIZE.
  pose proof (Z.mod_pos_bound cur 1024 ltac:(lia)) as Hmb.
  rewrite !u32_small by lia. cbn zeta. lia.
Qed.

(* ===================================================================== *)
(** ** Descriptors and cursors *)
(* ===================================================================== *)

Lemma validate_fd_in_table w fd :
  file_ops_validate_fd w fd = FS_SUCCESS ->
  0 <= fd < MAX_OPEN_FILES /\ (Z.to_nat fd < length (open_files (fs w)))%nat.
Proof.
  unfold file_ops_validate_fd.
  destruct ((fd <? 0) || (MAX_OPEN_FILES <=? fd)) eqn:Hr; [intros Hbad; codes; lia |].
  boolp.
  destruct (fh_reference_count (handle_at w fd) =? 0) eqn:Hz; [intros Hbad; codes; lia |].
  boolp. intros _. split; [lia |].
  destruct (Nat.lt_ge_cases (Z.to_nat fd) (length (open_files (fs w)))) as [Hlt | Hge];
    [exact Hlt |].
  exfalso. apply Hz. unfold handle_at. rewrite nth_overflow by exact Hge. reflexivity.
Qed.

Lemma cursor_set_position w fd pos :
  (Z.to_nat fd < length (open_files (fs w)))%nat ->
  cursor (set_position w fd pos) fd = pos.
Proof.
  intros Hlt. unfold cursor, set_position. rewrite handle_at_insert by exact Hlt.
  reflexivity.
Qed.

Lemma cursor_same_fs w w' fd : fs w' = fs w -> cursor w' fd = cursor w fd.
Proof. intros H. unfold cursor, handle_at. rewrite H. reflexivity. Qed.

Lemma load_if_needed_loaded w :
  fs_loaded w -> load_filesystem_state_if_needed w = Some (FS_SUCCESS, w).
Proof.
  unfold fs_loaded, load_filesystem_state_if_needed. intros ->.
  rewrite Z.eqb_refl. reflexivity.
Qed.

(** The part of [fs_write] and [fs_read] before the block loop. *)
Ltac enter_file_operation Hopen :=
  destruct Hopen as (Hloaded & Hfd & Hinode & Htype & Hperm);
  rewrite Hfd; cbn [negb Z.eqb FS_SUCCESS];
  rewrite (load_if_needed_loaded _ Hloaded); cbn [negb Z.eqb FS_SUCCESS];
  rewrite Hinode; cbn [negb Z.eqb FS_SUCCESS];
  rewrite Htype, Z.eqb_refl; cbn [negb];
  rewrite Hperm; cbn [negb].

(* ===================================================================== *)
(** ** Well-formed inodes *)
(* ===================================================================== *)

(** Take a [Forall] over an explicit list apart. *)
Ltac forall_inv :=
  repeat match goal with
  | H : Forall _ (_ :: _) |- _ =>
      let Hhd := fresh "Hhd" in
      apply Forall_cons_1 in H; destruct H as [Hhd H]; cbn [fst snd] in Hhd
  end.

Lemma inode_wf_ranges i :
  inode_wf i ->
  0 <= i_file_size i < 2 ^ 64 /\ 0 <= i_block_count i < 2 ^ 32 /\
  u32_list (i_direct_blocks i).
Proof.
  intros (Hd & Hr & Hrange).
  destruct i as [a0 a1 a2 a3 a4 a5 a6 a7 a8 a9 a10 a11 db a12 a13 a14 a15 a16 rs].
  cbn [i_direct_blocks i_reserved i_file_size i_block_count] in *.
  do 12 (destruct db as [| ? db]; [discriminate Hd |]).
  destruct db; [| discriminate Hd].
  do 4 (destruct rs as [| ? rs]; [discriminate Hr |]).
  destruct rs; [| discriminate Hr].
  unfold fields_in_range, inode_values, inode_layout in Hrange.
  cbn [i_inode_number i_file_type i_permissions i_owner_uid i_owner_gid i_link_count
       i_file_size i_block_count i_access_time i_modify_time i_change_time i_create_time
       i_direct_blocks i_indirect_block i_double_indirect_block i_triple_indirect_block
       i_flags i_generation i_reserved repeat app combine] in Hrange.
  forall_inv.
  split; [lia |]. split; [lia |].
  unfold u32_list. repeat (apply Forall_cons_2; [lia |]). apply Forall_nil_2.
Qed.

Lemma fs_ops_read_inode_wf w inode_number inode :
  fs_ops_read_inode w inode_number = (FS_SUCCESS, inode) -> inode_wf inode.
Proof.
  unfold fs_ops_read_inode.
  destruct ((inode_number =? 0) || _); [intros Hbad; injection Hbad as Hbad _; codes; lia |].
  destruct (read_block _ _ _) as [r blk].
  destruct (negb (r =? DISK_SUCCESS)); [intros Hbad; injection Hbad as Hbad _; codes; lia |].
  intros [= <-]. apply decode_inode_wf.
Qed.

(* ===================================================================== *)
(** ** The bytes of a file *)
(* ===================================================================== *)

(** Two copies into a buffer, one behind the other, are one copy. *)
Lemma memcpy_memcpy_app buf off (a b : list byte) :
  (off <= length buf)%nat ->
  memcpy (memcpy buf off a) (off + length a) b = memcpy buf off (a ++ b).
Proof.
  intros Hoff. unfold memcpy.
  assert (Hlen : length (firstn off buf) = off) by (rewrite length_take; lia).
  rewrite (app_assoc (firstn off buf) a).
  rewrite firstn_app_exact by (rewrite length_app, Hlen; reflexivity).
  rewrite <- (app_assoc (firstn off buf) a), <- !app_assoc. do 2 f_equal.
  rewrite (app_assoc (firstn off buf) a).
  replace (off + length a + length b)%nat
    with (length (firstn off buf ++ a) + length b)%nat
    by (rewrite length_app, Hlen; reflexivity).
  rewrite drop_app_add, length_app. f_equal.
  rewrite skipn_skipn. f_equal. lia.
Qed.

Lemma file_bytes_app d inode start a b :
  0 <= a -> 0 <= b ->
  file_bytes d inode start (a + b)
  = file_bytes d inode start a ++ file_bytes d inode (start + a) b.
Proof.
  intros Ha Hb. unfold file_bytes.
  rewrite Z2Nat.inj_add by lia. rewrite seq_app, map_app. f_equal.
  cbn [Nat.add]. rewrite <- (Nat.add_0_r (Z.to_nat a)) at 1.
  rewrite <- fmap_add_seq. rewrite map_map. apply map_ext.
  intros k. f_equal. lia.
Qed.

Lemma length_file_bytes d inode start n :
  length (file_bytes d inode start n) = Z.to_nat n.
Proof. unfold file_bytes. rewrite length_map, length_seq. reflexivity. Qed.

(** The bytes up to the end of a block are a part of that block. *)
Lemma file_bytes_chunk d inode cur c :
  0 <= cur -> 0 <= c <= BLOCK_SIZE - cur mod BLOCK_SIZE ->
  file_bytes d inode cur c
  = slice (stored_block d (to_int (file_ops_get_data_block inode (block_index_of cur))))
          (Z.to_nat (block_offset_of cur)) (Z.to_nat c).
Proof.
  intros Hcur Hc. unfold file_bytes, slice.
  pose proof (Z.mod_pos_bound cur 1024 ltac:(lia)) as Hmb.
  set (block := stored_block d _).
  assert (Hblock : length block = 1024%nat)
    by (unfold block, stored_block; rewrite length_resize; reflexivity).
  apply list_eq. intros k.
  rewrite list_lookup_fmap.
  destruct (Nat.lt_ge_cases k (Z.to_nat c)) as [Hk | Hk].
  - rewrite lookup_seq_lt by exact Hk. cbn [fmap option_fmap option_map Nat.add].
    rewrite lookup_take_lt by exact Hk. rewrite lookup_drop.
    unfold file_byte.
    rewrite (same_block_index cur (cur + Z.of_nat k)) by (unfold BLOCK_SIZE in *; lia).
    fold block.
    rewrite !block_offset_small by lia. unfold BLOCK_SIZE in *.
    replace ((cur + Z.of_nat k) mod 1024) with (cur mod 1024 + Z.of_nat k).
    2:{ apply (Z.mod_unique_pos _ _ (cur / 1024)); [lia |].
        pose proof (Z.div_mod cur 1024 ltac:(lia)). lia. }
    replace (Z.to_nat (cur mod 1024 + Z.of_nat k)) with (Z.to_nat (cur mod 1024) + k)%nat
      by lia.
    destruct (nth_lookup_or_length block (Z.to_nat (cur mod 1024) + k) Byte.x00)
      as [Hl | Hl]; [symmetry; exact Hl | lia].
  - rewrite lookup_seq_ge by exact Hk. cbn [fmap option_fmap option_map].
    symmetry. apply lookup_take_ge. exact Hk.
Qed.

Lemma memcpy_nil (buf : list byte) off : memcpy buf off [] = buf.
Proof.
  unfold memcpy. cbn [app length]. rewrite Nat.add_0_r. apply firstn_skipn.
Qed.

Lemma length_slice_block d b off n :
  (off + n <= 1024)%nat -> length (slice (stored_block d b) off n) = n.
Proof.
  intros H. unfold slice, stored_block.
  rewrite length_take, length_drop, length_resize.
  change (Z.to_nat DISK_BLOCK_SIZE) with 1024%nat. lia.
Qed.

Section ReadLoopBytes.
Variables (d : disk_state_t) (inode : fs_inode_t) (size start : Z).
Hypothesis Hstart : 0 <= start.
Hypothesis Hsize : 0 < size < 2 ^ 31.
Hypothesis Hend : start + size < 2 ^ 64.

(** What the loop has done when it is left: it has copied the bytes of the
    file up to the first block that is not mapped or that the disk does not
    read, and counted them. *)
Lemma read_loop_bytes fuel : forall buffer done,
  0 <= done <= size -> size - done < Z.of_nat fuel ->
  (Z.to_nat size <= length buffer)%nat ->
  exists n,
    read_loop fuel d inode buffer size (start + done) (start + size) done
    = Some (n, memcpy buffer (Z.to_nat done)
                      (file_bytes d inode (start + done) (n - done))) /\
    done <= n <= size /\
    (forall off, start + done <= off < start + n -> block_readable d inode off) /\
    (n < size -> ~ block_readable d inode (start + n)).
Proof.
  induction fuel as [| fuel IH]; intros buffer done Hdone Hfuel Hroom; [lia |].
  assert (Hstop : (done < size -> ~ block_readable d inode (start + done)) ->
            exists n,
              Some (done, buffer)
              = Some (n, memcpy buffer (Z.to_nat done)
                                (file_bytes d inode (start + done) (n - done))) /\
              done <= n <= size /\
              (forall off, start + done <= off < start + n -> block_readable d inode off) /\
              (n < size -> ~ block_readable d inode (start + n))).
  { intros HP. exists done. rewrite Z.sub_diag.
    change (file_bytes d inode (start + done) 0) with (@nil byte).
    rewrite memcpy_nil. split; [reflexivity |]. split; [lia |].
    split; [intros off Hoff; lia | exact HP]. }
  cbn [read_loop].
  destruct (start + done <? start + size) eqn:Hlt; boolp;
    [| apply Hstop; intros; lia].
  destruct (file_ops_get_data_block inode (block_index_of (start + done)) =? 0) eqn:Hblk;
    boolp; [apply Hstop; intros _ (Hmapped & _); contradiction |].
  destruct (read_block d _ zero_block) as [r block_data] eqn:Hread.
  destruct (negb (r =? DISK_SUCCESS)) eqn:Hr.
  { apply Hstop. intros _ (_ & Hok). rewrite Hread in Hok. cbn [fst] in Hok.
    subst r. discriminate Hr. }
  apply negb_false_iff, Z.eqb_eq in Hr. subst r.
  pose proof Hread as Hdata.
  apply read_block_inv in Hdata as [(_ & _ & _ & ->) | (Hneg & _)]; [| codes; lia].
  pose proof (chunk_size (start + done) size done ltac:(lia) ltac:(lia) ltac:(lia)) as Hn.
  cbn zeta in Hn.
  set (c := Z.min (u32 (BLOCK_SIZE - block_offset_of (start + done)))
                  (u32 (size - done))) in *.
  pose proof (Z.mod_pos_bound (start + done) 1024 ltac:(lia)) as Hmb.
  rewrite (u64_small (start + done + c)) by lia.
  rewrite (to_int_small (done + c)) by lia.
  replace (start + done + c) with (start + (done + c)) by lia.
  rewrite <- (file_bytes_chunk d inode (start + done) c) by lia.
  set (chunk := file_bytes d inode (start + done) c).
  assert (Hchunk : length chunk = Z.to_nat c) by apply length_file_bytes.
  destruct (IH (memcpy buffer (Z.to_nat done) chunk) (done + c)
               ltac:(lia) ltac:(lia)) as (n & Hloop & Hm & Hall & Hend').
  { rewrite length_memcpy by lia. exact Hroom. }
  exists n. split; [| split; [lia | split; [| exact Hend']]].
  - rewrite Hloop. do 2 f_equal.
    replace (Z.to_nat (done + c)) with (Z.to_nat done + length chunk)%nat by lia.
    rewrite memcpy_memcpy_app by lia. f_equal.
    replace (n - done) with (c + (n - (done + c))) by lia.
    rewrite file_bytes_app by lia. f_equal. f_equal. lia.
  - intros off Hoff.
    destruct (Z_lt_le_dec off (start + (done + c))) as [Hin | Hout].
    + unfold block_readable.
      rewrite (same_block_index (start + done) off) by lia.
      rewrite Hread. split; [exact Hblk | reflexivity].
    + apply Hall. lia.
Qed.
End ReadLoopBytes.

(** C1, as the code has it.  On an open regular file that the user may
    read, with a buffer of at least [size] bytes: when the cursor is below
    [file_size] and a block of the clamped range is not mapped, [fs_read]
    does not fail.  It stops at the first block of the range that is not
    mapped (or that the disk does not read) and returns the count [n] of the
    bytes before that block, which is not negative and less than the clamped
    length; the buffer holds those [n] bytes of the file, followed by what
    it held before; and the cursor advances by [n].  When the cursor is at
    or past [file_size], [fs_read] returns 0 and changes nothing. *)
Theorem fs_read_hole_is_short_read (w : world) (now fd : Z) (buf : list byte)
    (size : Z) (inode : fs_inode_t) :
  open_regular w fd inode FS_PERM_OWNER_READ ->
  0 < size -> int_range size -> (Z.to_nat size <= length buf)%nat ->
  0 <= cursor w fd ->
  (cursor w fd < i_file_size inode ->
   (exists off,
      cursor w fd <= off < cursor w fd + Z.min size (i_file_size inode - cursor w fd) /\
      file_ops_get_data_block inode (block_index_of off) = 0) ->
   exists n w',
     fs_read w now fd (Some buf) size
     = Some (n, Some (memcpy buf 0 (file_bytes (disk w) inode (cursor w fd) n)), w') /\
     0 <= n < Z.min size (i_file_size inode - cursor w fd) /\
     (forall off, cursor w fd <= off < cursor w fd + n ->
                  block_readable (disk w) inode off) /\
     ~ block_readable (disk w) inode (cursor w fd + n) /\
     ((forall off,
         cursor w fd <= off < cursor w fd + Z.min size (i_file_size inode - cursor w fd) ->
         file_ops_get_data_block inode (block_index_of off) <> 0 ->
         block_readable (disk w) inode off) ->
      file_ops_get_data_block inode (block_index_of (cursor w fd + n)) = 0) /\
     cursor w' fd = cursor w fd + n) /\
  (i_file_size inode <= cursor w fd ->
   fs_read w now fd (Some buf) size = Some (0, Some buf, w)).
Proof.
  intros Hopen Hpos Hint Hroom Hcur. unfold int_range in Hint.
  pose proof Hopen as (_ & Hvalid & Hread & _).
  apply validate_fd_in_table in Hvalid as (Hrange & Hlen).
  apply fs_ops_read_inode_wf, inode_wf_ranges in Hread as (Hfsz & _).
  split.
  - intros Hbelow (off & Hoff & Hhole). unfold fs_read.
    destruct (size <=? 0) eqn:Hs; [boolp; lia |]. clear Hs.
    enter_file_operation Hopen. fold (cursor w fd).
    destruct (i_file_size inode <=? cursor w fd) eqn:Heof; [boolp; lia |]. clear Heof.
    rewrite (u64_small (i_file_size inode - cursor w fd)) by lia.
    set (len := Z.min size (i_file_size inode - cursor w fd)) in *.
    assert (Hclamp : (if i_file_size inode - cursor w fd <? size
                      then to_int (i_file_size inode - cursor w fd) else size) = len).
    { destruct (i_file_size inode - cursor w fd <? size) eqn:Hc; boolp.
      - rewrite to_int_small by lia. unfold len. lia.
      - unfold len. lia. }
    rewrite Hclamp.
    rewrite (u64_small (cursor w fd + len)) by (unfold len; lia).
    destruct (read_loop_bytes (disk w) inode len (cursor w fd) ltac:(lia)
                ltac:(unfold len; lia) ltac:(unfold len; lia)
                (S (Z.to_nat len)) buf 0 ltac:(unfold len; lia) ltac:(lia)
                ltac:(unfold len; lia))
      as (n & Hloop & Hn & Hall & Hstop).
    rewrite Z.add_0_r, Z.sub_0_r in Hloop. change (Z.to_nat 0) with 0%nat in Hloop.
    rewrite Z.add_0_r in Hall.
    rewrite Hloop.
    assert (Hshort : n < len).
    { destruct (Z_lt_le_dec n len) as [Hlt | Hge]; [exact Hlt |].
      exfalso. destruct (Hall off ltac:(lia)) as (Hmapped & _). contradiction. }
    assert (Hfirst :
      (forall off0, cursor w fd <= off0 < cursor w fd + len ->
         file_ops_get_data_block inode (block_index_of off0) <> 0 ->
         block_readable (disk w) inode off0) ->
      file_ops_get_data_block inode (block_index_of (cursor w fd + n)) = 0).
    { intros Hdisk.
      destruct (Z.eq_dec (file_ops_get_data_block inode (block_index_of (cursor w fd + n))) 0)
        as [Hz | Hnz]; [exact Hz |].
      exfalso. apply (Hstop Hshort). apply Hdisk; [lia | exact Hnz]. }
    destruct (0 <? n) eqn:Hz; boolp.
    + eexists n, _. split; [reflexivity |]. split; [lia |].
      split; [exact Hall |]. split; [exact (Hstop Hshort) |]. split; [exact Hfirst |].
      unfold write_inode_to_disk.
      rewrite (cursor_same_fs _ _ fd (fs_ops_write_inode_fs _ _ _)).
      rewrite cursor_set_position by exact Hlen.
      apply u64_small. unfold len in *. lia.
    + exists n, w. split; [reflexivity |]. split; [lia |].
      split; [exact Hall |]. split; [exact (Hstop Hshort) |]. split; [exact Hfirst |]. lia.
  - intros Heof. unfold fs_read.
    destruct (size <=? 0) eqn:Hs; [boolp; lia |]. clear Hs.
    enter_file_operation Hopen. fold (cursor w fd).
    destruct (i_file_size inode <=? cursor w fd) eqn:Hc; [reflexivity | boolp; lia].
Qed.

(* ===================================================================== *)
(** ** The inode table *)
(* ===================================================================== *)

Lemma inode_offset_fits inode_number :
  (Z.to_nat (u32 (inode_number mod inodes_per_block * sizeof_fs_inode_t)) + 148 <= 1024)%nat.
Proof.
  unfold inodes_per_block, sizeof_fs_inode_t, DISK_BLOCK_SIZE.
  change (1024 / 148) with 6.
  pose proof (Z.mod_pos_bound inode_number 6 ltac:(lia)).
  rewrite u32_small by lia. lia.
Qed.

(** An inode that was written is the inode read afterwards. *)
Lemma write_then_read_inode w inode_number inode :
  inode_wf inode ->
  d_is_read_only (disk w) = false ->
  fst (fs_ops_read_inode w inode_number) = FS_SUCCESS ->
  exists w',
    fs_ops_write_inode w inode_number inode = (FS_SUCCESS, w') /\
    fs_ops_read_inode w' inode_number = (FS_SUCCESS, inode).
Proof.
  intros Hwf Hro. unfold fs_ops_read_inode, fs_ops_write_inode.
  destruct ((inode_number =? 0) || _) eqn:Hguard; [cbn [fst]; codes; lia |].
  pose proof (inode_offset_fits inode_number) as Hfit.
  set (blk := u32 (sb_inode_table_start (superblock (fs w)) + inode_number / inodes_per_block)).
  set (off := u32 (inode_number mod inodes_per_block * sizeof_fs_inode_t)) in *.
  destruct (read_block (disk w) blk zero_block) as [r block] eqn:Hr.
  destruct (negb (r =? DISK_SUCCESS)) eqn:Hrc; [cbn [fst]; codes; lia |].
  intros _. apply negb_false_iff, Z.eqb_eq in Hrc. subst r.
  pose proof (read_block_length _ _ _ _ _ Hr eq_refl) as Hlen.
  apply read_block_inv in Hr as [(_ & Hi & Hb & _) | (Hneg & _)]; [| codes; lia].
  destruct (write_block_ok (disk w) blk (memcpy block (Z.to_nat off) (encode_inode inode))
              Hi Hro Hb) as (d' & Hw & Hblocks & Hgeo).
  rewrite Hw. cbn [negb]. change (DISK_SUCCESS =? DISK_SUCCESS) with true. cbn [negb].
  eexists. split; [reflexivity |].
  simpl_world. rewrite Hguard. fold blk. fold off.
  rewrite (read_block_ok d' blk zero_block);
    [| destruct Hgeo as (-> & _); exact Hi
     | rewrite (same_geometry_bounds _ _ _ Hgeo); exact Hb].
  change (DISK_SUCCESS =? DISK_SUCCESS) with true. cbn [negb].
  f_equal.
  rewrite (stored_block_written _ _ _ _ Hblocks)
    by (rewrite length_memcpy; [exact Hlen | rewrite length_encode_inode by exact Hwf; lia]).
  rewrite skipn_memcpy by lia.
  apply decode_encode_inode. exact Hwf.
Qed.

(** Reading an inode keeps succeeding while the superblock and the geometry
    of the disk stay the same. *)
Lemma read_inode_succeeds_still w w' inode_number :
  superblock (fs w') = superblock (fs w) ->
  same_geometry (disk w) (disk w') ->
  fst (fs_ops_read_inode w inode_number) = FS_SUCCESS ->
  fst (fs_ops_read_inode w' inode_number) = FS_SUCCESS.
Proof.
  intros Hsb Hgeo. unfold fs_ops_read_inode. rewrite Hsb.
  destruct ((inode_number =? 0) || _); [cbn [fst]; codes; lia |].
  set (blk := u32 _).
  destruct (read_block (disk w) blk zero_block) as [r block] eqn:Hr.
  destruct (negb (r =? DISK_SUCCESS)) eqn:Hrc; [cbn [fst]; codes; lia |].
  intros _. apply negb_false_iff, Z.eqb_eq in Hrc. subst r.
  apply read_block_inv in Hr as [(_ & Hi & Hb & _) | (Hneg & _)]; [| codes; lia].
  rewrite (read_block_ok (disk w') blk zero_block);
    [| destruct Hgeo as (-> & _); exact Hi
     | rewrite (same_geometry_bounds _ _ _ Hgeo); exact Hb].
  reflexivity.
Qed.

(* ===================================================================== *)
(** ** What the block loop of [fs_write] keeps *)
(* ===================================================================== *)

Lemma same_files_refl w : same_files w w.
Proof. unfold same_files. auto using same_geometry_refl. Qed.

Lemma same_files_trans w1 w2 w3 :
  same_files w1 w2 -> same_files w2 w3 -> same_files w1 w3.
Proof.
  intros (Hs & Ho & Hg) (Hs' & Ho' & Hg'). unfold same_files.
  split; [congruence |]. split; [congruence |].
  exact (same_geometry_trans _ _ _ Hg Hg').
Qed.

Lemma same_but_blocks_refl inode : same_but_blocks inode inode.
Proof. exists (i_direct_blocks inode). destruct inode. reflexivity. Qed.

Lemma same_but_blocks_trans i1 i2 i3 :
  same_but_blocks i1 i2 -> same_but_blocks i2 i3 -> same_but_blocks i1 i3.
Proof. intros (db & ->) (db' & ->). exists db'. destruct i1. reflexivity. Qed.

Lemma inode_wf_blocks i db :
  inode_wf i -> length db = 12%nat -> u32_list db ->
  inode_wf (set_i_direct_blocks i db (i_block_count i)).
Proof.
  intros Hwf Hdb Hu32.
  pose proof (inode_wf_ranges i Hwf) as (Hsz & Hbc & _).
  destruct Hwf as (Hd & Hr & Hrange).
  destruct i as [a0 a1 a2 a3 a4 a5 a6 a7 a8 a9 a10 a11 db0 a12 a13 a14 a15 a16 rs].
  cbn [i_direct_blocks i_reserved i_block_count] in *.
  do 12 (destruct db0 as [| ? db0]; [discriminate Hd |]).
  destruct db0; [| discriminate Hd].
  do 12 (destruct db as [| ? db]; [discriminate Hdb |]).
  destruct db; [| discriminate Hdb].
  do 4 (destruct rs as [| ? rs]; [discriminate Hr |]).
  destruct rs; [| discriminate Hr].
  unfold fields_in_range, inode_values, inode_layout in Hrange.
  cbn [i_inode_number i_file_type i_permissions i_owner_uid i_owner_gid i_link_count
       i_file_size i_block_count i_access_time i_modify_time i_change_time i_create_time
       i_direct_blocks i_indirect_block i_double_indirect_block i_triple_indirect_block
       i_flags i_generation i_reserved repeat app combine] in Hrange.
  unfold u32_list in Hu32.
  forall_inv.
  unfold inode_wf. split; [reflexivity |]. split; [reflexivity |].
  unfold fields_in_range, inode_values, inode_layout.
  cbn [set_i_direct_blocks
       i_inode_number i_file_type i_permissions i_owner_uid i_owner_gid i_link_count
       i_file_size i_block_count i_access_time i_modify_time i_change_time i_create_time
       i_direct_blocks i_indirect_block i_double_indirect_block i_triple_indirect_block
       i_flags i_generation i_reserved repeat app combine].
  repeat (apply Forall_cons_2; [cbn [fst snd]; lia |]). apply Forall_nil_2.
Qed.

Lemma allocate_data_block_keeps w inode block_index b w' inode' :
  file_ops_allocate_data_block w inode block_index = Some (b, w', inode') ->
  inode_wf inode ->
  same_files w w' /\ disk w' = disk w /\ same_but_blocks inode inode' /\ inode_wf inode'.
Proof.
  unfold file_ops_allocate_data_block. intros Halloc Hwf.
  assert (Hsame : forall wa,
            superblock (fs wa) = superblock (fs w) ->
            open_files (fs wa) = open_files (fs w) ->
            disk wa = disk w -> same_files w wa).
  { intros wa Hs Ho Hd. unfold same_files. rewrite Hs, Ho, Hd.
    auto using same_geometry_refl. }
  destruct (block_index <? DIRECT_BLOCKS);
    [| injection Halloc as <- <- <-;
       auto using same_files_refl, same_but_blocks_refl].
  destruct (word_at (i_direct_blocks inode) block_index =? 0);
    [| injection Halloc as <- <- <-;
       auto using same_files_refl, same_but_blocks_refl].
  destruct (alloc_data_block_from_bitmap w) as [[new_block wa] |] eqn:Hbm;
    [| discriminate Halloc].
  assert (Hwa : same_files w wa /\ disk wa = disk w /\ 0 <= new_block < 2 ^ 32).
  { unfold alloc_data_block_from_bitmap in Hbm.
    repeat case_match; try discriminate Hbm; injection Hbm as <- <-;
      (split; [apply Hsame; reflexivity |]; split; [reflexivity |]);
      try apply u32_range; lia. }
  destruct Hwa as (Hfiles & Hdisk & Hnew).
  destruct (0 <? new_block); injection Halloc as <- <- <-;
    [| auto using same_but_blocks_refl].
  pose proof (inode_wf_ranges inode Hwf) as (_ & _ & Hu32).
  destruct (Hwf) as (Hd & _).
  split; [exact Hfiles |]. split; [exact Hdisk |].
  split; [eexists; reflexivity |].
  apply inode_wf_blocks; [exact Hwf | rewrite length_insert; exact Hd |].
  unfold u32_list. apply Forall_insert; [exact Hu32 | exact Hnew].
Qed.

Lemma write_loop_keeps data size end_offset : forall fuel w inode cur bw w' inode' n,
  write_loop fuel w inode data size cur end_offset bw = Some (w', inode', n) ->
  inode_wf inode ->
  same_files w w' /\ same_but_blocks inode inode' /\ inode_wf inode' /\
  (n = bw \/ d_is_read_only (disk w') = false).
Proof.
  induction fuel as [| fuel IH]; intros w inode cur bw w' inode' n Hloop Hwf;
    [discriminate Hloop |].
  cbn [write_loop] in Hloop.
  destruct (cur <? end_offset);
    [| injection Hloop as <- <- <-;
       auto using same_files_refl, same_but_blocks_refl].
  destruct (if file_ops_get_data_block inode (block_index_of cur) =? 0
            then file_ops_allocate_data_block w inode (block_index_of cur)
            else Some (file_ops_get_data_block inode (block_index_of cur), w, inode))
    as [[[block_num wa] inode_a] |] eqn:Hblock; [| discriminate Hloop].
  assert (Hstep : same_files w wa /\ same_but_blocks inode inode_a /\ inode_wf inode_a).
  { destruct (file_ops_get_data_block inode (block_index_of cur) =? 0).
    - apply allocate_data_block_keeps in Hblock; tauto.
    - injection Hblock as <- <- <-.
      auto using same_files_refl, same_but_blocks_refl. }
  destruct Hstep as (Hfiles & Hblocks & Hwfa).
  destruct (block_num =? 0); [injection Hloop as <- <- <-; auto |].
  destruct (read_block (disk wa) block_num zero_block) as [rr block_data].
  destruct (negb (rr =? DISK_SUCCESS)); [injection Hloop as <- <- <-; auto |].
  set (bytes_to_write := Z.min _ _) in Hloop.
  destruct (write_block (disk wa) block_num _) as [wr d] eqn:Hwrite.
  apply write_block_inv in Hwrite as [(-> & _ & Hro & _ & _ & Hgeo) | (Hneg & ->)].
  - change (negb (DISK_SUCCESS =? DISK_SUCCESS)) with false in Hloop. cbv iota in Hloop.
    apply IH in Hloop as (Hfiles' & Hblocks' & Hwf' & _); [| exact Hwfa].
    assert (Hwd : same_files wa (set_disk wa d)).
    { unfold same_files. simpl_world. auto. }
    pose proof (same_files_trans _ _ _ (same_files_trans _ _ _ Hfiles Hwd) Hfiles')
      as Hall.
    split; [exact Hall |].
    split; [exact (same_but_blocks_trans _ _ _ Hblocks Hblocks') |].
    split; [exact Hwf' |].
    right. destruct Hfiles' as (_ & _ & (_ & Hro' & _)).
    destruct Hgeo as (_ & Hro'' & _). simpl_world. congruence.
  - destruct (negb (wr =? DISK_SUCCESS)) eqn:Hwr.
    + injection Hloop as <- <- <-.
      split; [| auto].
      apply (same_files_trans _ _ _ Hfiles). unfold same_files. simpl_world.
      auto using same_geometry_refl.
    + apply negb_false_iff, Z.eqb_eq in Hwr. codes. lia.
Qed.

Lemma write_loop_count_range data size end_offset : forall fuel w inode cur bw w' inode' n,
  write_loop fuel w inode data size cur end_offset bw = Some (w', inode', n) ->
  n = bw \/ int_range n.
Proof.
  induction fuel as [| fuel IH]; intros w inode cur bw w' inode' n Hloop;
    [discriminate Hloop |].
  cbn [write_loop] in Hloop.
  destruct (cur <? end_offset); [| injection Hloop as _ _ <-; auto].
  destruct (if file_ops_get_data_block inode (block_index_of cur) =? 0 then _ else _)
    as [[[block_num wa] inode_a] |]; [| discriminate Hloop].
  destruct (block_num =? 0); [injection Hloop as _ _ <-; auto |].
  destruct (read_block (disk wa) block_num zero_block) as [rr block_data].
  destruct (negb (rr =? DISK_SUCCESS)); [injection Hloop as _ _ <-; auto |].
  destruct (write_block (disk wa) block_num _) as [wr d].
  destruct (negb (wr =? DISK_SUCCESS)); [injection Hloop as _ _ <-; auto |].
  apply IH in Hloop as [-> | Hrange]; right; [apply to_int_range | exact Hrange].
Qed.

(** [fs_write] on an open regular file, from the block loop on. *)
Lemma fs_write_open_regular w now fd data size inode :
  open_regular w fd inode FS_PERM_OWNER_WRITE -> 0 < size ->
  fs_write w now fd (Some data) size =
  match write_loop (S (Z.to_nat size)) w inode data size
                   (cursor w fd) (u64 (cursor w fd + size)) 0 with
  | None => None
  | Some (w2, inode2, bytes_written) =>
      if 0 <? bytes_written then
        let new_size := u64 (cursor w fd + bytes_written) in
        let inode3 :=
          if i_file_size inode2 <? new_size
          then set_i_size inode2 new_size (u32 (u64 (new_size + BLOCK_SIZE - 1) / BLOCK_SIZE))
          else inode2 in
        let inode4 := set_i_times inode3 (i_access_time inode3) now now in
        let w3 := snd (write_inode_to_disk w2 (fh_inode_number (handle_at w fd)) inode4) in
        Some (bytes_written, set_position w3 fd (u64 (cursor w fd + bytes_written)))
      else Some (bytes_written, w2)
  end.
Proof.
  intros Hopen Hpos. unfold fs_write.
  destruct (size <=? 0) eqn:Hs; [boolp; lia |]. clear Hs.
  enter_file_operation Hopen. reflexivity.
Qed.

Lemma inode_wf_size i file_size block_count :
  inode_wf i -> 0 <= file_size < 2 ^ 64 -> 0 <= block_count < 2 ^ 32 ->
  inode_wf (set_i_size i file_size block_count).
Proof.
  intros (Hd & Hr & Hrange) Hsz Hbc.
  destruct i as [a0 a1 a2 a3 a4 a5 a6 a7 a8 a9 a10 a11 db a12 a13 a14 a15 a16 rs].
  cbn [i_direct_blocks i_reserved] in *.
  do 12 (destruct db as [| ? db]; [discriminate Hd |]).
  destruct db; [| discriminate Hd].
  do 4 (destruct rs as [| ? rs]; [discriminate Hr |]).
  destruct rs; [| discriminate Hr].
  unfold fields_in_range, inode_values, inode_layout in Hrange.
  cbn [i_inode_number i_file_type i_permissions i_owner_uid i_owner_gid i_link_count
       i_file_size i_block_count i_access_time i_modify_time i_change_time i_create_time
       i_direct_blocks i_indirect_block i_double_indirect_block i_triple_indirect_block
       i_flags i_generation i_reserved repeat app combine] in Hrange.
  forall_inv.
  unfold inode_wf. split; [reflexivity |]. split; [reflexivity |].
  unfold fields_in_range, inode_values, inode_layout.
  cbn [set_i_size
       i_inode_number i_file_type i_permissions i_owner_uid i_owner_gid i_link_count
       i_file_size i_block_count i_access_time i_modify_time i_change_time i_create_time
       i_direct_blocks i_indirect_block i_double_indirect_block i_triple_indirect_block
       i_flags i_generation i_reserved repeat app combine].
  repeat (apply Forall_cons_2; [cbn [fst snd]; lia |]). apply Forall_nil_2.
Qed.

Lemma inode_wf_times i atime mtime ctime :
  inode_wf i -> 0 <= atime < 2 ^ 64 -> 0 <= mtime < 2 ^ 64 -> 0 <= ctime < 2 ^ 64 ->
  inode_wf (set_i_times i atime mtime ctime).
Proof.
  intros (Hd & Hr & Hrange) Ha Hm Hc.
  destruct i as [a0 a1 a2 a3 a4 a5 a6 a7 a8 a9 a10 a11 db a12 a13 a14 a15 a16 rs].
  cbn [i_direct_blocks i_reserved] in *.
  do 12 (destruct db as [| ? db]; [discriminate Hd |]).
  destruct db; [| discriminate Hd].
  do 4 (destruct rs as [| ? rs]; [discriminate Hr |]).
  destruct rs; [| discriminate Hr].
  unfold fields_in_range, inode_values, inode_layout in Hrange.
  cbn [i_inode_number i_file_type i_permissions i_owner_uid i_owner_gid i_link_count
       i_file_size i_block_count i_access_time i_modify_time i_change_time i_create_time
       i_direct_blocks i_indirect_block i_double_indirect_block i_triple_indirect_block
       i_flags i_generation i_reserved repeat app combine] in Hrange.
  forall_inv.
  unfold inode_wf. split; [reflexivity |]. split; [reflexivity |].
  unfold fields_in_range, inode_values, inode_layout.
  cbn [set_i_times
       i_inode_number i_file_type i_permissions i_owner_uid i_owner_gid i_link_count
       i_file_size i_block_count i_access_time i_modify_time i_change_time i_create_time
       i_direct_blocks i_indirect_block i_double_indirect_block i_triple_indirect_block
       i_flags i_generation i_reserved repeat app combine].
  repeat (apply Forall_cons_2; [cbn [fst snd]; lia |]). apply Forall_nil_2.
Qed.

Lemma inode_wf_access_time i : inode_wf i -> 0 <= i_access_time i < 2 ^ 64.
Proof.
  intros (Hd & Hr & Hrange).
  destruct i as [a0 a1 a2 a3 a4 a5 a6 a7 a8 a9 a10 a11 db a12 a13 a14 a15 a16 rs].
  cbn [i_direct_blocks i_reserved i_access_time] in *.
  do 12 (destruct db as [| ? db]; [discriminate Hd |]).
  destruct db; [| discriminate Hd].
  do 4 (destruct rs as [| ? rs]; [discriminate Hr |]).
  destruct rs; [| discriminate Hr].
  unfold fields_in_range, inode_values, inode_layout in Hrange.
  cbn [i_inode_number i_file_type i_permissions i_owner_uid i_owner_gid i_link_count
       i_file_size i_block_count i_access_time i_modify_time i_change_time i_create_time
       i_direct_blocks i_indirect_block i_double_indirect_block i_triple_indirect_block
       i_flags i_generation i_reserved repeat app combine] in Hrange.
  forall_inv. lia.
Qed.

(** C7, as the code has it.  After an [fs_write] on an open regular file
    that wrote [n > 0] bytes from cursor [c], the inode read back from the
    disk has: [file_size] the greater of the old [file_size] and [c + n];
    and [block_count], when the file grew, the number of blocks that
    [file_size] bytes take, [(file_size + BLOCK_SIZE - 1) / BLOCK_SIZE] as a
    32-bit value, and otherwise its old value. *)
Theorem fs_write_persists_size_and_block_count (w w' : world) (now fd : Z)
    (data : list byte) (size n : Z) (inode : fs_inode_t) :
  open_regular w fd inode FS_PERM_OWNER_WRITE ->
  0 <= cursor w fd < 2 ^ 63 ->
  0 <= now < 2 ^ 63 ->
  fs_write w now fd (Some data) size = Some (n, w') ->
  0 < n ->
  exists inode',
    read_inode_from_disk w' (fh_inode_number (handle_at w fd)) = (FS_SUCCESS, inode') /\
    i_file_size inode' = Z.max (i_file_size inode) (cursor w fd + n) /\
    i_block_count inode' =
      (if i_file_size inode <? cursor w fd + n
       then u32 ((cursor w fd + n + BLOCK_SIZE - 1) / BLOCK_SIZE)
       else i_block_count inode).
Proof.
  intros Hopen Hcur Hnow Hwrite Hn.
  destruct (Z_le_gt_dec size 0) as [Hle | Hpos].
  { unfold fs_write in Hwrite. apply Z.leb_le in Hle. rewrite Hle in Hwrite.
    injection Hwrite as <- _. codes. lia. }
  rewrite (fs_write_open_regular w now fd data size inode Hopen ltac:(lia)) in Hwrite.
  destruct Hopen as (_ & _ & Hread & _).
  unfold read_inode_from_disk in *.
  pose proof (fs_ops_read_inode_wf _ _ _ Hread) as Hwf.
  pose proof (inode_wf_ranges _ Hwf) as (Hfsz & Hbc & _).
  destruct (write_loop _ _ _ _ _ _ _ _) as [[[w2 inode2] m] |] eqn:Hloop;
    [| discriminate Hwrite].
  pose proof (write_loop_keeps _ _ _ _ _ _ _ _ _ _ _ Hloop Hwf)
    as ((Hsb & _ & Hgeo) & (db & Hblocks) & Hwf2 & Hro).
  pose proof (write_loop_count_range _ _ _ _ _ _ _ _ _ _ _ Hloop) as Hm.
  destruct (0 <? m) eqn:Hz; [| injection Hwrite as <- _; boolp; lia].
  injection Hwrite as -> <-.
  assert (Hint : 0 < n < 2 ^ 31) by (unfold int_range in Hm; lia).
  destruct Hro as [-> | Hro]; [lia |].
  set (ino := fh_inode_number (handle_at w fd)) in *.
  rewrite (u64_small (cursor w fd + n)) by lia.
  rewrite (u64_small (cursor w fd + n + BLOCK_SIZE - 1)) by (unfold BLOCK_SIZE; lia).
  assert (Hsz2 : i_file_size inode2 = i_file_size inode) by (rewrite Hblocks; reflexivity).
  assert (Hbc2 : i_block_count inode2 = i_block_count inode) by (rewrite Hblocks; reflexivity).
  rewrite Hsz2.
  set (inode3 := if i_file_size inode <? cursor w fd + n then _ else inode2).
  assert (Hwf3 : inode_wf inode3).
  { unfold inode3. destruct (i_file_size inode <? cursor w fd + n); [| exact Hwf2].
    apply inode_wf_size; [exact Hwf2 | lia | apply u32_range]. }
  set (inode4 := set_i_times inode3 (i_access_time inode3) now now).
  assert (Hwf4 : inode_wf inode4).
  { apply inode_wf_times; [exact Hwf3 | apply inode_wf_access_time; exact Hwf3 | lia | lia]. }
  destruct (write_then_read_inode w2 ino inode4 Hwf4 Hro) as (w3 & Hw3 & Hr3).
  { apply (read_inode_succeeds_still w w2 ino Hsb Hgeo). rewrite Hread. reflexivity. }
  unfold write_inode_to_disk. rewrite Hw3. cbn [snd].
  exists inode4. split.
  - unfold fs_ops_read_inode, set_position in *. simpl_world. exact Hr3.
  - unfold inode4, inode3.
    destruct (i_file_size inode <? cursor w fd + n) eqn:Hgrow; boolp.
    + cbn. split; [lia | reflexivity].
    + destruct inode2. cbn in *. split; [lia | congruence].
Qed.

(** Offsets past the block of [cur], less than [2 ^ 31] bytes away, have
    another block index. *)
Lemma other_block_index cur off :
  0 <= cur -> cur / BLOCK_SIZE < off / BLOCK_SIZE -> off < cur + 2 ^ 31 ->
  block_index_of off <> block_index_of cur.
Proof.
  unfold block_index_of, BLOCK_SIZE, u32. intros Hc Hlt Hoff Heq.
  pose proof (Z.div_mod cur 1024 ltac:(lia)) as Hc1.
  pose proof (Z.mod_pos_bound cur 1024 ltac:(lia)) as Hc2.
  pose proof (Z.div_mod off 1024 ltac:(lia)) as Ho1.
  pose proof (Z.mod_pos_bound off 1024 ltac:(lia)) as Ho2.
  set (a := off / 1024) in *. set (b := cur / 1024) in *.
  pose proof (Z.div_mod a (2 ^ 32) ltac:(lia)) as Ha.
  pose proof (Z.div_mod b (2 ^ 32) ltac:(lia)) as Hb.
  rewrite Heq in Ha.
  assert (Hd : a - b = 2 ^ 32 * (a / 2 ^ 32 - b / 2 ^ 32)) by lia.
  assert (Hsmall : 0 < a - b < 2 ^ 32) by lia.
  lia.
Qed.

Lemma word_at_insert_ne (l : list Z) (i j v : Z) :
  0 <= i -> 0 <= j -> i <> j -> word_at (<[Z.to_nat i := v]> l) j = word_at l j.
Proof.
  intros Hi Hj Hne. unfold word_at. rewrite !nth_lookup.
  rewrite list_lookup_insert_ne by lia. reflexivity.
Qed.

Lemma block_index_nonneg off : 0 <= block_index_of off.
Proof. unfold block_index_of. apply u32_range. Qed.

(** The outcomes of [file_ops_allocate_data_block] for a block that is not
    mapped, when the array of the bitmap is there: nothing is allocated, or
    one bit less is free and only the pointer at [block_index] changed. *)
Lemma allocate_data_block_outcomes w inode block_index :
  bm_bitmap (block_bitmap (fs w)) <> None ->
  0 <= bm_free_count (block_bitmap (fs w)) < 2 ^ 32 ->
  0 <= block_index ->
  file_ops_get_data_block inode block_index = 0 ->
  exists b w' inode',
    file_ops_allocate_data_block w inode block_index = Some (b, w', inode') /\
    bm_bitmap (block_bitmap (fs w')) <> None /\
    (b = 0 \/
     b <> 0 /\
     bm_free_count (block_bitmap (fs w')) = bm_free_count (block_bitmap (fs w)) - 1 /\
     0 < bm_free_count (block_bitmap (fs w)) /\
     forall j, 0 <= j -> j <> block_index ->
               file_ops_get_data_block inode' j = file_ops_get_data_block inode j).
Proof.
  intros Harr Hfree Hidx Hget.
  unfold file_ops_allocate_data_block, file_ops_get_data_block in *.
  destruct (block_index <? DIRECT_BLOCKS) eqn:Hlt;
    [| exists 0, w, inode; split; [reflexivity |]; split; [exact Harr | left; reflexivity]].
  cbv iota in Hget. rewrite Hget. cbn [Z.eqb].
  unfold alloc_data_block_from_bitmap.
  destruct (bm_free_count (block_bitmap (fs w)) =? 0) eqn:Hz.
  { cbn [Z.ltb Z.compare].
    exists 0, w, inode. split; [reflexivity |]. split; [exact Harr | left; reflexivity]. }
  destruct (bm_total_bits (block_bitmap (fs w)) <=? 0).
  { cbn [Z.ltb Z.compare].
    exists 0, w, inode. split; [reflexivity |]. split; [exact Harr | left; reflexivity]. }
  destruct (bm_bitmap (block_bitmap (fs w))) as [bytes |] eqn:Hbytes; [| contradiction].
  destruct (alloc_scan _ 0 bytes _ _) as [bit_num |].
  2:{ cbn [Z.ltb Z.compare].
      exists 0, w, inode. split; [reflexivity |].
      split; [rewrite Hbytes; discriminate | left; reflexivity]. }
  set (new_block := u32 (bit_num + sb_data_blocks_start (superblock (fs w)))).
  destruct (0 <? new_block) eqn:Hnew.
  - eexists new_block, _, _. split; [reflexivity |]. simpl_world.
    split; [discriminate |]. right. boolp.
    split; [lia |]. split; [apply u32_small; lia |]. split; [lia |].
    intros j Hj Hne. cbn [set_i_direct_blocks i_direct_blocks].
    destruct (j <? DIRECT_BLOCKS); [| reflexivity].
    apply word_at_insert_ne; [exact Hidx | exact Hj | congruence].
  - eexists 0, _, inode. split; [reflexivity |]. simpl_world.
    split; [discriminate | left; reflexivity].
Qed.

Section WriteLoop.
Variables (data : list byte) (size start : Z).
Hypothesis Hstart : 0 <= start.
Hypothesis Hsize : 0 < size < 2 ^ 31.
Hypothesis Hend : start + size < 2 ^ 64.

(** With enough fuel the loop returns, and it returns early when the
    range has more blocks that are not mapped than the bitmap has free
    bits. *)
Lemma write_loop_returns fuel : forall w inode done offs,
  bm_bitmap (block_bitmap (fs w)) <> None ->
  0 <= bm_free_count (block_bitmap (fs w)) < 2 ^ 32 ->
  0 <= done <= size -> size - done < Z.of_nat fuel ->
  exists w' inode' n,
    write_loop fuel w inode data size (start + done) (start + size) done
    = Some (w', inode', n) /\
    done <= n <= size /\
    (unmapped_blocks_in inode (start + done) (start + size) offs ->
     bm_free_count (block_bitmap (fs w)) < Z.of_nat (length offs) ->
     n < size).
Proof.
  induction fuel as [| fuel IH]; intros w inode done offs Harr Hfree Hdone Hfuel; [lia |].
  cbn [write_loop].
  destruct (start + done <? start + size) eqn:Hlt; boolp.
  2:{ exists w, inode, done. split; [reflexivity |]. split; [lia |].
      intros (Hall & _) Hmore. destruct offs as [| off offs]; [cbn in Hmore; lia |].
      apply Forall_cons_1 in Hall as ((Hoff & _) & _). lia. }
  pose proof (chunk_size (start + done) size done ltac:(lia) ltac:(lia) ltac:(lia)) as Hn.
  cbn zeta in Hn.
  set (n := Z.min (u32 (BLOCK_SIZE - block_offset_of (start + done)))
                  (u32 (size - done))) in *.
  set (idx := block_index_of (start + done)).
  (* the rest of the round, once the block number is known *)
  assert (Hrest : forall block_num wa inode_a offs_a,
    bm_bitmap (block_bitmap (fs wa)) <> None ->
    0 <= bm_free_count (block_bitmap (fs wa)) < 2 ^ 32 ->
    exists w' inode' m,
      (if block_num =? 0 then Some (wa, inode_a, done)
       else
         let '(disk_result, block_data) := read_block (disk wa) block_num zero_block in
         if negb (disk_result =? DISK_SUCCESS) then Some (wa, inode_a, done)
         else
           let '(disk_result, d) :=
             write_block (disk wa) block_num
               (memcpy block_data (Z.to_nat (block_offset_of (start + done)))
                       (slice data (Z.to_nat done) (Z.to_nat n))) in
           if negb (disk_result =? DISK_SUCCESS) then Some (set_disk wa d, inode_a, done)
           else write_loop fuel (set_disk wa d) inode_a data size
                           (u64 (start + done + n)) (start + size) (to_int (done + n)))
      = Some (w', inode', m) /\
      done <= m <= size /\
      (unmapped_blocks_in inode_a (start + (done + n)) (start + size) offs_a ->
       bm_free_count (block_bitmap (fs wa)) < Z.of_nat (length offs_a) ->
       m < size)).
  { intros block_num wa inode_a offs_a Harr_a Hfree_a.
    destruct (block_num =? 0);
      [exists wa, inode_a, done; split; [reflexivity |]; split; [lia |]; intros; lia |].
    destruct (read_block (disk wa) block_num zero_block) as [r block_data].
    destruct (negb (r =? DISK_SUCCESS));
      [exists wa, inode_a, done; split; [reflexivity |]; split; [lia |]; intros; lia |].
    destruct (write_block (disk wa) block_num _) as [r' d'].
    destruct (negb (r' =? DISK_SUCCESS));
      [exists (set_disk wa d'), inode_a, done; split; [reflexivity |];
       split; [lia |]; intros; lia |].
    rewrite (u64_small (start + done + n)) by lia.
    rewrite (to_int_small (done + n)) by lia.
    replace (start + done + n) with (start + (done + n)) by lia.
    destruct (IH (set_disk wa d') inode_a (done + n) offs_a Harr_a Hfree_a
                ltac:(lia) ltac:(lia)) as (w' & inode' & m & Hloop & Hm & Hshort).
    exists w', inode', m. split; [exact Hloop |]. split; [lia |]. exact Hshort. }
  (* offsets of the list that are not in this round's block *)
  assert (Hlater : forall off,
            start + done <= off < start + size ->
            block_index_of off <> idx -> start + (done + n) <= off).
  { intros off Hoff Hne.
    destruct (Z_lt_le_dec off (start + (done + n))) as [Hin | Hout]; [| exact Hout].
    exfalso. apply Hne. apply same_block_index; lia. }
  destruct (file_ops_get_data_block inode idx =? 0) eqn:Hblk; boolp.
  - (* the block is not mapped: allocate *)
    destruct (allocate_data_block_outcomes w inode idx Harr Hfree
                (block_index_nonneg _) Hblk)
      as (b & wa & inode_a & Halloc & Harr_a & Hout).
    rewrite Halloc.
    destruct Hout as [-> | (Hb & Hfree_a & Hpos & Hsame)].
    + cbn [Z.eqb]. exists wa, inode_a, done. split; [reflexivity |].
      split; [lia |]. intros; lia.
    + (* one offset of the list at most is in this block *)
      set (offs_a := match offs with
                     | off :: rest =>
                         if off / BLOCK_SIZE =? (start + done) / BLOCK_SIZE
                         then rest else offs
                     | [] => []
                     end).
      destruct (Hrest b wa inode_a offs_a Harr_a ltac:(lia))
        as (w' & inode' & m & Hloop & Hm & Hshort).
      exists w', inode', m. split; [exact Hloop |]. split; [exact Hm |].
      intros (Hall & Hsorted) Hmore.
      assert (Hoffs :
        Forall (fun o => (start + done <= o < start + size /\
                          file_ops_get_data_block inode (block_index_of o) = 0) /\
                         (start + done) / BLOCK_SIZE < o / BLOCK_SIZE) offs_a /\
        StronglySorted (fun a b => a / BLOCK_SIZE < b / BLOCK_SIZE) offs_a /\
        (length offs <= length offs_a + 1)%nat).
      { destruct offs as [| off rest]; [cbn in Hmore; lia |].
        apply Forall_cons_1 in Hall as ((Hoff & Hhole) & Hall).
        apply StronglySorted_inv in Hsorted as (Hsorted & Hhd).
        assert (Hle : (start + done) / BLOCK_SIZE <= off / BLOCK_SIZE)
          by (apply Z.div_le_mono; unfold BLOCK_SIZE; lia).
        assert (Hrest_past :
                  Forall (fun o => (start + done <= o < start + size /\
                            file_ops_get_data_block inode (block_index_of o) = 0) /\
                            (start + done) / BLOCK_SIZE < o / BLOCK_SIZE) rest).
        { rewrite Forall_forall in Hall, Hhd. apply Forall_forall. intros o Ho.
          specialize (Hall o Ho). specialize (Hhd o Ho). cbn beta in Hall, Hhd.
          split; [exact Hall | lia]. }
        subst offs_a.
        destruct (off / BLOCK_SIZE =? (start + done) / BLOCK_SIZE) eqn:Hsame_block; boolp.
        - split; [exact Hrest_past |]. split; [exact Hsorted | cbn [length]; lia].
        - split; [| split; [constructor; assumption | lia]].
          apply Forall_cons_2; [| exact Hrest_past].
          split; [split; assumption | lia]. }
      destruct Hoffs as (Hpast & Hsorted_a & Hlen).
      apply Hshort; [| lia].
      split; [| exact Hsorted_a].
      eapply Forall_impl; [exact Hpast |]. cbn beta.
      intros o ((Hoff & Hhole) & Hgt).
      assert (Hne : block_index_of o <> idx)
        by (apply other_block_index; lia).
      split; [split; [apply Hlater; assumption | lia] |].
      rewrite Hsame; [exact Hhole | apply block_index_nonneg | exact Hne].
  - (* the block is mapped *)
    destruct (Hrest (file_ops_get_data_block inode idx) w inode offs Harr Hfree)
      as (w' & inode' & m & Hloop & Hm & Hshort).
    exists w', inode', m. split; [exact Hloop |]. split; [exact Hm |].
    intros (Hall & Hsorted) Hmore. apply Hshort; [| exact Hmore].
    split; [| exact Hsorted].
    eapply Forall_impl; [exact Hall |]. cbn beta.
    intros off (Hoff & Hhole). split; [| exact Hhole].
    split; [| lia]. apply Hlater; [exact Hoff |].
    intros Heq. rewrite Heq in Hhole. contradiction.
Qed.
End WriteLoop.

Lemma cursor_same_table w w' fd :
  open_files (fs w') = open_files (fs w) -> cursor w' fd = cursor w fd.
Proof. intros H. unfold cursor, handle_at. rewrite H. reflexivity. Qed.

(* ===================================================================== *)
(** ** The statements at concrete states *)
(* ===================================================================== *)

(** Facts about concrete states, by evaluation. *)
Ltac evaluate :=
  vm_compute;
  repeat match goal with |- _ /\ _ => split end;
  reflexivity.

(** C1 does not hold as stated: the file [a] has 2049 bytes, its first
    block is mapped and its second block is not; reading 2000 bytes at
    cursor 0 returns 1024, the count of the bytes of the first block, which
    are in the buffer; it does not return [FS_ERROR_IO]. *)
Lemma fs_read_over_hole_returns_the_count :
  open_regular w_gap 0 (inode_of w_gap 2) FS_PERM_OWNER_READ /\
  cursor w_gap 0 = 0 /\
  i_file_size (inode_of w_gap 2) = 2049 /\
  file_ops_get_data_block (inode_of w_gap 2) (block_index_of 1024) = 0 /\
  option_map fst (fs_read w_gap 1006 0 (Some (zeros 2000)) 2000)
  = Some (1024, Some (repeat Byte.x41 1024 ++ zeros 976)) /\
  FS_ERROR_IO = -11.
Proof. evaluate. Qed.

Lemma fs_read_hole_is_short_read_witness :
  exists w',
    fs_read w_gap 1006 0 (Some (zeros 2000)) 2000
    = Some (1024, Some (repeat Byte.x41 1024 ++ zeros 976), w') /\
    ~ block_readable (disk w_gap) (inode_of w_gap 2) 1024 /\
    cursor w' 0 = 1024.
Proof.
  assert (Hopen : open_regular w_gap 0 (inode_of w_gap 2) FS_PERM_OWNER_READ)
    by evaluate.
  assert (Hcursor : cursor w_gap 0 = 0) by evaluate.
  assert (Hsize : i_file_size (inode_of w_gap 2) = 2049) by evaluate.
  assert (Hhole : file_ops_get_data_block (inode_of w_gap 2) (block_index_of 1024) = 0)
    by evaluate.
  destruct (fs_read_hole_is_short_read w_gap 1006 0 (zeros 2000) 2000
              (inode_of w_gap 2) Hopen ltac:(lia) ltac:(unfold int_range; lia)
              ltac:(cbn; lia) ltac:(lia)) as [Hshort _].
  destruct Hshort as (n & w' & Hread & _ & _ & Hstop & _ & Hcur).
  - lia.
  - exists 1024. split; [lia | exact Hhole].
  - assert (Hn : n = 1024).
    { apply (f_equal (option_map (fun r => fst (fst r)))) in Hread.
      vm_compute in Hread. congruence. }
    subst n. exists w'. rewrite Hcursor in *.
    split; [| split; [exact Hstop | exact Hcur]].
    assert (Hbuf : memcpy (zeros 2000) 0
                          (file_bytes (disk w_gap) (inode_of w_gap 2) 0 1024)
                   = repeat Byte.x41 1024 ++ zeros 976) by evaluate.
    rewrite Hread, Hbuf. reflexivity.
Defined.

(** C2 does not hold as stated: after four allocations and the release of
    bit 3 the last allocated index is 3; the allocator returns bit 3 again,
    where a scan that starts just after the last allocated index returns
    bit 4. *)
Lemma allocation_restarts_at_last_allocated :
  bm_last_allocated bitmap_after_free = 3 /\
  bm_free_count bitmap_after_free = 5 /\
  fst (alloc_bitmap_bit bitmap_after_free) = 3 /\
  fst (spec_allocate bitmap_after_free) = 4.
Proof. evaluate. Qed.

Lemma alloc_bitmap_bit_scans_from_cursor_witness :
  exists k,
    first_free_from [Byte.x07] (bm_total_bits bitmap_after_free)
                    (bm_last_allocated bitmap_after_free) k /\
    fst (alloc_bitmap_bit bitmap_after_free) =
    (bm_last_allocated bitmap_after_free + k) mod bm_total_bits bitmap_after_free.
Proof.
  assert (Hwf : bitmap_wf bitmap_after_free [Byte.x07]).
  { constructor.
    - evaluate.
    - change (bm_total_bits bitmap_after_free) with 8. lia.
    - evaluate.
    - evaluate.
    - change (bm_last_allocated bitmap_after_free) with 3.
      change (bm_total_bits bitmap_after_free) with 8. lia. }
  destruct (alloc_bitmap_bit_scans_from_cursor bitmap_after_free [Byte.x07] Hwf)
    as (_ & Hfree & _).
  destruct Hfree as (k & Hfirst & Halloc & _).
  - change (bm_free_count bitmap_after_free) with 5. lia.
  - exists k. split; [exact Hfirst |]. rewrite Halloc. reflexivity.
Defined.

(** C3 does not hold as stated: the bitmap of the 39844 data blocks of a
    disk of 40000 blocks does not fit the 4 blocks of its span, the format
    stops there, and the superblock on the disk is the one written before
    the root directory was made: it counts every data block as free. *)
Lemma format_of_large_disk_counts :
  exists sb,
    fs_ops_read_superblock (disk (format_disk (world_at_start 40000 0) 1000))
                           superblock_zero = (FS_SUCCESS, sb) /\
    sb_total_blocks sb = 40000 /\
    sb_data_blocks_start sb = 156 /\
    sb_free_blocks sb = 39844.
Proof.
  eexists. split; [vm_compute; reflexivity |]. evaluate.
Qed.

Lemma format_then_read_superblock_witness :
  exists sb,
    fs_ops_read_superblock (disk (format_disk (world_at_start 200 0) 1000))
                           superblock_zero = (FS_SUCCESS, sb) /\
    sb_total_blocks sb = d_total_blocks (disk (world_at_start 200 0)) /\
    sb_total_inodes sb = FS_DEFAULT_MAX_INODES /\
    sb_data_blocks_start sb = 156 /\
    sb_free_inodes sb = sb_total_inodes sb - 1 /\
    sb_free_blocks sb = sb_total_blocks sb - sb_data_blocks_start sb - 1.
Proof.
  apply (format_then_read_superblock (world_at_start 200 0) 1000 superblock_zero).
  - apply (reach_init disk_state_zero None (200 * DISK_BLOCK_SIZE)). evaluate.
  - lia.
  - change (d_total_blocks (disk (world_at_start 200 0))) with 200. lia.
Defined.

(** C4 does not hold as stated: user 1000 owns the file [a] and has cleared
    its permission bits; as the current user and the owner, [fs_open]
    answers [FS_ERROR_PERMISSION]. *)
Lemma owner_without_read_bit_is_refused :
  user_manager_get_current_user w_locked = Some alice /\
  fs_ops_read_inode w_locked 2 = (FS_SUCCESS, inode_of w_locked 2) /\
  find_file_in_directory w_locked ROOT_INODE_NUM file_a = 2 /\
  i_file_type (inode_of w_locked 2) = FS_FILE_TYPE_REGULAR /\
  i_owner_uid (inode_of w_locked 2) = usr_uid alice /\
  i_permissions (inode_of w_locked 2) = 0 /\
  fs_open w_locked 1004 (Some file_a) = Some (FS_ERROR_PERMISSION, w_locked).
Proof. evaluate. Qed.

Lemma fs_open_read_permission_witness :
  fs_open w_locked 1004 (Some file_a) = Some (FS_ERROR_PERMISSION, w_locked).
Proof.
  assert (Hloaded : fs_loaded w_locked) by evaluate.
  assert (Hname : names_regular_file w_locked file_a 2 (inode_of w_locked 2)).
  { exists file_a. split; [evaluate |]. split; [discriminate |].
    split; [evaluate |]. split; [lia |]. split; evaluate. }
  assert (Huser : user_manager_get_current_user w_locked = Some alice) by evaluate.
  destruct (fs_open_read_permission w_locked 1004 file_a 2 (inode_of w_locked 2) alice
              Hloaded Hname Huser) as [Hrefused _].
  apply Hrefused.
  - change (usr_uid alice) with 1000. lia.
  - evaluate.
Defined.

Lemma block_range_error_leaves_disk_witness :
  disk_read_block (blank_disk 200) 200 (Some zero_block)
  = (DISK_ERROR_BLOCK_RANGE, Some zero_block) /\
  disk_write_block (blank_disk 200) 200 (Some zero_block)
  = (DISK_ERROR_BLOCK_RANGE, blank_disk 200).
Proof.
  apply (block_range_error_leaves_disk (blank_disk 200) 200 zero_block zero_block).
  - apply (reach_init disk_state_zero None (200 * DISK_BLOCK_SIZE)). evaluate.
  - unfold int_range. lia.
  - right. change (d_total_blocks (blank_disk 200)) with 200. lia.
Defined.

(** C7 does not hold as stated: one byte written at offset 2048 of the
    empty file [a] maps one block, the third; the inode on the disk has
    [block_count] 3, the number of blocks that 2049 bytes take. *)
Lemma sparse_write_counts_blocks_of_size :
  open_regular w_seeked 0 (inode_of w_seeked 2) FS_PERM_OWNER_WRITE /\
  cursor w_seeked 0 = 2048 /\
  fs_write w_seeked 1004 0 (Some [Byte.x41]) 1 = Some (1, w_written) /\
  read_inode_from_disk w_written 2 = (FS_SUCCESS, inode_of w_written 2) /\
  i_direct_blocks (inode_of w_written 2) = [0; 0; 157; 0; 0; 0; 0; 0; 0; 0; 0; 0] /\
  blocks_in_use (inode_of w_written 2) = 1 /\
  i_block_count (inode_of w_written 2) = 3 /\
  i_file_size (inode_of w_written 2) = 2049.
Proof. evaluate. Qed.

Lemma fs_write_persists_size_and_block_count_witness :
  exists inode',
    read_inode_from_disk w_written (fh_inode_number (handle_at w_seeked 0))
    = (FS_SUCCESS, inode') /\
    i_file_size inode' = Z.max (i_file_size (inode_of w_seeked 2)) (cursor w_seeked 0 + 1) /\
    i_block_count inode' =
      (if i_file_size (inode_of w_seeked 2) <? cursor w_seeked 0 + 1
       then u32 ((cursor w_seeked 0 + 1 + BLOCK_SIZE - 1) / BLOCK_SIZE)
       else i_block_count (inode_of w_seeked 2)).
Proof.
  assert (Hcursor : cursor w_seeked 0 = 2048) by evaluate.
  apply (fs_write_persists_size_and_block_count w_seeked w_written 1004 0 [Byte.x41] 1 1
           (inode_of w_seeked 2)).
  - evaluate.
  - rewrite Hcursor. lia.
  - lia.
  - evaluate.
  - lia.
Defined.

(** C8 at a directory with a deleted entry.  The root directory has two
    blocks, and slot 2 of the first one is not valid.  The new name goes
    into that slot, the first one that is not valid, and no block is
    allocated; but the inode written back has [file_size] 1024, one block,
    while two direct blocks are in use. *)
Theorem add_file_to_directory_shrinks_size :
  let r := add_file_to_directory w_deleted_entry 1002 ROOT_INODE_NUM [Byte.x62] 14 in
  i_direct_blocks (inode_of w_deleted_entry 1) = [156; 157; 0; 0; 0; 0; 0; 0; 0; 0; 0; 0] /\
  i_file_size (inode_of w_deleted_entry 1) = 2048 /\
  find_free_entry (Z.to_nat max_entries) 0
                  (snd (read_block (disk w_deleted_entry) 156 zero_block)) = Some 2 /\
  fst r = FS_SUCCESS /\
  de_inode_number (entry_at (snd (read_block (disk (snd r)) 156 zero_block)) 2) = 14 /\
  block_bitmap (fs (snd r)) = block_bitmap (fs w_deleted_entry) /\
  i_direct_blocks (inode_of (snd r) 1) = [156; 157; 0; 0; 0; 0; 0; 0; 0; 0; 0; 0] /\
  blocks_in_use (inode_of (snd r) 1) = 2 /\
  i_file_size (inode_of (snd r) 1) = 1024.
Proof. evaluate. Qed.

Lemma bitmap_persist_reload_witness :
  exists dst',
    fs_ops_read_bitmap (snd (fs_ops_write_bitmap (blank_disk 200) bitmap_after_free 1 4))
                       (snd (fs_ops_init_bitmap no_bitmap 8)) 1 4
    = Some (FS_SUCCESS, dst') /\
    bm_bitmap dst' = Some [Byte.x07] /\
    (forall i, bit_is_set (default [] (bm_bitmap dst')) i = bit_is_set [Byte.x07] i) /\
    bm_free_count dst' = zero_bits [Byte.x07] (bm_total_bits bitmap_after_free) /\
    bm_free_count dst' = bm_free_count bitmap_after_free.
Proof.
  apply (bitmap_persist_reload (blank_disk 200) _ bitmap_after_free _
           [Byte.x07] [Byte.x00] 1 4).
  - constructor.
    + evaluate.
    + change (bm_total_bits bitmap_after_free) with 8. lia.
    + evaluate.
    + evaluate.
    + change (bm_last_allocated bitmap_after_free) with 3.
      change (bm_total_bits bitmap_after_free) with 8. lia.
  - lia.
  - lia.
  - evaluate.
  - evaluate.
  - reflexivity.
  - evaluate.
Defined.

Lemma fs_open_lowest_free_descriptor_witness :
  exists w1,
    ensure_loaded (with_file_a_open (world_at_start 200 0)) = Some (FS_SUCCESS, w1) /\
    (fs_loaded (with_file_a_open (world_at_start 200 0)) ->
     w1 = with_file_a_open (world_at_start 200 0)) /\
    1 < MAX_OPEN_FILES /\
    fh_reference_count (handle_at w1 1) = 0 /\
    (forall k, 0 <= k < 1 -> fh_reference_count (handle_at w1 k) <> 0) /\
    fh_file_position (handle_at w_open_twice 1) = 0 /\
    fh_reference_count (handle_at w_open_twice 1) = 1 /\
    fh_flags (handle_at w_open_twice 1) = Z.lor FS_OPEN_READ FS_OPEN_WRITE /\
    fh_owner_uid (handle_at w_open_twice 1)
    = current_user_uid (fs (with_file_a_open (world_at_start 200 0))).
Proof.
  apply (fs_open_lowest_free_descriptor (with_file_a_open (world_at_start 200 0)) 1004
           (Some file_a) 1 w_open_twice).
  - evaluate.
  - lia.
Defined.

(* ********************************************************************* *)
(** * Further properties of the code *)
(* ********************************************************************* *)

(* ===================================================================== *)
(** ** The disk: blocks written, blocks read *)
(* ===================================================================== *)

Lemma check_block_bounds_in d b :
  d_is_initialized d = true -> 0 <= b < d_total_blocks d -> b < 2 ^ 32 ->
  disk_check_block_bounds d b = true.
Proof.
  intros Hi Hb H32. unfold disk_check_block_bounds.
  rewrite Hi, u32_small by lia.
  replace (0 <=? b) with true by (symmetry; apply Z.leb_le; lia).
  replace (b <? d_total_blocks d) with true by (symmetry; apply Z.ltb_lt; lia).
  reflexivity.
Qed.

Lemma check_block_bounds_inv d b :
  disk_check_block_bounds d b = true -> b < 2 ^ 32 ->
  d_is_initialized d = true /\ 0 <= b < d_total_blocks d.
Proof.
  unfold disk_check_block_bounds. intros Hb H32.
  apply andb_true_iff in Hb as [Hb Hlt]. apply andb_true_iff in Hb as [Hge Hi].
  apply Z.leb_le in Hge. apply Z.ltb_lt in Hlt.
  rewrite u32_small in Hlt by lia. auto.
Qed.

Lemma stored_block_length d b : length (stored_block d b) = 1024%nat.
Proof. unfold stored_block. rewrite length_resize. reflexivity. Qed.

(** X1. A block of the right size that was written is the block read; the other
    blocks read as before. *)
Theorem disk_write_then_read (d : disk_state_t) (b : Z) (data : list byte) :
  disk_reachable d -> int_range b ->
  0 <= b < d_total_blocks d ->
  length data = Z.to_nat DISK_BLOCK_SIZE ->
  exists d',
    disk_write_block d b (Some data) = (DISK_SUCCESS, d') /\
    (forall buf, disk_read_block d' b (Some buf) = (DISK_SUCCESS, Some data)) /\
    (forall b' buf, b' <> b ->
       disk_read_block d' b' (Some buf) = disk_read_block d b' (Some buf)).
Proof.
  intros Hreach Hint Hb Hlen. unfold int_range in Hint.
  destruct (disk_reachable_ready d Hreach) as (Hi & Hro & _).
  pose proof (check_block_bounds_in d b Hi Hb ltac:(lia)) as Hin.
  unfold disk_write_block. rewrite Hi, Hro, Hin. cbn [negb].
  eexists. split; [reflexivity |]. split.
  - intros buf. unfold disk_read_block.
    replace (disk_check_block_bounds _ b) with true
      by (symmetry; apply check_block_bounds_in; cbn; lia || reflexivity).
    cbn [d_is_initialized negb]. do 2 f_equal.
    unfold stored_block. cbn [d_blocks]. rewrite lookup_insert_eq. cbn [default].
    rewrite <- Hlen. apply resize_all.
  - intros b' buf Hne. unfold disk_read_block, disk_check_block_bounds, stored_block.
    cbn [d_is_initialized d_total_blocks d_blocks].
    rewrite lookup_insert_ne by congruence. rewrite Hi. reflexivity.
Qed.

(** X2. A disk that [disk_init] has just created has the block count of its
    size, and every block reads as zeros. *)
Theorem new_disk_reads_zeros (d0 d : disk_state_t) (disk_size b : Z) (buf : list byte) :
  disk_init d0 None disk_size = (DISK_SUCCESS, d) ->
  int_range disk_size ->
  0 <= b < disk_size / DISK_BLOCK_SIZE ->
  d_total_blocks d = disk_size / DISK_BLOCK_SIZE /\
  d_disk_size d = disk_size /\
  disk_read_block d b (Some buf) = (DISK_SUCCESS, Some zero_block).
Proof.
  unfold disk_init, int_range. intros Hinit Hint Hb.
  destruct (disk_size <=? 0) eqn:Hs; [injection Hinit as Hbad _; discriminate Hbad |].
  destruct (d_is_initialized d0); [injection Hinit as Hbad _; discriminate Hbad |].
  destruct (negb (disk_size mod DISK_BLOCK_SIZE =? 0));
    [injection Hinit as Hbad _; discriminate Hbad |].
  destruct (u32 (disk_size / DISK_BLOCK_SIZE) =? 0);
    [injection Hinit as Hbad _; discriminate Hbad |].
  injection Hinit as <-.
  apply Z.leb_gt in Hs.
  assert (Hblocks : 0 <= disk_size / DISK_BLOCK_SIZE < 2 ^ 32).
  { unfold DISK_BLOCK_SIZE.
    split; [apply Z.div_pos; lia | apply Z.div_lt_upper_bound; lia]. }
  cbn [d_total_blocks d_disk_size]. rewrite u32_small by exact Hblocks.
  split; [reflexivity |]. split; [reflexivity |].
  unfold disk_read_block, disk_check_block_bounds.
  cbn [d_is_initialized d_total_blocks].
  rewrite !u32_small by lia.
  replace (0 <=? b) with true by (symmetry; apply Z.leb_le; lia).
  replace (b <? disk_size / DISK_BLOCK_SIZE) with true by (symmetry; apply Z.ltb_lt; lia).
  cbn [andb negb]. reflexivity.
Qed.

(* ===================================================================== *)
(** ** [disk_format] *)
(* ===================================================================== *)

Lemma write_in_range d b data :
  d_is_initialized d = true -> d_is_read_only d = false ->
  0 <= b < d_total_blocks d -> b < 2 ^ 31 ->
  exists d',
    disk_write_block d (to_int b) (Some data) = (DISK_SUCCESS, d') /\
    same_geometry d d' /\
    d_blocks d' = <[b := data]> (d_blocks d).
Proof.
  intros Hi Hro Hb H31. rewrite to_int_small by lia.
  unfold disk_write_block. rewrite Hi, Hro, check_block_bounds_in by (assumption || lia).
  cbn [negb]. eexists. split; [reflexivity |].
  unfold same_geometry. cbn. auto.
Qed.

Lemma disk_format_loop_fills data : forall n i d,
  d_is_initialized d = true -> d_is_read_only d = false ->
  0 <= i -> i + Z.of_nat n <= d_total_blocks d -> d_total_blocks d <= 2 ^ 31 ->
  exists d',
    disk_format_loop n i d data = (DISK_SUCCESS, d') /\
    same_geometry d d' /\
    (forall b, i <= b < i + Z.of_nat n -> d_blocks d' !! b = Some data) /\
    (forall b, ~ (i <= b < i + Z.of_nat n) -> d_blocks d' !! b = d_blocks d !! b).
Proof.
  induction n as [| n IH]; intros i d Hi Hro Hi0 Hend Htotal.
  - exists d. split; [reflexivity |]. split; [apply same_geometry_refl |].
    split; [intros b Hb; lia | reflexivity].
  - cbn [disk_format_loop].
    destruct (write_in_range d i data Hi Hro ltac:(lia) ltac:(lia))
      as (d1 & Hw & Hgeo & Hblocks).
    rewrite Hw. change (negb (DISK_SUCCESS =? DISK_SUCCESS)) with false. cbv iota.
    rewrite u32_small by lia.
    pose proof Hgeo as (Hi1 & Hro1 & Ht1 & _).
    destruct (IH (i + 1) d1 ltac:(congruence) ltac:(congruence) ltac:(lia)
                ltac:(rewrite Ht1; lia) ltac:(rewrite Ht1; lia))
      as (d' & Hloop & Hgeo' & Hin & Hout).
    exists d'. split; [exact Hloop |].
    split; [exact (same_geometry_trans _ _ _ Hgeo Hgeo') |]. split.
    + intros b Hb. destruct (Z.eq_dec b i) as [-> | Hne].
      * rewrite Hout by lia. rewrite Hblocks. apply lookup_insert_eq.
      * apply Hin. lia.
    + intros b Hb. rewrite Hout by lia. rewrite Hblocks.
      apply lookup_insert_ne. lia.
Qed.

(** X3. [disk_format] on a disk of at most [2 ^ 31] blocks succeeds; afterwards
    every block reads as 1024 copies of the pattern, the geometry is the
    same and the disk is not dirty. *)
Theorem disk_format_fills (d : disk_state_t) (pattern : byte) :
  disk_reachable d -> 0 <= d_total_blocks d <= 2 ^ 31 ->
  exists d',
    disk_format d pattern = (DISK_SUCCESS, d') /\
    d_total_blocks d' = d_total_blocks d /\
    d_is_dirty d' = false /\
    forall b buf, 0 <= b < d_total_blocks d ->
      disk_read_block d' b (Some buf)
      = (DISK_SUCCESS, Some (repeat pattern (Z.to_nat DISK_BLOCK_SIZE))).
Proof.
  intros Hreach Htotal.
  destruct (disk_reachable_ready d Hreach) as (Hi & Hro & _).
  unfold disk_format. rewrite Hi, Hro. cbn [negb].
  destruct (disk_format_loop_fills (repeat pattern (Z.to_nat DISK_BLOCK_SIZE))
              (Z.to_nat (d_total_blocks d)) 0 d Hi Hro ltac:(lia) ltac:(lia) ltac:(lia))
    as (d1 & Hloop & (Hi1 & Hro1 & Ht1 & Hbs1) & Hin & _).
  rewrite Hloop. change (negb (DISK_SUCCESS =? DISK_SUCCESS)) with false. cbv iota.
  unfold disk_sync. rewrite Hi1, Hi. cbn [negb].
  eexists. split; [reflexivity |]. cbn [d_total_blocks d_is_dirty].
  split; [exact Ht1 |]. split; [reflexivity |].
  intros b buf Hb. unfold disk_read_block.
  rewrite check_block_bounds_in by (cbn; lia || congruence).
  cbn [d_is_initialized negb]. do 2 f_equal.
  unfold stored_block. cbn [d_blocks]. rewrite Hin by lia. cbn [default].
  apply resize_all_alt. rewrite repeat_length. reflexivity.
Qed.

(* ===================================================================== *)
(** ** [disk_write_blocks] and [disk_read_blocks] *)
(* ===================================================================== *)

Lemma length_concat_blocks blocks :
  block_list blocks -> length (concat blocks) = (length blocks * 1024)%nat.
Proof.
  induction 1 as [| blk blocks Hblk _ IH]; [reflexivity |].
  cbn [concat length]. rewrite length_app, IH, Hblk. reflexivity.
Qed.

Lemma block_list_app b1 b2 : block_list b1 -> block_list b2 -> block_list (b1 ++ b2).
Proof. unfold block_list. intros H1 H2. apply Forall_app. auto. Qed.

Lemma block_offset_done (done : list (list byte)) :
  Z.to_nat (Z.of_nat (length done) * DISK_BLOCK_SIZE) = (length done * 1024)%nat.
Proof. unfold DISK_BLOCK_SIZE. lia. Qed.

(** The offset of a round below [2 ^ 21] is the plain product. *)
Lemma block_offset_fits i :
  0 <= i < 2 ^ 21 ->
  to_int (i * DISK_BLOCK_SIZE) = i * DISK_BLOCK_SIZE /\
  (i * DISK_BLOCK_SIZE <? 0) = false.
Proof.
  intros Hi. unfold DISK_BLOCK_SIZE. rewrite to_int_small by lia.
  split; [reflexivity | apply Z.ltb_ge; lia].
Qed.

Lemma slice_concat_blocks done blk rest :
  block_list done -> length blk = Z.to_nat DISK_BLOCK_SIZE ->
  slice (concat (done ++ blk :: rest))
        (Z.to_nat (Z.of_nat (length done) * DISK_BLOCK_SIZE)) (Z.to_nat DISK_BLOCK_SIZE)
  = blk.
Proof.
  intros Hdone Hblk. unfold slice. rewrite block_offset_done.
  rewrite concat_app. cbn [concat].
  rewrite drop_app_length' by (rewrite length_concat_blocks by exact Hdone; reflexivity).
  apply firstn_app_exact. symmetry. exact Hblk.
Qed.

Lemma write_out_of_range d b data :
  d_is_initialized d = true -> d_is_read_only d = false ->
  d_total_blocks d <= b -> 0 <= b < 2 ^ 31 ->
  disk_write_block d (to_int b) (Some data) = (DISK_ERROR_BLOCK_RANGE, d).
Proof.
  intros Hi Hro Hb H31. unfold disk_write_block, disk_check_block_bounds.
  rewrite Hi, Hro. cbn [negb].
  rewrite to_int_small, u32_small by lia.
  replace (b <? d_total_blocks d) with false by (symmetry; apply Z.ltb_ge; lia).
  rewrite andb_false_r. reflexivity.
Qed.

(** The rounds of [disk_write_blocks] from block [length done] of the buffer
    on: the blocks [todo] fit the disk; those of [rest], if any, do not. *)
Lemma disk_write_blocks_loop_spec start rest : forall todo done d,
  block_list done -> block_list todo ->
  d_is_initialized d = true -> d_is_read_only d = false ->
  0 <= start ->
  start + Z.of_nat (length done) + Z.of_nat (length todo) <= d_total_blocks d ->
  d_total_blocks d < 2 ^ 31 ->
  Z.of_nat (length done) + Z.of_nat (length todo) <= 2 ^ 21 ->
  rest = [] \/
  (start + Z.of_nat (length done) + Z.of_nat (length todo) = d_total_blocks d /\
   Z.of_nat (length done) + Z.of_nat (length todo) < 2 ^ 21) ->
  exists d',
    disk_write_blocks_loop (length todo + length rest) (Z.of_nat (length done)) d start
                           (concat (done ++ todo ++ rest))
    = Some (match rest with [] => DISK_SUCCESS | _ => DISK_ERROR_BLOCK_RANGE end, d') /\
    same_geometry d d' /\
    (forall j blk, todo !! j = Some blk ->
       d_blocks d' !! (start + Z.of_nat (length done) + Z.of_nat j) = Some blk) /\
    (forall b, ~ (start + Z.of_nat (length done) <= b
                  < start + Z.of_nat (length done) + Z.of_nat (length todo)) ->
       d_blocks d' !! b = d_blocks d !! b).
Proof.
  induction todo as [| blk todo IH];
    intros done d Hdone Htodo Hi Hro Hstart Hfit Htotal Hsmall Hrest.
  - exists d. cbn [length Nat.add app].
    split; [| split; [apply same_geometry_refl | split; [intros j b Hj; discriminate Hj | reflexivity]]].
    destruct rest as [| r rest]; [reflexivity |].
    destruct Hrest as [Hbad | (Hfull & Hlast)]; [discriminate Hbad |].
    cbn [length disk_write_blocks_loop] in *. cbv zeta.
    destruct (block_offset_fits (Z.of_nat (length done)) ltac:(lia)) as (-> & ->).
    rewrite write_out_of_range by (assumption || lia). reflexivity.
  - apply Forall_cons_1 in Htodo as [Hblk Htodo].
    cbn [length Nat.add disk_write_blocks_loop] in *. cbv zeta.
    destruct (block_offset_fits (Z.of_nat (length done)) ltac:(lia)) as (-> & ->).
    replace (done ++ (blk :: todo) ++ rest) with (done ++ blk :: (todo ++ rest))
      by reflexivity.
    rewrite slice_concat_blocks by assumption.
    destruct (write_in_range d (start + Z.of_nat (length done)) blk Hi Hro
                ltac:(lia) ltac:(lia)) as (d1 & Hw & Hgeo & Hblocks).
    rewrite Hw. change (negb (DISK_SUCCESS =? DISK_SUCCESS)) with false. cbv iota.
    pose proof Hgeo as (Hi1 & Hro1 & Ht1 & _).
    assert (Hdone' : block_list (done ++ [blk])).
    { apply block_list_app; [exact Hdone |]. apply Forall_cons_2; [exact Hblk | apply Forall_nil_2]. }
    destruct (IH (done ++ [blk]) d1 Hdone' Htodo ltac:(congruence) ltac:(congruence) Hstart)
      as (d' & Hloop & Hgeo' & Hin & Hout).
    { rewrite length_app, Ht1. cbn [length]. lia. }
    { rewrite Ht1. exact Htotal. }
    { rewrite length_app. cbn [length]. lia. }
    { destruct Hrest as [Hnil | (Hfull & Hlast)]; [left; exact Hnil | right].
      rewrite length_app, Ht1. cbn [length] in *. lia. }
    rewrite length_app in Hloop, Hin, Hout. cbn [length] in Hloop, Hin, Hout.
    replace (Z.of_nat (length done + 1)) with (Z.of_nat (length done) + 1) in * by lia.
    replace ((done ++ [blk]) ++ todo ++ rest) with (done ++ blk :: (todo ++ rest)) in Hloop
      by (rewrite <- app_assoc; reflexivity).
    exists d'. split; [exact Hloop |].
    split; [exact (same_geometry_trans _ _ _ Hgeo Hgeo') |]. split.
    + intros [| j] b Hj.
      * injection Hj as ->. rewrite Hout by lia. rewrite Hblocks.
        replace (start + Z.of_nat (length done) + Z.of_nat 0)
          with (start + Z.of_nat (length done)) by lia.
        apply lookup_insert_eq.
      * cbn in Hj. specialize (Hin j b Hj).
        replace (start + Z.of_nat (length done) + Z.of_nat (S j))
          with (start + (Z.of_nat (length done) + 1) + Z.of_nat j) by lia.
        exact Hin.
    + intros b Hb. rewrite Hout by lia. rewrite Hblocks.
      apply lookup_insert_ne. lia.
Qed.

Lemma read_in_range d b buf :
  d_is_initialized d = true -> 0 <= b < d_total_blocks d -> b < 2 ^ 31 ->
  disk_read_block d (to_int b) (Some buf) = (DISK_SUCCESS, Some (stored_block d b)).
Proof.
  intros Hi Hb H31. rewrite to_int_small by lia.
  unfold disk_read_block. rewrite Hi, check_block_bounds_in by (assumption || lia).
  reflexivity.
Qed.

(** The rounds of [disk_read_blocks] from block [length done] of the buffer
    on: each round puts the stored block into its place. *)
Lemma disk_read_blocks_loop_spec d start : forall n done tail,
  block_list done -> length tail = (n * 1024)%nat ->
  d_is_initialized d = true -> 0 <= start ->
  start + Z.of_nat (length done) + Z.of_nat n <= d_total_blocks d ->
  d_total_blocks d < 2 ^ 31 ->
  Z.of_nat (length done) + Z.of_nat n <= 2 ^ 21 ->
  disk_read_blocks_loop n (Z.of_nat (length done)) d start (concat done ++ tail)
  = Some (DISK_SUCCESS,
     concat done ++
     concat (map (fun j => stored_block d (start + Z.of_nat (length done) + Z.of_nat j))
                 (seq 0 n))).
Proof.
  induction n as [| n IH]; intros done tail Hdone Htail Hi Hstart Hfit Htotal Hsmall.
  - destruct tail; [| discriminate Htail]. reflexivity.
  - cbn [disk_read_blocks_loop]. cbv zeta.
    destruct (block_offset_fits (Z.of_nat (length done)) ltac:(lia)) as (-> & ->).
    rewrite read_in_range by (assumption || lia).
    change (negb (DISK_SUCCESS =? DISK_SUCCESS)) with false. cbv iota. cbn [default].
    set (blk := stored_block d (start + Z.of_nat (length done))).
    assert (Hblk : length blk = 1024%nat) by apply stored_block_length.
    assert (Hcopy : memcpy (concat done ++ tail)
                           (Z.to_nat (Z.of_nat (length done) * DISK_BLOCK_SIZE)) blk
                    = concat (done ++ [blk]) ++ skipn 1024 tail).
    { unfold memcpy. rewrite block_offset_done.
      rewrite firstn_app_exact by (rewrite length_concat_blocks by exact Hdone; reflexivity).
      rewrite Hblk.
      replace (length done * 1024 + 1024)%nat
        with (length (concat done) + 1024)%nat
        by (rewrite length_concat_blocks by exact Hdone; reflexivity).
      rewrite drop_app_add.
      rewrite concat_app. cbn [concat]. rewrite app_nil_r, <- app_assoc. reflexivity. }
    unfold id. rewrite Hcopy.
    assert (Hdone' : block_list (done ++ [blk])).
    { apply block_list_app; [exact Hdone |].
      apply Forall_cons_2; [exact Hblk | apply Forall_nil_2]. }
    specialize (IH (done ++ [blk]) (skipn 1024 tail) Hdone').
    rewrite length_app in IH. cbn [length] in IH.
    replace (Z.of_nat (length done + 1)) with (Z.of_nat (length done) + 1) in IH by lia.
    rewrite IH; [| rewrite length_skipn; lia | exact Hi | exact Hstart | lia | exact Htotal
                 | lia].
    do 2 f_equal. rewrite concat_app. cbn [concat]. rewrite app_nil_r, <- app_assoc.
    f_equal. cbn [seq map concat].
    replace (start + Z.of_nat (length done) + Z.of_nat 0)
      with (start + Z.of_nat (length done)) by lia.
    fold blk. f_equal. rewrite <- seq_shift, map_map. f_equal.
    apply map_ext. intros j. f_equal. lia.
Qed.

Lemma concat_stored_blocks (d : disk_state_t) (first : Z) (blocks : list (list byte)) :
  block_list blocks ->
  (forall j blk, blocks !! j = Some blk -> d_blocks d !! (first + Z.of_nat j) = Some blk) ->
  map (fun j => stored_block d (first + Z.of_nat j)) (seq 0 (length blocks)) = blocks.
Proof.
  intros Hlist Hstored. apply list_eq. intros j.
  rewrite list_lookup_fmap.
  destruct (blocks !! j) as [blk |] eqn:Hj.
  - rewrite lookup_seq_lt by (apply lookup_lt_Some in Hj; exact Hj).
    cbn. f_equal. unfold stored_block. rewrite (Hstored j blk Hj). cbn [default].
    apply resize_all_alt. symmetry.
    exact (Forall_lookup_1 _ _ _ _ Hlist Hj).
  - rewrite lookup_seq_ge by (apply lookup_ge_None in Hj; exact Hj). reflexivity.
Qed.

(** X4. A run of at most [2 ^ 21] blocks written with [disk_write_blocks]
    inside the disk is the run that [disk_read_blocks] reads from the same
    place.  (In a longer run the offset into the buffer does not fit an
    [int].) *)
Theorem disk_write_blocks_then_read (d : disk_state_t) (start_block : Z)
    (blocks : list (list byte)) (buf : list byte) :
  disk_reachable d -> block_list blocks -> blocks <> [] ->
  Z.of_nat (length blocks) <= 2 ^ 21 ->
  0 <= start_block ->
  start_block + Z.of_nat (length blocks) <= d_total_blocks d ->
  d_total_blocks d < 2 ^ 31 ->
  length buf = length (concat blocks) ->
  exists d',
    disk_write_blocks d start_block (Z.of_nat (length blocks)) (Some (concat blocks))
    = Some (DISK_SUCCESS, d') /\
    disk_read_blocks d' start_block (Z.of_nat (length blocks)) (Some buf)
    = Some (DISK_SUCCESS, Some (concat blocks)).
Proof.
  intros Hreach Hlist Hne Hsmall Hstart Hfit Htotal Hbuf.
  destruct (disk_reachable_ready d Hreach) as (Hi & Hro & _).
  assert (Hcount : (Z.of_nat (length blocks) <=? 0) = false).
  { apply Z.leb_gt. destruct blocks; [contradiction | cbn [length]; lia]. }
  unfold disk_write_blocks, disk_read_blocks. rewrite Hcount, Nat2Z.id.
  destruct (disk_write_blocks_loop_spec start_block [] blocks [] d
              (Forall_nil_2 _) Hlist Hi Hro Hstart)
    as (d' & Hloop & (Hi' & _ & Ht' & _) & Hin & _);
    [cbn [length]; lia | exact Htotal | cbn [length]; lia | left; reflexivity |].
  cbn [length app] in Hloop, Hin. rewrite Nat.add_0_r, app_nil_r in Hloop.
  exists d'. split; [exact Hloop |].
  pose proof (disk_read_blocks_loop_spec d' start_block (length blocks) [] buf
                (Forall_nil_2 _)) as Hread.
  cbn [length concat app] in Hread. change (Z.of_nat 0) with 0 in Hread.
  rewrite Hread;
    [| rewrite Hbuf; apply length_concat_blocks; exact Hlist | congruence | exact Hstart
     | rewrite Ht'; lia | rewrite Ht'; exact Htotal | lia].
  do 4 f_equal. apply concat_stored_blocks; [exact Hlist |].
  intros j blk Hj. specialize (Hin j blk Hj).
  exact Hin.
Qed.

(** X5. [disk_write_blocks] is not atomic: when the blocks run over the end of
    the disk it reports the block-range error, and the blocks before the end
    have been written.  Fewer than [2 ^ 21] blocks fit before the end, so
    that the offsets into the buffer fit an [int]. *)
Theorem disk_write_blocks_stops_at_the_end (d : disk_state_t) (start_block : Z)
    (fitting beyond : list (list byte)) :
  disk_reachable d -> block_list fitting -> beyond <> [] ->
  Z.of_nat (length fitting) < 2 ^ 21 ->
  0 <= start_block ->
  start_block + Z.of_nat (length fitting) = d_total_blocks d ->
  d_total_blocks d < 2 ^ 31 ->
  exists d',
    disk_write_blocks d start_block (Z.of_nat (length (fitting ++ beyond)))
                      (Some (concat (fitting ++ beyond)))
    = Some (DISK_ERROR_BLOCK_RANGE, d') /\
    forall j blk buf, fitting !! j = Some blk ->
      disk_read_block d' (start_block + Z.of_nat j) (Some buf) = (DISK_SUCCESS, Some blk).
Proof.
  intros Hreach Hlist Hne Hsmall Hstart Hfit Htotal.
  destruct (disk_reachable_ready d Hreach) as (Hi & Hro & _).
  assert (Hcount : (Z.of_nat (length (fitting ++ beyond)) <=? 0) = false).
  { apply Z.leb_gt. rewrite length_app. destruct beyond; [contradiction | cbn [length]; lia]. }
  unfold disk_write_blocks. rewrite Hcount, Nat2Z.id, length_app.
  destruct (disk_write_blocks_loop_spec start_block beyond fitting [] d
              (Forall_nil_2 _) Hlist Hi Hro Hstart)
    as (d' & Hloop & (Hi' & _ & Ht' & _) & Hin & _);
    [cbn [length]; lia | exact Htotal | cbn [length]; lia | right; cbn [length]; lia |].
  cbn [length app] in Hloop, Hin.
  destruct beyond as [| blk0 beyond]; [contradiction |].
  exists d'. split; [exact Hloop |].
  intros j blk buf Hj.
  pose proof (lookup_lt_Some _ _ _ Hj) as Hlt.
  assert (Hlen : length blk = Z.to_nat DISK_BLOCK_SIZE).
  { exact (Forall_lookup_1 _ _ _ _ Hlist Hj). }
  unfold disk_read_block.
  rewrite check_block_bounds_in by (lia || congruence).
  rewrite Hi', Hi. cbn [negb]. do 2 f_equal.
  unfold stored_block. specialize (Hin j blk Hj).
  replace (start_block + Z.of_nat 0 + Z.of_nat j) with (start_block + Z.of_nat j) in Hin by lia.
  rewrite Hin. cbn [default]. apply resize_all_alt. symmetry. exact Hlen.
Qed.

(* ===================================================================== *)
(** ** [disk_copy_block], [disk_close], [disk_init] on an existing file *)
(* ===================================================================== *)

(** X6. [disk_copy_block] inside the disk makes the destination read as the
    source and leaves the other blocks; with either block outside the disk
    it reports the block-range error and changes nothing. *)
Theorem disk_copy_block_copies (d : disk_state_t) (src_block dst_block : Z) :
  disk_reachable d -> int_range src_block -> int_range dst_block ->
  (0 <= src_block < d_total_blocks d -> 0 <= dst_block < d_total_blocks d ->
   exists d',
     disk_copy_block d src_block dst_block = (DISK_SUCCESS, d') /\
     (forall buf, disk_read_block d' dst_block (Some buf)
                  = disk_read_block d src_block (Some buf)) /\
     (forall b buf, b <> dst_block ->
        disk_read_block d' b (Some buf) = disk_read_block d b (Some buf))) /\
  (~ (0 <= src_block < d_total_blocks d) \/ ~ (0 <= dst_block < d_total_blocks d) ->
   disk_copy_block d src_block dst_block = (DISK_ERROR_BLOCK_RANGE, d)).
Proof.
  intros Hreach Hsrc Hdst. unfold int_range in *.
  destruct (disk_reachable_ready d Hreach) as (Hi & Hro & _).
  assert (Hout : forall b, - 2 ^ 31 <= b < 2 ^ 31 -> ~ (0 <= b < d_total_blocks d) ->
                           disk_check_block_bounds d b = false).
  { intros b Hb Hnot. destruct (disk_check_block_bounds d b) eqn:Hin; [| reflexivity].
    apply check_block_bounds_inv in Hin; [| lia]. tauto. }
  split.
  - intros Hs Hd.
    pose proof (check_block_bounds_in d src_block Hi Hs ltac:(lia)) as Hsin.
    pose proof (check_block_bounds_in d dst_block Hi Hd ltac:(lia)) as Hdin.
    unfold disk_copy_block, disk_read_block at 1. rewrite Hi, Hsin. cbn [negb].
    change (DISK_SUCCESS =? DISK_SUCCESS) with true. cbn [negb].
    unfold disk_write_block. rewrite Hi, Hro, Hdin. cbn [negb].
    eexists. split; [reflexivity |]. split.
    + intros buf. unfold disk_read_block at 2. rewrite Hi, Hsin. cbn [negb].
      unfold disk_read_block.
      replace (disk_check_block_bounds _ dst_block) with true
        by (symmetry; apply check_block_bounds_in; cbn; lia || reflexivity).
      cbn [d_is_initialized negb]. do 2 f_equal.
      apply (stored_block_written d); [reflexivity | apply stored_block_length].
    + intros b buf Hne. unfold disk_read_block, disk_check_block_bounds, stored_block.
      cbn [d_is_initialized d_total_blocks d_blocks].
      rewrite lookup_insert_ne by congruence. rewrite Hi. reflexivity.
  - intros Hbad. unfold disk_copy_block, disk_read_block.
    rewrite Hi. cbn [negb].
    destruct (disk_check_block_bounds d src_block) eqn:Hs; cbn [negb];
      [| reflexivity].
    change (DISK_SUCCESS =? DISK_SUCCESS) with true. cbn [negb].
    apply check_block_bounds_inv in Hs as (_ & Hs); [| lia].
    destruct Hbad as [Hbad | Hbad]; [contradiction |].
    unfold disk_write_block. rewrite Hi, Hro, (Hout dst_block Hdst Hbad). reflexivity.
Qed.

(** X7. [disk_close] ends the session: the disk reports no block, reads, writes
    and a second close fail with [DISK_ERROR_NOT_INIT], and [disk_init],
    which an initialised disk refuses, works as on a disk never opened. *)
Theorem disk_close_ends_the_session (d : disk_state_t) (existing : option host_file)
    (disk_size : Z) :
  d_is_initialized d = true -> 0 < disk_size ->
  exists d',
    disk_close d = (DISK_SUCCESS, d') /\
    disk_init d existing disk_size = (DISK_ERROR_ALREADY_INIT, d) /\
    disk_init d' existing disk_size = disk_init disk_state_zero existing disk_size /\
    disk_get_block_count d' = 0 /\
    disk_close d' = (DISK_ERROR_NOT_INIT, d') /\
    forall b buf,
      disk_is_valid_block d' b = false /\
      disk_read_block d' b (Some buf) = (DISK_ERROR_NOT_INIT, Some buf) /\
      disk_write_block d' b (Some buf) = (DISK_ERROR_NOT_INIT, d').
Proof.
  intros Hi Hsize. exists disk_state_zero.
  unfold disk_close, disk_init. rewrite Hi. cbn [negb].
  replace (disk_size <=? 0) with false by (symmetry; apply Z.leb_gt; lia).
  repeat split.
  unfold disk_is_valid_block, disk_check_block_bounds. cbn [d_is_initialized disk_state_zero].
  rewrite andb_false_r. reflexivity.
Qed.

Lemma created_header_is_valid total_blocks now :
  validate_disk_header (create_disk_header total_blocks now) = DISK_SUCCESS.
Proof.
  unfold validate_disk_header, create_disk_header. cbv zeta.
  cbn [h_magic_number h_version h_block_size h_checksum h_total_blocks h_disk_size].
  change (negb (DISK_MAGIC_HEADER =? DISK_MAGIC_HEADER)) with false.
  change (negb (DISK_VERSION =? DISK_VERSION)) with false.
  change (negb (DISK_BLOCK_SIZE =? DISK_BLOCK_SIZE)) with false. cbv iota.
  unfold header_stable_bytes.
  cbn [h_magic_number h_version h_block_size h_total_blocks h_disk_size].
  rewrite Z.eqb_refl. reflexivity.
Qed.

(** X8. An image that [disk_init] created is accepted again: the header that
    [create_disk_header] wrote validates, and the disk gets its block count
    from the header and its blocks from the file, whatever valid size the
    caller passes. *)
Theorem disk_init_reopens_created_image (d0 : disk_state_t) (f : host_file)
    (total_blocks created disk_size : Z) :
  d_is_initialized d0 = false ->
  0 < disk_size -> int_range disk_size -> disk_size mod DISK_BLOCK_SIZE = 0 ->
  hf_header f = create_disk_header total_blocks created ->
  DISK_TOTAL_FILE_SIZE total_blocks <= hf_st_size f ->
  0 <= total_blocks ->
  exists d,
    disk_init d0 (Some f) disk_size = (DISK_SUCCESS, d) /\
    d_total_blocks d = total_blocks /\
    forall b, stored_block d b
              = resize (Z.to_nat DISK_BLOCK_SIZE) Byte.x00
                       (default zero_block (hf_blocks f !! b)).
Proof.
  intros Hi Hpos Hint Hmod Hheader Hsize Htotal. unfold int_range in Hint.
  unfold disk_init. rewrite Hi, Hmod.
  replace (disk_size <=? 0) with false by (symmetry; apply Z.leb_gt; lia).
  change (negb (0 =? 0)) with false. cbv iota.
  assert (Hblocks : 1 <= disk_size / DISK_BLOCK_SIZE < 2 ^ 32).
  { unfold DISK_BLOCK_SIZE in *.
    pose proof (Z.div_mod disk_size 1024 ltac:(lia)) as Hdm.
    split; [| apply Z.div_lt_upper_bound; lia]. lia. }
  rewrite u32_small by lia.
  replace (disk_size / DISK_BLOCK_SIZE =? 0) with false by (symmetry; apply Z.eqb_neq; lia).
  rewrite Hheader, created_header_is_valid.
  change (negb (DISK_SUCCESS =? DISK_SUCCESS)) with false. cbv iota.
  assert (Hhdr : sizeof_disk_header_t <= hf_st_size f).
  { unfold DISK_TOTAL_FILE_SIZE, DISK_BLOCK_SIZE in Hsize. lia. }
  replace (hf_st_size f <? sizeof_disk_header_t) with false
    by (symmetry; apply Z.ltb_ge; exact Hhdr).
  cbn [create_disk_header h_total_blocks h_disk_size].
  replace (hf_st_size f <? DISK_TOTAL_FILE_SIZE total_blocks) with false
    by (symmetry; apply Z.ltb_ge; exact Hsize).
  eexists. split; [reflexivity |]. split; reflexivity.
Qed.

(** X9. A file whose header does not carry the magic number, the version or the
    block size of the format is refused as corrupted, and the disk stays
    uninitialised. *)
Theorem disk_init_refuses_foreign_header (d0 : disk_state_t) (f : host_file)
    (disk_size : Z) :
  d_is_initialized d0 = false ->
  0 < disk_size -> int_range disk_size -> disk_size mod DISK_BLOCK_SIZE = 0 ->
  sizeof_disk_header_t <= hf_st_size f ->
  h_magic_number (hf_header f) <> DISK_MAGIC_HEADER \/
  h_version (hf_header f) <> DISK_VERSION \/
  h_block_size (hf_header f) <> DISK_BLOCK_SIZE ->
  exists d,
    disk_init d0 (Some f) disk_size = (DISK_ERROR_CORRUPTED, d) /\
    d_is_initialized d = false /\
    forall b buf, disk_read_block d b (Some buf) = (DISK_ERROR_NOT_INIT, Some buf).
Proof.
  intros Hi Hpos Hint Hmod Hsize Hforeign. unfold int_range in Hint.
  unfold disk_init. rewrite Hi, Hmod.
  replace (disk_size <=? 0) with false by (symmetry; apply Z.leb_gt; lia).
  change (negb (0 =? 0)) with false. cbv iota.
  assert (Hblocks : 1 <= disk_size / DISK_BLOCK_SIZE < 2 ^ 32).
  { unfold DISK_BLOCK_SIZE in *.
    pose proof (Z.div_mod disk_size 1024 ltac:(lia)) as Hdm.
    split; [| apply Z.div_lt_upper_bound; lia]. lia. }
  rewrite u32_small by lia.
  replace (disk_size / DISK_BLOCK_SIZE =? 0) with false by (symmetry; apply Z.eqb_neq; lia).
  replace (hf_st_size f <? sizeof_disk_header_t) with false
    by (symmetry; apply Z.ltb_ge; exact Hsize).
  assert (Hinvalid : validate_disk_header (hf_header f) = DISK_ERROR_CORRUPTED).
  { unfold validate_disk_header.
    destruct (h_magic_number (hf_header f) =? DISK_MAGIC_HEADER) eqn:Hm; [| reflexivity].
    destruct (h_version (hf_header f) =? DISK_VERSION) eqn:Hv; [| reflexivity].
    destruct (h_block_size (hf_header f) =? DISK_BLOCK_SIZE) eqn:Hb; [| reflexivity].
    apply Z.eqb_eq in Hm, Hv, Hb. tauto. }
  rewrite Hinvalid. change (negb (DISK_ERROR_CORRUPTED =? DISK_SUCCESS)) with true. cbv iota.
  exists disk_state_zero. repeat split.
Qed.

(** A result code that the call cannot have. *)
Ltac wrong_code :=
  let H := fresh in
  intros H; apply (f_equal fst) in H; cbn [fst] in H; codes; lia.

(* ===================================================================== *)
(** ** Bitmaps: allocation and release *)
(* ===================================================================== *)

Lemma length_set_bit bytes b : length (set_bit bytes b) = length bytes.
Proof. unfold set_bit. apply length_insert. Qed.

Lemma length_clear_bit bytes b : length (clear_bit bytes b) = length bytes.
Proof. unfold clear_bit. apply length_insert. Qed.

Lemma bit_in_array bm bytes b :
  bitmap_wf bm bytes -> 0 <= b < bm_total_bits bm -> b / 8 < Z.of_nat (length bytes).
Proof.
  intros [_ Ht Hlen _ _] Hb. rewrite Hlen. apply bitmap_bytes_covers; lia.
Qed.

(** One successful allocation, with the state of the bitmap afterwards. *)
Lemma alloc_bitmap_bit_step bm bytes :
  bitmap_wf bm bytes -> bm_free_count bm <> 0 ->
  exists b,
    alloc_bitmap_bit bm =
      (b, {| bm_bitmap := Some (set_bit bytes b); bm_total_bits := bm_total_bits bm;
             bm_free_count := bm_free_count bm - 1; bm_last_allocated := b |}) /\
    0 <= b < bm_total_bits bm /\
    bit_is_set bytes b = false /\
    0 < bm_free_count bm <= bm_total_bits bm /\
    bitmap_wf {| bm_bitmap := Some (set_bit bytes b); bm_total_bits := bm_total_bits bm;
                 bm_free_count := bm_free_count bm - 1; bm_last_allocated := b |}
              (set_bit bytes b).
Proof.
  intros Hwf Hfree.
  destruct (alloc_scan_first_free bm bytes Hwf Hfree) as (k & (Hk & Hclear & _) & Hscan).
  pose proof Hwf as [Harr Ht Hlen Hcount Hlast].
  set (b := (bm_last_allocated bm + k) mod bm_total_bits bm) in *.
  assert (Hb : 0 <= b < bm_total_bits bm) by (apply Z.mod_pos_bound; lia).
  destruct (set_clear_bit_counts bm bytes b Hwf Hb Hclear) as (_ & Hzero & Hrange).
  exists b. unfold alloc_bitmap_bit. rewrite Harr.
  replace (bm_free_count bm =? 0) with false by (symmetry; apply Z.eqb_neq; exact Hfree).
  rewrite Hscan, (u32_small (bm_free_count bm - 1)) by lia.
  split; [reflexivity |]. split; [lia |]. split; [exact Hclear |]. split; [lia |].
  constructor; cbn;
    [reflexivity | lia | rewrite length_set_bit; exact Hlen | symmetry; exact Hzero | lia].
Qed.

(** Setting a clear bit and clearing it again gives the byte back. *)
Lemma clear_set_byte (x : byte) (o : Z) :
  0 <= o < 8 ->
  Z.testbit (byte.unsigned x) o = false ->
  byte.of_Z (Z.land (byte.unsigned (byte.of_Z (Z.lor (byte.unsigned x) (Z.shiftl 1 o))))
                    (Z.lnot (Z.shiftl 1 o))) = x.
Proof.
  intros Ho Hx.
  rewrite <- (byte.of_Z_unsigned x) at 2. f_equal.
  rewrite byte.unsigned_of_Z. unfold byte.wrap.
  pose proof (byte.unsigned_range x) as Hr.
  apply Z.bits_inj'. intros i Hi.
  rewrite Z.land_spec, Z.lnot_spec by lia.
  rewrite Z.shiftl_spec by lia.
  destruct (Z.ltb_spec i 8) as [Hlt | Hge].
  - rewrite Z.mod_pow2_bits_low by lia.
    rewrite Z.lor_spec, Z.shiftl_spec by lia.
    destruct (Z.eq_dec i o) as [-> | Hne].
    + rewrite Z.sub_diag. change (Z.testbit 1 0) with true. rewrite Hx. reflexivity.
    + replace (Z.testbit 1 (i - o)) with false.
      * rewrite orb_false_r, andb_true_r. reflexivity.
      * symmetry. destruct (Z.ltb_spec i o).
        -- apply Z.testbit_neg_r. lia.
        -- apply (Z.bits_above_log2 1 (i - o)); cbn; lia.
  - rewrite Z.mod_pow2_bits_high by lia. cbn [andb].
    symmetry. destruct (Z.eq_dec (byte.unsigned x) 0) as [-> | Hnz].
    + apply Z.testbit_0_l.
    + apply Z.bits_above_log2; [lia |].
      apply Z.log2_lt_pow2; [lia |]. change (2 ^ 8) with 256 in Hr.
      apply Z.lt_le_trans with (2 ^ 8); [ change (2 ^ 8) with 256; lia | ].
      apply Z.pow_le_mono_r; lia.
Qed.

Lemma clear_bit_set_bit bytes b :
  0 <= b -> b / 8 < Z.of_nat (length bytes) ->
  bit_is_set bytes b = false ->
  clear_bit (set_bit bytes b) b = bytes.
Proof.
  intros Hb Hin Hclear.
  assert (Hq : 0 <= b / 8) by (apply Z.div_pos; lia).
  unfold clear_bit, set_bit.
  rewrite byte_at_insert_eq by lia.
  rewrite list_insert_insert_eq.
  rewrite clear_set_byte.
  - apply list_insert_id. unfold byte_at.
    destruct (nth_lookup_or_length bytes (Z.to_nat (b / 8)) Byte.x00) as [H | H];
      [exact H | lia].
  - apply Z.mod_pos_bound. lia.
  - rewrite <- bit_is_set_testbit. exact Hclear.
Qed.

(** What [free_bitmap_bit] does to a bit that is set. *)
Lemma free_bitmap_bit_set bm bytes b :
  bm_bitmap bm = Some bytes -> b < bm_total_bits bm -> bit_is_set bytes b = true ->
  free_bitmap_bit bm b =
    {| bm_bitmap := Some (clear_bit bytes b); bm_total_bits := bm_total_bits bm;
       bm_free_count := u32 (bm_free_count bm + 1);
       bm_last_allocated := bm_last_allocated bm |}.
Proof.
  intros Harr Hb Hset. unfold free_bitmap_bit. rewrite Harr.
  replace (bm_total_bits bm <=? b) with false by (symmetry; apply Z.leb_gt; lia).
  rewrite Hset. reflexivity.
Qed.

(** What it does to a bit that is clear, or out of range: nothing. *)
Lemma free_bitmap_bit_clear bm bytes b :
  bm_bitmap bm = Some bytes ->
  bm_total_bits bm <= b \/ bit_is_set bytes b = false ->
  free_bitmap_bit bm b = bm.
Proof.
  intros Harr Hb. unfold free_bitmap_bit. rewrite Harr.
  destruct (Z.leb_spec (bm_total_bits bm) b); [reflexivity |].
  destruct Hb as [Hb | ->]; [lia | reflexivity].
Qed.


(** X10. An index handed out by [alloc_bitmap_bit] was free before and is taken
    afterwards; the next allocation hands out another index, and the free
    count has gone down by two. *)
Theorem alloc_bitmap_bit_never_hands_out_twice (bm : fs_bitmap_t) (bytes : list byte) :
  bitmap_wf bm bytes -> 2 <= bm_free_count bm ->
  exists b1 bm1 b2 bm2 bytes2,
    alloc_bitmap_bit bm = (b1, bm1) /\
    alloc_bitmap_bit bm1 = (b2, bm2) /\
    b1 <> b2 /\
    0 <= b1 < bm_total_bits bm /\ 0 <= b2 < bm_total_bits bm /\
    bit_is_set bytes b1 = false /\ bit_is_set bytes b2 = false /\
    bitmap_wf bm2 bytes2 /\
    bit_is_set bytes2 b1 = true /\ bit_is_set bytes2 b2 = true /\
    (forall i, 0 <= i -> i <> b1 -> i <> b2 -> bit_is_set bytes2 i = bit_is_set bytes i) /\
    bm_free_count bm2 = bm_free_count bm - 2.
Proof.
  intros Hwf Hfree.
  destruct (alloc_bitmap_bit_step bm bytes Hwf ltac:(lia))
    as (b1 & Ha1 & Hb1 & Hc1 & Hr1 & Hwf1).
  pose proof (bit_in_array bm bytes b1 Hwf Hb1) as Hin1.
  set (bm1 := {| bm_bitmap := Some (set_bit bytes b1); bm_total_bits := bm_total_bits bm;
                 bm_free_count := bm_free_count bm - 1; bm_last_allocated := b1 |}) in *.
  destruct (alloc_bitmap_bit_step bm1 (set_bit bytes b1) Hwf1 ltac:(cbn; lia))
    as (b2 & Ha2 & Hb2 & Hc2 & Hr2 & Hwf2).
  cbn [bm_total_bits bm_free_count bm1] in Ha2, Hb2, Hr2, Hwf2.
  rewrite bit_is_set_set_bit in Hc2 by lia.
  apply orb_false_iff in Hc2. destruct Hc2 as [Hne Hc2]. apply Z.eqb_neq in Hne.
  assert (Hin2 : b2 / 8 < Z.of_nat (length (set_bit bytes b1))).
  { apply (bit_in_array _ _ _ Hwf1). exact Hb2. }
  eexists b1, bm1, b2, _, (set_bit (set_bit bytes b1) b2).
  split; [exact Ha1 |]. split; [exact Ha2 |].
  split; [congruence |]. split; [lia |]. split; [lia |].
  split; [exact Hc1 |]. split; [exact Hc2 |]. split; [exact Hwf2 |].
  split.
  { rewrite !bit_is_set_set_bit by lia. rewrite Z.eqb_refl. apply orb_true_r. }
  split.
  { rewrite bit_is_set_set_bit by lia. rewrite Z.eqb_refl. reflexivity. }
  split.
  { intros i Hi Hi1 Hi2. rewrite !bit_is_set_set_bit by lia.
    replace (i =? b2) with false by (symmetry; apply Z.eqb_neq; exact Hi2).
    replace (i =? b1) with false by (symmetry; apply Z.eqb_neq; exact Hi1).
    reflexivity. }
  cbn. lia.
Qed.

(** X11. Releasing the index that [alloc_bitmap_bit] has just handed out gives
    back the bitmap array, byte for byte, and the free count; only the
    cursor stays at the released index. *)
Theorem free_bitmap_bit_undoes_alloc (bm : fs_bitmap_t) (bytes : list byte) :
  bitmap_wf bm bytes -> bm_free_count bm <> 0 ->
  exists b bm1,
    alloc_bitmap_bit bm = (b, bm1) /\
    bm_free_count bm1 = bm_free_count bm - 1 /\
    free_bitmap_bit bm1 b =
      {| bm_bitmap := Some bytes; bm_total_bits := bm_total_bits bm;
         bm_free_count := bm_free_count bm; bm_last_allocated := b |}.
Proof.
  intros Hwf Hfree.
  destruct (alloc_bitmap_bit_step bm bytes Hwf Hfree) as (b & Ha & Hb & Hc & Hr & Hwf1).
  pose proof (bit_in_array bm bytes b Hwf Hb) as Hin.
  pose proof (wf_total _ _ Hwf) as Ht.
  eexists b, _. split; [exact Ha |]. split; [reflexivity |].
  erewrite free_bitmap_bit_set; [| reflexivity | cbn; lia |].
  - cbn. rewrite clear_bit_set_bit by (lia || assumption).
    rewrite u32_small by lia. f_equal. lia.
  - rewrite bit_is_set_set_bit by lia. rewrite Z.eqb_refl. reflexivity.
Qed.

(** X12. [free_bitmap_bit] counts a release once.  Releasing an index a second
    time, releasing one that was never handed out, and releasing one beyond
    the bitmap change nothing; so the free count stays the number of clear
    bits. *)
Theorem free_bitmap_bit_counts_once (bm : fs_bitmap_t) (bytes : list byte) (b : Z) :
  bitmap_wf bm bytes -> 0 <= b ->
  free_bitmap_bit (free_bitmap_bit bm b) b = free_bitmap_bit bm b /\
  (bm_total_bits bm <= b \/ bit_is_set bytes b = false -> free_bitmap_bit bm b = bm) /\
  (b < bm_total_bits bm -> bit_is_set bytes b = true ->
   bm_free_count (free_bitmap_bit bm b) = bm_free_count bm + 1 /\
   bitmap_wf (free_bitmap_bit bm b) (clear_bit bytes b) /\
   forall i, 0 <= i ->
             bit_is_set (clear_bit bytes b) i = negb (i =? b) && bit_is_set bytes i).
Proof.
  intros Hwf Hb. pose proof Hwf as [Harr Ht Hlen Hcount Hlast].
  assert (Hnop : bm_total_bits bm <= b \/ bit_is_set bytes b = false ->
                 free_bitmap_bit bm b = bm).
  { apply free_bitmap_bit_clear. exact Harr. }
  destruct (Z.le_gt_cases (bm_total_bits bm) b) as [Hout | Hin].
  { rewrite !Hnop by (left; exact Hout). split; [reflexivity |].
    split; [intros _; reflexivity | lia]. }
  pose proof (bit_in_array bm bytes b Hwf ltac:(lia)) as Harray.
  destruct (bit_is_set bytes b) eqn:Hbit.
  2:{ rewrite !Hnop by (right; reflexivity). split; [reflexivity |].
      split; [intros _; reflexivity | discriminate]. }
  pose proof (free_bitmap_bit_set bm bytes b Harr Hin Hbit) as Hfree.
  assert (Hzero : zero_bits (clear_bit bytes b) (bm_total_bits bm) = bm_free_count bm + 1).
  { rewrite zero_bits_clear_bits by lia. rewrite clear_bits_clear_bit by lia.
    rewrite Hcount, zero_bits_clear_bits by lia. rewrite Hbit.
    replace (0 <=? b) with true by (symmetry; apply Z.leb_le; lia).
    replace (b <? 0 + Z.of_nat (Z.to_nat (bm_total_bits bm))) with true
      by (symmetry; apply Z.ltb_lt; lia).
    reflexivity. }
  pose proof (zero_bits_range (clear_bit bytes b) (bm_total_bits bm) ltac:(lia)) as Hr.
  pose proof (zero_bits_range bytes (bm_total_bits bm) ltac:(lia)) as Hr0.
  assert (Hwf' : bitmap_wf (free_bitmap_bit bm b) (clear_bit bytes b)).
  { rewrite Hfree. constructor; cbn;
      [reflexivity | lia | rewrite length_clear_bit; exact Hlen | | lia].
    rewrite u32_small by lia. symmetry. exact Hzero. }
  split.
  { apply (free_bitmap_bit_clear _ (clear_bit bytes b)).
    - rewrite Hfree. reflexivity.
    - right. rewrite bit_is_set_clear_bit by lia. rewrite Z.eqb_refl. reflexivity. }
  split; [intros [H | H]; [lia | discriminate] |].
  intros _ _. split.
  { rewrite Hfree. cbn. apply u32_small. lia. }
  split; [exact Hwf' |].
  intros i Hi. apply bit_is_set_clear_bit; lia.
Qed.

(** X13. The allocator of file_ops.c and its counterpart: a block handed out by
    [alloc_data_block_from_bitmap] lies in the data area and had a clear
    bit; [free_data_block_to_bitmap] of that block gives back the array and
    the free count.  The disk and the superblock are not touched by
    either. *)
Theorem free_data_block_undoes_alloc (w : world) (bytes : list byte) :
  bitmap_wf (block_bitmap (fs w)) bytes ->
  bm_free_count (block_bitmap (fs w)) <> 0 ->
  0 <= sb_data_blocks_start (superblock (fs w)) ->
  sb_data_blocks_start (superblock (fs w)) + bm_total_bits (block_bitmap (fs w)) <= 2 ^ 32 ->
  exists b w1 w2,
    alloc_data_block_from_bitmap w = Some (b, w1) /\
    sb_data_blocks_start (superblock (fs w)) <= b
      < sb_data_blocks_start (superblock (fs w)) + bm_total_bits (block_bitmap (fs w)) /\
    bit_is_set bytes (b - sb_data_blocks_start (superblock (fs w))) = false /\
    bm_free_count (block_bitmap (fs w1)) = bm_free_count (block_bitmap (fs w)) - 1 /\
    free_data_block_to_bitmap w1 b = Some w2 /\
    bm_bitmap (block_bitmap (fs w2)) = Some bytes /\
    bm_free_count (block_bitmap (fs w2)) = bm_free_count (block_bitmap (fs w)) /\
    disk w2 = disk w /\ superblock (fs w2) = superblock (fs w).
Proof.
  intros Hwf Hfree Hstart Hend.
  destruct (alloc_scan_first_free _ bytes Hwf Hfree) as (k & (Hk & Hclear & _) & Hscan).
  pose proof Hwf as [Harr Ht Hlen Hcount Hlast].
  set (bm := block_bitmap (fs w)) in *.
  set (start := sb_data_blocks_start (superblock (fs w))) in *.
  set (bit := (bm_last_allocated bm + k) mod bm_total_bits bm) in *.
  assert (Hbit : 0 <= bit < bm_total_bits bm) by (apply Z.mod_pos_bound; lia).
  destruct (set_clear_bit_counts bm bytes bit Hwf Hbit Hclear) as (Hset & Hzero & Hrange).
  pose proof (bit_in_array bm bytes bit Hwf Hbit) as Hin.
  unfold alloc_data_block_from_bitmap. fold bm. fold start.
  replace (bm_free_count bm =? 0) with false by (symmetry; apply Z.eqb_neq; exact Hfree).
  replace (bm_total_bits bm <=? 0) with false by (symmetry; apply Z.leb_gt; lia).
  rewrite Harr, Hscan. rewrite (u32_small (bit + start)) by lia.
  rewrite (u32_small (bm_free_count bm - 1)) by lia.
  eexists (bit + start), _, _.
  split; [reflexivity |]. split; [lia |].
  split; [replace (bit + start - start) with bit by lia; exact Hclear |].
  split; [reflexivity |].
  unfold free_data_block_to_bitmap. simpl_world. fold start.
  cbn [bm_total_bits bm_bitmap bm_free_count bm_last_allocated].
  replace (bit + start <? start) with false by (symmetry; apply Z.ltb_ge; lia).
  replace (bit + start - start) with bit by lia.
  rewrite (u32_small bit) by lia.
  replace (bm_total_bits bm <=? bit) with false by (symmetry; apply Z.leb_gt; lia).
  rewrite Hset.
  split; [reflexivity |]. simpl_world.
  cbn [bm_total_bits bm_bitmap bm_free_count bm_last_allocated].
  split; [rewrite clear_bit_set_bit by (lia || assumption); reflexivity |].
  split; [rewrite u32_small by lia; lia |].
  split; reflexivity.
Qed.

(* ===================================================================== *)
(** ** The inode table *)
(* ===================================================================== *)

Lemma lookup_memcpy_outside (dst src : list byte) (off i : nat) :
  (off + length src <= length dst)%nat ->
  (i < off)%nat \/ (off + length src <= i)%nat ->
  memcpy dst off src !! i = dst !! i.
Proof.
  intros Hfit Hi. unfold memcpy.
  destruct Hi as [Hi | Hi].
  - rewrite lookup_app_l by (rewrite length_take; lia).
    apply lookup_take_lt. exact Hi.
  - rewrite lookup_app_r by (rewrite length_take; lia).
    rewrite length_take, Nat.min_l by lia.
    rewrite lookup_app_r by lia.
    rewrite lookup_drop. f_equal. lia.
Qed.

(** The fields read from an image depend on the bytes of the structure
    only. *)
Lemma get_fields_prefix layout : forall p q,
  firstn (layout_size layout) p = firstn (layout_size layout) q ->
  get_fields layout p = get_fields layout q.
Proof.
  induction layout as [| n layout IH]; intros p q H; [reflexivity |].
  cbn [get_fields layout_size fold_right] in *.
  fold (layout_size layout) in H.
  assert (Hn : firstn n p = firstn n q).
  { apply (f_equal (firstn n)) in H. rewrite !take_take in H.
    rewrite Nat.min_l in H by lia. exact H. }
  rewrite Hn. f_equal. apply IH.
  apply (f_equal (skipn n)) in H.
  rewrite !skipn_firstn_comm in H.
  replace (n + layout_size layout - n)%nat with (layout_size layout) in H by lia.
  exact H.
Qed.

Lemma decode_inode_prefix p q :
  firstn 148 p = firstn 148 q -> decode_inode p = decode_inode q.
Proof.
  intros H. unfold decode_inode.
  rewrite (get_fields_prefix inode_layout p q); [reflexivity | exact H].
Qed.

(** An image of an inode at one offset of a block is not seen from a slot
    that does not overlap it. *)
Lemma decode_inode_other_slot block src (off off' : nat) :
  length block = 1024%nat -> length src = 148%nat ->
  (off + 148 <= 1024)%nat -> (off' + 148 <= 1024)%nat ->
  (off' + 148 <= off)%nat \/ (off + 148 <= off')%nat ->
  decode_inode (skipn off' (memcpy block off src)) = decode_inode (skipn off' block).
Proof.
  intros Hblock Hsrc Hfit Hfit' Hapart.
  apply decode_inode_prefix. apply list_eq. intros i.
  destruct (Nat.lt_ge_cases i 148) as [Hi | Hi].
  - rewrite !lookup_take_lt by exact Hi. rewrite !lookup_drop.
    apply lookup_memcpy_outside; lia.
  - rewrite !lookup_take_ge by exact Hi. reflexivity.
Qed.

(** What a successful [fs_ops_write_inode] leaves alone. *)
Lemma fs_ops_write_inode_frame w n inode w' :
  fs_ops_write_inode w n inode = (FS_SUCCESS, w') ->
  fs w' = fs w /\ same_geometry (disk w) (disk w') /\
  forall b,
    b <> to_int (u32 (sb_inode_table_start (superblock (fs w)) + n / inodes_per_block)) ->
    d_blocks (disk w') !! b = d_blocks (disk w) !! b.
Proof.
  intros Hwrite.
  pose proof (fs_ops_write_inode_fs w n inode) as Hfs. rewrite Hwrite in Hfs.
  split; [exact Hfs |].
  revert Hwrite. unfold fs_ops_write_inode.
  destruct ((n =? 0) || _); [wrong_code |].
  destruct (read_block _ _ _) as [r block].
  destruct (negb (r =? DISK_SUCCESS)); [wrong_code |].
  destruct (write_block _ _ _) as [r' d'] eqn:Hw.
  apply write_block_inv in Hw as [(-> & _ & _ & _ & Hblocks & Hgeo) | (Hneg & ->)].
  - cbn [negb]. change (DISK_SUCCESS =? DISK_SUCCESS) with true. cbn [negb].
    intros [= <-]. split; [exact Hgeo |].
    intros b Hb. cbn [disk set_disk]. rewrite Hblocks. apply lookup_insert_ne. congruence.
  - destruct (negb (r' =? DISK_SUCCESS)) eqn:E; [wrong_code |].
    apply negb_false_iff, Z.eqb_eq in E. codes. lia.
Qed.

(** Another inode reads as before. *)
Lemma fs_ops_write_inode_other w n m inode w' :
  inode_wf inode -> 0 <= n < 2 ^ 32 -> 0 <= m < 2 ^ 32 -> n <> m ->
  fs_ops_write_inode w n inode = (FS_SUCCESS, w') ->
  fs_ops_read_inode w' m = fs_ops_read_inode w m.
Proof.
  intros Hwf Hn Hm Hnm Hwrite.
  revert Hwrite. unfold fs_ops_write_inode.
  destruct ((n =? 0) || _) eqn:Hguard; [wrong_code |].
  pose proof (inode_offset_fits n) as Hfit.
  pose proof (inode_offset_fits m) as Hfit'.
  set (blk := u32 (sb_inode_table_start (superblock (fs w)) + n / inodes_per_block)).
  set (off := u32 (n mod inodes_per_block * sizeof_fs_inode_t)) in *.
  destruct (read_block (disk w) blk zero_block) as [r block] eqn:Hr.
  destruct (negb (r =? DISK_SUCCESS)) eqn:Hrc; [wrong_code |].
  apply negb_false_iff, Z.eqb_eq in Hrc. subst r.
  pose proof (read_block_length _ _ _ _ _ Hr eq_refl) as Hlen.
  apply read_block_inv in Hr as [(_ & Hi & Hb & Hblock) | (Hneg & _)]; [| codes; lia].
  destruct (write_block (disk w) blk (memcpy block (Z.to_nat off) (encode_inode inode)))
    as [r d'] eqn:Hw.
  apply write_block_inv in Hw as [(-> & _ & _ & _ & Hblocks & Hgeo) | (Hneg & ->)].
  2:{ destruct (negb (r =? DISK_SUCCESS)) eqn:E;
        [wrong_code | apply negb_false_iff, Z.eqb_eq in E; codes; lia]. }
  cbn [negb]. change (DISK_SUCCESS =? DISK_SUCCESS) with true. cbn [negb].
  intros [= <-].
  assert (Hothers : forall b, b <> to_int blk -> d_blocks d' !! b = d_blocks (disk w) !! b).
  { intros b Hne. rewrite Hblocks. apply lookup_insert_ne. congruence. }
  unfold fs_ops_read_inode. simpl_world.
  destruct ((m =? 0) || _) eqn:Hguard'; [reflexivity |].
  set (blk' := u32 (sb_inode_table_start (superblock (fs w)) + m / inodes_per_block)).
  set (off' := u32 (m mod inodes_per_block * sizeof_fs_inode_t)) in *.
  unfold read_block.
  assert (Hsame_bounds : disk_check_block_bounds d' (to_int blk')
                         = disk_check_block_bounds (disk w) (to_int blk')).
  { apply same_geometry_bounds. exact Hgeo. }
  unfold disk_read_block. destruct Hgeo as (Hgi & _).
  rewrite Hgi, Hsame_bounds.
  destruct (negb (d_is_initialized (disk w))); [reflexivity |].
  destruct (negb (disk_check_block_bounds (disk w) (to_int blk'))); [reflexivity |].
  cbn [default negb]. change (DISK_SUCCESS =? DISK_SUCCESS) with true. cbn [negb].
  f_equal.
  destruct (Z.eq_dec (n / inodes_per_block) (m / inodes_per_block)) as [Hsame | Hdiff].
  - assert (Hblk : blk' = blk) by (unfold blk, blk'; rewrite Hsame; reflexivity).
    rewrite Hblk.
    rewrite (stored_block_written _ _ _ _ Hblocks)
      by (rewrite length_memcpy; [exact Hlen | rewrite length_encode_inode by exact Hwf; lia]).
    rewrite <- Hblock.
    unfold off, off' in *. unfold inodes_per_block, sizeof_fs_inode_t, DISK_BLOCK_SIZE in *.
    change (1024 / 148) with 6 in *.
    pose proof (Z.div_mod n 6 ltac:(lia)) as Hdn.
    pose proof (Z.div_mod m 6 ltac:(lia)) as Hdm.
    assert (Hmod : n mod 6 <> m mod 6) by lia.
    pose proof (Z.mod_pos_bound n 6 ltac:(lia)).
    pose proof (Z.mod_pos_bound m 6 ltac:(lia)).
    rewrite (u32_small (n mod 6 * 148)) in * by lia.
    rewrite (u32_small (m mod 6 * 148)) in * by lia.
    apply decode_inode_other_slot;
      [exact Hlen | apply length_encode_inode; exact Hwf | lia | lia | lia].
  - f_equal. f_equal. apply stored_block_same. apply Hothers.
    intros Heq. apply Hdiff.
    apply to_int_u32_inj in Heq.
    + lia.
    + unfold inodes_per_block, DISK_BLOCK_SIZE, sizeof_fs_inode_t.
      change (1024 / 148) with 6.
      pose proof (Z.div_pos n 6 ltac:(lia) ltac:(lia)).
      pose proof (Z.div_pos m 6 ltac:(lia) ltac:(lia)).
      pose proof (Z.div_lt_upper_bound n 6 (2 ^ 32) ltac:(lia) ltac:(lia)).
      pose proof (Z.div_lt_upper_bound m 6 (2 ^ 32) ltac:(lia) ltac:(lia)).
      lia.
Qed.

(** X14. Writing an inode stores it, leaves every other inode as it was, and
    changes no block of the disk but the one of the inode table that holds
    it. *)
Theorem fs_ops_write_inode_keeps_the_others (w : world) (n m : Z) (inode : fs_inode_t) :
  inode_wf inode -> d_is_read_only (disk w) = false ->
  0 <= n < 2 ^ 32 -> 0 <= m < 2 ^ 32 -> n <> m ->
  fst (fs_ops_read_inode w n) = FS_SUCCESS ->
  exists w',
    fs_ops_write_inode w n inode = (FS_SUCCESS, w') /\
    fs_ops_read_inode w' n = (FS_SUCCESS, inode) /\
    fs_ops_read_inode w' m = fs_ops_read_inode w m /\
    fs w' = fs w /\
    forall b,
      b <> to_int (u32 (sb_inode_table_start (superblock (fs w)) + n / inodes_per_block)) ->
      d_blocks (disk w') !! b = d_blocks (disk w) !! b.
Proof.
  intros Hwf Hro Hn Hm Hnm Hread.
  destruct (write_then_read_inode w n inode Hwf Hro Hread) as (w' & Hwrite & Hback).
  destruct (fs_ops_write_inode_frame _ _ _ _ Hwrite) as (Hfs & _ & Hframe).
  exists w'. split; [exact Hwrite |]. split; [exact Hback |].
  split; [exact (fs_ops_write_inode_other w n m inode w' Hwf Hn Hm Hnm Hwrite) |].
  split; [exact Hfs | exact Hframe].
Qed.

(* ===================================================================== *)
(** ** The superblock on disk *)
(* ===================================================================== *)

Lemma decode_written_superblock sb :
  superblock_wf sb -> decode_superblock (memcpy zero_block 0 (encode_superblock sb)) = sb.
Proof.
  intros Hwf. unfold memcpy. change (firstn 0 zero_block) with (@nil byte).
  rewrite app_nil_l. apply decode_encode_superblock. exact Hwf.
Qed.

(** X15. A superblock that was written is the superblock that
    [fs_ops_read_superblock] stores in its argument; the call succeeds
    exactly when the magic number is right and the checksum field is the
    checksum of the structure with that field zeroed, and reports
    [FS_ERROR_CORRUPTED] otherwise. *)
Theorem superblock_write_then_read (d : disk_state_t) (sb sb0 : fs_superblock_t) :
  d_is_initialized d = true -> d_is_read_only d = false -> 0 < d_total_blocks d ->
  superblock_wf sb ->
  exists d',
    fs_ops_write_superblock d sb = (FS_SUCCESS, d') /\
    fs_ops_read_superblock d' sb0 =
      (if (sb_magic_number sb =? FS_MAGIC_NUMBER)
          && (sb_checksum sb =? superblock_checksum (set_sb_checksum sb 0))
       then FS_SUCCESS else FS_ERROR_CORRUPTED, sb).
Proof.
  intros Hi Hro Ht Hwf.
  destruct (fs_ops_write_superblock_ok d sb Hi Hro Ht) as (d' & Hw & Hblocks & Hgeo).
  exists d'. split; [exact Hw |].
  destruct Hgeo as (Hi' & _ & Ht' & _).
  unfold fs_ops_read_superblock, FS_SUPERBLOCK_BLOCK.
  rewrite read_block_ok; [| congruence | apply block_in_bounds; [congruence | lia | lia]].
  cbn [negb Z.eqb DISK_SUCCESS].
  pose proof (length_encode_superblock sb Hwf) as Hlen.
  change (to_int 0) with 0.
  rewrite (stored_block_written d d' 0 _ Hblocks)
    by (rewrite length_memcpy; [reflexivity | rewrite Hlen; cbn; lia]).
  rewrite decode_written_superblock by exact Hwf.
  destruct (sb_magic_number sb =? FS_MAGIC_NUMBER); [| reflexivity].
  destruct (sb_checksum sb =? superblock_checksum (set_sb_checksum sb 0)); reflexivity.
Qed.

Lemma decode_zero_block : decode_superblock zero_block = superblock_zero.
Proof. vm_compute. reflexivity. Qed.

Lemma stored_block_untouched d b : d_blocks d !! b = None -> stored_block d b = zero_block.
Proof. intros H. unfold stored_block. rewrite H. reflexivity. Qed.

(** X16. On a disk whose block 0 was never written, with no file system loaded,
    [fs_create] and [fs_open] load nothing: they return
    [FS_ERROR_CORRUPTED], and the only change is that the superblock in
    memory now holds the zero bytes of block 0. *)
Theorem unformatted_disk_is_refused (w : world) (now : Z) (path : list byte) :
  d_is_initialized (disk w) = true -> 0 < d_total_blocks (disk w) ->
  d_blocks (disk w) !! 0 = None ->
  sb_magic_number (superblock (fs w)) <> FS_MAGIC_NUMBER ->
  fs_ops_read_superblock (disk w) (superblock (fs w)) = (FS_ERROR_CORRUPTED, superblock_zero) /\
  fs_create w now (Some path) = Some (FS_ERROR_CORRUPTED, set_superblock w superblock_zero) /\
  fs_open w now (Some path) = Some (FS_ERROR_CORRUPTED, set_superblock w superblock_zero).
Proof.
  intros Hi Ht Hblock Hmagic.
  assert (Hread : fs_ops_read_superblock (disk w) (superblock (fs w))
                  = (FS_ERROR_CORRUPTED, superblock_zero)).
  { unfold fs_ops_read_superblock, FS_SUPERBLOCK_BLOCK.
    rewrite read_block_ok; [| exact Hi | apply block_in_bounds; [exact Hi | lia | lia]].
    cbn [negb Z.eqb DISK_SUCCESS]. change (to_int 0) with 0.
    rewrite (stored_block_untouched _ _ Hblock), decode_zero_block. reflexivity. }
  assert (Hload : ensure_loaded w = Some (FS_ERROR_CORRUPTED, set_superblock w superblock_zero)).
  { unfold ensure_loaded.
    replace (sb_magic_number (superblock (fs w)) =? FS_MAGIC_NUMBER) with false
      by (symmetry; apply Z.eqb_neq; exact Hmagic).
    cbn [negb]. unfold load_filesystem_state. rewrite Hread. reflexivity. }
  split; [exact Hread |].
  unfold fs_create, fs_open. rewrite Hload. split; reflexivity.
Qed.

(** [alloc_bitmap_bit] on a bitmap without an array. *)
Lemma alloc_bitmap_bit_no_array bm : bm_bitmap bm = None -> alloc_bitmap_bit bm = (0, bm).
Proof. intros H. unfold alloc_bitmap_bit. rewrite H. reflexivity. Qed.

(** [fs_create] with a file system loaded whose inode bitmap has no array:
    it fails, and the state stays as it is. *)
Lemma fs_create_without_bitmap w now path :
  fs_loaded w -> bm_bitmap (inode_bitmap (fs w)) = None ->
  exists r, fs_create w now (Some path) = Some (r, w) /\
            (r = FS_ERROR_INVALID_PARAM \/ r = FS_ERROR_FILE_EXISTS \/ r = FS_ERROR_NO_SPACE).
Proof.
  intros Hloaded Hnone. unfold fs_create.
  rewrite (ensure_loaded_loaded _ Hloaded). cbn [negb Z.eqb FS_SUCCESS].
  unfold parse_path.
  assert (Hbody : forall filename,
    exists r,
      (if (length filename =? 0)%nat then Some (FS_ERROR_INVALID_PARAM, w)
       else
         let existing_inode := find_file_in_directory w ROOT_INODE_NUM filename in
         if negb (existing_inode =? 0) then Some (FS_ERROR_FILE_EXISTS, w)
         else
           let '(new_inode_num, bm) := alloc_bitmap_bit (inode_bitmap (fs w)) in
           let w := set_inode_bitmap w bm in
           if new_inode_num =? 0 then Some (FS_ERROR_NO_SPACE, w)
           else
             let new_inode :=
               {| i_inode_number := new_inode_num;
                  i_file_type := FS_FILE_TYPE_REGULAR;
                  i_permissions := 420;
                  i_owner_uid := user_manager_get_current_uid w;
                  i_owner_gid := user_manager_get_current_gid w;
                  i_link_count := 1; i_file_size := 0; i_block_count := 0;
                  i_access_time := now; i_modify_time := now;
                  i_change_time := now; i_create_time := now;
                  i_direct_blocks := repeat 0 12; i_indirect_block := 0;
                  i_double_indirect_block := 0; i_triple_indirect_block := 0;
                  i_flags := 0; i_generation := 0; i_reserved := repeat 0 4 |} in
             let '(result, w) := fs_ops_write_inode w new_inode_num new_inode in
             if negb (result =? FS_SUCCESS)
             then Some (result,
                        set_inode_bitmap w
                          (free_bitmap_bit (inode_bitmap (fs w)) new_inode_num))
             else
               let '(result, w) :=
                 add_file_to_directory w now ROOT_INODE_NUM filename new_inode_num in
               if negb (result =? FS_SUCCESS)
               then Some (result,
                          set_inode_bitmap w
                            (free_bitmap_bit (inode_bitmap (fs w)) new_inode_num))
               else
                 let sb := superblock (fs w) in
                 Some (FS_SUCCESS,
                       set_superblock w
                         (set_sb_free sb (bm_free_count (inode_bitmap (fs w)))
                                      (sb_free_blocks sb))))
      = Some (r, w) /\
      (r = FS_ERROR_INVALID_PARAM \/ r = FS_ERROR_FILE_EXISTS \/ r = FS_ERROR_NO_SPACE)).
  { intros filename.
    destruct (length filename =? 0)%nat; [eauto |]. cbv zeta.
    destruct (negb (find_file_in_directory w ROOT_INODE_NUM filename =? 0)); [eauto |].
    rewrite (alloc_bitmap_bit_no_array _ Hnone). cbn [Z.eqb].
    exists FS_ERROR_NO_SPACE. split; [| auto].
    f_equal. f_equal. destruct w as [d [? ? ? ? ? ?]]. reflexivity. }
  destruct (c_str path) as [| b name_start].
  { cbn [negb Z.eqb FS_SUCCESS]. apply (Hbody []). }
  destruct (Byte.eqb b slash).
  - destruct name_start as [| b' rest].
    + cbn [negb Z.eqb FS_SUCCESS]. apply (Hbody []).
    + destruct (strchr_found (b' :: rest) slash).
      * eexists. split; [reflexivity | auto].
      * cbn [negb Z.eqb FS_SUCCESS]. apply Hbody.
  - destruct (strchr_found (b :: name_start) slash).
    + eexists. split; [reflexivity | auto].
    + cbn [negb Z.eqb FS_SUCCESS]. apply Hbody.
Qed.

(** X17. A process that starts with a zeroed state on a disk that holds a valid
    superblock loads the superblock, but no bitmap: the loader reads into
    arrays that nobody has allocated, of zero bits.  From then on
    [fs_create] can never succeed: whatever the path, it returns
    [FS_ERROR_INVALID_PARAM], [FS_ERROR_FILE_EXISTS] or
    [FS_ERROR_NO_SPACE], in the same state, and never touches the disk. *)
Theorem fs_create_after_restart_fails (w : world) (now : Z) (path : list byte)
    (sb : fs_superblock_t) :
  sb_magic_number (superblock (fs w)) <> FS_MAGIC_NUMBER ->
  inode_bitmap (fs w) = no_bitmap -> block_bitmap (fs w) = no_bitmap ->
  fs_ops_read_superblock (disk w) (superblock (fs w)) = (FS_SUCCESS, sb) ->
  exists r w',
    fs_create w now (Some path) = Some (r, w') /\
    (r = FS_ERROR_INVALID_PARAM \/ r = FS_ERROR_FILE_EXISTS \/ r = FS_ERROR_NO_SPACE) /\
    disk w' = disk w /\ superblock (fs w') = sb /\
    inode_bitmap (fs w') = no_bitmap /\ block_bitmap (fs w') = no_bitmap /\
    forall now' path',
      exists r',
        fs_create w' now' (Some path') = Some (r', w') /\
        (r' = FS_ERROR_INVALID_PARAM \/ r' = FS_ERROR_FILE_EXISTS \/ r' = FS_ERROR_NO_SPACE).
Proof.
  intros Hmagic Hib Hbb Hread.
  assert (Hsb : sb_magic_number sb = FS_MAGIC_NUMBER).
  { revert Hread. unfold fs_ops_read_superblock.
    destruct (read_block _ _ _) as [r buffer].
    destruct (negb (r =? DISK_SUCCESS)); [wrong_code |].
    cbv zeta. set (sb' := decode_superblock buffer).
    destruct (negb (sb_magic_number sb' =? FS_MAGIC_NUMBER)) eqn:E; [wrong_code |].
    destruct (negb (sb_checksum sb' =? _)); [wrong_code |].
    intros [= H]. rewrite <- H. apply negb_false_iff, Z.eqb_eq in E. exact E. }
  set (w1 := set_open_files (set_block_bitmap (set_inode_bitmap (set_superblock w sb)
                                                  no_bitmap) no_bitmap)
                            (repeat handle_zero (Z.to_nat MAX_OPEN_FILES))).
  assert (Hload : ensure_loaded w = Some (FS_SUCCESS, w1)).
  { unfold ensure_loaded.
    replace (sb_magic_number (superblock (fs w)) =? FS_MAGIC_NUMBER) with false
      by (symmetry; apply Z.eqb_neq; exact Hmagic).
    cbn [negb]. unfold load_filesystem_state. rewrite Hread.
    cbn [negb Z.eqb FS_SUCCESS]. simpl_world. rewrite Hib, Hbb.
    reflexivity. }
  assert (Hloaded1 : fs_loaded w1) by exact Hsb.
  assert (Hnone1 : bm_bitmap (inode_bitmap (fs w1)) = None) by reflexivity.
  destruct (fs_create_without_bitmap w1 now path Hloaded1 Hnone1) as (r & Hr & Hcases).
  exists r, w1. split.
  { revert Hr. unfold fs_create. rewrite Hload, (ensure_loaded_loaded _ Hloaded1).
    intros Hr. exact Hr. }
  split; [exact Hcases |].
  split; [reflexivity |]. split; [reflexivity |]. split; [reflexivity |].
  split; [reflexivity |].
  intros now' path'. apply fs_create_without_bitmap; assumption.
Qed.

(* ===================================================================== *)
(** ** Descriptors: [fs_close], [fs_seek], [fs_tell], [fs_size] *)
(* ===================================================================== *)

Lemma handle_at_insert_ne w fd fd' h :
  0 <= fd -> 0 <= fd' -> fd' <> fd ->
  handle_at (set_open_files w (<[Z.to_nat fd := h]> (open_files (fs w)))) fd'
  = handle_at w fd'.
Proof.
  intros Hfd Hfd' Hne. unfold handle_at. simpl_world.
  rewrite !nth_lookup. rewrite list_lookup_insert_ne by lia. reflexivity.
Qed.

Lemma validate_fd_closed w fd :
  fh_reference_count (handle_at w fd) = 0 ->
  file_ops_validate_fd w fd = FS_ERROR_INVALID_PARAM.
Proof.
  intros H. unfold file_ops_validate_fd. rewrite H.
  destruct ((fd <? 0) || (MAX_OPEN_FILES <=? fd)); reflexivity.
Qed.

(** X18. Closing the only reference of a descriptor clears its slot.  The
    descriptor is invalid from then on: [fs_write], [fs_read], [fs_seek],
    [fs_tell] and [fs_size] return [FS_ERROR_INVALID_PARAM] and change
    nothing, and a second [fs_close] does nothing.  The other descriptors
    and the disk stay as they are. *)
Theorem fs_close_releases_the_descriptor (w : world) (fd : Z) :
  file_ops_validate_fd w fd = FS_SUCCESS ->
  fh_reference_count (handle_at w fd) = 1 ->
  handle_at (fs_close w fd) fd = handle_zero /\
  (forall fd', 0 <= fd' -> fd' <> fd -> handle_at (fs_close w fd) fd' = handle_at w fd') /\
  disk (fs_close w fd) = disk w /\
  file_ops_validate_fd (fs_close w fd) fd = FS_ERROR_INVALID_PARAM /\
  (forall now data size,
     fs_write (fs_close w fd) now fd data size
     = Some (FS_ERROR_INVALID_PARAM, fs_close w fd)) /\
  (forall now buffer size,
     fs_read (fs_close w fd) now fd buffer size
     = Some (FS_ERROR_INVALID_PARAM, buffer, fs_close w fd)) /\
  (forall offset whence,
     fs_seek (fs_close w fd) fd offset whence
     = Some (FS_ERROR_INVALID_PARAM, fs_close w fd)) /\
  fs_tell (fs_close w fd) fd = FS_ERROR_INVALID_PARAM /\
  fs_size (fs_close w fd) fd = Some (FS_ERROR_INVALID_PARAM, fs_close w fd) /\
  fs_close (fs_close w fd) fd = fs_close w fd.
Proof.
  intros Hfd Hcount.
  destruct (validate_fd_in_table w fd Hfd) as (Hrange & Hlen).
  assert (Hclose : fs_close w fd
                   = set_open_files w (<[Z.to_nat fd := handle_zero]> (open_files (fs w)))).
  { unfold fs_close.
    replace ((fd <? 0) || (MAX_OPEN_FILES <=? fd)) with false
      by (symmetry; apply orb_false_iff; split; [apply Z.ltb_ge | apply Z.leb_gt]; lia).
    rewrite Hcount. reflexivity. }
  assert (Hzero : handle_at (fs_close w fd) fd = handle_zero).
  { rewrite Hclose. apply handle_at_insert. exact Hlen. }
  assert (Hinvalid : file_ops_validate_fd (fs_close w fd) fd = FS_ERROR_INVALID_PARAM).
  { apply validate_fd_closed. rewrite Hzero. reflexivity. }
  split; [exact Hzero |].
  split; [intros fd' Hfd' Hne; rewrite Hclose; apply handle_at_insert_ne; lia |].
  split; [rewrite Hclose; reflexivity |].
  split; [exact Hinvalid |].
  split.
  { intros now data size. unfold fs_write. destruct data as [data |]; [| reflexivity].
    destruct (size <=? 0); [reflexivity |]. rewrite Hinvalid. reflexivity. }
  split.
  { intros now buffer size. unfold fs_read. destruct buffer as [buf |]; [| reflexivity].
    destruct (size <=? 0); [reflexivity |]. rewrite Hinvalid. reflexivity. }
  split; [intros offset whence; unfold fs_seek; rewrite Hinvalid; reflexivity |].
  split; [unfold fs_tell; rewrite Hinvalid; reflexivity |].
  split; [unfold fs_size; rewrite Hinvalid; reflexivity |].
  unfold fs_close at 1. rewrite Hzero.
  destruct ((fd <? 0) || (MAX_OPEN_FILES <=? fd)); reflexivity.
Qed.

Lemma to_int64_small z : - 2 ^ 63 <= z < 2 ^ 63 -> to_int64 z = z.
Proof. intros H. unfold to_int64. rewrite Z.mod_small; lia. Qed.

Lemma to_int64_u64 z : - 2 ^ 63 <= z < 2 ^ 63 -> to_int64 (u64 z) = z.
Proof.
  intros H. unfold to_int64, u64.
  rewrite Zplus_mod_idemp_l. rewrite Z.mod_small; lia.
Qed.

(** X19. The three origins of [fs_seek], on an open descriptor whose position
    and file size are below 2^62.  The target is [offset], the position
    plus [offset], or the file size plus [offset].  A negative target is
    refused and nothing changes.  Any other target, also one beyond the end
    of the file, becomes the position, and [fs_tell] reports it; the value
    returned is the target converted to [int], so it is the target itself
    only below 2^31.  Another [whence] is refused. *)
Theorem fs_seek_sets_the_position (w : world) (fd offset whence : Z)
    (inode : fs_inode_t) :
  fs_loaded w ->
  file_ops_validate_fd w fd = FS_SUCCESS ->
  read_inode_from_disk w (fh_inode_number (handle_at w fd)) = (FS_SUCCESS, inode) ->
  int_range offset ->
  0 <= cursor w fd < 2 ^ 62 -> i_file_size inode < 2 ^ 62 ->
  (forall target,
     (whence = SEEK_SET /\ target = offset \/
      whence = SEEK_CUR /\ target = cursor w fd + offset \/
      whence = SEEK_END /\ target = i_file_size inode + offset) ->
     (target < 0 -> fs_seek w fd offset whence = Some (FS_ERROR_INVALID_PARAM, w)) /\
     (0 <= target ->
      fs_seek w fd offset whence = Some (to_int target, set_position w fd target) /\
      cursor (set_position w fd target) fd = target /\
      fs_tell (set_position w fd target) fd = to_int target /\
      (target < 2 ^ 31 -> to_int target = target) /\
      (forall fd', 0 <= fd' -> fd' <> fd ->
                   handle_at (set_position w fd target) fd' = handle_at w fd') /\
      disk (set_position w fd target) = disk w)) /\
  (whence <> SEEK_SET -> whence <> SEEK_CUR -> whence <> SEEK_END ->
   fs_seek w fd offset whence = Some (FS_ERROR_INVALID_PARAM, w)).
Proof.
  intros Hloaded Hfd Hinode Hoff Hcur Hsize.
  split.
  2:{ intros H0 H1 H2. unfold fs_seek. rewrite Hfd. cbn [negb Z.eqb FS_SUCCESS].
      rewrite (load_if_needed_loaded _ Hloaded). cbn [negb Z.eqb FS_SUCCESS].
      rewrite Hinode. cbn [negb Z.eqb FS_SUCCESS].
      replace (whence =? SEEK_SET) with false by (symmetry; apply Z.eqb_neq; exact H0).
      replace (whence =? SEEK_CUR) with false by (symmetry; apply Z.eqb_neq; exact H1).
      replace (whence =? SEEK_END) with false by (symmetry; apply Z.eqb_neq; exact H2).
      reflexivity. }
  intros target Htarget.
  destruct (validate_fd_in_table w fd Hfd) as (Hrange & Hlen).
  pose proof (fs_ops_read_inode_wf _ _ _ Hinode) as Hwf.
  destruct (inode_wf_ranges _ Hwf) as (Hfs & _ & _).
  unfold int_range in Hoff.
  assert (Hbound : - 2 ^ 63 <= target < 2 ^ 63).
  { unfold cursor in *. destruct Htarget as [(_ & ->) | [(_ & ->) | (_ & ->)]]; lia. }
  assert (Hnew : (if whence =? SEEK_SET then Some (u64 offset)
                  else if whence =? SEEK_CUR
                       then Some (u64 (fh_file_position (handle_at w fd) + offset))
                       else if whence =? SEEK_END then Some (u64 (i_file_size inode + offset))
                            else None) = Some (u64 target)).
  { unfold cursor in *.
    destruct Htarget as [(-> & ->) | [(-> & ->) | (-> & ->)]]; reflexivity. }
  assert (Hseek : fs_seek w fd offset whence =
                  if to_int64 (u64 target) <? 0 then Some (FS_ERROR_INVALID_PARAM, w)
                  else Some (to_int (u64 target), set_position w fd (u64 target))).
  { unfold fs_seek. rewrite Hfd. cbn [negb Z.eqb FS_SUCCESS].
    rewrite (load_if_needed_loaded _ Hloaded). cbn [negb Z.eqb FS_SUCCESS].
    rewrite Hinode. cbn [negb Z.eqb FS_SUCCESS]. rewrite Hnew. reflexivity. }
  rewrite to_int64_u64 in Hseek by exact Hbound.
  split.
  - intros Hneg. rewrite Hseek.
    replace (target <? 0) with true by (symmetry; apply Z.ltb_lt; lia). reflexivity.
  - intros Hpos. rewrite Hseek.
    replace (target <? 0) with false by (symmetry; apply Z.ltb_ge; lia).
    rewrite u64_small by lia.
    assert (Hc : cursor (set_position w fd target) fd = target)
      by (apply cursor_set_position; exact Hlen).
    split; [reflexivity |]. split; [exact Hc |].
    split.
    { unfold fs_tell.
      replace (file_ops_validate_fd (set_position w fd target) fd) with FS_SUCCESS.
      - cbn [negb Z.eqb FS_SUCCESS]. unfold cursor in Hc. rewrite Hc. reflexivity.
      - symmetry. revert Hfd. unfold file_ops_validate_fd.
        destruct ((fd <? 0) || (MAX_OPEN_FILES <=? fd)); [intros H; exact H |].
        unfold set_position. rewrite handle_at_insert by exact Hlen.
        cbn [fh_reference_count set_fh_file_position]. intros H; exact H. }
    split; [intros H31; apply to_int_small; lia |].
    split; [| reflexivity].
    intros fd' Hfd' Hne. unfold set_position. apply handle_at_insert_ne; lia.
Qed.

(* ===================================================================== *)
(** ** Permissions *)
(* ===================================================================== *)

Lemma land_bit_testbit perms o :
  0 <= o -> negb (Z.land perms (2 ^ o) =? 0) = Z.testbit perms o.
Proof.
  intros Ho. rewrite <- Z.shiftl_1_l. rewrite land_pow2_testbit by exact Ho.
  apply negb_involutive.
Qed.

(** X20. For a user who is not the superuser, a request for the read, write or
    execute bit of any class is answered by that bit of the user's own
    class: the owner's if the uid matches, else the group's if the gid
    matches, else the others'.  A request that is not one of the nine single
    bits is answered without regard to the class, by whether the mode has a
    bit in common with it.  The superuser passes every request. *)
Theorem permission_is_decided_by_the_class
    (user_uid user_gid file_uid file_gid file_permissions : Z) :
  (user_uid <> USER_MANAGER_ROOT_UID ->
   forall k, 0 <= k < 3 ->
     let answer :=
       Z.testbit file_permissions (k + class_shift user_uid user_gid file_uid file_gid) in
     user_manager_check_permission_detailed user_uid user_gid file_uid file_gid
       file_permissions (2 ^ k) = answer /\
     user_manager_check_permission_detailed user_uid user_gid file_uid file_gid
       file_permissions (2 ^ (k + 3)) = answer /\
     user_manager_check_permission_detailed user_uid user_gid file_uid file_gid
       file_permissions (2 ^ (k + 6)) = answer) /\
  (user_uid <> USER_MANAGER_ROOT_UID ->
   forall required_perm, ~ In required_perm single_permission_bits ->
     user_manager_check_permission_detailed user_uid user_gid file_uid file_gid
       file_permissions required_perm
     = negb (Z.land file_permissions required_perm =? 0)) /\
  (forall required_perm,
     user_manager_check_permission_detailed USER_MANAGER_ROOT_UID user_gid file_uid
       file_gid file_permissions required_perm = true).
Proof.
  split; [| split].
  - intros Hroot k Hk answer. subst answer.
    unfold user_manager_check_permission_detailed, user_manager_is_root, class_shift.
    replace (user_uid =? USER_MANAGER_ROOT_UID) with false
      by (symmetry; apply Z.eqb_neq; exact Hroot).
    assert (Hcases : k = 0 \/ k = 1 \/ k = 2) by lia.
    destruct (user_uid =? file_uid); [| destruct (user_gid =? file_gid)];
      destruct Hcases as [-> | [-> | ->]];
      repeat split;
      match goal with
      | |- negb (Z.land _ ?p =? 0) = Z.testbit _ ?o =>
          let p' := eval vm_compute in p in
          let o' := eval vm_compute in o in
          change p with p'; change o with o';
          apply (land_bit_testbit file_permissions o'); lia
      end.
  - intros Hroot required_perm Hnot.
    unfold user_manager_check_permission_detailed, user_manager_is_root.
    replace (user_uid =? USER_MANAGER_ROOT_UID) with false
      by (symmetry; apply Z.eqb_neq; exact Hroot).
    assert (Hsw : forall r w x, switch_perm required_perm r w x = required_perm).
    { intros r w x. unfold switch_perm, is_read_perm, is_write_perm, is_exec_perm.
      repeat match goal with
      | |- context [required_perm =? ?c] =>
          replace (required_perm =? c) with false
            by (symmetry; apply Z.eqb_neq; intros ->; apply Hnot;
                unfold single_permission_bits; cbn; tauto)
      end.
      reflexivity. }
    rewrite !Hsw. destruct (user_uid =? file_uid), (user_gid =? file_gid); reflexivity.
  - intros required_perm. reflexivity.
Qed.

(** X21. The three macros of fs.h answer as [user_manager_check_permission_detailed]
    answers the request for the owner's bit. *)
Theorem permission_macros_agree (perms uid gid file_uid file_gid : Z) :
  FS_IS_READABLE perms uid gid file_uid file_gid =
    user_manager_check_permission_detailed uid gid file_uid file_gid perms
      FS_PERM_OWNER_READ /\
  FS_IS_WRITABLE perms uid gid file_uid file_gid =
    user_manager_check_permission_detailed uid gid file_uid file_gid perms
      FS_PERM_OWNER_WRITE /\
  FS_IS_EXECUTABLE perms uid gid file_uid file_gid =
    user_manager_check_permission_detailed uid gid file_uid file_gid perms
      FS_PERM_OWNER_EXEC.
Proof.
  unfold FS_IS_READABLE, FS_IS_WRITABLE, FS_IS_EXECUTABLE,
    fs_check_permission_internal, user_manager_check_permission_detailed,
    user_manager_is_root, USER_MANAGER_ROOT_UID.
  repeat split;
    destruct (uid =? 0); try reflexivity;
    destruct (uid =? file_uid); try reflexivity;
    destruct (gid =? file_gid); reflexivity.
Qed.

(* ===================================================================== *)
(** ** The user table *)
(* ===================================================================== *)

(** X22. The state right after [user_manager_init], whatever the state before:
    the account [root] exists, but with uid and gid 1000, because a uid of 0
    asks [user_manager_create_user] for the next free uid.  The current uid
    is 0, and no account has it: there is no current user, the current gid
    reads as 65534, and [user_manager_check_permission] refuses every
    request on every inode. *)
Theorem user_manager_init_leaves_no_uid_0 (w : world) :
  exists w',
    user_manager_init w = (USER_SUCCESS, w') /\
    disk w' = disk w /\ superblock (fs w') = superblock (fs w) /\
    open_files (fs w') = open_files (fs w) /\
    current_user_uid (fs w') = USER_MANAGER_ROOT_UID /\
    (exists u, user_manager_get_user_by_name w' name_root = Some u /\
               usr_uid u = 1000 /\ usr_gid u = 1000) /\
    (exists u, user_manager_get_user_by_name w' name_anonymous = Some u /\
               usr_uid u = USER_MANAGER_ANONYMOUS_UID /\
               usr_gid u = USER_MANAGER_ANONYMOUS_UID) /\
    user_manager_get_user_by_uid w' USER_MANAGER_ROOT_UID = None /\
    user_manager_get_current_user w' = None /\
    user_manager_get_current_gid w' = USER_MANAGER_ANONYMOUS_UID /\
    (forall inode required_perm,
       user_manager_check_permission w' inode required_perm = false).
Proof.
  destruct w as [d [sb ib bb tbl us cur]].
  eexists. split; [vm_compute; reflexivity |].
  split; [reflexivity |]. split; [reflexivity |]. split; [reflexivity |].
  split; [reflexivity |].
  split; [eexists; split; [vm_compute; reflexivity | split; reflexivity] |].
  split; [eexists; split; [vm_compute; reflexivity | split; reflexivity] |].
  split; [vm_compute; reflexivity |].
  split; [vm_compute; reflexivity |].
  split; [vm_compute; reflexivity |].
  intros inode required_perm. unfold user_manager_check_permission.
  match goal with
  | |- match user_manager_get_current_user ?w' with _ => _ end = _ =>
      replace (user_manager_get_current_user w') with (@None fs_user_t)
        by (vm_compute; reflexivity)
  end.
  reflexivity.
Qed.

Lemma bytes_eqb_eq a b : bytes_eqb a b = true <-> a = b.
Proof.
  revert b. induction a as [| x a IH]; intros [| y b]; cbn; try (split; congruence).
  rewrite andb_true_iff, IH. split.
  - intros [Hxy ->]. f_equal.
    destruct (Byte.eqb x y) eqn:E; [| discriminate].
    apply Byte.byte_dec_bl in E. exact E.
  - intros [= -> ->]. split; [| reflexivity].
    apply Byte.byte_dec_lb. reflexivity.
Qed.

Lemma bytes_eqb_refl a : bytes_eqb a a = true.
Proof. apply bytes_eqb_eq. reflexivity. Qed.

Lemma c_str_app_nul s rest : c_str (c_str s ++ Byte.x00 :: rest) = c_str s.
Proof.
  induction s as [| b s IH]; [reflexivity |].
  cbn [c_str]. destruct (Byte.eqb b Byte.x00) eqn:E; [reflexivity |].
  cbn [app c_str]. rewrite E, IH. reflexivity.
Qed.

Lemma zeros_S n : zeros (S n) = Byte.x00 :: zeros n.
Proof. reflexivity. Qed.

(** A name that fits the field is stored whole. *)
Lemma c_str_strncpy s n rest :
  (length (c_str s) <= n)%nat ->
  c_str (strncpy s n ++ Byte.x00 :: rest) = c_str s.
Proof.
  intros Hlen. unfold strncpy.
  rewrite firstn_app. rewrite firstn_all2 by exact Hlen.
  rewrite <- app_assoc.
  destruct (n - length (c_str s))%nat as [| k] eqn:Hk.
  - cbn [firstn app]. apply c_str_app_nul.
  - replace (firstn (S k) (zeros n)) with (Byte.x00 :: firstn k (zeros (n - 1))).
    + cbn [app]. apply c_str_app_nul.
    + destruct n; [lia |]. rewrite zeros_S. cbn [firstn].
      replace (S n - 1)%nat with n by lia. reflexivity.
Qed.

Section UserTable.

Variable u : fs_user_t.
Hypothesis u_active : usr_is_active u <> 0.

(** The free slot, when there is one, is not before the first index. *)
Lemma find_free_slot_from_range us : forall i,
  0 <= i -> find_free_slot_from us i <> -1 ->
  i <= find_free_slot_from us i < i + Z.of_nat (length us).
Proof.
  induction us as [| h us IH]; intros i Hi Hs; cbn [find_free_slot_from] in *; [lia |].
  destruct (usr_is_active h =? 0).
  - cbn [length]. lia.
  - specialize (IH (i + 1) ltac:(lia) Hs). cbn [length]. lia.
Qed.

(** Looking a name up after the account was stored in the free slot. *)
Lemma find_name_from_stored us name : forall i,
  0 <= i -> find_free_slot_from us i <> -1 ->
  find_name_from us i name = -1 ->
  c_str (usr_username u) = c_str name ->
  find_name_from (<[Z.to_nat (find_free_slot_from us i - i) := u]> us) i name
  = find_free_slot_from us i.
Proof.
  induction us as [| h us IH]; intros i Hi Hs Hname Hu;
    cbn [find_free_slot_from find_name_from] in *; [lia |].
  destruct (usr_is_active h =? 0) eqn:Hact.
  - rewrite Z.sub_diag. change (Z.to_nat 0) with 0%nat. cbn [insert list_insert find_name_from].
    replace (usr_is_active u =? 0) with false by (symmetry; apply Z.eqb_neq; exact u_active).
    rewrite Hu, bytes_eqb_refl. reflexivity.
  - pose proof (find_free_slot_from_range us (i + 1) ltac:(lia) Hs) as Hr.
    replace (Z.to_nat (find_free_slot_from us (i + 1) - i))
      with (S (Z.to_nat (find_free_slot_from us (i + 1) - (i + 1)))) by lia.
    cbn [insert list_insert find_name_from]. rewrite Hact in *. cbn [negb andb] in *.
    destruct (bytes_eqb (c_str (usr_username h)) (c_str name)); [lia |].
    apply IH; [lia | exact Hs | exact Hname | exact Hu].
Qed.

(** Looking another name up: as before. *)
Lemma find_name_from_other us name : forall i,
  0 <= i -> find_free_slot_from us i <> -1 ->
  c_str (usr_username u) <> c_str name ->
  find_name_from (<[Z.to_nat (find_free_slot_from us i - i) := u]> us) i name
  = find_name_from us i name.
Proof.
  induction us as [| h us IH]; intros i Hi Hs Hu;
    cbn [find_free_slot_from find_name_from] in *; [lia |].
  destruct (usr_is_active h =? 0) eqn:Hact.
  - rewrite Z.sub_diag. change (Z.to_nat 0) with 0%nat. cbn [insert list_insert find_name_from].
    replace (usr_is_active u =? 0) with false by (symmetry; apply Z.eqb_neq; exact u_active).
    cbn [negb andb].
    destruct (bytes_eqb (c_str (usr_username u)) (c_str name)) eqn:E; [| reflexivity].
    apply bytes_eqb_eq in E. contradiction.
  - pose proof (find_free_slot_from_range us (i + 1) ltac:(lia) Hs) as Hr.
    replace (Z.to_nat (find_free_slot_from us (i + 1) - i))
      with (S (Z.to_nat (find_free_slot_from us (i + 1) - (i + 1)))) by lia.
    cbn [insert list_insert find_name_from]. rewrite Hact. cbn [negb andb].
    destruct (bytes_eqb (c_str (usr_username h)) (c_str name)); [reflexivity |].
    apply IH; [lia | exact Hs | exact Hu].
Qed.

(** The same two facts for the search by uid. *)
Lemma find_user_from_stored us : forall i,
  0 <= i -> find_free_slot_from us i <> -1 ->
  find_user_from us i (usr_uid u) = -1 ->
  find_user_from (<[Z.to_nat (find_free_slot_from us i - i) := u]> us) i (usr_uid u)
  = find_free_slot_from us i.
Proof.
  induction us as [| h us IH]; intros i Hi Hs Huid;
    cbn [find_free_slot_from find_user_from] in *; [lia |].
  destruct (usr_is_active h =? 0) eqn:Hact.
  - rewrite Z.sub_diag. change (Z.to_nat 0) with 0%nat. cbn [insert list_insert find_user_from].
    replace (usr_is_active u =? 0) with false by (symmetry; apply Z.eqb_neq; exact u_active).
    rewrite Z.eqb_refl. reflexivity.
  - pose proof (find_free_slot_from_range us (i + 1) ltac:(lia) Hs) as Hr.
    replace (Z.to_nat (find_free_slot_from us (i + 1) - i))
      with (S (Z.to_nat (find_free_slot_from us (i + 1) - (i + 1)))) by lia.
    cbn [insert list_insert find_user_from]. rewrite Hact in *. cbn [negb andb] in *.
    destruct (usr_uid h =? usr_uid u); [lia |].
    apply IH; [lia | exact Hs | exact Huid].
Qed.

Lemma find_user_from_other us uid : forall i,
  0 <= i -> find_free_slot_from us i <> -1 ->
  usr_uid u <> uid ->
  find_user_from (<[Z.to_nat (find_free_slot_from us i - i) := u]> us) i uid
  = find_user_from us i uid.
Proof.
  induction us as [| h us IH]; intros i Hi Hs Hu;
    cbn [find_free_slot_from find_user_from] in *; [lia |].
  destruct (usr_is_active h =? 0) eqn:Hact.
  - rewrite Z.sub_diag. change (Z.to_nat 0) with 0%nat. cbn [insert list_insert find_user_from].
    replace (usr_is_active u =? 0) with false by (symmetry; apply Z.eqb_neq; exact u_active).
    cbn [negb andb].
    replace (usr_uid u =? uid) with false by (symmetry; apply Z.eqb_neq; exact Hu).
    reflexivity.
  - pose proof (find_free_slot_from_range us (i + 1) ltac:(lia) Hs) as Hr.
    replace (Z.to_nat (find_free_slot_from us (i + 1) - i))
      with (S (Z.to_nat (find_free_slot_from us (i + 1) - (i + 1)))) by lia.
    cbn [insert list_insert find_user_from]. rewrite Hact. cbn [negb andb].
    destruct (usr_uid h =? uid); [reflexivity |].
    apply IH; [lia | exact Hs | exact Hu].
Qed.

End UserTable.

Lemma find_name_from_range us name : forall i,
  0 <= i -> find_name_from us i name = -1 \/ i <= find_name_from us i name.
Proof.
  induction us as [| h us IH]; intros i Hi; cbn [find_name_from]; [lia |].
  destruct (_ && _); [lia |]. specialize (IH (i + 1) ltac:(lia)). lia.
Qed.

Lemma find_user_from_range us uid : forall i,
  0 <= i -> find_user_from us i uid = -1 \/ i <= find_user_from us i uid.
Proof.
  induction us as [| h us IH]; intros i Hi; cbn [find_user_from]; [lia |].
  destruct (_ && _); [lia |]. specialize (IH (i + 1) ltac:(lia)). lia.
Qed.

Lemma find_free_slot_from_none us : forall i,
  0 <= i -> find_free_slot_from us i = -1 \/ i <= find_free_slot_from us i.
Proof.
  induction us as [| h us IH]; intros i Hi; cbn [find_free_slot_from]; [lia |].
  destruct (_ =? _); [lia |]. specialize (IH (i + 1) ltac:(lia)). lia.
Qed.

Lemma nth_error_is_lookup {A} (l : list A) : forall i, nth_error l i = l !! i.
Proof. induction l as [| x l IH]; intros [| i]; cbn; auto. Qed.

Lemma find_user_from_found us uid : forall i s,
  0 <= i -> find_user_from us i uid = s -> s <> -1 ->
  i <= s /\
  exists h, us !! Z.to_nat (s - i) = Some h /\ usr_is_active h <> 0 /\ usr_uid h = uid.
Proof.
  induction us as [| h us IH]; intros i s Hi Hs Hne; cbn [find_user_from] in Hs; [lia |].
  destruct (negb (usr_is_active h =? 0) && (usr_uid h =? uid)) eqn:E.
  - subst s. rewrite Z.sub_diag. split; [lia |]. exists h.
    apply andb_true_iff in E. destruct E as [Ha Hu]. boolp. auto.
  - destruct (IH (i + 1) s ltac:(lia) Hs Hne) as (Hle & h' & Hl & Ha & Hu).
    split; [lia |]. exists h'.
    replace (Z.to_nat (s - i)) with (S (Z.to_nat (s - (i + 1)))) by lia. auto.
Qed.

Lemma find_name_from_found us name : forall i s,
  0 <= i -> find_name_from us i name = s -> s <> -1 ->
  i <= s /\
  exists h, us !! Z.to_nat (s - i) = Some h /\ usr_is_active h <> 0 /\
            c_str (usr_username h) = c_str name.
Proof.
  induction us as [| h us IH]; intros i s Hi Hs Hne; cbn [find_name_from] in Hs; [lia |].
  destruct (negb (usr_is_active h =? 0)
            && bytes_eqb (c_str (usr_username h)) (c_str name)) eqn:E.
  - subst s. rewrite Z.sub_diag. split; [lia |]. exists h.
    apply andb_true_iff in E. destruct E as [Ha Hu]. apply bytes_eqb_eq in Hu. boolp. auto.
  - destruct (IH (i + 1) s ltac:(lia) Hs Hne) as (Hle & h' & Hl & Ha & Hu).
    split; [lia |]. exists h'.
    replace (Z.to_nat (s - i)) with (S (Z.to_nat (s - (i + 1)))) by lia. auto.
Qed.

Lemma find_free_slot_from_found us : forall i s,
  0 <= i -> find_free_slot_from us i = s -> s <> -1 ->
  i <= s /\ exists h, us !! Z.to_nat (s - i) = Some h /\ usr_is_active h = 0.
Proof.
  induction us as [| h us IH]; intros i s Hi Hs Hne; cbn [find_free_slot_from] in Hs; [lia |].
  destruct (usr_is_active h =? 0) eqn:E.
  - subst s. rewrite Z.sub_diag. split; [lia |]. exists h. boolp. auto.
  - destruct (IH (i + 1) s ltac:(lia) Hs Hne) as (Hle & h' & Hl & Ha).
    split; [lia |]. exists h'.
    replace (Z.to_nat (s - i)) with (S (Z.to_nat (s - (i + 1)))) by lia. auto.
Qed.

(** The two lookups of the interface, on a table of [MAX_USERS] slots. *)
Lemma get_user_by_uid_none w uid :
  length (users (fs w)) = Z.to_nat MAX_USERS ->
  user_manager_get_user_by_uid w uid = None -> find_user_by_uid w uid = -1.
Proof.
  intros Hlen. unfold user_manager_get_user_by_uid, find_user_by_uid.
  rewrite firstn_all2 by lia.
  destruct (Z.ltb_spec (find_user_from (users (fs w)) 0 uid) 0) as [Hneg | Hpos].
  - destruct (find_user_from_range (users (fs w)) uid 0 ltac:(lia)); lia.
  - intros Hnone. destruct (Z.eq_dec (find_user_from (users (fs w)) 0 uid) (-1)); [lia |].
    destruct (find_user_from_found _ _ 0 _ ltac:(lia) eq_refl n) as (_ & h & Hl & _).
    rewrite Z.sub_0_r in Hl. rewrite nth_error_is_lookup, Hl in Hnone. discriminate.
Qed.

Lemma get_user_by_name_none w name :
  length (users (fs w)) = Z.to_nat MAX_USERS ->
  user_manager_get_user_by_name w name = None -> find_user_by_username w name = -1.
Proof.
  intros Hlen. unfold user_manager_get_user_by_name, find_user_by_username.
  rewrite firstn_all2 by lia.
  destruct (Z.ltb_spec (find_name_from (users (fs w)) 0 name) 0) as [Hneg | Hpos].
  - destruct (find_name_from_range (users (fs w)) name 0 ltac:(lia)); lia.
  - intros Hnone. destruct (Z.eq_dec (find_name_from (users (fs w)) 0 name) (-1)); [lia |].
    destruct (find_name_from_found _ _ 0 _ ltac:(lia) eq_refl n) as (_ & h & Hl & _).
    rewrite Z.sub_0_r in Hl. rewrite nth_error_is_lookup, Hl in Hnone. discriminate.
Qed.

(** X23. An account that was created is found under its name and under its uid;
    its name and its uid are taken from then on; and the accounts that
    existed are found as before.  The table has [MAX_USERS] slots, one of
    them free; the name is not empty, fits the field and is new; the uid is
    given (not 0) and new. *)
Theorem user_manager_create_user_then_lookup (w : world) (username : list byte)
    (uid gid : Z) :
  length (users (fs w)) = Z.to_nat MAX_USERS ->
  (0 < length (c_str username) < Z.to_nat USERNAME_SIZE)%nat ->
  uid <> 0 ->
  user_manager_get_user_by_name w username = None ->
  user_manager_get_user_by_uid w uid = None ->
  find_free_user_slot w <> -1 ->
  exists w' u,
    user_manager_create_user w (Some username) uid gid = (USER_SUCCESS, w') /\
    user_manager_get_user_by_name w' username = Some u /\
    user_manager_get_user_by_uid w' uid = Some u /\
    usr_uid u = uid /\
    usr_gid u = (if gid =? 0 then USER_MANAGER_DEFAULT_GID else gid) /\
    c_str (usr_username u) = c_str username /\
    (forall uid' gid',
       user_manager_create_user w' (Some username) uid' gid' = (USER_ERROR_USER_EXISTS, w')) /\
    (forall name' gid',
       (0 < length (c_str name') < Z.to_nat USERNAME_SIZE)%nat ->
       user_manager_create_user w' (Some name') uid gid' = (USER_ERROR_USER_EXISTS, w')) /\
    (forall name', c_str name' <> c_str username ->
       user_manager_get_user_by_name w' name' = user_manager_get_user_by_name w name') /\
    (forall uid', uid' <> uid ->
       user_manager_get_user_by_uid w' uid' = user_manager_get_user_by_uid w uid') /\
    disk w' = disk w /\ current_user_uid (fs w') = current_user_uid (fs w).
Proof.
  intros Hlen Hname Huid Hnew_name Hnew_uid Hslot.
  apply get_user_by_name_none in Hnew_name; [| exact Hlen].
  apply get_user_by_uid_none in Hnew_uid; [| exact Hlen].
  set (u := {| usr_uid := uid;
               usr_gid := if gid =? 0 then USER_MANAGER_DEFAULT_GID else gid;
               usr_username :=
                 strncpy username (Z.to_nat (USERNAME_SIZE - 1)) ++ [Byte.x00];
               usr_is_active := 1 |}).
  assert (Hact : usr_is_active u <> 0) by (cbn; lia).
  assert (Hstr : c_str (usr_username u) = c_str username).
  { cbn [usr_username u]. apply c_str_strncpy.
    unfold USERNAME_SIZE in *. lia. }
  unfold find_user_by_username, find_user_by_uid, find_free_user_slot in *.
  rewrite firstn_all2 in Hnew_name, Hnew_uid, Hslot by lia.
  set (slot := find_free_slot_from (users (fs w)) 0) in *.
  destruct (find_free_slot_from_found (users (fs w)) 0 slot ltac:(lia) eq_refl Hslot)
    as (Hslot0 & h0 & Hh0 & Hinactive).
  rewrite Z.sub_0_r in Hh0.
  pose proof (lookup_lt_Some _ _ _ Hh0) as Hslot_lt.
  set (w' := set_users w (<[Z.to_nat slot := u]> (users (fs w)))).
  assert (Hcreate : user_manager_create_user w (Some username) uid gid = (USER_SUCCESS, w')).
  { unfold user_manager_create_user, find_user_by_username, find_user_by_uid,
      find_free_user_slot.
    rewrite firstn_all2 by lia.
    replace (length (c_str username) =? 0)%nat with false
      by (symmetry; apply Nat.eqb_neq; lia).
    replace (USERNAME_SIZE <=? Z.of_nat (length (c_str username))) with false
      by (symmetry; apply Z.leb_gt; unfold USERNAME_SIZE in *; lia).
    rewrite Hnew_name. cbn [Z.leb Z.compare].
    replace (uid =? 0) with false by (symmetry; apply Z.eqb_neq; exact Huid).
    rewrite Hnew_uid. cbn [Z.leb Z.compare]. fold slot.
    replace (slot <? 0) with false by (symmetry; apply Z.ltb_ge; lia).
    reflexivity. }
  assert (Hlen' : length (users (fs w')) = Z.to_nat MAX_USERS).
  { cbn. rewrite length_insert. exact Hlen. }
  assert (Hfind_name : find_name_from (<[Z.to_nat slot := u]> (users (fs w))) 0 username = slot).
  { pose proof (find_name_from_stored u Hact (users (fs w)) username 0 ltac:(lia) Hslot Hnew_name Hstr)
      as H. rewrite Z.sub_0_r in H. exact H. }
  assert (Hfind_uid : find_user_from (<[Z.to_nat slot := u]> (users (fs w))) 0 uid = slot).
  { pose proof (find_user_from_stored u Hact (users (fs w)) 0 ltac:(lia) Hslot Hnew_uid) as H.
    rewrite Z.sub_0_r in H. exact H. }
  assert (Hstored : nth_error (<[Z.to_nat slot := u]> (users (fs w))) (Z.to_nat slot) = Some u).
  { rewrite nth_error_is_lookup. apply list_lookup_insert_eq. exact Hslot_lt. }
  exists w', u.
  split; [exact Hcreate |].
  split.
  { unfold user_manager_get_user_by_name, find_user_by_username.
    rewrite firstn_all2 by lia. cbn [users fs w' set_users].
    rewrite Hfind_name.
    replace (slot <? 0) with false by (symmetry; apply Z.ltb_ge; lia). exact Hstored. }
  split.
  { unfold user_manager_get_user_by_uid, find_user_by_uid.
    rewrite firstn_all2 by lia. cbn [users fs w' set_users].
    rewrite Hfind_uid.
    replace (slot <? 0) with false by (symmetry; apply Z.ltb_ge; lia). exact Hstored. }
  split; [reflexivity |]. split; [reflexivity |]. split; [exact Hstr |].
  split.
  { intros uid' gid'. unfold user_manager_create_user, find_user_by_username.
    rewrite firstn_all2 by lia. cbn [users fs w' set_users].
    replace (length (c_str username) =? 0)%nat with false
      by (symmetry; apply Nat.eqb_neq; lia).
    replace (USERNAME_SIZE <=? Z.of_nat (length (c_str username))) with false
      by (symmetry; apply Z.leb_gt; unfold USERNAME_SIZE in *; lia).
    rewrite Hfind_name.
    replace (0 <=? slot) with true by (symmetry; apply Z.leb_le; lia). reflexivity. }
  split.
  { intros name' gid' Hname'. unfold user_manager_create_user, find_user_by_uid.
    rewrite (firstn_all2 (users (fs w'))) by lia. cbn [users fs w' set_users].
    replace (length (c_str name') =? 0)%nat with false
      by (symmetry; apply Nat.eqb_neq; lia).
    replace (USERNAME_SIZE <=? Z.of_nat (length (c_str name'))) with false
      by (symmetry; apply Z.leb_gt; unfold USERNAME_SIZE in *; lia).
    destruct (0 <=? find_user_by_username _ name'); [reflexivity |].
    replace (uid =? 0) with false by (symmetry; apply Z.eqb_neq; exact Huid).
    rewrite Hfind_uid.
    replace (0 <=? slot) with true by (symmetry; apply Z.leb_le; lia). reflexivity. }
  split.
  { intros name' Hother. unfold user_manager_get_user_by_name, find_user_by_username.
    rewrite !firstn_all2 by lia. cbn [users fs w' set_users].
    pose proof (find_name_from_other u Hact (users (fs w)) name' 0 ltac:(lia) Hslot) as H.
    rewrite Z.sub_0_r in H. fold slot in H. rewrite H by (rewrite Hstr; congruence).
    destruct (Z.ltb_spec (find_name_from (users (fs w)) 0 name') 0) as [| Hpos]; [reflexivity |].
    destruct (find_name_from_found (users (fs w)) name' 0 _ ltac:(lia) eq_refl ltac:(lia))
      as (_ & h & Hl & Ha & _).
    rewrite Z.sub_0_r in Hl.
    rewrite !nth_error_is_lookup. apply list_lookup_insert_ne.
    intros Heq. rewrite <- Heq, Hh0 in Hl. congruence. }
  split.
  { intros uid' Hother. unfold user_manager_get_user_by_uid, find_user_by_uid.
    rewrite !firstn_all2 by lia. cbn [users fs w' set_users].
    pose proof (find_user_from_other u Hact (users (fs w)) uid' 0 ltac:(lia) Hslot) as H.
    rewrite Z.sub_0_r in H. fold slot in H. rewrite H by (cbn; congruence).
    destruct (Z.ltb_spec (find_user_from (users (fs w)) 0 uid') 0) as [| Hpos]; [reflexivity |].
    destruct (find_user_from_found (users (fs w)) uid' 0 _ ltac:(lia) eq_refl ltac:(lia))
      as (_ & h & Hl & Ha & _).
    rewrite Z.sub_0_r in Hl.
    rewrite !nth_error_is_lookup. apply list_lookup_insert_ne.
    intros Heq. rewrite <- Heq, Hh0 in Hl. congruence. }
  split; reflexivity.
Qed.

(* ===================================================================== *)
(** ** Ownership and mode of a file *)
(* ===================================================================== *)

(** An inode given as its fields, with the ranges of the fields as
    hypotheses. *)
Ltac open_inode i Hwf :=
  let Hd := fresh "Hd" in
  let Hr := fresh "Hr" in
  let Hrange := fresh "Hrange" in
  destruct Hwf as (Hd & Hr & Hrange);
  destruct i as [a0 a1 a2 a3 a4 a5 a6 a7 a8 a9 a10 a11 db a12 a13 a14 a15 a16 rs];
  cbn [i_direct_blocks i_reserved] in *;
  do 12 (destruct db as [| ? db]; [discriminate Hd |]);
  (destruct db; [| discriminate Hd]);
  do 4 (destruct rs as [| ? rs]; [discriminate Hr |]);
  (destruct rs; [| discriminate Hr]);
  unfold fields_in_range, inode_values, inode_layout in Hrange;
  cbn [i_inode_number i_file_type i_permissions i_owner_uid i_owner_gid i_link_count
       i_file_size i_block_count i_access_time i_modify_time i_change_time i_create_time
       i_direct_blocks i_indirect_block i_double_indirect_block i_triple_indirect_block
       i_flags i_generation i_reserved repeat app combine] in Hrange;
  forall_inv.

Ltac close_inode :=
  unfold inode_wf; split; [reflexivity |]; split; [reflexivity |];
  unfold fields_in_range, inode_values, inode_layout;
  cbn [set_i_permissions set_i_owner set_i_times
       i_inode_number i_file_type i_permissions i_owner_uid i_owner_gid i_link_count
       i_file_size i_block_count i_access_time i_modify_time i_change_time i_create_time
       i_direct_blocks i_indirect_block i_double_indirect_block i_triple_indirect_block
       i_flags i_generation i_reserved repeat app combine];
  repeat (apply Forall_cons_2; [cbn [fst snd]; lia |]); apply Forall_nil_2.

Lemma inode_wf_chmod i permissions now :
  inode_wf i -> 0 <= now < 2 ^ 64 ->
  inode_wf (set_i_times (set_i_permissions i (u16 permissions))
                        (i_access_time i) (i_modify_time i) now).
Proof.
  intros Hwf Hnow.
  assert (Hp : 0 <= u16 permissions < 2 ^ 16) by (apply Z.mod_pos_bound; lia).
  revert Hp. generalize (u16 permissions). intros p Hp.
  open_inode i Hwf. close_inode.
Qed.

Lemma inode_wf_chown i uid gid now :
  inode_wf i -> 0 <= uid < 2 ^ 32 -> 0 <= gid < 2 ^ 32 -> 0 <= now < 2 ^ 64 ->
  inode_wf (set_i_times (set_i_owner i uid gid) (i_access_time i) (i_modify_time i) now).
Proof.
  intros Hwf Hu Hg Hnow. open_inode i Hwf. close_inode.
Qed.

(** X24. [user_manager_chmod] is for the owner of the file and for uid 0.
    Anybody else gets [USER_ERROR_PERMISSION] and nothing changes.  For
    them the inode is stored with the new mode (its low 16 bits) and the
    new change time, and every other field as it was. *)
Theorem user_manager_chmod_is_for_owner_and_root (w : world)
    (now inode_number new_permissions : Z) (inode : fs_inode_t) :
  fs_ops_read_inode w inode_number = (FS_SUCCESS, inode) ->
  d_is_read_only (disk w) = false -> 0 <= now < 2 ^ 63 ->
  (current_user_uid (fs w) <> USER_MANAGER_ROOT_UID ->
   current_user_uid (fs w) <> i_owner_uid inode ->
   user_manager_chmod w now inode_number new_permissions = (USER_ERROR_PERMISSION, w)) /\
  (current_user_uid (fs w) = USER_MANAGER_ROOT_UID \/
   current_user_uid (fs w) = i_owner_uid inode ->
   exists w',
     user_manager_chmod w now inode_number new_permissions = (USER_SUCCESS, w') /\
     fs_ops_read_inode w' inode_number =
       (FS_SUCCESS,
        set_i_times (set_i_permissions inode (u16 new_permissions))
                    (i_access_time inode) (i_modify_time inode) now) /\
     fs w' = fs w).
Proof.
  intros Hread Hro Hnow.
  pose proof (fs_ops_read_inode_wf _ _ _ Hread) as Hwf.
  unfold user_manager_chmod, user_manager_is_root. rewrite Hread.
  cbn [negb Z.eqb FS_SUCCESS]. cbv zeta.
  split.
  - intros Hroot Howner.
    replace (current_user_uid (fs w) =? USER_MANAGER_ROOT_UID) with false
      by (symmetry; apply Z.eqb_neq; exact Hroot).
    replace (current_user_uid (fs w) =? i_owner_uid inode) with false
      by (symmetry; apply Z.eqb_neq; exact Howner).
    reflexivity.
  - intros Hmay.
    replace (negb (current_user_uid (fs w) =? USER_MANAGER_ROOT_UID)
             && negb (current_user_uid (fs w) =? i_owner_uid inode)) with false.
    2:{ symmetry. destruct Hmay as [-> | ->]; rewrite Z.eqb_refl; cbn;
          [reflexivity | apply andb_false_r]. }
    cbn [set_i_permissions i_access_time i_modify_time].
    fold (set_i_permissions inode (u16 new_permissions)).
    destruct (write_then_read_inode w inode_number
                (set_i_times (set_i_permissions inode (u16 new_permissions))
                             (i_access_time inode) (i_modify_time inode) now))
      as (w' & Hwrite & Hback).
    + apply inode_wf_chmod; [exact Hwf | lia].
    + exact Hro.
    + rewrite Hread. reflexivity.
    + exists w'. rewrite Hwrite. cbn [negb Z.eqb FS_SUCCESS].
      split; [reflexivity |]. split; [exact Hback |].
      pose proof (fs_ops_write_inode_fs w inode_number
                    (set_i_times (set_i_permissions inode (u16 new_permissions))
                                 (i_access_time inode) (i_modify_time inode) now)) as Hfs.
      rewrite Hwrite in Hfs. exact Hfs.
Qed.

(** X25. [user_manager_chown] is for uid 0 only: with another current uid it
    returns [USER_ERROR_PERMISSION], also for the owner of the file, and
    nothing changes.  For uid 0 the inode is stored with the new owner and
    group and the new change time, every other field as it was; from then
    on the mode of the file can be changed by the new owner. *)
Theorem user_manager_chown_is_for_root (w : world)
    (now inode_number new_uid new_gid : Z) (inode : fs_inode_t) :
  fs_ops_read_inode w inode_number = (FS_SUCCESS, inode) ->
  d_is_read_only (disk w) = false -> 0 <= now < 2 ^ 63 ->
  0 <= new_uid < 2 ^ 32 -> 0 <= new_gid < 2 ^ 32 ->
  (current_user_uid (fs w) <> USER_MANAGER_ROOT_UID ->
   user_manager_chown w now inode_number new_uid new_gid = (USER_ERROR_PERMISSION, w)) /\
  (current_user_uid (fs w) = USER_MANAGER_ROOT_UID ->
   exists w',
     user_manager_chown w now inode_number new_uid new_gid = (USER_SUCCESS, w') /\
     fs_ops_read_inode w' inode_number =
       (FS_SUCCESS,
        set_i_times (set_i_owner inode new_uid new_gid)
                    (i_access_time inode) (i_modify_time inode) now) /\
     fs w' = fs w /\
     forall now' new_permissions,
       0 <= now' < 2 ^ 63 ->
       fst (user_manager_chmod (set_current_user_uid w' new_uid) now' inode_number
                               new_permissions) = USER_SUCCESS).
Proof.
  intros Hread Hro Hnow Huid Hgid.
  pose proof (fs_ops_read_inode_wf _ _ _ Hread) as Hwf.
  unfold user_manager_chown, user_manager_is_root.
  split.
  - intros Hroot.
    replace (current_user_uid (fs w) =? USER_MANAGER_ROOT_UID) with false
      by (symmetry; apply Z.eqb_neq; exact Hroot).
    reflexivity.
  - intros ->. rewrite Z.eqb_refl. cbn [negb]. rewrite Hread.
    cbn [negb Z.eqb FS_SUCCESS]. cbv zeta.
    cbn [set_i_owner i_access_time i_modify_time].
    fold (set_i_owner inode new_uid new_gid).
    set (inode' := set_i_times (set_i_owner inode new_uid new_gid)
                               (i_access_time inode) (i_modify_time inode) now).
    assert (Hwf' : inode_wf inode') by (apply inode_wf_chown; [exact Hwf | lia ..]).
    destruct (write_then_read_inode w inode_number inode' Hwf' Hro) as (w' & Hwrite & Hback).
    { rewrite Hread. reflexivity. }
    pose proof (fs_ops_write_inode_fs w inode_number inode') as Hfs.
    rewrite Hwrite in Hfs. cbn [snd] in Hfs.
    exists w'. rewrite Hwrite. cbn [negb Z.eqb FS_SUCCESS].
    split; [reflexivity |]. split; [exact Hback |]. split; [exact Hfs |].
    intros now' new_permissions Hnow'.
    assert (Hdisk : d_is_read_only (disk w') = false).
    { revert Hwrite. unfold fs_ops_write_inode.
      destruct ((inode_number =? 0) || _); [wrong_code |].
      destruct (read_block _ _ _) as [r block].
      destruct (negb (r =? DISK_SUCCESS)); [wrong_code |].
      destruct (write_block _ _ _) as [r' d'] eqn:Hw.
      apply write_block_inv in Hw as [(_ & _ & _ & _ & _ & Hgeo) | (Hneg & ->)].
      - destruct (negb (r' =? DISK_SUCCESS)); intros [= <-];
          destruct Hgeo as (_ & Hgro & _); cbn; congruence.
      - destruct (negb (r' =? DISK_SUCCESS)); intros [= <-]; exact Hro. }
    unfold user_manager_chmod, user_manager_is_root.
    replace (fs_ops_read_inode (set_current_user_uid w' new_uid) inode_number)
      with (FS_SUCCESS, inode') by (rewrite <- Hback; reflexivity).
    cbn [negb Z.eqb FS_SUCCESS]. cbv zeta.
    cbn [current_user_uid fs set_current_user_uid i_owner_uid inode' set_i_times set_i_owner].
    rewrite Z.eqb_refl. cbn [negb]. rewrite andb_false_r.
    match goal with
    | |- fst (let '(_, _) := fs_ops_write_inode ?w2 ?n ?i2 in _) = _ =>
        destruct (write_then_read_inode w2 n i2) as (w3 & Hwrite3 & _)
    end.
    + apply (inode_wf_chmod inode' new_permissions now' Hwf'). lia.
    + exact Hdisk.
    + replace (fs_ops_read_inode (set_current_user_uid w' new_uid) inode_number)
        with (FS_SUCCESS, inode') by (rewrite <- Hback; reflexivity).
      reflexivity.
    + rewrite Hwrite3. reflexivity.
Qed.

(* ===================================================================== *)
(** ** Bytes written, bytes read *)
(* ===================================================================== *)

(** A write that stays inside one block and is complete: one round of the
    loop. *)
Lemma write_loop_one_block w inode data size pos w2 inode2 :
  0 < size -> 0 <= pos -> pos + size < 2 ^ 63 ->
  pos mod BLOCK_SIZE + size <= BLOCK_SIZE ->
  write_loop (S (Z.to_nat size)) w inode data size pos (u64 (pos + size)) 0
  = Some (w2, inode2, size) ->
  exists bn wa d,
    chosen_block w inode (block_index_of pos) = Some (bn, wa, inode2) /\
    bn <> 0 /\
    read_block (disk wa) bn zero_block = (DISK_SUCCESS, stored_block (disk wa) (to_int bn)) /\
    write_block (disk wa) bn
      (memcpy (stored_block (disk wa) (to_int bn)) (Z.to_nat (pos mod BLOCK_SIZE))
              (slice data 0 (Z.to_nat size))) = (DISK_SUCCESS, d) /\
    w2 = set_disk wa d.
Proof.
  intros Hsize Hpos Hend Hfit.
  pose proof (Z.mod_pos_bound pos BLOCK_SIZE ltac:(unfold BLOCK_SIZE; lia)) as Hoff.
  cbn [write_loop]. rewrite u64_small by lia.
  replace (pos <? pos + size) with true by (symmetry; apply Z.ltb_lt; lia).
  rewrite block_offset_small by lia.
  fold (chosen_block w inode (block_index_of pos)).
  destruct (chosen_block w inode (block_index_of pos)) as [[[bn wa] ia] |];
    [| discriminate].
  destruct (bn =? 0) eqn:Hbn; [intros [= _ _ H]; lia |]. apply Z.eqb_neq in Hbn.
  destruct (read_block (disk wa) bn zero_block) as [r block] eqn:Hr.
  destruct (negb (r =? DISK_SUCCESS)) eqn:Hrc; [intros [= _ _ H]; lia |].
  apply negb_false_iff, Z.eqb_eq in Hrc. subst r.
  pose proof Hr as Hr'.
  apply read_block_inv in Hr' as [(_ & _ & _ & ->) | (Hneg & _)]; [| codes; lia].
  unfold BLOCK_SIZE in *.
  rewrite (u32_small (1024 - pos mod 1024)), (u32_small (size - 0)) by lia.
  replace (Z.min (1024 - pos mod 1024) (size - 0)) with size by lia.
  destruct (write_block _ _ _) as [r d] eqn:Hw.
  destruct (negb (r =? DISK_SUCCESS)) eqn:Hwc; [intros [= _ _ H]; lia |].
  apply negb_false_iff, Z.eqb_eq in Hwc. subst r.
  rewrite u64_small by lia.
  destruct (Z.to_nat size) as [| k] eqn:Hk; [lia |].
  cbn [write_loop]. rewrite Z.ltb_irrefl.
  intros [= <- <- _].
  exists bn, wa, d. auto.
Qed.

(** What choosing the block leaves alone, and where the block lies. *)
Lemma chosen_block_facts w inode block_index bn wa inode2 :
  chosen_block w inode block_index = Some (bn, wa, inode2) -> bn <> 0 ->
  inode_wf inode -> 0 <= block_index ->
  0 <= sb_data_blocks_start (superblock (fs w)) ->
  sb_data_blocks_start (superblock (fs w)) + bm_total_bits (block_bitmap (fs w)) <= 2 ^ 32 ->
  Forall (fun b => b = 0 \/ sb_data_blocks_start (superblock (fs w)) <= b)
         (i_direct_blocks inode) ->
  disk wa = disk w /\ superblock (fs wa) = superblock (fs w) /\
  open_files (fs wa) = open_files (fs w) /\ users (fs wa) = users (fs w) /\
  current_user_uid (fs wa) = current_user_uid (fs w) /\
  same_but_blocks inode inode2 /\ inode_wf inode2 /\
  file_ops_get_data_block inode2 block_index = bn /\
  sb_data_blocks_start (superblock (fs w)) <= bn < 2 ^ 32.
Proof.
  intros Hchosen Hbn Hwf Hidx Hstart Hend Hblocks.
  pose proof (inode_wf_ranges inode Hwf) as (_ & _ & Hu32).
  destruct Hwf as (Hlen & Hwf').
  assert (Hwf : inode_wf inode) by (split; assumption).
  unfold chosen_block in Hchosen.
  assert (Hmapped : forall b, file_ops_get_data_block inode block_index = b -> b <> 0 ->
                              sb_data_blocks_start (superblock (fs w)) <= b < 2 ^ 32).
  { intros b Hb Hnz. unfold file_ops_get_data_block in Hb.
    destruct (block_index <? DIRECT_BLOCKS) eqn:Hlt; [| lia]. boolp.
    unfold word_at in Hb.
    assert (Hin : (Z.to_nat block_index < length (i_direct_blocks inode))%nat)
      by (unfold DIRECT_BLOCKS in Hlt; lia).
    destruct (lookup_lt_is_Some_2 _ _ Hin) as (x & Hx).
    rewrite (nth_lookup_Some _ _ _ _ Hx) in Hb. subst x.
    pose proof (Forall_lookup_1 _ _ _ _ Hblocks Hx) as H1.
    pose proof (Forall_lookup_1 _ _ _ _ Hu32 Hx) as H2. cbn in H1, H2. lia. }
  destruct (file_ops_get_data_block inode block_index =? 0) eqn:Hz.
  2:{ injection Hchosen as <- <- <-. boolp.
      repeat split; auto using same_but_blocks_refl; try apply Hwf';
        apply (Hmapped _ eq_refl Hz). }
  boolp. unfold file_ops_allocate_data_block in Hchosen.
  destruct (block_index <? DIRECT_BLOCKS) eqn:Hlt; [| injection Hchosen as <- _ _; lia].
  boolp. unfold file_ops_get_data_block in Hz.
  replace (block_index <? DIRECT_BLOCKS) with true in Hz by (symmetry; apply Z.ltb_lt; lia).
  rewrite Hz in Hchosen. cbn [Z.eqb] in Hchosen.
  destruct (alloc_data_block_from_bitmap w) as [[nb wb] |] eqn:Halloc; [| discriminate].
  destruct (0 <? nb) eqn:Hnb; [| injection Hchosen as <- _ _; lia].
  injection Hchosen as <- <- <-. boolp.
  assert (Hwb : disk wb = disk w /\ superblock (fs wb) = superblock (fs w) /\
                open_files (fs wb) = open_files (fs w) /\ users (fs wb) = users (fs w) /\
                current_user_uid (fs wb) = current_user_uid (fs w) /\
                sb_data_blocks_start (superblock (fs w)) <= nb < 2 ^ 32).
  { revert Halloc. unfold alloc_data_block_from_bitmap.
    destruct (bm_free_count _ =? 0); [intros [= <- _]; lia |].
    destruct (bm_total_bits _ <=? 0) eqn:Htot; [intros [= <- _]; lia |]. boolp.
    destruct (bm_bitmap _) as [bytes |]; [| discriminate].
    destruct (alloc_scan _ _ _ _ _) as [bit |] eqn:Hscan; [| intros [= <- _]; lia].
    intros [= <- <-].
    assert (Hbit : 0 <= bit < bm_total_bits (block_bitmap (fs w))).
    { apply alloc_scan_some in Hscan as (k & _ & -> & _).
      apply Z.mod_pos_bound. lia. }
    rewrite (u32_small (bit + _)) by lia.
    repeat split; try reflexivity; lia. }
  destruct Hwb as (Hd & Hs & Ho & Hu & Hc & Hrange).
  assert (Hin : (Z.to_nat block_index < length (i_direct_blocks inode))%nat)
    by (unfold DIRECT_BLOCKS in Hlt; lia).
  split; [exact Hd |]. split; [exact Hs |]. split; [exact Ho |]. split; [exact Hu |].
  split; [exact Hc |].
  split; [eexists; reflexivity |].
  split.
  { apply inode_wf_blocks; [exact Hwf | rewrite length_insert; apply Hwf |].
    unfold u32_list. apply Forall_insert; [exact Hu32 | lia]. }
  split; [| exact Hrange].
  unfold file_ops_get_data_block.
  replace (block_index <? DIRECT_BLOCKS) with true by (symmetry; apply Z.ltb_lt; lia).
  cbn [i_direct_blocks set_i_direct_blocks]. unfold word_at.
  apply nth_lookup_Some with (d := 0). apply list_lookup_insert_eq. exact Hin.
Qed.

(** The answer of the permission check depends on the owner, the group and
    the mode of the inode, and on the user table. *)
Lemma check_permission_same w w' inode inode' perm :
  users (fs w') = users (fs w) -> current_user_uid (fs w') = current_user_uid (fs w) ->
  i_owner_uid inode' = i_owner_uid inode -> i_owner_gid inode' = i_owner_gid inode ->
  i_permissions inode' = i_permissions inode ->
  user_manager_check_permission w' inode' perm = user_manager_check_permission w inode perm.
Proof.
  intros Hu Hc Ho Hg Hp.
  unfold user_manager_check_permission, user_manager_get_current_user,
    user_manager_get_user_by_uid, find_user_by_uid.
  rewrite Hu, Hc, Ho, Hg, Hp. reflexivity.
Qed.

Lemma slice_memcpy_same block off src :
  (off + length src <= length block)%nat ->
  slice (memcpy block off src) off (length src) = src.
Proof.
  intros Hfit. unfold slice. rewrite skipn_memcpy by lia.
  apply firstn_app_exact. reflexivity.
Qed.

(** X26. Bytes written inside one block are the bytes read there afterwards.
    The descriptor is open on a regular file that the current user may
    write and read; the inode of the file is stored below the data area and
    its blocks lie inside it; the write is complete and stays inside one
    block.  Then the cursor can be set back to where it was, and [fs_read]
    of as many bytes returns the count and fills the buffer with the bytes
    written. *)
Theorem fs_write_then_read_back (w w1 : world) (now now' fd : Z)
    (data buf : list byte) (size : Z) (inode : fs_inode_t) :
  open_regular w fd inode FS_PERM_OWNER_WRITE ->
  user_manager_check_permission w inode FS_PERM_OWNER_READ = true ->
  data_area_apart w (fh_inode_number (handle_at w fd)) inode ->
  0 <= cursor w fd < 2 ^ 31 ->
  0 < size -> cursor w fd mod BLOCK_SIZE + size <= BLOCK_SIZE ->
  (Z.to_nat size <= length data)%nat -> (Z.to_nat size <= length buf)%nat ->
  0 <= now < 2 ^ 63 ->
  fs_write w now fd (Some data) size = Some (size, w1) ->
  exists w2 w3,
    fs_seek w1 fd (cursor w fd) SEEK_SET = Some (cursor w fd, w2) /\
    fs_read w2 now' fd (Some buf) size
    = Some (size, Some (memcpy buf 0 (firstn (Z.to_nat size) data)), w3).
Proof.
  intros Hopen Hmay Hlayout Hcur Hsize Hfit Hdata Hbuf Hnow Hwrite.
  pose proof (Z.mod_pos_bound (cursor w fd) BLOCK_SIZE ltac:(unfold BLOCK_SIZE; lia)) as Hoff.
  assert (Hsz : size <= 1024) by (unfold BLOCK_SIZE in *; lia).
  rewrite (fs_write_open_regular w now fd data size inode Hopen Hsize) in Hwrite.
  destruct Hopen as (Hloaded & Hfd & Hread & Htype & Hperm).
  unfold read_inode_from_disk in *.
  destruct (validate_fd_in_table w fd Hfd) as (Hfdr & Hfdl).
  pose proof (fs_ops_read_inode_wf _ _ _ Hread) as Hwf.
  pose proof (inode_wf_ranges _ Hwf) as (Hfsz & Hbc & _).
  set (pos := cursor w fd) in *.
  set (ino := fh_inode_number (handle_at w fd)) in *.
  destruct Hlayout as (Hino & Hts & Htable & Hdend & Hblocks).
  assert (Hq : 0 <= ino / inodes_per_block)
    by (apply Z.div_pos; [lia | reflexivity]).
  destruct (write_loop _ _ _ _ _ _ _ _) as [[[wl inode2] m] |] eqn:Hloop;
    [| discriminate Hwrite].
  destruct (0 <? m) eqn:Hm; [| injection Hwrite as -> _; boolp; lia].
  injection Hwrite as -> <-.
  destruct (write_loop_one_block w inode data size pos wl inode2 Hsize ltac:(lia)
              ltac:(lia) Hfit Hloop) as (bn & wa & d & Hchosen & Hbn & Hrb & Hwb & ->).
  destruct (chosen_block_facts w inode (block_index_of pos) bn wa inode2 Hchosen Hbn Hwf
              (block_index_nonneg pos) ltac:(lia) Hdend Hblocks)
    as (Hda & Hsa & Hoa & Hua & Hca & (db & Hsame) & Hwf2 & Hmap & Hbnr).
  apply write_block_inv in Hwb as [(_ & Hi & Hro & Hbounds & Hdblocks & Hgeo) | (Hneg & _)];
    [| codes; lia].
  set (written := memcpy (stored_block (disk wa) (to_int bn)) (Z.to_nat (pos mod BLOCK_SIZE))
                         (slice data 0 (Z.to_nat size))) in *.
  assert (Hslice : length (slice data 0 (Z.to_nat size)) = Z.to_nat size)
    by (apply length_slice; lia).
  assert (Hwritten : length written = 1024%nat).
  { unfold written. rewrite length_memcpy; [apply stored_block_length |].
    rewrite Hslice, stored_block_length. unfold BLOCK_SIZE in *. lia. }
  (* the inode that is stored *)
  rewrite (u64_small (pos + size)) by lia.
  rewrite (u64_small (pos + size + BLOCK_SIZE - 1)) by (unfold BLOCK_SIZE; lia).
  set (inode3 := if i_file_size inode2 <? pos + size then _ else inode2).
  assert (Hwf3 : inode_wf inode3).
  { unfold inode3. destruct (i_file_size inode2 <? pos + size); [| exact Hwf2].
    apply inode_wf_size; [exact Hwf2 | lia | apply u32_range]. }
  set (inode4 := set_i_times inode3 (i_access_time inode3) now now).
  assert (Hwf4 : inode_wf inode4).
  { apply inode_wf_times; [exact Hwf3 | apply inode_wf_access_time; exact Hwf3 | lia | lia]. }
  assert (Hro2 : d_is_read_only (disk (set_disk wa d)) = false).
  { cbn [disk set_disk]. destruct Hgeo as (_ & -> & _). exact Hro. }
  assert (Hsb2 : superblock (fs (set_disk wa d)) = superblock (fs w)) by exact Hsa.
  assert (Hgeo2 : same_geometry (disk w) (disk (set_disk wa d))).
  { cbn [disk set_disk]. rewrite <- Hda. exact Hgeo. }
  destruct (write_then_read_inode (set_disk wa d) ino inode4 Hwf4 Hro2) as (w3 & Hw3 & Hr3).
  { apply (read_inode_succeeds_still w _ ino Hsb2 Hgeo2). rewrite Hread. reflexivity. }
  unfold write_inode_to_disk. rewrite Hw3. cbn [snd].
  destruct (fs_ops_write_inode_frame _ _ _ _ Hw3) as (Hfs3 & Hgeo3 & Hframe3).
  cbn [fs set_disk] in Hfs3. rewrite Hsb2 in Hframe3.
  (* facts about the stored inode *)
  assert (Hfields : i_file_type inode4 = FS_FILE_TYPE_REGULAR /\
                    i_owner_uid inode4 = i_owner_uid inode /\
                    i_owner_gid inode4 = i_owner_gid inode /\
                    i_permissions inode4 = i_permissions inode /\
                    i_direct_blocks inode4 = i_direct_blocks inode2 /\
                    pos + size <= i_file_size inode4 < 2 ^ 64).
  { pose proof (inode_wf_ranges _ Hwf2) as (Hfsz2 & _ & _).
    assert (H2 : i_file_type inode2 = FS_FILE_TYPE_REGULAR /\
                 i_owner_uid inode2 = i_owner_uid inode /\
                 i_owner_gid inode2 = i_owner_gid inode /\
                 i_permissions inode2 = i_permissions inode)
      by (rewrite Hsame; cbn; auto).
    destruct H2 as (H2t & H2u & H2g & H2p).
    unfold inode4, inode3.
    destruct (i_file_size inode2 <? pos + size) eqn:Hgrow; boolp;
      cbn [i_file_type i_owner_uid i_owner_gid i_permissions i_direct_blocks i_file_size
           set_i_times set_i_size];
      repeat split; try assumption; try reflexivity; lia. }
  destruct Hfields as (Htype4 & Houid & Hogid & Hperm4 & Hdb4 & Hsize4).
  assert (Hmap4 : file_ops_get_data_block inode4 (block_index_of pos) = bn).
  { rewrite <- Hmap. unfold file_ops_get_data_block. rewrite Hdb4. reflexivity. }
  (* the block of the data is not the block of the inode *)
  assert (Hapart : to_int bn
                   <> to_int (u32 (sb_inode_table_start (superblock (fs w))
                                   + ino / inodes_per_block))).
  { intros Heq.
    rewrite <- (u32_small bn) in Heq at 1 by lia.
    apply to_int_u32_inj in Heq; lia. }
  assert (Hstored : stored_block (disk w3) (to_int bn) = written).
  { rewrite (stored_block_same d (disk w3)) by (apply Hframe3; exact Hapart).
    apply (stored_block_written (disk wa) d _ _ Hdblocks Hwritten). }
  (* the descriptor table *)
  set (w1 := set_position w3 fd (pos + size)).
  assert (Hlen3 : (Z.to_nat fd < length (open_files (fs w3)))%nat).
  { rewrite Hfs3, Hoa. exact Hfdl. }
  assert (Hhandle3 : handle_at w3 fd = handle_at w fd).
  { unfold handle_at. rewrite Hfs3, Hoa. reflexivity. }
  assert (Hvalid : forall wx p,
            fs wx = fs w3 \/ wx = set_position w3 fd p \/
            wx = set_position (set_position w3 fd (pos + size)) fd p ->
            file_ops_validate_fd wx fd = FS_SUCCESS /\
            fh_inode_number (handle_at wx fd) = ino).
  { assert (Hbase : file_ops_validate_fd w3 fd = FS_SUCCESS /\
                    fh_inode_number (handle_at w3 fd) = ino).
    { split; [| rewrite Hhandle3; reflexivity].
      revert Hfd. unfold file_ops_validate_fd. rewrite Hhandle3. auto. }
    assert (Hstep : forall wy q,
              file_ops_validate_fd wy fd = FS_SUCCESS /\ fh_inode_number (handle_at wy fd) = ino ->
              file_ops_validate_fd (set_position wy fd q) fd = FS_SUCCESS /\
              fh_inode_number (handle_at (set_position wy fd q) fd) = ino).
    { intros wy q (Hv & Hn).
      destruct (validate_fd_in_table wy fd Hv) as (_ & Hl).
      revert Hv. unfold file_ops_validate_fd, set_position.
      rewrite handle_at_insert by exact Hl.
      cbn [fh_reference_count fh_inode_number set_fh_file_position]. auto. }
    intros wx p [Hx | [-> | ->]].
    - unfold file_ops_validate_fd, handle_at in *. rewrite Hx. exact Hbase.
    - apply Hstep. exact Hbase.
    - apply Hstep, Hstep. exact Hbase. }
  assert (Hloaded1 : fs_loaded w1).
  { unfold fs_loaded, w1, set_position. simpl_world. rewrite Hfs3. cbn [fs set_disk].
    rewrite Hsa. exact Hloaded. }
  assert (Hinode1 : forall wx, disk wx = disk w3 -> superblock (fs wx) = superblock (fs w3) ->
                               fs_ops_read_inode wx ino = (FS_SUCCESS, inode4)).
  { intros wx Hd Hs. rewrite <- Hr3. unfold fs_ops_read_inode. rewrite Hd, Hs. reflexivity. }
  (* the seek *)
  set (w2 := set_position w1 fd pos).
  assert (Hseek : fs_seek w1 fd pos SEEK_SET = Some (pos, w2)).
  { unfold fs_seek.
    destruct (Hvalid w1 (pos + size) ltac:(right; left; reflexivity)) as (Hv1 & Hn1).
    rewrite Hv1. cbn [negb Z.eqb FS_SUCCESS].
    rewrite (load_if_needed_loaded _ Hloaded1). cbn [negb Z.eqb FS_SUCCESS].
    unfold read_inode_from_disk. rewrite Hn1.
    rewrite (Hinode1 w1) by reflexivity. cbn [negb Z.eqb FS_SUCCESS].
    change (SEEK_SET =? SEEK_SET) with true. cbv iota.
    rewrite to_int64_u64 by lia.
    replace (pos <? 0) with false by (symmetry; apply Z.ltb_ge; lia).
    rewrite u64_small by lia. rewrite to_int_small by lia. reflexivity. }
  exists w2. eexists. split; [exact Hseek |].
  (* the read *)
  destruct (Hvalid w2 pos ltac:(right; right; reflexivity)) as (Hv2 & Hn2).
  assert (Hloaded2 : fs_loaded w2) by exact Hloaded1.
  assert (Hpos2 : fh_file_position (handle_at w2 fd) = pos).
  { apply (cursor_set_position w1 fd pos).
    unfold w1, set_position. simpl_world. rewrite length_insert. exact Hlen3. }
  unfold fs_read.
  replace (size <=? 0) with false by (symmetry; apply Z.leb_gt; lia).
  rewrite Hv2. cbn [negb Z.eqb FS_SUCCESS].
  rewrite (load_if_needed_loaded _ Hloaded2). cbn [negb Z.eqb FS_SUCCESS].
  unfold read_inode_from_disk. rewrite Hn2.
  rewrite (Hinode1 w2) by reflexivity. cbn [negb Z.eqb FS_SUCCESS].
  rewrite Htype4, Z.eqb_refl. cbn [negb].
  replace (user_manager_check_permission w2 inode4 FS_PERM_OWNER_READ) with true.
  2:{ symmetry. rewrite <- Hmay. apply check_permission_same; try assumption.
      - unfold w2, w1, set_position. simpl_world. rewrite Hfs3. exact Hua.
      - unfold w2, w1, set_position. simpl_world. rewrite Hfs3. exact Hca. }
  cbn [negb]. rewrite Hpos2.
  replace (i_file_size inode4 <=? pos) with false by (symmetry; apply Z.leb_gt; lia).
  rewrite (u64_small (i_file_size inode4 - pos)) by lia.
  replace (i_file_size inode4 - pos <? size) with false by (symmetry; apply Z.ltb_ge; lia).
  cbn [read_loop]. rewrite (u64_small (pos + size)) by lia.
  replace (pos <? pos + size) with true by (symmetry; apply Z.ltb_lt; lia).
  rewrite Hmap4.
  replace (bn =? 0) with false by (symmetry; apply Z.eqb_neq; exact Hbn).
  replace (disk w2) with (disk w3) by reflexivity.
  rewrite read_block_ok.
  2:{ destruct Hgeo3 as (-> & _). cbn [disk set_disk]. destruct Hgeo as (-> & _).
      exact Hi. }
  2:{ rewrite (same_geometry_bounds _ _ _ Hgeo3). cbn [disk set_disk].
      rewrite (same_geometry_bounds _ _ _ Hgeo). exact Hbounds. }
  cbn [negb Z.eqb DISK_SUCCESS]. rewrite Hstored.
  rewrite block_offset_small by lia. unfold BLOCK_SIZE in *.
  rewrite (u32_small (1024 - pos mod 1024)), (u32_small (size - 0)) by lia.
  replace (Z.min (1024 - pos mod 1024) (size - 0)) with size by lia.
  rewrite u64_small by lia.
  destruct (Z.to_nat size) as [| k] eqn:Hk; [lia |].
  cbn [read_loop]. rewrite Z.ltb_irrefl.
  rewrite (to_int_small (0 + size)) by lia.
  replace (0 <? 0 + size) with true by (symmetry; apply Z.ltb_lt; lia).
  unfold written. rewrite <- Hslice at 2.
  rewrite slice_memcpy_same
    by (rewrite Hslice, stored_block_length; lia).
  reflexivity.
Qed.

(* ===================================================================== *)
(** ** Directory entries *)
(* ===================================================================== *)

(** A copy into a buffer is not seen from a part that it does not
    overlap. *)
Lemma slice_memcpy_outside block off src (a o n : nat) :
  (off + length src <= length block)%nat ->
  (a + o + n <= off)%nat \/ (off + length src <= a + o)%nat ->
  slice (skipn a (memcpy block off src)) o n = slice (skipn a block) o n.
Proof.
  intros Hfit Hout. unfold slice. apply list_eq. intros t.
  destruct (Nat.lt_ge_cases t n) as [Ht | Ht].
  - rewrite !lookup_take_lt by exact Ht. rewrite !lookup_drop.
    apply lookup_memcpy_outside; lia.
  - rewrite !lookup_take_ge by exact Ht. reflexivity.
Qed.

(** Comparing a C string with a name looks at one byte more than the name
    has. *)
Lemma bytes_eqb_c_str_prefix f : forall X Y,
  firstn (S (length f)) X = firstn (S (length f)) Y ->
  bytes_eqb (c_str X) f = bytes_eqb (c_str Y) f.
Proof.
  induction f as [| c f IH]; intros [| x X] [| y Y] H; cbn in H; try discriminate;
    try reflexivity.
  - injection H as ->. cbn [c_str]. destruct (Byte.eqb y Byte.x00); reflexivity.
  - injection H as -> H. cbn [c_str]. destruct (Byte.eqb y Byte.x00); [reflexivity |].
    cbn [bytes_eqb]. rewrite (IH X Y H). reflexivity.
Qed.

Lemma c_str_clean_no_nul f : c_str f = f -> bytes_eqb (c_str f) f = true.
Proof. intros ->. apply bytes_eqb_refl. Qed.

Lemma length_strncpy s n : length (strncpy s n) = n.
Proof.
  unfold strncpy. rewrite length_take, length_app. unfold zeros. rewrite repeat_length. lia.
Qed.

Lemma length_new_entry_bytes filename inum :
  length (new_entry_bytes filename inum) = 73%nat.
Proof.
  unfold new_entry_bytes. rewrite !length_app, length_strncpy.
  rewrite !length_put_fields. reflexivity.
Qed.

Lemma slot_offset j :
  0 <= j < max_entries ->
  Z.to_nat (j * sizeof_fs_dir_entry_t) = (Z.to_nat j * 76)%nat /\ (Z.to_nat j < 13)%nat.
Proof.
  unfold max_entries, sizeof_fs_dir_entry_t, DISK_BLOCK_SIZE.
  change (1024 / (4 + 2 + 1 + 1 + 64 + 1 + 3)) with 13.
  change (4 + 2 + 1 + 1 + 64 + 1 + 3) with 76. lia.
Qed.

Section Slots.

Variables (block : list byte) (filename : list byte) (inum i : Z).
Hypothesis Hblock : length block = 1024%nat.
Hypothesis Hi : 0 <= i < max_entries.
Hypothesis Hinum : 0 <= inum < 2 ^ 32.
Hypothesis Hclean : c_str filename = filename.
Hypothesis Hname : (length filename < 64)%nat.

Let block' := memcpy block (Z.to_nat (i * sizeof_fs_dir_entry_t))
                     (new_entry_bytes filename inum).


(** The other slots of the block after the entry was stored in slot [i]. *)
Lemma slot_other j name :
  0 <= j < max_entries -> j <> i -> (length name < 64)%nat ->
  de_is_valid (entry_at block' j) = de_is_valid (entry_at block j) /\
  de_inode_number (entry_at block' j) = de_inode_number (entry_at block j) /\
  bytes_eqb (entry_name block' j) name = bytes_eqb (entry_name block j) name.
Proof.
  intros Hj Hne Hlen.
  destruct (slot_offset j Hj) as (Hoj & Hj13).
  destruct (slot_offset i Hi) as (Hoi & Hi13).
  assert (Hji : (Z.to_nat j < Z.to_nat i)%nat \/ (Z.to_nat i < Z.to_nat j)%nat) by lia.
  pose proof (length_new_entry_bytes filename inum) as He.
  unfold entry_at, entry_name, decode_dir_entry, block'.
  cbn [de_is_valid de_inode_number].
  rewrite Hoj, Hoi.
  split; [| split].
  - f_equal. apply slice_memcpy_outside; rewrite ?He, ?Hblock; lia.
  - f_equal. apply slice_memcpy_outside; rewrite ?He, ?Hblock; lia.
  - apply bytes_eqb_c_str_prefix.
    assert (H64 : firstn 64 (skipn (Z.to_nat (j * sizeof_fs_dir_entry_t + 8))
                               (memcpy block (Z.to_nat i * 76) (new_entry_bytes filename inum)))
                  = firstn 64 (skipn (Z.to_nat (j * sizeof_fs_dir_entry_t + 8)) block)).
    { replace (Z.to_nat (j * sizeof_fs_dir_entry_t + 8)) with (Z.to_nat j * 76 + 8)%nat
        by (unfold sizeof_fs_dir_entry_t in *; lia).
      apply (slice_memcpy_outside block (Z.to_nat i * 76) _ (Z.to_nat j * 76 + 8) 0 64);
        rewrite ?He, ?Hblock; lia. }
    apply (f_equal (firstn (S (length name)))) in H64.
    rewrite !take_take in H64. rewrite Nat.min_l in H64 by lia. exact H64.
Qed.

(** Slot [i] itself. *)
Lemma slot_new :
  de_is_valid (entry_at block' i) = 1 /\
  de_inode_number (entry_at block' i) = inum /\
  entry_name block' i = filename.
Proof.
  destruct (slot_offset i Hi) as (Hoi & Hi13).
  pose proof (length_new_entry_bytes filename inum) as He.
  assert (Hskip : skipn (Z.to_nat (i * sizeof_fs_dir_entry_t)) block'
                  = new_entry_bytes filename inum
                    ++ skipn (Z.to_nat (i * sizeof_fs_dir_entry_t) + 73) block).
  { unfold block'. rewrite skipn_memcpy by (rewrite Hblock; lia). rewrite He. reflexivity. }
  unfold entry_at, entry_name, decode_dir_entry. cbn [de_is_valid de_inode_number].
  split; [| split].
  - rewrite Hskip. unfold slice.
    set (rest := skipn _ block).
    replace (new_entry_bytes filename inum ++ rest)
      with ((put_fields [(4%nat, inum); (2%nat, sizeof_fs_dir_entry_t);
                         (1%nat, Z.of_nat (length (c_str filename)));
                         (1%nat, FS_FILE_TYPE_REGULAR)]
             ++ strncpy filename (Z.to_nat (MAX_FILENAME_LEN - 1)) ++ [Byte.x00])
            ++ put_fields [(1%nat, 1)] ++ rest)
      by (unfold new_entry_bytes; rewrite <- !app_assoc; reflexivity).
    rewrite drop_app_length'
      by (rewrite !length_app, length_strncpy, length_put_fields; reflexivity).
    reflexivity.
  - rewrite Hskip. unfold new_entry_bytes, slice, put_fields.
    cbn [flat_map fst snd]. rewrite <- !app_assoc. rewrite drop_0.
    rewrite firstn_app_exact by (rewrite length_le_split; reflexivity).
    rewrite le_combine_split. apply Z.mod_small. lia.
  - replace (Z.to_nat (i * sizeof_fs_dir_entry_t + 8))
      with (8 + Z.to_nat (i * sizeof_fs_dir_entry_t))%nat
      by (unfold sizeof_fs_dir_entry_t in *; lia).
    rewrite <- skipn_skipn. rewrite Hskip. unfold new_entry_bytes.
    rewrite <- !app_assoc.
    rewrite (drop_app_length' _ _ 8) by (rewrite length_put_fields; reflexivity).
    cbn [app]. rewrite c_str_strncpy; [exact Hclean |].
    rewrite Hclean. unfold MAX_FILENAME_LEN. lia.
Qed.

End Slots.

Lemma find_free_entry_range block : forall n j i,
  find_free_entry n j block = Some i -> j <= i < j + Z.of_nat n.
Proof.
  induction n as [| n IH]; intros j i H; cbn [find_free_entry] in H; [discriminate |].
  destruct (de_is_valid (entry_at block j) =? 0).
  - injection H as <-. lia.
  - apply IH in H. lia.
Qed.

(** The search after the entry was stored in the first free slot of a
    block that did not have the name. *)
Lemma find_in_entries_stored block filename inum i :
  length block = 1024%nat -> 0 <= inum < 2 ^ 32 ->
  c_str filename = filename -> (length filename < 64)%nat ->
  forall n j,
    0 <= j -> j + Z.of_nat n <= max_entries ->
    find_free_entry n j block = Some i ->
    find_in_entries n j block filename = None ->
    find_in_entries n j
      (memcpy block (Z.to_nat (i * sizeof_fs_dir_entry_t)) (new_entry_bytes filename inum))
      filename = Some inum.
Proof.
  intros Hblock Hinum Hclean Hname.
  induction n as [| n IH]; intros j Hj Hmax Hfree Hnone; [discriminate |].
  pose proof (find_free_entry_range _ _ _ _ Hfree) as Hrange.
  assert (Hi : 0 <= i < max_entries) by lia.
  cbn [find_free_entry find_in_entries] in *.
  destruct (de_is_valid (entry_at block j) =? 0) eqn:Hvalid.
  - injection Hfree as ->.
    destruct (slot_new block filename inum i Hblock Hi Hinum Hclean Hname)
      as (Hv & Hn & He).
    rewrite Hv, Hn, He, bytes_eqb_refl. reflexivity.
  - pose proof (find_free_entry_range _ _ _ _ Hfree) as Hrange'.
    destruct (slot_other block filename inum i Hblock Hi Hname j filename
                ltac:(lia) ltac:(lia) Hname) as (Hv & _ & He).
    rewrite Hv, He, Hvalid. cbn [negb andb] in *.
    destruct (bytes_eqb (entry_name block j) filename); [discriminate |].
    apply IH; [lia | lia | exact Hfree | exact Hnone].
Qed.

(** The search for another name: as before. *)
Lemma find_in_entries_other block filename inum i name :
  length block = 1024%nat -> 0 <= i < max_entries ->
  c_str filename = filename -> (length filename < 64)%nat -> 0 <= inum < 2 ^ 32 ->
  (length name < 64)%nat -> name <> filename ->
  de_is_valid (entry_at block i) = 0 ->
  forall n j,
    0 <= j -> j + Z.of_nat n <= max_entries ->
    find_in_entries n j
      (memcpy block (Z.to_nat (i * sizeof_fs_dir_entry_t)) (new_entry_bytes filename inum))
      name = find_in_entries n j block name.
Proof.
  intros Hblock Hi Hclean Hname Hinum Hlen Hne Hinvalid.
  induction n as [| n IH]; intros j Hj Hmax; [reflexivity |].
  cbn [find_in_entries].
  destruct (Z.eq_dec j i) as [-> | Hji].
  - destruct (slot_new block filename inum i Hblock Hi Hinum Hclean Hname)
      as (Hv & Hn & He).
    rewrite Hv, He, Hinvalid. cbn [Z.eqb negb andb].
    destruct (bytes_eqb filename name) eqn:E.
    + apply bytes_eqb_eq in E. congruence.
    + apply IH; lia.
  - destruct (slot_other block filename inum i Hblock Hi Hname j name
                ltac:(lia) Hji Hlen) as (Hv & Hn & He).
    rewrite Hv, Hn, He. rewrite IH by lia. reflexivity.
Qed.

Lemma find_free_entry_invalid block : forall n j i,
  find_free_entry n j block = Some i -> de_is_valid (entry_at block i) = 0.
Proof.
  induction n as [| n IH]; intros j i H; cbn [find_free_entry] in H; [discriminate |].
  destruct (de_is_valid (entry_at block j) =? 0) eqn:E.
  - injection H as <-. apply Z.eqb_eq. exact E.
  - apply IH in H. exact H.
Qed.

Lemma read_block_same_geometry d d' b buf :
  same_geometry d d' ->
  read_block d' b buf =
  (fst (read_block d b buf),
   if fst (read_block d b buf) =? DISK_SUCCESS then stored_block d' (to_int b) else buf).
Proof.
  intros Hgeo. unfold read_block, disk_read_block.
  rewrite (same_geometry_bounds _ _ _ Hgeo). destruct Hgeo as (-> & _).
  destruct (negb (d_is_initialized d)); [reflexivity |].
  destruct (negb (disk_check_block_bounds d (to_int b))); reflexivity.
Qed.

Lemma read_block_stored d b buf :
  read_block d b buf =
  (fst (read_block d b buf),
   if fst (read_block d b buf) =? DISK_SUCCESS then stored_block d (to_int b) else buf).
Proof. apply read_block_same_geometry. apply same_geometry_refl. Qed.

(** The search of a directory on two disks of the same geometry whose
    directory blocks answer the search alike. *)
Lemma find_in_blocks_same d d' inode inode' name :
  i_direct_blocks inode' = i_direct_blocks inode ->
  same_geometry d d' ->
  (forall k, word_at (i_direct_blocks inode) k <> 0 ->
     find_in_entries (Z.to_nat max_entries) 0
       (stored_block d' (to_int (word_at (i_direct_blocks inode) k))) name
     = find_in_entries (Z.to_nat max_entries) 0
         (stored_block d (to_int (word_at (i_direct_blocks inode) k))) name) ->
  forall n k, find_in_blocks n k d' inode' name = find_in_blocks n k d inode name.
Proof.
  intros Hdb Hgeo Hsame. induction n as [| n IH]; intros k; [reflexivity |].
  cbn [find_in_blocks]. rewrite Hdb.
  destruct (word_at (i_direct_blocks inode) k =? 0) eqn:Hz; [reflexivity |].
  apply Z.eqb_neq in Hz.
  rewrite (read_block_same_geometry d d' _ _ Hgeo).
  destruct (read_block d (word_at (i_direct_blocks inode) k) zero_block) as [r data] eqn:Hr.
  cbn [fst].
  destruct (r =? DISK_SUCCESS) eqn:Hrc; cbn [negb]; [| apply IH].
  apply Z.eqb_eq in Hrc. subst r.
  apply read_block_inv in Hr as [(_ & _ & _ & ->) | (Hneg & _)]; [| codes; lia].
  rewrite (Hsame k Hz), IH. reflexivity.
Qed.

(** Reading an inode depends on two fields of the superblock, on the
    geometry of the disk and on one block of the inode table. *)
Lemma read_inode_same_block w w' m :
  sb_total_inodes (superblock (fs w')) = sb_total_inodes (superblock (fs w)) ->
  sb_inode_table_start (superblock (fs w')) = sb_inode_table_start (superblock (fs w)) ->
  same_geometry (disk w) (disk w') ->
  d_blocks (disk w')
    !! to_int (u32 (sb_inode_table_start (superblock (fs w)) + m / inodes_per_block))
  = d_blocks (disk w)
    !! to_int (u32 (sb_inode_table_start (superblock (fs w)) + m / inodes_per_block)) ->
  fs_ops_read_inode w' m = fs_ops_read_inode w m.
Proof.
  intros Hti Hts Hgeo Hsame. unfold fs_ops_read_inode. rewrite Hti, Hts.
  destruct ((m =? 0) || _); [reflexivity |].
  rewrite (read_block_same_geometry (disk w) (disk w') _ _ Hgeo).
  destruct (read_block (disk w) _ zero_block) as [r data] eqn:Hr. cbn [fst].
  destruct (r =? DISK_SUCCESS) eqn:Hrc; cbn [negb]; [| reflexivity].
  apply Z.eqb_eq in Hrc. subst r.
  apply read_block_inv in Hr as [(_ & _ & _ & ->) | (Hneg & _)]; [| codes; lia].
  rewrite (stored_block_same _ _ _ Hsame). reflexivity.
Qed.

Lemma find_file_same_inodes w w' dir name :
  disk w' = disk w ->
  sb_total_inodes (superblock (fs w')) = sb_total_inodes (superblock (fs w)) ->
  sb_inode_table_start (superblock (fs w')) = sb_inode_table_start (superblock (fs w)) ->
  find_file_in_directory w' dir name = find_file_in_directory w dir name.
Proof.
  intros Hd Hti Hts. unfold find_file_in_directory.
  rewrite (read_inode_same_block w w' dir Hti Hts);
    [rewrite Hd; reflexivity | rewrite Hd; apply same_geometry_refl | rewrite Hd; reflexivity].
Qed.

(** [add_file_to_directory] when the first block of the directory has a
    free slot. *)
Lemma add_file_first_block (w : world) (now dir_inode_num : Z) (filename : list byte)
    (file_inode_num i : Z) (dir_inode : fs_inode_t) :
  fs_ops_read_inode w dir_inode_num = (FS_SUCCESS, dir_inode) ->
  i_file_type dir_inode = FS_FILE_TYPE_DIRECTORY ->
  data_area_apart w dir_inode_num dir_inode ->
  d_is_read_only (disk w) = false ->
  word_at (i_direct_blocks dir_inode) 0 <> 0 ->
  disk_check_block_bounds (disk w) (to_int (word_at (i_direct_blocks dir_inode) 0)) = true ->
  find_free_entry (Z.to_nat max_entries) 0
    (stored_block (disk w) (to_int (word_at (i_direct_blocks dir_inode) 0))) = Some i ->
  find_in_entries (Z.to_nat max_entries) 0
    (stored_block (disk w) (to_int (word_at (i_direct_blocks dir_inode) 0))) filename = None ->
  c_str filename = filename -> (length filename < 64)%nat ->
  0 < file_inode_num < 2 ^ 32 -> 0 <= now < 2 ^ 63 ->
  exists w',
    add_file_to_directory w now dir_inode_num filename file_inode_num = (FS_SUCCESS, w') /\
    find_file_in_directory w' dir_inode_num filename = file_inode_num /\
    (forall name, (length name < 64)%nat -> name <> filename ->
       find_file_in_directory w' dir_inode_num name
       = find_file_in_directory w dir_inode_num name) /\
    fs w' = fs w /\ same_geometry (disk w) (disk w') /\
    (forall m, 0 <= m < 2 ^ 32 -> m <> dir_inode_num ->
       to_int (word_at (i_direct_blocks dir_inode) 0)
       <> to_int (u32 (sb_inode_table_start (superblock (fs w)) + m / inodes_per_block)) ->
       fs_ops_read_inode w' m = fs_ops_read_inode w m).
Proof.
  intros Hread Htype Hlayout Hro Hb0 Hbounds Hfree Hnone Hclean Hname Hinum Hnow.
  pose proof (fs_ops_read_inode_wf _ _ _ Hread) as Hwf.
  pose proof (inode_wf_ranges _ Hwf) as (_ & Hbc & Hu32).
  destruct Hlayout as (Hino & Hts & Htable & Hdend & Hblocks).
  assert (Hq : 0 <= dir_inode_num / inodes_per_block)
    by (apply Z.div_pos; [lia | reflexivity]).
  set (b0 := word_at (i_direct_blocks dir_inode) 0) in *.
  set (block := stored_block (disk w) (to_int b0)) in *.
  set (table := u32 (sb_inode_table_start (superblock (fs w))
                     + dir_inode_num / inodes_per_block)).
  assert (Hdir0 : dir_inode_num <> 0).
  { intros ->. revert Hread. unfold fs_ops_read_inode. cbn [Z.eqb orb]. wrong_code. }
  assert (Hinit : d_is_initialized (disk w) = true).
  { revert Hbounds. unfold disk_check_block_bounds.
    destruct (d_is_initialized (disk w)); [reflexivity |].
    rewrite andb_false_r. discriminate. }
  (* every block of the directory lies in the data area *)
  assert (Hdata : forall k, word_at (i_direct_blocks dir_inode) k <> 0 ->
            to_int (word_at (i_direct_blocks dir_inode) k) <> to_int table).
  { intros k Hk Heq. unfold word_at in *.
    destruct (nth_lookup_or_length (i_direct_blocks dir_inode) (Z.to_nat k) 0) as [Hl | Hl].
    - pose proof (Forall_lookup_1 _ _ _ _ Hblocks Hl) as H1.
      pose proof (Forall_lookup_1 _ _ _ _ Hu32 Hl) as H2. cbn in H1, H2.
      rewrite <- (u32_small (nth _ _ _)) in Heq at 1 by lia.
      unfold table in Heq. apply to_int_u32_inj in Heq; lia.
    - rewrite nth_overflow in Hk by lia. congruence. }
  pose proof (find_free_entry_range _ _ _ _ Hfree) as Hi.
  change (Z.of_nat (Z.to_nat max_entries)) with max_entries in Hi.
  pose proof (find_free_entry_invalid _ _ _ _ Hfree) as Hinvalid.
  assert (Hblock : length block = 1024%nat) by apply stored_block_length.
  set (block' := memcpy block (Z.to_nat (i * sizeof_fs_dir_entry_t))
                        (new_entry_bytes filename file_inode_num)).
  assert (Hblock' : length block' = 1024%nat).
  { unfold block'. rewrite length_memcpy; [exact Hblock |].
    rewrite length_new_entry_bytes, Hblock.
    destruct (slot_offset i ltac:(lia)) as (-> & ?). lia. }
  destruct (write_block_ok (disk w) b0 block' Hinit Hro Hbounds) as (d & Hw & Hdblocks & Hgeo).
  set (inode' := set_i_times
                   (set_i_size dir_inode (u32 ((0 + 1) * DISK_BLOCK_SIZE))
                               (i_block_count dir_inode))
                   (i_access_time dir_inode) now now).
  assert (Hwf' : inode_wf inode').
  { apply inode_wf_times;
      [apply inode_wf_size; [exact Hwf | | lia] | apply inode_wf_access_time; exact Hwf
       | lia | lia].
    pose proof (u32_range ((0 + 1) * DISK_BLOCK_SIZE)). lia. }
  destruct (write_then_read_inode (set_disk w d) dir_inode_num inode' Hwf')
    as (w' & Hwrite & Hback).
  { cbn [disk set_disk]. destruct Hgeo as (_ & -> & _). exact Hro. }
  { apply (read_inode_succeeds_still w (set_disk w d) dir_inode_num eq_refl Hgeo).
    rewrite Hread. reflexivity. }
  destruct (fs_ops_write_inode_frame _ _ _ _ Hwrite) as (Hfs' & Hgeo' & Hframe').
  cbn [fs set_disk disk] in Hfs', Hgeo', Hframe'. fold table in Hframe'.
  assert (Hgeo2 : same_geometry (disk w) (disk w'))
    by (apply (same_geometry_trans _ d); assumption).
  assert (Hstored0 : stored_block (disk w') (to_int b0) = block').
  { rewrite (stored_block_same d (disk w')) by (apply Hframe'; apply (Hdata 0); exact Hb0).
    apply (stored_block_written (disk w) d _ _ Hdblocks Hblock'). }
  exists w'.
  split.
  { unfold add_file_to_directory.
    replace ((dir_inode_num =? 0) || (file_inode_num =? 0)) with false
      by (symmetry; apply orb_false_iff; split; apply Z.eqb_neq; lia).
    rewrite Hread. cbn [negb Z.eqb FS_SUCCESS]. rewrite Htype, Z.eqb_refl. cbn [negb].
    change (Z.to_nat DIRECT_BLOCKS) with 12%nat. cbn [add_file_loop].
    fold b0. replace (b0 =? 0) with false by (symmetry; apply Z.eqb_neq; exact Hb0).
    rewrite (read_block_ok _ _ _ Hinit Hbounds). cbn [negb Z.eqb DISK_SUCCESS].
    fold block. rewrite Hfree. fold block'. fold b0. rewrite Hw.
    cbn [negb Z.eqb DISK_SUCCESS].
    change (fs_ops_write_inode (set_disk w d) dir_inode_num _)
      with (fs_ops_write_inode (set_disk w d) dir_inode_num inode').
    rewrite Hwrite. reflexivity. }
  split.
  { unfold find_file_in_directory.
    replace (dir_inode_num =? 0) with false by (symmetry; apply Z.eqb_neq; exact Hdir0).
    rewrite Hback. cbn [negb Z.eqb FS_SUCCESS].
    replace (i_file_type inode') with FS_FILE_TYPE_DIRECTORY by (symmetry; exact Htype).
    rewrite Z.eqb_refl. cbn [negb].
    change (Z.to_nat DIRECT_BLOCKS) with 12%nat. cbn [find_in_blocks].
    replace (i_direct_blocks inode') with (i_direct_blocks dir_inode) by reflexivity.
    fold b0. replace (b0 =? 0) with false by (symmetry; apply Z.eqb_neq; exact Hb0).
    rewrite read_block_ok;
      [| destruct Hgeo2 as (-> & _); exact Hinit
       | rewrite (same_geometry_bounds _ _ _ Hgeo2); exact Hbounds].
    cbn [negb Z.eqb DISK_SUCCESS]. rewrite Hstored0.
    unfold block'.
    rewrite (find_in_entries_stored block filename file_inode_num i Hblock ltac:(lia)
               Hclean Hname (Z.to_nat max_entries) 0 ltac:(lia)
               ltac:(change (Z.of_nat (Z.to_nat max_entries)) with max_entries; lia)
               Hfree Hnone).
    reflexivity. }
  split.
  2:{ split; [exact Hfs' |]. split; [exact Hgeo2 |].
      intros m Hm Hmd Hmb.
      rewrite (fs_ops_write_inode_other (set_disk w d) dir_inode_num m inode' w' Hwf' Hino Hm
                 ltac:(congruence) Hwrite).
      apply read_inode_same_block; [reflexivity | reflexivity | exact Hgeo |].
      cbn [disk set_disk]. rewrite Hdblocks. apply lookup_insert_ne. exact Hmb. }
  intros name Hlen Hne. unfold find_file_in_directory.
  replace (dir_inode_num =? 0) with false by (symmetry; apply Z.eqb_neq; exact Hdir0).
  rewrite Hback, Hread. cbn [negb Z.eqb FS_SUCCESS].
  replace (i_file_type inode') with (i_file_type dir_inode) by reflexivity.
  destruct (negb (i_file_type dir_inode =? FS_FILE_TYPE_DIRECTORY)); [reflexivity |].
  apply find_in_blocks_same; [reflexivity | exact Hgeo2 |].
  intros k Hk.
  destruct (Z.eq_dec (to_int (word_at (i_direct_blocks dir_inode) k)) (to_int b0))
    as [Heq | Hother].
  - rewrite Heq, Hstored0. fold block. unfold block'.
    apply find_in_entries_other; try assumption; lia.
  - f_equal. apply stored_block_same.
    rewrite Hframe' by (apply Hdata; exact Hk).
    rewrite Hdblocks. apply lookup_insert_ne. congruence.
Qed.

(** X27. A name stored in the first block of a directory is found there, and
    the other names are found as before.  The first block of the directory
    has a free slot and no entry of the name; the name is a string of at
    most 63 bytes; the inode of the directory is stored below the data area
    and its blocks lie inside it. *)
Theorem add_file_then_find (w : world) (now dir_inode_num : Z) (filename : list byte)
    (file_inode_num i : Z) (dir_inode : fs_inode_t) :
  fs_ops_read_inode w dir_inode_num = (FS_SUCCESS, dir_inode) ->
  i_file_type dir_inode = FS_FILE_TYPE_DIRECTORY ->
  data_area_apart w dir_inode_num dir_inode ->
  d_is_read_only (disk w) = false ->
  word_at (i_direct_blocks dir_inode) 0 <> 0 ->
  disk_check_block_bounds (disk w) (to_int (word_at (i_direct_blocks dir_inode) 0)) = true ->
  find_free_entry (Z.to_nat max_entries) 0
    (stored_block (disk w) (to_int (word_at (i_direct_blocks dir_inode) 0))) = Some i ->
  find_in_entries (Z.to_nat max_entries) 0
    (stored_block (disk w) (to_int (word_at (i_direct_blocks dir_inode) 0))) filename = None ->
  c_str filename = filename -> (length filename < 64)%nat ->
  0 < file_inode_num < 2 ^ 32 -> 0 <= now < 2 ^ 63 ->
  exists w',
    add_file_to_directory w now dir_inode_num filename file_inode_num = (FS_SUCCESS, w') /\
    find_file_in_directory w' dir_inode_num filename = file_inode_num /\
    (forall name, (length name < 64)%nat -> name <> filename ->
       find_file_in_directory w' dir_inode_num name
       = find_file_in_directory w dir_inode_num name) /\
    fs w' = fs w.
Proof.
  intros Hread Htype Hlayout Hro Hb0 Hbounds Hfree Hnone Hclean Hname Hinum Hnow.
  destruct (add_file_first_block w now dir_inode_num filename file_inode_num i dir_inode
              Hread Htype Hlayout Hro Hb0 Hbounds Hfree Hnone Hclean Hname Hinum Hnow)
    as (w' & Hadd & Hfind & Hothers & Hfs & _).
  exists w'. auto.
Qed.

(* ===================================================================== *)
(** ** A file that was created *)
(* ===================================================================== *)

Lemma c_str_idem s : c_str (c_str s) = c_str s.
Proof.
  induction s as [| b s IH]; [reflexivity |]. cbn [c_str].
  destruct (Byte.eqb b Byte.x00) eqn:E; [reflexivity |].
  cbn [c_str]. rewrite E, IH. reflexivity.
Qed.

Lemma length_c_str s : (length (c_str s) <= length s)%nat.
Proof.
  induction s as [| b s IH]; [reflexivity |]. cbn [c_str].
  destruct (Byte.eqb b Byte.x00); cbn [length]; lia.
Qed.

(** The name that [parse_path] hands on is a string of at most 63 bytes. *)
Lemma parse_path_clean path parent filename :
  parse_path path = (FS_SUCCESS, parent, filename) ->
  c_str filename = filename /\ (length filename < 64)%nat.
Proof.
  assert (Hcut : forall s, c_str (c_str (strncpy s (Z.to_nat (MAX_FILENAME_LEN - 1))))
                           = c_str (strncpy s (Z.to_nat (MAX_FILENAME_LEN - 1))) /\
                           (length (c_str (strncpy s (Z.to_nat (MAX_FILENAME_LEN - 1)))) < 64)%nat).
  { intros s. split; [apply c_str_idem |].
    pose proof (length_c_str (strncpy s (Z.to_nat (MAX_FILENAME_LEN - 1)))) as H.
    rewrite length_strncpy in H. unfold MAX_FILENAME_LEN in *.
    change (Z.to_nat (64 - 1)) with 63%nat in *. lia. }
  unfold parse_path.
  destruct (c_str path) as [| b name_start]; [intros [= _ <-]; split; [reflexivity | cbn; lia] |].
  destruct (Byte.eqb b slash).
  - destruct name_start as [| b' rest]; [intros [= _ <-]; split; [reflexivity | cbn; lia] |].
    destruct (strchr_found (b' :: rest) slash); [intros H; apply (f_equal (fun x => fst (fst x))) in H; cbn [fst] in H; codes; lia |].
    intros [= _ <-]. apply Hcut.
  - destruct (strchr_found (b :: name_start) slash); [intros H; apply (f_equal (fun x => fst (fst x))) in H; cbn [fst] in H; codes; lia |].
    intros [= _ <-]. apply Hcut.
Qed.

(** Reading an inode of the table succeeds on a disk that holds the
    table. *)
Lemma read_inode_in_table w n :
  n <> 0 -> 0 <= n < sb_total_inodes (superblock (fs w)) ->
  d_is_initialized (disk w) = true ->
  0 <= sb_inode_table_start (superblock (fs w)) ->
  sb_inode_table_start (superblock (fs w)) + n / inodes_per_block < d_total_blocks (disk w) ->
  d_total_blocks (disk w) < 2 ^ 31 ->
  fst (fs_ops_read_inode w n) = FS_SUCCESS.
Proof.
  intros Hn0 Hn Hinit Hts Htable Htotal. unfold fs_ops_read_inode.
  replace ((n =? 0) || (sb_total_inodes (superblock (fs w)) <=? n)) with false
    by (symmetry; apply orb_false_iff; split; [apply Z.eqb_neq | apply Z.leb_gt]; lia).
  assert (Hq : 0 <= n / inodes_per_block) by (apply Z.div_pos; [lia | reflexivity]).
  rewrite read_block_ok; [reflexivity | exact Hinit |].
  rewrite u32_small by lia. apply block_in_bounds; [exact Hinit | lia | lia].
Qed.

(** X28. [fs_create] of a new name, and the file it creates.  The file system
    is loaded and writable; the root inode is stored below the data area and
    its blocks lie inside it; the inode bitmap is well formed, has the root
    inode marked used and a free inode; the inode that [alloc_bitmap_bit]
    hands out is stored below the data area too; the first block of the root
    directory has a free slot.  When the allocator hands out index 0, as it
    does after a format, which leaves bit 0 clear, [fs_create] returns
    [FS_ERROR_NO_SPACE] and only marks inode 0 used.  With any other index
    [fs_create] succeeds and the path names a regular file afterwards: an
    empty one of mode 0644 that belongs to the current uid; creating it
    again reports [FS_ERROR_FILE_EXISTS] and changes nothing. *)
Theorem fs_create_then_find (w : world) (now : Z) (path filename : list byte)
    (dir_inode : fs_inode_t) (bytes : list byte) (i : Z) :
  fs_loaded w ->
  parse_path path = (FS_SUCCESS, ROOT_INODE_NUM, filename) -> filename <> [] ->
  fs_ops_read_inode w ROOT_INODE_NUM = (FS_SUCCESS, dir_inode) ->
  i_file_type dir_inode = FS_FILE_TYPE_DIRECTORY ->
  data_area_apart w ROOT_INODE_NUM dir_inode ->
  word_at (i_direct_blocks dir_inode) 0 <> 0 ->
  disk_check_block_bounds (disk w) (to_int (word_at (i_direct_blocks dir_inode) 0)) = true ->
  find_free_entry (Z.to_nat max_entries) 0
    (stored_block (disk w) (to_int (word_at (i_direct_blocks dir_inode) 0))) = Some i ->
  find_in_entries (Z.to_nat max_entries) 0
    (stored_block (disk w) (to_int (word_at (i_direct_blocks dir_inode) 0))) filename = None ->
  find_file_in_directory w ROOT_INODE_NUM filename = 0 ->
  bitmap_wf (inode_bitmap (fs w)) bytes ->
  bm_free_count (inode_bitmap (fs w)) <> 0 ->
  bit_is_set bytes ROOT_INODE_NUM = true ->
  bm_total_bits (inode_bitmap (fs w)) = sb_total_inodes (superblock (fs w)) ->
  sb_inode_table_start (superblock (fs w))
    + fst (alloc_bitmap_bit (inode_bitmap (fs w))) / inodes_per_block
    < sb_data_blocks_start (superblock (fs w)) ->
  sb_data_blocks_start (superblock (fs w)) <= d_total_blocks (disk w) < 2 ^ 31 ->
  d_is_read_only (disk w) = false -> 0 <= now < 2 ^ 63 ->
  0 <= user_manager_get_current_uid w < 2 ^ 32 ->
  0 <= user_manager_get_current_gid w < 2 ^ 32 ->
  exists n bm1,
    alloc_bitmap_bit (inode_bitmap (fs w)) = (n, bm1) /\
    bit_is_set bytes n = false /\
    (n = 0 ->
     fs_create w now (Some path) = Some (FS_ERROR_NO_SPACE, set_inode_bitmap w bm1) /\
     bitmap_wf bm1 (set_bit bytes 0) /\
     bm_free_count bm1 = bm_free_count (inode_bitmap (fs w)) - 1) /\
    (n <> 0 ->
     exists inode w',
       fs_create w now (Some path) = Some (FS_SUCCESS, w') /\
       fs_loaded w' /\
       names_regular_file w' path n inode /\
       i_permissions inode = 420 /\ i_file_size inode = 0 /\
       i_owner_uid inode = user_manager_get_current_uid w /\
       i_owner_gid inode = user_manager_get_current_gid w /\
       sb_free_inodes (superblock (fs w')) = bm_free_count (inode_bitmap (fs w)) - 1 /\
       forall now', fs_create w' now' (Some path) = Some (FS_ERROR_FILE_EXISTS, w')).
Proof.
  intros Hloaded Hparse Hnonempty Hroot Htype Hlayout Hb0 Hbounds Hslot Hnone Hnew
         Hbm Hfree Hbit1 Htotal Htable Hdisk Hro Hnow Huid Hgid.
  destruct (parse_path_clean _ _ _ Hparse) as (Hclean & Hname).
  destruct (alloc_bitmap_bit_step _ bytes Hbm Hfree) as (n & Halloc & Hn & Hclear & Hr & Hbm1).
  eexists n, _. split; [exact Halloc |]. split; [exact Hclear |]. split.
  { intros ->. split; [| split; [exact Hbm1 | reflexivity]].
    unfold fs_create. rewrite (ensure_loaded_loaded _ Hloaded).
    cbn [negb Z.eqb FS_SUCCESS]. rewrite Hparse. cbn [negb Z.eqb FS_SUCCESS].
    replace (length filename =? 0)%nat with false
      by (symmetry; apply Nat.eqb_neq; destruct filename; [congruence | cbn; lia]).
    cbv zeta. rewrite Hnew. cbn [negb Z.eqb]. rewrite Halloc. reflexivity. }
  intros Hn0.
  assert (Hn1 : n <> ROOT_INODE_NUM) by (intros ->; congruence).
  pose proof Hlayout as (Hino & Hts & _ & Hdend & Hblocks).
  pose proof (wf_total _ _ Hbm) as Hbits.
  assert (Hinit : d_is_initialized (disk w) = true).
  { revert Hbounds. unfold disk_check_block_bounds.
    destruct (d_is_initialized (disk w)); [reflexivity |].
    rewrite andb_false_r. discriminate. }
  rewrite Halloc in Htable. cbn [fst] in Htable.
  assert (Hqn : 0 <= n / inodes_per_block) by (apply Z.div_pos; [lia | reflexivity]).
  pose proof (fs_ops_read_inode_wf _ _ _ Hroot) as Hwfdir.
  pose proof (inode_wf_ranges _ Hwfdir) as (_ & _ & Hu32).
  set (b0 := word_at (i_direct_blocks dir_inode) 0) in *.
  assert (Hb0r : sb_data_blocks_start (superblock (fs w)) <= b0 < 2 ^ 32).
  { unfold b0, word_at in *.
    destruct (nth_lookup_or_length (i_direct_blocks dir_inode) (Z.to_nat 0) 0) as [Hl | Hl].
    - pose proof (Forall_lookup_1 _ _ _ _ Hblocks Hl) as H1.
      pose proof (Forall_lookup_1 _ _ _ _ Hu32 Hl) as H2. cbn in H1, H2. lia.
    - rewrite nth_overflow in Hb0 by lia. congruence. }
  assert (Hb0n : to_int b0
                 <> to_int (u32 (sb_inode_table_start (superblock (fs w))
                                 + n / inodes_per_block))).
  { intros Heq. rewrite <- (u32_small b0) in Heq at 1 by lia.
    apply to_int_u32_inj in Heq; lia. }
  (* the call, up to the inode that is written *)
  unfold fs_create at 1. rewrite (ensure_loaded_loaded _ Hloaded).
  cbn [negb Z.eqb FS_SUCCESS]. rewrite Hparse. cbn [negb Z.eqb FS_SUCCESS].
  replace (length filename =? 0)%nat with false
    by (symmetry; apply Nat.eqb_neq; destruct filename; [congruence | cbn; lia]).
  cbv zeta. rewrite Hnew. cbn [negb Z.eqb]. rewrite Halloc.
  replace (n =? 0) with false by (symmetry; apply Z.eqb_neq; exact Hn0).
  match goal with
  | |- context [fs_ops_write_inode ?wa n ?ia] => set (new_inode := ia); set (w1 := wa)
  end.
  assert (Hwfnew : inode_wf new_inode).
  { unfold new_inode.
    change (user_manager_get_current_uid ?a) with (user_manager_get_current_uid w).
    change (user_manager_get_current_gid ?a) with (user_manager_get_current_gid w).
    unfold FS_FILE_TYPE_REGULAR. close_inode. }
  destruct (write_then_read_inode w1 n new_inode Hwfnew Hro) as (w2 & Hw2 & Hr2).
  { apply read_inode_in_table; try assumption; cbn [w1 disk fs superblock set_inode_bitmap];
      lia. }
  destruct (fs_ops_write_inode_frame _ _ _ _ Hw2) as (Hfs2 & Hgeo2 & Hframe2).
  rewrite Hw2. cbn [negb Z.eqb FS_SUCCESS].
  (* the entry of the directory *)
  assert (Hroot2 : fs_ops_read_inode w2 ROOT_INODE_NUM = (FS_SUCCESS, dir_inode)).
  { rewrite (fs_ops_write_inode_other w1 n ROOT_INODE_NUM new_inode w2 Hwfnew
               ltac:(lia) Hino Hn1 Hw2).
    exact Hroot. }
  assert (Hstored2 : stored_block (disk w2) (to_int b0) = stored_block (disk w) (to_int b0)).
  { apply stored_block_same. apply Hframe2. exact Hb0n. }
  destruct (add_file_first_block w2 now ROOT_INODE_NUM filename n i dir_inode)
    as (w3 & Hadd & Hfind3 & _ & Hfs3 & Hgeo3 & Hinodes3); try assumption.
  { unfold data_area_apart. rewrite Hfs2. exact Hlayout. }
  { destruct Hgeo2 as (_ & -> & _). exact Hro. }
  { rewrite (same_geometry_bounds _ _ _ Hgeo2). exact Hbounds. }
  { fold b0. rewrite Hstored2. exact Hslot. }
  { fold b0. rewrite Hstored2. exact Hnone. }
  { lia. }
  rewrite Hadd. cbn [negb Z.eqb FS_SUCCESS].
  match goal with
  | |- exists inode0 w0, Some (_, ?wf) = Some (_, w0) /\ _ => set (w' := wf)
  end.
  assert (Hfind' : find_file_in_directory w' ROOT_INODE_NUM filename = n).
  { rewrite <- Hfind3. apply find_file_same_inodes; reflexivity. }
  assert (Hread' : fs_ops_read_inode w' n = (FS_SUCCESS, new_inode)).
  { rewrite <- Hr2.
    rewrite <- (Hinodes3 n ltac:(lia) Hn1).
    - apply read_inode_same_block;
        [reflexivity | reflexivity | apply same_geometry_refl | reflexivity].
    - rewrite Hfs2. exact Hb0n. }
  assert (Hloaded' : fs_loaded w').
  { unfold fs_loaded, w'. cbn [fs superblock set_superblock set_sb_free sb_magic_number].
    rewrite Hfs3, Hfs2. exact Hloaded. }
  exists new_inode, w'.
  split; [reflexivity |]. split; [exact Hloaded' |].
  split.
  { exists filename. repeat split; try assumption. }
  split; [reflexivity |]. split; [reflexivity |].
  split; [reflexivity |]. split; [reflexivity |].
  split.
  { unfold w'. cbn [fs superblock set_superblock set_sb_free sb_free_inodes].
    rewrite Hfs3, Hfs2. reflexivity. }
  intros now'. unfold fs_create. rewrite (ensure_loaded_loaded _ Hloaded').
  cbn [negb Z.eqb FS_SUCCESS]. rewrite Hparse. cbn [negb Z.eqb FS_SUCCESS].
  replace (length filename =? 0)%nat with false
    by (symmetry; apply Nat.eqb_neq; destruct filename; [congruence | cbn; lia]).
  cbv zeta. rewrite Hfind'.
  replace (n =? 0) with false by (symmetry; apply Z.eqb_neq; exact Hn0).
  reflexivity.
Qed.

(* ===================================================================== *)
(** ** Paths *)
(* ===================================================================== *)

Lemma c_str_app_clean name rest :
  c_str name = name -> c_str (name ++ Byte.x00 :: rest) = name.
Proof. intros H. rewrite <- H at 1. rewrite c_str_app_nul. exact H. Qed.

Lemma c_str_cons_clean b name :
  c_str (b :: name) = b :: name -> Byte.eqb b Byte.x00 = false /\ c_str name = name.
Proof.
  cbn [c_str]. destruct (Byte.eqb b Byte.x00); [discriminate |].
  intros [= H]. auto.
Qed.

Lemma c_str_take_clean name : forall k, c_str name = name -> c_str (firstn k name) = firstn k name.
Proof.
  induction name as [| b name IH]; intros [| k] H; try reflexivity.
  destruct (c_str_cons_clean b name H) as (Hb & Hn).
  cbn [firstn c_str]. rewrite Hb, (IH k Hn). reflexivity.
Qed.

Lemma c_str_app_slash name tail :
  c_str name = name -> c_str (name ++ slash :: tail) = name ++ slash :: c_str tail.
Proof.
  induction name as [| b name IH]; intros H.
  - reflexivity.
  - destruct (c_str_cons_clean b name H) as (Hb & Hn).
    cbn [app c_str]. rewrite Hb, (IH Hn). reflexivity.
Qed.

(** The name that is stored for a string without NUL: its first 63 bytes. *)
Lemma c_str_strncpy_clean name rest :
  c_str name = name ->
  c_str (strncpy (name ++ Byte.x00 :: rest) (Z.to_nat (MAX_FILENAME_LEN - 1)))
  = firstn 63 name.
Proof.
  intros H. unfold strncpy, MAX_FILENAME_LEN. change (Z.to_nat (64 - 1)) with 63%nat.
  rewrite (c_str_app_clean _ _ H).
  destruct (Nat.le_gt_cases 63 (length name)) as [Hlong | Hshort].
  - rewrite firstn_app. replace (63 - length name)%nat with 0%nat by lia.
    cbn [firstn]. rewrite app_nil_r. apply c_str_take_clean. exact H.
  - rewrite firstn_app, (firstn_all2 name) by lia.
    destruct (63 - length name)%nat as [| k] eqn:Hk; [lia |].
    replace 63%nat with (S 62) at 1 by reflexivity. rewrite zeros_S. cbn [firstn].
    rewrite (c_str_app_clean _ _ H). reflexivity.
Qed.

Lemma byte_eqb_flip (a b : byte) : Byte.eqb a b = false -> Byte.eqb b a = false.
Proof.
  intros H. destruct (Byte.eqb b a) eqn:E; [| reflexivity].
  apply Byte.byte_dec_bl in E. subst b.
  rewrite (Byte.byte_dec_lb eq_refl) in H. discriminate.
Qed.

Lemma existsb_app_found (f : byte -> bool) l1 x l2 :
  f x = true -> existsb f (l1 ++ x :: l2) = true.
Proof. intros H. rewrite existsb_app. cbn [existsb]. rewrite H. apply orb_true_r. Qed.

(** X29. [parse_path] takes one name of the root directory.  For a name without
    a slash, the path with and without a leading slash gives the first 63
    bytes of the name; so names that agree on 63 bytes are one name.  A path
    with a slash after its first component is refused with
    [FS_ERROR_INVALID_PARAM]. *)
Theorem parse_path_takes_one_name (name rest : list byte) :
  name <> [] -> c_str name = name -> existsb (Byte.eqb slash) name = false ->
  parse_path (name ++ Byte.x00 :: rest) = (FS_SUCCESS, ROOT_INODE_NUM, firstn 63 name) /\
  parse_path (slash :: name ++ Byte.x00 :: rest)
  = (FS_SUCCESS, ROOT_INODE_NUM, firstn 63 name) /\
  (forall name', c_str name' = name' -> firstn 63 name' = firstn 63 name ->
     existsb (Byte.eqb slash) name' = false ->
     parse_path (name' ++ Byte.x00 :: rest) = parse_path (name ++ Byte.x00 :: rest)) /\
  (forall tail,
     parse_path (name ++ slash :: tail) = (FS_ERROR_INVALID_PARAM, ROOT_INODE_NUM, [])) /\
  (forall tail,
     parse_path (slash :: name ++ slash :: tail)
     = (FS_ERROR_INVALID_PARAM, ROOT_INODE_NUM, [])).
Proof.
  intros Hne Hclean Hslash.
  assert (Hplain : forall nm, nm <> [] -> c_str nm = nm ->
            existsb (Byte.eqb slash) nm = false ->
            parse_path (nm ++ Byte.x00 :: rest) = (FS_SUCCESS, ROOT_INODE_NUM, firstn 63 nm)).
  { intros nm Hn Hc Hs. unfold parse_path.
    pose proof (c_str_strncpy_clean nm rest Hc) as Hcut.
    rewrite (c_str_app_clean _ _ Hc).
    destruct nm as [| b nm']; [congruence |].
    cbn [existsb] in Hs. apply orb_false_iff in Hs. destruct Hs as (Hb & Hs').
    rewrite (byte_eqb_flip _ _ Hb).
    unfold strchr_found.
    destruct (c_str_cons_clean b nm' Hc) as (Hb0 & Hc').
    replace (c_str (b :: nm')) with (b :: nm') by (symmetry; exact Hc).
    cbn [existsb]. rewrite Hb, Hs'. cbn [orb].
    replace (strncpy (b :: nm') (Z.to_nat (MAX_FILENAME_LEN - 1)))
      with (strncpy ((b :: nm') ++ Byte.x00 :: rest) (Z.to_nat (MAX_FILENAME_LEN - 1))).
    - rewrite Hcut. reflexivity.
    - unfold strncpy. rewrite (c_str_app_clean _ _ Hc), Hc. reflexivity. }
  split; [apply Hplain; assumption |].
  split.
  { unfold parse_path. cbn [c_str].
    change (Byte.eqb slash Byte.x00) with false. cbv iota.
    rewrite (c_str_app_clean _ _ Hclean).
    change (Byte.eqb slash slash) with true. cbv iota.
    destruct name as [| b name']; [congruence |].
    unfold strchr_found. rewrite Hclean, Hslash.
    replace (strncpy (b :: name') (Z.to_nat (MAX_FILENAME_LEN - 1)))
      with (strncpy ((b :: name') ++ Byte.x00 :: rest) (Z.to_nat (MAX_FILENAME_LEN - 1))).
    - rewrite (c_str_strncpy_clean _ rest Hclean). reflexivity.
    - unfold strncpy. rewrite (c_str_app_clean _ _ Hclean), Hclean. reflexivity. }
  split.
  { intros name' Hc' Hsame Hs'.
    assert (Hne' : name' <> []).
    { intros ->. destruct name; [congruence | discriminate Hsame]. }
    rewrite !Hplain by assumption. rewrite Hsame. reflexivity. }
  split.
  - intros tail. unfold parse_path. rewrite (c_str_app_slash _ _ Hclean).
    destruct name as [| b name']; [congruence |].
    cbn [existsb] in Hslash. apply orb_false_iff in Hslash. destruct Hslash as (Hb & Hs').
    cbn [app].
    rewrite (byte_eqb_flip _ _ Hb).
    unfold strchr_found.
    destruct (c_str_cons_clean b name' Hclean) as (Hb0 & Hc').
    replace (c_str (b :: name' ++ slash :: c_str tail))
      with (b :: name' ++ slash :: c_str tail).
    2:{ symmetry. change (b :: name' ++ slash :: c_str tail)
          with ((b :: name') ++ slash :: c_str tail).
        rewrite (c_str_app_slash _ _ Hclean), c_str_idem. reflexivity. }
    change (b :: name' ++ slash :: c_str tail) with ((b :: name') ++ slash :: c_str tail).
    rewrite existsb_app_found by reflexivity. reflexivity.
  - intros tail. unfold parse_path. cbn [c_str].
    change (Byte.eqb slash Byte.x00) with false. cbv iota.
    change (Byte.eqb slash slash) with true. cbv iota.
    rewrite (c_str_app_slash _ _ Hclean).
    destruct name as [| b name']; [congruence |].
    cbn [app]. unfold strchr_found.
    replace (c_str (b :: name' ++ slash :: c_str tail))
      with (b :: name' ++ slash :: c_str tail).
    2:{ symmetry. change (b :: name' ++ slash :: c_str tail)
          with ((b :: name') ++ slash :: c_str tail).
        rewrite (c_str_app_slash _ _ Hclean), c_str_idem. reflexivity. }
    change (b :: name' ++ slash :: c_str tail) with ((b :: name') ++ slash :: c_str tail).
    rewrite existsb_app_found by reflexivity. reflexivity.
Qed.

(* ===================================================================== *)
(** ** The size of the inode table *)
(* ===================================================================== *)

(** X30. [fs_ops_init_superblock] reserves the blocks that 1024 inodes fill when
    packed, while an inode is addressed with a whole number of inodes per
    block.  In a file system with this layout, inode 888 and the ones after it
    are stored in blocks of the data area: a successful [fs_ops_write_inode]
    of such an inode replaces 148 bytes of a block at or after
    [data_blocks_start]. *)
Theorem inode_table_runs_into_the_data_area
    (w w' : world) (n total now : Z) (inode : fs_inode_t) :
  sb_inode_table_start (superblock (fs w))
  = sb_inode_table_start (fs_ops_init_superblock total now) ->
  sb_data_blocks_start (superblock (fs w))
  = sb_data_blocks_start (fs_ops_init_superblock total now) ->
  888 <= n < 2 ^ 31 ->
  fs_ops_write_inode w n inode = (FS_SUCCESS, w') ->
  exists b,
    b = sb_inode_table_start (superblock (fs w)) + n / inodes_per_block /\
    sb_data_blocks_start (superblock (fs w)) <= b /\
    d_blocks (disk w') !! b
    = Some (memcpy (stored_block (disk w) b)
              (Z.to_nat (n mod inodes_per_block * sizeof_fs_inode_t))
              (encode_inode inode)).
Proof.
  intros Hstart Hdata Hn Hwrite.
  change (sb_inode_table_start (fs_ops_init_superblock total now)) with 8 in Hstart.
  change (sb_data_blocks_start (fs_ops_init_superblock total now)) with 156 in Hdata.
  assert (Hq : 148 <= n / inodes_per_block < 2 ^ 30).
  { change inodes_per_block with 6. split.
    - apply Z.div_le_lower_bound; lia.
    - apply Z.div_lt_upper_bound; lia. }
  assert (Hr : 0 <= n mod inodes_per_block * sizeof_fs_inode_t < 2 ^ 32).
  { change inodes_per_block with 6. unfold sizeof_fs_inode_t.
    pose proof (Z.mod_pos_bound n 6 ltac:(lia)). lia. }
  exists (sb_inode_table_start (superblock (fs w)) + n / inodes_per_block).
  split; [reflexivity |]. split; [lia |].
  revert Hwrite. unfold fs_ops_write_inode.
  destruct ((n =? 0) || _); [wrong_code |].
  rewrite (u32_small (_ + _)) by lia.
  rewrite (u32_small (_ * _)) by lia.
  destruct (read_block _ _ _) as [r block] eqn:Hread.
  apply read_block_inv in Hread as [(-> & _ & _ & ->) | (Hneg & _)].
  - change (negb (DISK_SUCCESS =? DISK_SUCCESS)) with false. cbv iota.
    destruct (write_block _ _ _) as [r' d'] eqn:Hw.
    apply write_block_inv in Hw as [(-> & _ & _ & _ & Hblocks & _) | (Hneg & ->)].
    + change (negb (DISK_SUCCESS =? DISK_SUCCESS)) with false. cbv iota.
      intros [= <-]. cbn [disk set_disk]. rewrite Hblocks.
      rewrite to_int_small by lia. apply lookup_insert_eq.
    + destruct (negb (r' =? DISK_SUCCESS)) eqn:E; [wrong_code |].
      apply negb_false_iff, Z.eqb_eq in E. codes. lia.
  - destruct (negb (r =? DISK_SUCCESS)) eqn:E; [wrong_code |].
    apply negb_false_iff, Z.eqb_eq in E. codes. lia.
Qed.

(* ===================================================================== *)
(** ** The bytes that [fs_write] has written *)
(* ===================================================================== *)

Lemma get_data_block_lookup inode j :
  inode_wf inode -> 0 <= j < DIRECT_BLOCKS ->
  i_direct_blocks inode !! Z.to_nat j = Some (file_ops_get_data_block inode j).
Proof.
  intros (Hlen & _) Hj. unfold file_ops_get_data_block, word_at.
  replace (j <? DIRECT_BLOCKS) with true by (symmetry; apply Z.ltb_lt; lia).
  destruct (nth_lookup_or_length (i_direct_blocks inode) (Z.to_nat j) 0) as [H | H];
    [exact H | unfold DIRECT_BLOCKS in Hj; lia].
Qed.

Lemma get_data_block_direct inode j :
  file_ops_get_data_block inode j <> 0 -> j < DIRECT_BLOCKS.
Proof.
  unfold file_ops_get_data_block. destruct (j <? DIRECT_BLOCKS) eqn:H; boolp; [lia | congruence].
Qed.

(** The block that a round of the loop writes to.  Either there is none:
    the index is not mapped and is beyond the direct blocks, or no block is
    free.  Or there is one: a block of the data area, mapped at the index
    from then on; the other pointers are as before and the blocks are still
    the file's own. *)
Lemma chosen_block_step w inode bytes idx :
  bitmap_wf (block_bitmap (fs w)) bytes -> inode_wf inode ->
  file_blocks_owned w inode bytes -> data_area_on_disk w -> 0 <= idx ->
  (chosen_block w inode idx = Some (0, w, inode) /\
   file_ops_get_data_block inode idx = 0 /\
   (bm_free_count (block_bitmap (fs w)) = 0 \/ DIRECT_BLOCKS <= idx)) \/
  (exists b wa inode_a bytes_a,
     chosen_block w inode idx = Some (b, wa, inode_a) /\ b <> 0 /\
     disk wa = disk w /\ superblock (fs wa) = superblock (fs w) /\
     bm_total_bits (block_bitmap (fs wa)) = bm_total_bits (block_bitmap (fs w)) /\
     bitmap_wf (block_bitmap (fs wa)) bytes_a /\ inode_wf inode_a /\
     file_blocks_owned wa inode_a bytes_a /\
     file_ops_get_data_block inode_a idx = b /\
     (forall j, file_ops_get_data_block inode j <> 0 ->
                file_ops_get_data_block inode_a j = file_ops_get_data_block inode j) /\
     sb_data_blocks_start (superblock (fs w)) <= b
       < sb_data_blocks_start (superblock (fs w)) + bm_total_bits (block_bitmap (fs w))).
Proof.
  intros Hbm Hwf Hown Hdisk Hidx.
  pose proof Hown as (Hmarked & Hnodup).
  pose proof Hdisk as (Hds & Hfit & Hinit & Hro).
  unfold chosen_block.
  destruct (file_ops_get_data_block inode idx =? 0) eqn:Hget; boolp.
  2:{ right. exists (file_ops_get_data_block inode idx), w, inode, bytes.
      pose proof (get_data_block_direct inode idx Hget) as Hdirect.
      pose proof (get_data_block_lookup inode idx Hwf ltac:(lia)) as Hl.
      destruct (Hmarked _ _ Hl Hget) as (Hrange & _).
      split; [reflexivity |]. split; [exact Hget |].
      split; [reflexivity |]. split; [reflexivity |]. split; [reflexivity |].
      split; [exact Hbm |]. split; [exact Hwf |]. split; [exact Hown |].
      split; [reflexivity |]. split; [reflexivity | exact Hrange]. }
  unfold file_ops_allocate_data_block.
  destruct (idx <? DIRECT_BLOCKS) eqn:Hdirect; boolp;
    [| left; split; [reflexivity | split; [exact Hget | right; lia]]].
  assert (Hword : word_at (i_direct_blocks inode) idx = 0).
  { revert Hget. unfold file_ops_get_data_block.
    replace (idx <? DIRECT_BLOCKS) with true by (symmetry; apply Z.ltb_lt; lia). auto. }
  rewrite Hword. cbn [Z.eqb].
  destruct (Z.eq_dec (bm_free_count (block_bitmap (fs w))) 0) as [Hfree | Hfree].
  { left. unfold alloc_data_block_from_bitmap. rewrite Hfree. cbn [Z.eqb Z.ltb Z.compare].
    split; [reflexivity | split; [exact Hget | left; reflexivity]]. }
  right.
  destruct (alloc_scan_first_free _ bytes Hbm Hfree) as (k & (Hk & Hclear & _) & Hscan).
  pose proof Hbm as [Harr Ht Hlen Hcount Hlast].
  set (bm := block_bitmap (fs w)) in *.
  set (ds := sb_data_blocks_start (superblock (fs w))) in *.
  set (bit := (bm_last_allocated bm + k) mod bm_total_bits bm) in *.
  assert (Hbit : 0 <= bit < bm_total_bits bm) by (apply Z.mod_pos_bound; lia).
  destruct (set_clear_bit_counts bm bytes bit Hbm Hbit Hclear) as (Hset & Hzero & Hrange).
  pose proof (bit_in_array bm bytes bit Hbm Hbit) as Hin.
  unfold alloc_data_block_from_bitmap. fold bm. fold ds.
  replace (bm_free_count bm =? 0) with false by (symmetry; apply Z.eqb_neq; exact Hfree).
  replace (bm_total_bits bm <=? 0) with false by (symmetry; apply Z.leb_gt; lia).
  rewrite Harr, Hscan. rewrite (u32_small (bit + ds)) by lia.
  rewrite (u32_small (bm_free_count bm - 1)) by lia.
  replace (0 <? bit + ds) with true by (symmetry; apply Z.ltb_lt; lia).
  pose proof (inode_wf_ranges inode Hwf) as (_ & _ & Hu32).
  pose proof Hwf as (Hlen12 & _).
  assert (Hnat : (Z.to_nat idx < length (i_direct_blocks inode))%nat)
    by (unfold DIRECT_BLOCKS in Hdirect; lia).
  eexists (bit + ds), _, _, (set_bit bytes bit).
  split; [reflexivity |]. split; [lia |]. simpl_world.
  split; [reflexivity |]. split; [reflexivity |].
  cbn [bm_total_bits bm_bitmap bm_free_count bm_last_allocated].
  split; [reflexivity |].
  split.
  { constructor; cbn;
      [reflexivity | lia | rewrite length_set_bit; exact Hlen | symmetry; exact Hzero | lia]. }
  split.
  { apply inode_wf_blocks; [exact Hwf | rewrite length_insert; exact Hlen12 |].
    unfold u32_list. apply Forall_insert; [exact Hu32 | lia]. }
  split.
  { unfold file_blocks_owned. simpl_world.
    cbn [bm_total_bits bm_bitmap bm_free_count bm_last_allocated
         i_direct_blocks set_i_direct_blocks]. fold ds. split.
    - intros j b Hj Hb.
      destruct (Nat.eq_dec j (Z.to_nat idx)) as [-> | Hne].
      + rewrite list_lookup_insert_eq in Hj by exact Hnat. injection Hj as <-.
        split; [lia |]. replace (bit + ds - ds) with bit by lia. exact Hset.
      + rewrite list_lookup_insert_ne in Hj by congruence.
        destruct (Hmarked j b Hj Hb) as (Hr & Hs). split; [exact Hr |].
        rewrite bit_is_set_set_bit by lia. rewrite Hs. apply orb_true_r.
    - intros i j b Hi Hj Hb.
      assert (Hold : forall m, m <> Z.to_nat idx -> i_direct_blocks inode !! m = Some b ->
                               b <> bit + ds).
      { intros m _ Hm ->. destruct (Hmarked m _ Hm Hb) as (_ & Hs).
        replace (bit + ds - ds) with bit in Hs by lia. congruence. }
      destruct (Nat.eq_dec i (Z.to_nat idx)) as [-> | Hni];
        destruct (Nat.eq_dec j (Z.to_nat idx)) as [-> | Hnj]; [reflexivity | | |].
      + rewrite list_lookup_insert_eq in Hi by exact Hnat. injection Hi as <-.
        rewrite list_lookup_insert_ne in Hj by congruence.
        exfalso. exact (Hold j Hnj Hj eq_refl).
      + rewrite list_lookup_insert_eq in Hj by exact Hnat. injection Hj as <-.
        rewrite list_lookup_insert_ne in Hi by congruence.
        exfalso. exact (Hold i Hni Hi eq_refl).
      + rewrite list_lookup_insert_ne in Hi, Hj by congruence.
        exact (Hnodup i j b Hi Hj Hb). }
  split.
  { unfold file_ops_get_data_block.
    replace (idx <? DIRECT_BLOCKS) with true by (symmetry; apply Z.ltb_lt; lia).
    cbn [i_direct_blocks set_i_direct_blocks]. unfold word_at.
    apply nth_lookup_Some with (d := 0). apply list_lookup_insert_eq. exact Hnat. }
  split; [| lia].
  intros j Hj. unfold file_ops_get_data_block in *.
  cbn [i_direct_blocks set_i_direct_blocks].
  destruct (j <? DIRECT_BLOCKS) eqn:Hjd; [| congruence].
  unfold word_at in *. rewrite !nth_lookup.
  destruct (Nat.eq_dec (Z.to_nat j) (Z.to_nat idx)) as [Heq | Hne].
  - rewrite Heq in Hj. congruence.
  - rewrite list_lookup_insert_ne by congruence. reflexivity.
Qed.

Lemma slice_app (p : list byte) a n1 n2 :
  slice p a n1 ++ slice p (a + n1) n2 = slice p a (n1 + n2).
Proof.
  unfold slice. rewrite <- take_take_drop. f_equal. f_equal.
  rewrite drop_drop. reflexivity.
Qed.

Lemma file_bytes_ext d d' inode inode' start n :
  (forall off, start <= off < start + n ->
     file_ops_get_data_block inode' (block_index_of off)
     = file_ops_get_data_block inode (block_index_of off) /\
     d_blocks d' !! to_int (file_ops_get_data_block inode (block_index_of off))
     = d_blocks d !! to_int (file_ops_get_data_block inode (block_index_of off))) ->
  file_bytes d' inode' start n = file_bytes d inode start n.
Proof.
  intros Hsame. unfold file_bytes. apply map_ext_in. intros k Hk.
  apply in_seq in Hk. unfold file_byte.
  destruct (Hsame (start + Z.of_nat k) ltac:(lia)) as (-> & Hblock).
  rewrite (stored_block_same _ _ _ Hblock). reflexivity.
Qed.

Section WriteLoopBytes.
Variables (data : list byte) (size start : Z).
Hypothesis Hstart : 0 <= start.
Hypothesis Hsize : 0 < size < 2 ^ 31.
Hypothesis Hend : start + size < 2 ^ 64.
Hypothesis Hdata : (Z.to_nat size <= length data)%nat.

(** What the loop has done when it is left, on a file whose blocks are its
    own: the bytes it has counted are on the disk, in blocks that the inode
    maps; no other block of the disk has changed; and when it has counted
    fewer than [size] bytes, the next block is not mapped and could not be
    allocated. *)
Lemma write_loop_bytes fuel : forall w inode bytes done,
  bitmap_wf (block_bitmap (fs w)) bytes -> inode_wf inode ->
  file_blocks_owned w inode bytes -> data_area_on_disk w ->
  0 <= done <= size -> size - done < Z.of_nat fuel ->
  exists w' inode' bytes' n,
    write_loop fuel w inode data size (start + done) (start + size) done
    = Some (w', inode', n) /\
    done <= n <= size /\
    (n = done -> w' = w /\ inode' = inode) /\
    bitmap_wf (block_bitmap (fs w')) bytes' /\ inode_wf inode' /\
    file_blocks_owned w' inode' bytes' /\ data_area_on_disk w' /\
    (forall j, file_ops_get_data_block inode j <> 0 ->
               file_ops_get_data_block inode' j = file_ops_get_data_block inode j) /\
    (forall off, start + done <= off < start + n ->
                 file_ops_get_data_block inode' (block_index_of off) <> 0) /\
    (forall b, (forall off, start + done <= off < start + n ->
                  file_ops_get_data_block inode' (block_index_of off) <> b) ->
               d_blocks (disk w') !! b = d_blocks (disk w) !! b) /\
    file_bytes (disk w') inode' (start + done) (n - done)
    = slice data (Z.to_nat done) (Z.to_nat (n - done)) /\
    (n < size ->
     file_ops_get_data_block inode' (block_index_of (start + n)) = 0 /\
     (bm_free_count (block_bitmap (fs w')) = 0 \/
      DIRECT_BLOCKS <= block_index_of (start + n))).
Proof.
  induction fuel as [| fuel IH]; intros w inode bytes done Hbm Hwf Hown Hdisk Hdone Hfuel;
    [lia |].
  (* leaving the loop in this round *)
  assert (Hleave :
    (done < size ->
     file_ops_get_data_block inode (block_index_of (start + done)) = 0 /\
     (bm_free_count (block_bitmap (fs w)) = 0 \/
      DIRECT_BLOCKS <= block_index_of (start + done))) ->
    exists w' inode' bytes' n,
      Some (w, inode, done) = Some (w', inode', n) /\
      done <= n <= size /\
      (n = done -> w' = w /\ inode' = inode) /\
      bitmap_wf (block_bitmap (fs w')) bytes' /\ inode_wf inode' /\
      file_blocks_owned w' inode' bytes' /\ data_area_on_disk w' /\
      (forall j, file_ops_get_data_block inode j <> 0 ->
                 file_ops_get_data_block inode' j = file_ops_get_data_block inode j) /\
      (forall off, start + done <= off < start + n ->
                   file_ops_get_data_block inode' (block_index_of off) <> 0) /\
      (forall b, (forall off, start + done <= off < start + n ->
                    file_ops_get_data_block inode' (block_index_of off) <> b) ->
                 d_blocks (disk w') !! b = d_blocks (disk w) !! b) /\
      file_bytes (disk w') inode' (start + done) (n - done)
      = slice data (Z.to_nat done) (Z.to_nat (n - done)) /\
      (n < size ->
       file_ops_get_data_block inode' (block_index_of (start + n)) = 0 /\
       (bm_free_count (block_bitmap (fs w')) = 0 \/
        DIRECT_BLOCKS <= block_index_of (start + n)))).
  { intros Hwhy. exists w, inode, bytes, done.
    split; [reflexivity |]. split; [lia |]. split; [auto |].
    split; [exact Hbm |]. split; [exact Hwf |].
    split; [exact Hown |]. split; [exact Hdisk |].
    split; [auto |]. split; [intros off Hoff; lia |].
    split; [reflexivity |]. split; [| exact Hwhy].
    rewrite Z.sub_diag. reflexivity. }
  cbn [write_loop].
  destruct (start + done <? start + size) eqn:Hlt; boolp; [| apply Hleave; intros; lia].
  set (idx := block_index_of (start + done)) in *.
  fold (chosen_block w inode idx).
  destruct (chosen_block_step w inode bytes idx Hbm Hwf Hown Hdisk (block_index_nonneg _))
    as [(-> & Hget & Hwhy) | (b & wa & inode_a & bytes_a & -> & Hb & Hda & Hsa & Hta & Hbma
                              & Hwfa & Howna & Hgeta & Hkept & Hrange)].
  { cbn [Z.eqb]. apply Hleave. intros _. split; assumption. }
  replace (b =? 0) with false by (symmetry; apply Z.eqb_neq; exact Hb).
  pose proof Hdisk as (Hds & Hfit & Hinit & Hro).
  assert (Hbounds : disk_check_block_bounds (disk wa) (to_int b) = true).
  { rewrite Hda. apply block_in_bounds; [exact Hinit | lia | lia]. }
  rewrite read_block_ok by (assumption || (rewrite Hda; assumption)).
  change (negb (DISK_SUCCESS =? DISK_SUCCESS)) with false. cbv iota.
  pose proof (chunk_size (start + done) size done ltac:(lia) ltac:(lia) ltac:(lia)) as Hc.
  cbn zeta in Hc.
  pose proof (Z.mod_pos_bound (start + done) 1024 ltac:(lia)) as Hmb.
  assert (Hwhole :
            Z.min (u32 (BLOCK_SIZE - block_offset_of (start + done))) (u32 (size - done))
            < size - done ->
            Z.min (u32 (BLOCK_SIZE - block_offset_of (start + done))) (u32 (size - done))
            = BLOCK_SIZE - (start + done) mod BLOCK_SIZE).
  { rewrite block_offset_small by lia. unfold BLOCK_SIZE.
    rewrite !u32_small by lia. lia. }
  set (c := Z.min (u32 (BLOCK_SIZE - block_offset_of (start + done)))
                  (u32 (size - done))) in *.
  set (block1 := memcpy _ _ _).
  destruct (write_block_ok (disk wa) b block1) as (d1 & Hw1 & Hblocks1 & Hgeo1);
    [rewrite Hda; exact Hinit | rewrite Hda; exact Hro | exact Hbounds |].
  rewrite Hw1. change (negb (DISK_SUCCESS =? DISK_SUCCESS)) with false. cbv iota.
  rewrite (u64_small (start + done + c)) by lia.
  rewrite (to_int_small (done + c)) by lia.
  replace (start + done + c) with (start + (done + c)) by lia.
  rewrite (to_int_small b) in Hblocks1 by lia.
  assert (Hdisk1 : data_area_on_disk (set_disk wa d1)).
  { unfold data_area_on_disk. simpl_world. rewrite Hsa, Hta.
    destruct Hgeo1 as (Hi1 & Hro1 & Ht1 & _). rewrite Hi1, Hro1, Ht1, Hda. exact Hdisk. }
  destruct (IH (set_disk wa d1) inode_a bytes_a (done + c) Hbma Hwfa Howna Hdisk1
               ltac:(lia) ltac:(lia))
    as (w' & inode' & bytes' & n & Hloop & Hn & _ & Hbm' & Hwf' & Hown' & Hdisk' & Hkept'
        & Hmapped' & Hframe' & Hbytes' & Hstop').
  simpl_world.
  exists w', inode', bytes', n. split; [exact Hloop |]. split; [lia |].
  split; [intros; lia |].
  split; [exact Hbm' |]. split; [exact Hwf' |]. split; [exact Hown' |].
  split; [exact Hdisk' |].
  assert (Hidx' : file_ops_get_data_block inode' idx = b).
  { rewrite Hkept' by congruence. exact Hgeta. }
  (* the blocks of the later rounds are other blocks *)
  assert (Hother : forall off, start + (done + c) <= off < start + n ->
                               file_ops_get_data_block inode' (block_index_of off) <> b).
  { intros off Hoff Heq.
    assert (Hfull : c = BLOCK_SIZE - (start + done) mod BLOCK_SIZE)
      by (apply Hwhole; lia).
    assert (Hne : block_index_of off <> idx).
    { apply other_block_index; [lia | | lia].
      unfold BLOCK_SIZE in *.
      pose proof (Z.div_mod (start + done) 1024 ltac:(lia)) as Hdm.
      assert (Hq : (start + done) / 1024 + 1 <= off / 1024)
        by (apply Z.div_le_lower_bound; lia).
      lia. }
    pose proof (block_index_nonneg off) as Hnn.
    pose proof (block_index_nonneg (start + done)) as Hnn0. fold idx in Hnn0.
    pose proof (get_data_block_direct inode' (block_index_of off) ltac:(congruence)) as Hd1.
    pose proof (get_data_block_direct inode' idx ltac:(congruence)) as Hd2.
    pose proof (get_data_block_lookup inode' (block_index_of off) Hwf' ltac:(lia)) as Hl1.
    pose proof (get_data_block_lookup inode' idx Hwf' ltac:(lia)) as Hl2.
    rewrite Heq in Hl1. rewrite Hidx' in Hl2.
    pose proof (proj2 Hown' _ _ _ Hl1 Hl2 Hb). lia. }
  split.
  { intros j Hj. rewrite Hkept' by (rewrite Hkept by exact Hj; exact Hj).
    apply Hkept. exact Hj. }
  split.
  { intros off Hoff.
    destruct (Z_lt_le_dec off (start + (done + c))) as [Hin | Hout].
    - rewrite (same_block_index (start + done) off) by lia. fold idx. congruence.
    - apply Hmapped'. lia. }
  split.
  { intros b' Hb'. rewrite Hframe' by (intros off Hoff; apply Hb'; lia).
    rewrite Hblocks1, Hda. apply lookup_insert_ne.
    intros <-. apply (Hb' (start + done) ltac:(lia)). exact Hidx'. }
  split; [| exact Hstop'].
  replace (n - done) with (c + (n - (done + c))) by lia.
  rewrite file_bytes_app by lia.
  replace (start + done + c) with (start + (done + c)) by lia.
  rewrite Hbytes'.
  rewrite (Z2Nat.inj_add c (n - (done + c))), (Z2Nat.inj_add done c) by lia.
  rewrite <- slice_app. f_equal.
  rewrite file_bytes_chunk by lia. fold idx. rewrite Hidx'.
  rewrite to_int_small by lia.
  assert (Hstored : stored_block (disk w') b = block1).
  { rewrite (stored_block_same d1 (disk w') b) by (apply Hframe'; exact Hother).
    apply (stored_block_written (disk wa)); [exact Hblocks1 |].
    unfold block1. rewrite length_memcpy; [apply stored_block_length |].
    rewrite stored_block_length, length_slice by lia.
    rewrite block_offset_small by lia. unfold BLOCK_SIZE in *. lia. }
  rewrite Hstored. unfold block1.
  rewrite <- (length_slice data (Z.to_nat done) (Z.to_nat c)) at 2 by lia.
  apply slice_memcpy_same.
  rewrite stored_block_length, length_slice by lia.
  rewrite block_offset_small by lia. unfold BLOCK_SIZE in *. lia.
Qed.
End WriteLoopBytes.

Lemma get_data_block_same_blocks inode inode' j :
  i_direct_blocks inode' = i_direct_blocks inode ->
  file_ops_get_data_block inode' j = file_ops_get_data_block inode j.
Proof. intros H. unfold file_ops_get_data_block. rewrite H. reflexivity. Qed.

(** A file without blocks. *)
Lemma file_blocks_owned_none w inode bytes :
  i_direct_blocks inode = repeat 0 12 -> file_blocks_owned w inode bytes.
Proof.
  intros Hnone. unfold file_blocks_owned. rewrite Hnone.
  split.
  - intros j b Hj Hb.
    apply list_elem_of_lookup_2, list_elem_of_In, repeat_spec in Hj. congruence.
  - intros i j b Hi Hb Hnz.
    apply list_elem_of_lookup_2, list_elem_of_In, repeat_spec in Hi. congruence.
Qed.

(** C6. On an open regular file that the user may write, [fs_write] returns
    a count of bytes, never an error code: the count [n] is not negative and
    at most [size], and the cursor advances by [n].  When the range to be
    written has more blocks that are not mapped than the block bitmap has
    free bits (none, when the bitmap is exhausted), an allocation fails on
    the way and [n] is less than [size].  The count is the count of the
    bytes written.  For [data] of at least [size] bytes, a block bitmap that
    satisfies its invariant, a file whose blocks are its own, and a data
    area that lies on a writable disk and apart from the block of the
    inode: the first [n] bytes of [data] are the bytes of the file from the
    old cursor on afterwards, in blocks that the inode on the disk maps (for
    [n = 0] nothing has changed); and when [n] is less than [size], the
    block of the next byte is not mapped, because no block is free or the
    direct blocks have run out. *)
Theorem fs_write_stops_when_blocks_run_out (w : world) (now fd : Z)
    (data : list byte) (size : Z) (inode : fs_inode_t) :
  open_regular w fd inode FS_PERM_OWNER_WRITE ->
  0 < size -> int_range size ->
  0 <= cursor w fd < 2 ^ 63 ->
  bm_bitmap (block_bitmap (fs w)) <> None ->
  0 <= bm_free_count (block_bitmap (fs w)) < 2 ^ 32 ->
  exists n w',
    fs_write w now fd (Some data) size = Some (n, w') /\
    0 <= n <= size /\
    cursor w' fd = cursor w fd + n /\
    (forall offs,
       unmapped_blocks_in inode (cursor w fd) (cursor w fd + size) offs ->
       bm_free_count (block_bitmap (fs w)) < Z.of_nat (length offs) ->
       n < size) /\
    (forall bytes,
       (Z.to_nat size <= length data)%nat -> 0 <= now < 2 ^ 63 ->
       bitmap_wf (block_bitmap (fs w)) bytes ->
       file_blocks_owned w inode bytes ->
       data_area_on_disk w ->
       data_area_apart w (fh_inode_number (handle_at w fd)) inode ->
       exists inode',
         (0 < n ->
          read_inode_from_disk w' (fh_inode_number (handle_at w fd))
          = (FS_SUCCESS, inode')) /\
         (n = 0 -> inode' = inode /\ w' = w) /\
         file_bytes (disk w') inode' (cursor w fd) n = firstn (Z.to_nat n) data /\
         (n < size ->
          file_ops_get_data_block inode' (block_index_of (cursor w fd + n)) = 0 /\
          (bm_free_count (block_bitmap (fs w')) = 0 \/
           DIRECT_BLOCKS <= block_index_of (cursor w fd + n)))).
Proof.
  intros Hopen Hpos Hint Hcur Harr Hfree. unfold int_range in Hint.
  rewrite (fs_write_open_regular w now fd data size inode Hopen Hpos).
  pose proof Hopen as (_ & Hvalid & Hread & _).
  apply validate_fd_in_table in Hvalid as (Hrange & Hlen).
  pose proof (fs_ops_read_inode_wf _ _ _ Hread) as Hwf.
  rewrite (u64_small (cursor w fd + size)) by lia.
  destruct (write_loop_returns data size (cursor w fd) ltac:(lia) ltac:(lia) ltac:(lia)
              (S (Z.to_nat size)) w inode 0 [] Harr Hfree ltac:(lia) ltac:(lia))
    as (w2 & inode2 & n & Hloop & Hn & _).
  assert (Hshort : forall offs,
            unmapped_blocks_in inode (cursor w fd) (cursor w fd + size) offs ->
            bm_free_count (block_bitmap (fs w)) < Z.of_nat (length offs) -> n < size).
  { intros offs Hoffs Hmore.
    destruct (write_loop_returns data size (cursor w fd) ltac:(lia) ltac:(lia) ltac:(lia)
                (S (Z.to_nat size)) w inode 0 offs Harr Hfree ltac:(lia) ltac:(lia))
      as (w2' & inode2' & n' & Hloop' & _ & Hlt).
    rewrite Hloop in Hloop'. injection Hloop' as _ _ <-.
    rewrite Z.add_0_r in Hlt. exact (Hlt Hoffs Hmore). }
  (* what the loop has written *)
  assert (Hwritten : forall bytes,
    (Z.to_nat size <= length data)%nat ->
    bitmap_wf (block_bitmap (fs w)) bytes ->
    file_blocks_owned w inode bytes -> data_area_on_disk w ->
    exists bytes2,
      (n = 0 -> w2 = w /\ inode2 = inode) /\
      inode_wf inode2 /\ file_blocks_owned w2 inode2 bytes2 /\ data_area_on_disk w2 /\
      (forall off, cursor w fd <= off < cursor w fd + n ->
                   file_ops_get_data_block inode2 (block_index_of off) <> 0) /\
      file_bytes (disk w2) inode2 (cursor w fd) n = firstn (Z.to_nat n) data /\
      (n < size ->
       file_ops_get_data_block inode2 (block_index_of (cursor w fd + n)) = 0 /\
       (bm_free_count (block_bitmap (fs w2)) = 0 \/
        DIRECT_BLOCKS <= block_index_of (cursor w fd + n)))).
  { intros bytes Hdata Hbm Hown Hdisk.
    destruct (write_loop_bytes data size (cursor w fd) ltac:(lia) ltac:(lia) ltac:(lia) Hdata
                (S (Z.to_nat size)) w inode bytes 0 Hbm Hwf Hown Hdisk ltac:(lia) ltac:(lia))
      as (w2' & inode2' & bytes2 & n' & Hloop' & _ & Hsame & _ & Hwf2 & Hown2 & Hdisk2 & _
          & Hmapped & _ & Hbytes & Hstop).
    rewrite Hloop in Hloop'. injection Hloop' as <- <- <-.
    rewrite Z.add_0_r, Z.sub_0_r in *. change (Z.to_nat 0) with 0%nat in Hbytes.
    exists bytes2. split; [exact Hsame |]. split; [exact Hwf2 |]. split; [exact Hown2 |].
    split; [exact Hdisk2 |].
    split; [exact Hmapped |]. split; [| exact Hstop].
    rewrite Hbytes. unfold slice. rewrite drop_0. reflexivity. }
  rewrite Z.add_0_r in Hloop. rewrite Hloop.
  pose proof (write_loop_keeps _ _ _ _ _ _ _ _ _ _ _ Hloop Hwf)
    as ((Hsb & Htable & Hgeo) & (db & Hblocks) & Hwf2 & Hro).
  destruct (0 <? n) eqn:Hz; boolp.
  - eexists n, _. split; [reflexivity |]. split; [lia |]. split; [| split; [exact Hshort |]].
    { rewrite cursor_set_position.
      + apply u64_small. lia.
      + unfold write_inode_to_disk. rewrite fs_ops_write_inode_fs, Htable. exact Hlen. }
    intros bytes Hdata Hnow Hbm Hown Hdisk Hapart.
    destruct (Hwritten bytes Hdata Hbm Hown Hdisk)
      as (bytes2 & _ & _ & Hown2 & Hdisk2 & Hmapped & Hbytes & Hstop).
    destruct Hro as [-> | Hro]; [lia |].
    pose proof (inode_wf_ranges _ Hwf) as (Hfsz & Hbc & _).
    set (ino := fh_inode_number (handle_at w fd)) in *.
    rewrite (u64_small (cursor w fd + n)) by lia.
    set (inode3 := if i_file_size inode2 <? cursor w fd + n then _ else inode2).
    assert (Hwf3 : inode_wf inode3).
    { unfold inode3. destruct (i_file_size inode2 <? cursor w fd + n); [| exact Hwf2].
      apply inode_wf_size; [exact Hwf2 | lia | apply u32_range]. }
    set (inode4 := set_i_times inode3 (i_access_time inode3) now now).
    assert (Hwf4 : inode_wf inode4).
    { apply inode_wf_times; [exact Hwf3 | apply inode_wf_access_time; exact Hwf3 | lia | lia]. }
    assert (Hdb4 : i_direct_blocks inode4 = i_direct_blocks inode2).
    { unfold inode4, inode3. destruct (i_file_size inode2 <? cursor w fd + n); reflexivity. }
    unfold read_inode_from_disk in *.
    destruct (write_then_read_inode w2 ino inode4 Hwf4 Hro) as (w3 & Hw3 & Hr3).
    { apply (read_inode_succeeds_still w w2 ino Hsb Hgeo). rewrite Hread. reflexivity. }
    destruct (fs_ops_write_inode_frame _ _ _ _ Hw3) as (Hfs3 & _ & Hframe3).
    unfold write_inode_to_disk. rewrite Hw3. cbn [snd].
    exists inode4.
    split; [intros _; unfold fs_ops_read_inode, set_position in *; simpl_world; exact Hr3 |].
    split; [intros; lia |].
    pose proof Hapart as (Hino & Hts & Hbelow & _).
    pose proof Hdisk2 as (Hds & Hfit & _). rewrite Hsb in Hds, Hfit.
    assert (Hq : 0 <= ino / inodes_per_block) by (apply Z.div_pos; [lia | reflexivity]).
    split.
    + rewrite <- Hbytes. unfold set_position. simpl_world.
      apply file_bytes_ext. intros off Hoff.
      split; [apply get_data_block_same_blocks; exact Hdb4 |].
      apply Hframe3. rewrite Hsb.
      pose proof (Hmapped off Hoff) as Hnz.
      pose proof (get_data_block_direct _ _ Hnz) as Hdir.
      pose proof (get_data_block_lookup inode2 (block_index_of off) Hwf2
                    ltac:(pose proof (block_index_nonneg off); lia)) as Hl.
      destruct (proj1 Hown2 _ _ Hl Hnz) as (Hb & _). rewrite Hsb in Hb.
      rewrite (u32_small (_ + _)) by lia.
      rewrite !to_int_small by lia. lia.
    + intros Hlt. unfold set_position. simpl_world. rewrite Hfs3.
      rewrite (get_data_block_same_blocks inode2 inode4) by exact Hdb4.
      exact (Hstop Hlt).
  - exists n, w2. split; [reflexivity |]. split; [lia |]. split; [| split; [exact Hshort |]].
    { rewrite (cursor_same_table w w2 fd Htable). lia. }
    intros bytes Hdata Hnow Hbm Hown Hdisk Hapart.
    destruct (Hwritten bytes Hdata Hbm Hown Hdisk)
      as (bytes2 & Hsame & _ & _ & _ & _ & Hbytes & Hstop).
    exists inode2.
    split; [intros; lia |].
    split; [intros Hn0; destruct (Hsame Hn0); split; assumption |].
    split; [exact Hbytes | exact Hstop].
Qed.

(* ===================================================================== *)
(** ** The further statements at concrete states *)
(* ===================================================================== *)

Lemma disk_write_then_read_witness :
  exists d',
    disk_write_block (blank_disk 200) 5 (Some (block_of Byte.x41)) = (DISK_SUCCESS, d') /\
    (forall buf, disk_read_block d' 5 (Some buf) = (DISK_SUCCESS, Some (block_of Byte.x41))) /\
    (forall b' buf, b' <> 5 ->
       disk_read_block d' b' (Some buf) = disk_read_block (blank_disk 200) b' (Some buf)).
Proof.
  apply (disk_write_then_read (blank_disk 200) 5 (block_of Byte.x41)).
  - apply (reach_init disk_state_zero None (200 * DISK_BLOCK_SIZE)). evaluate.
  - unfold int_range. lia.
  - change (d_total_blocks (blank_disk 200)) with 200. lia.
  - reflexivity.
Defined.

Lemma new_disk_reads_zeros_witness :
  d_total_blocks (blank_disk 200) = 200 * DISK_BLOCK_SIZE / DISK_BLOCK_SIZE /\
  d_disk_size (blank_disk 200) = 200 * DISK_BLOCK_SIZE /\
  disk_read_block (blank_disk 200) 7 (Some (block_of Byte.x41))
  = (DISK_SUCCESS, Some zero_block).
Proof.
  apply (new_disk_reads_zeros disk_state_zero (blank_disk 200) (200 * DISK_BLOCK_SIZE) 7
           (block_of Byte.x41)).
  - evaluate.
  - unfold int_range, DISK_BLOCK_SIZE. lia.
  - unfold DISK_BLOCK_SIZE. change (200 * 1024 / 1024) with 200. lia.
Defined.

Lemma disk_format_fills_witness :
  exists d',
    disk_format (blank_disk 200) Byte.x41 = (DISK_SUCCESS, d') /\
    d_total_blocks d' = d_total_blocks (blank_disk 200) /\
    d_is_dirty d' = false /\
    forall b buf, 0 <= b < d_total_blocks (blank_disk 200) ->
      disk_read_block d' b (Some buf)
      = (DISK_SUCCESS, Some (repeat Byte.x41 (Z.to_nat DISK_BLOCK_SIZE))).
Proof.
  apply (disk_format_fills (blank_disk 200) Byte.x41).
  - apply (reach_init disk_state_zero None (200 * DISK_BLOCK_SIZE)). evaluate.
  - change (d_total_blocks (blank_disk 200)) with 200. lia.
Defined.

Lemma disk_write_blocks_then_read_witness :
  exists d',
    disk_write_blocks (blank_disk 200) 10
      (Z.of_nat (length [block_of Byte.x41; block_of Byte.x42]))
      (Some (concat [block_of Byte.x41; block_of Byte.x42]))
    = Some (DISK_SUCCESS, d') /\
    disk_read_blocks d' 10 (Z.of_nat (length [block_of Byte.x41; block_of Byte.x42]))
      (Some (zeros 2048))
    = Some (DISK_SUCCESS, Some (concat [block_of Byte.x41; block_of Byte.x42])).
Proof.
  apply (disk_write_blocks_then_read (blank_disk 200) 10
           [block_of Byte.x41; block_of Byte.x42] (zeros 2048)).
  - apply (reach_init disk_state_zero None (200 * DISK_BLOCK_SIZE)). evaluate.
  - unfold block_list. repeat constructor.
  - discriminate.
  - cbn [length]. lia.
  - lia.
  - change (d_total_blocks (blank_disk 200)) with 200. cbn [length]. lia.
  - change (d_total_blocks (blank_disk 200)) with 200. lia.
  - reflexivity.
Defined.

Lemma disk_write_blocks_stops_at_the_end_witness :
  exists d',
    disk_write_blocks (blank_disk 200) 199
      (Z.of_nat (length ([block_of Byte.x41] ++ [block_of Byte.x42])))
      (Some (concat ([block_of Byte.x41] ++ [block_of Byte.x42])))
    = Some (DISK_ERROR_BLOCK_RANGE, d') /\
    forall j blk buf, [block_of Byte.x41] !! j = Some blk ->
      disk_read_block d' (199 + Z.of_nat j) (Some buf) = (DISK_SUCCESS, Some blk).
Proof.
  apply (disk_write_blocks_stops_at_the_end (blank_disk 200) 199
           [block_of Byte.x41] [block_of Byte.x42]).
  - apply (reach_init disk_state_zero None (200 * DISK_BLOCK_SIZE)). evaluate.
  - unfold block_list. repeat constructor.
  - discriminate.
  - cbn [length]. lia.
  - lia.
  - change (d_total_blocks (blank_disk 200)) with 200. cbn [length]. lia.
  - change (d_total_blocks (blank_disk 200)) with 200. lia.
Defined.

Lemma disk_copy_block_copies_witness :
  (0 <= 3 < d_total_blocks (blank_disk 200) -> 0 <= 4 < d_total_blocks (blank_disk 200) ->
   exists d',
     disk_copy_block (blank_disk 200) 3 4 = (DISK_SUCCESS, d') /\
     (forall buf, disk_read_block d' 4 (Some buf)
                  = disk_read_block (blank_disk 200) 3 (Some buf)) /\
     (forall b buf, b <> 4 ->
        disk_read_block d' b (Some buf) = disk_read_block (blank_disk 200) b (Some buf))) /\
  (~ (0 <= 3 < d_total_blocks (blank_disk 200)) \/
   ~ (0 <= 4 < d_total_blocks (blank_disk 200)) ->
   disk_copy_block (blank_disk 200) 3 4 = (DISK_ERROR_BLOCK_RANGE, blank_disk 200)).
Proof.
  apply (disk_copy_block_copies (blank_disk 200) 3 4).
  - apply (reach_init disk_state_zero None (200 * DISK_BLOCK_SIZE)). evaluate.
  - unfold int_range. lia.
  - unfold int_range. lia.
Defined.

Lemma disk_close_ends_the_session_witness :
  exists d',
    disk_close (blank_disk 200) = (DISK_SUCCESS, d') /\
    disk_init (blank_disk 200) None 1024 = (DISK_ERROR_ALREADY_INIT, blank_disk 200) /\
    disk_init d' None 1024 = disk_init disk_state_zero None 1024 /\
    disk_get_block_count d' = 0 /\
    disk_close d' = (DISK_ERROR_NOT_INIT, d') /\
    forall b buf,
      disk_is_valid_block d' b = false /\
      disk_read_block d' b (Some buf) = (DISK_ERROR_NOT_INIT, Some buf) /\
      disk_write_block d' b (Some buf) = (DISK_ERROR_NOT_INIT, d').
Proof.
  apply (disk_close_ends_the_session (blank_disk 200) None 1024).
  - reflexivity.
  - lia.
Defined.

Lemma disk_init_reopens_created_image_witness :
  exists d,
    disk_init disk_state_zero (Some image_200) 1024 = (DISK_SUCCESS, d) /\
    d_total_blocks d = 200 /\
    forall b, stored_block d b
              = resize (Z.to_nat DISK_BLOCK_SIZE) Byte.x00
                       (default zero_block (hf_blocks image_200 !! b)).
Proof.
  apply (disk_init_reopens_created_image disk_state_zero image_200 200 1000 1024).
  - reflexivity.
  - lia.
  - unfold int_range. lia.
  - reflexivity.
  - reflexivity.
  - cbn [hf_st_size image_200]. lia.
  - lia.
Defined.

Lemma disk_init_refuses_foreign_header_witness :
  exists d,
    disk_init disk_state_zero (Some foreign_file) 1024 = (DISK_ERROR_CORRUPTED, d) /\
    d_is_initialized d = false /\
    forall b buf, disk_read_block d b (Some buf) = (DISK_ERROR_NOT_INIT, Some buf).
Proof.
  apply (disk_init_refuses_foreign_header disk_state_zero foreign_file 1024).
  - reflexivity.
  - lia.
  - unfold int_range. lia.
  - reflexivity.
  - cbn [hf_st_size foreign_file]. unfold DISK_TOTAL_FILE_SIZE, sizeof_disk_header_t,
      DISK_BLOCK_SIZE. lia.
  - left. cbn [h_magic_number hf_header foreign_file]. unfold DISK_MAGIC_HEADER. lia.
Defined.

Lemma alloc_bitmap_bit_never_hands_out_twice_witness :
  exists b1 bm1 b2 bm2 bytes2,
    alloc_bitmap_bit bitmap_of_three = (b1, bm1) /\
    alloc_bitmap_bit bm1 = (b2, bm2) /\
    b1 <> b2 /\
    0 <= b1 < bm_total_bits bitmap_of_three /\ 0 <= b2 < bm_total_bits bitmap_of_three /\
    bit_is_set [Byte.x07] b1 = false /\ bit_is_set [Byte.x07] b2 = false /\
    bitmap_wf bm2 bytes2 /\
    bit_is_set bytes2 b1 = true /\ bit_is_set bytes2 b2 = true /\
    (forall i, 0 <= i -> i <> b1 -> i <> b2 ->
               bit_is_set bytes2 i = bit_is_set [Byte.x07] i) /\
    bm_free_count bm2 = bm_free_count bitmap_of_three - 2.
Proof.
  apply (alloc_bitmap_bit_never_hands_out_twice bitmap_of_three [Byte.x07]).
  - constructor.
    + evaluate.
    + change (bm_total_bits bitmap_of_three) with 8. lia.
    + evaluate.
    + evaluate.
    + change (bm_last_allocated bitmap_of_three) with 2.
      change (bm_total_bits bitmap_of_three) with 8. lia.
  - change (bm_free_count bitmap_of_three) with 5. lia.
Defined.

Lemma free_bitmap_bit_undoes_alloc_witness :
  exists b bm1,
    alloc_bitmap_bit bitmap_of_three = (b, bm1) /\
    bm_free_count bm1 = bm_free_count bitmap_of_three - 1 /\
    free_bitmap_bit bm1 b =
      {| bm_bitmap := Some [Byte.x07]; bm_total_bits := bm_total_bits bitmap_of_three;
         bm_free_count := bm_free_count bitmap_of_three; bm_last_allocated := b |}.
Proof.
  apply (free_bitmap_bit_undoes_alloc bitmap_of_three [Byte.x07]).
  - constructor.
    + evaluate.
    + change (bm_total_bits bitmap_of_three) with 8. lia.
    + evaluate.
    + evaluate.
    + change (bm_last_allocated bitmap_of_three) with 2.
      change (bm_total_bits bitmap_of_three) with 8. lia.
  - change (bm_free_count bitmap_of_three) with 5. lia.
Defined.

Lemma free_bitmap_bit_counts_once_witness :
  free_bitmap_bit (free_bitmap_bit bitmap_of_three 1) 1 = free_bitmap_bit bitmap_of_three 1 /\
  (bm_total_bits bitmap_of_three <= 1 \/ bit_is_set [Byte.x07] 1 = false ->
   free_bitmap_bit bitmap_of_three 1 = bitmap_of_three) /\
  (1 < bm_total_bits bitmap_of_three -> bit_is_set [Byte.x07] 1 = true ->
   bm_free_count (free_bitmap_bit bitmap_of_three 1) = bm_free_count bitmap_of_three + 1 /\
   bitmap_wf (free_bitmap_bit bitmap_of_three 1) (clear_bit [Byte.x07] 1) /\
   forall i, 0 <= i ->
             bit_is_set (clear_bit [Byte.x07] 1) i = negb (i =? 1) && bit_is_set [Byte.x07] i).
Proof.
  apply (free_bitmap_bit_counts_once bitmap_of_three [Byte.x07] 1).
  - constructor.
    + evaluate.
    + change (bm_total_bits bitmap_of_three) with 8. lia.
    + evaluate.
    + evaluate.
    + change (bm_last_allocated bitmap_of_three) with 2.
      change (bm_total_bits bitmap_of_three) with 8. lia.
  - lia.
Defined.

Lemma free_data_block_undoes_alloc_witness :
  exists b w1 w2,
    alloc_data_block_from_bitmap (w_open 0) = Some (b, w1) /\
    sb_data_blocks_start (superblock (fs (w_open 0))) <= b
      < sb_data_blocks_start (superblock (fs (w_open 0)))
        + bm_total_bits (block_bitmap (fs (w_open 0))) /\
    bit_is_set [Byte.x01; Byte.x00; Byte.x00; Byte.x00; Byte.x00; Byte.x00]
               (b - sb_data_blocks_start (superblock (fs (w_open 0)))) = false /\
    bm_free_count (block_bitmap (fs w1)) = bm_free_count (block_bitmap (fs (w_open 0))) - 1 /\
    free_data_block_to_bitmap w1 b = Some w2 /\
    bm_bitmap (block_bitmap (fs w2))
    = Some [Byte.x01; Byte.x00; Byte.x00; Byte.x00; Byte.x00; Byte.x00] /\
    bm_free_count (block_bitmap (fs w2)) = bm_free_count (block_bitmap (fs (w_open 0))) /\
    disk w2 = disk (w_open 0) /\ superblock (fs w2) = superblock (fs (w_open 0)).
Proof.
  apply (free_data_block_undoes_alloc (w_open 0)
           [Byte.x01; Byte.x00; Byte.x00; Byte.x00; Byte.x00; Byte.x00]).
  - constructor.
    + evaluate.
    + change (bm_total_bits (block_bitmap (fs (w_open 0)))) with 44. lia.
    + evaluate.
    + evaluate.
    + change (bm_last_allocated (block_bitmap (fs (w_open 0)))) with 0.
      change (bm_total_bits (block_bitmap (fs (w_open 0)))) with 44. lia.
  - change (bm_free_count (block_bitmap (fs (w_open 0)))) with 43. lia.
  - change (sb_data_blocks_start (superblock (fs (w_open 0)))) with 156. lia.
  - change (sb_data_blocks_start (superblock (fs (w_open 0)))) with 156.
    change (bm_total_bits (block_bitmap (fs (w_open 0)))) with 44. lia.
Defined.

Lemma fs_ops_write_inode_keeps_the_others_witness :
  exists w',
    fs_ops_write_inode (w_file 0) 2 (inode_of (w_file 0) 1) = (FS_SUCCESS, w') /\
    fs_ops_read_inode w' 2 = (FS_SUCCESS, inode_of (w_file 0) 1) /\
    fs_ops_read_inode w' 1 = fs_ops_read_inode (w_file 0) 1 /\
    fs w' = fs (w_file 0) /\
    forall b,
      b <> to_int (u32 (sb_inode_table_start (superblock (fs (w_file 0)))
                        + 2 / inodes_per_block)) ->
      d_blocks (disk w') !! b = d_blocks (disk (w_file 0)) !! b.
Proof.
  apply (fs_ops_write_inode_keeps_the_others (w_file 0) 2 1 (inode_of (w_file 0) 1)).
  - apply (fs_ops_read_inode_wf (w_file 0) 1). evaluate.
  - evaluate.
  - lia.
  - lia.
  - lia.
  - evaluate.
Defined.

Lemma superblock_write_then_read_witness :
  exists d',
    fs_ops_write_superblock (blank_disk 200) (fs_ops_init_superblock 200 1000) = (FS_SUCCESS, d') /\
    fs_ops_read_superblock d' superblock_zero =
      (if (sb_magic_number (fs_ops_init_superblock 200 1000) =? FS_MAGIC_NUMBER)
          && (sb_checksum (fs_ops_init_superblock 200 1000)
              =? superblock_checksum (set_sb_checksum (fs_ops_init_superblock 200 1000) 0))
       then FS_SUCCESS else FS_ERROR_CORRUPTED, fs_ops_init_superblock 200 1000).
Proof.
  apply (superblock_write_then_read (blank_disk 200) (fs_ops_init_superblock 200 1000)
           superblock_zero).
  - reflexivity.
  - reflexivity.
  - change (d_total_blocks (blank_disk 200)) with 200. lia.
  - split; [evaluate |].
    unfold fields_in_range. vm_compute. repeat constructor; discriminate.
Defined.

Lemma unformatted_disk_is_refused_witness :
  fs_ops_read_superblock (disk (world_at_start 200 0)) (superblock (fs (world_at_start 200 0)))
  = (FS_ERROR_CORRUPTED, superblock_zero) /\
  fs_create (world_at_start 200 0) 1000 (Some file_a)
  = Some (FS_ERROR_CORRUPTED, set_superblock (world_at_start 200 0) superblock_zero) /\
  fs_open (world_at_start 200 0) 1000 (Some file_a)
  = Some (FS_ERROR_CORRUPTED, set_superblock (world_at_start 200 0) superblock_zero).
Proof.
  apply (unformatted_disk_is_refused (world_at_start 200 0) 1000 file_a).
  - reflexivity.
  - change (d_total_blocks (disk (world_at_start 200 0))) with 200. lia.
  - reflexivity.
  - vm_compute. discriminate.
Defined.

Lemma fs_create_after_restart_fails_witness :
  exists r w',
    fs_create w_restarted 1005 (Some file_b) = Some (r, w') /\
    (r = FS_ERROR_INVALID_PARAM \/ r = FS_ERROR_FILE_EXISTS \/ r = FS_ERROR_NO_SPACE) /\
    disk w' = disk w_restarted /\ superblock (fs w') = sb_on_disk /\
    inode_bitmap (fs w') = no_bitmap /\ block_bitmap (fs w') = no_bitmap /\
    forall now' path',
      exists r',
        fs_create w' now' (Some path') = Some (r', w') /\
        (r' = FS_ERROR_INVALID_PARAM \/ r' = FS_ERROR_FILE_EXISTS \/ r' = FS_ERROR_NO_SPACE).
Proof.
  apply (fs_create_after_restart_fails w_restarted 1005 file_b sb_on_disk).
  - vm_compute. discriminate.
  - reflexivity.
  - reflexivity.
  - evaluate.
Defined.

Lemma fs_close_releases_the_descriptor_witness :
  handle_at (fs_close (w_open 0) 0) 0 = handle_zero /\
  (forall fd', 0 <= fd' -> fd' <> 0 ->
     handle_at (fs_close (w_open 0) 0) fd' = handle_at (w_open 0) fd') /\
  disk (fs_close (w_open 0) 0) = disk (w_open 0) /\
  file_ops_validate_fd (fs_close (w_open 0) 0) 0 = FS_ERROR_INVALID_PARAM /\
  (forall now data size,
     fs_write (fs_close (w_open 0) 0) now 0 data size
     = Some (FS_ERROR_INVALID_PARAM, fs_close (w_open 0) 0)) /\
  (forall now buffer size,
     fs_read (fs_close (w_open 0) 0) now 0 buffer size
     = Some (FS_ERROR_INVALID_PARAM, buffer, fs_close (w_open 0) 0)) /\
  (forall offset whence,
     fs_seek (fs_close (w_open 0) 0) 0 offset whence
     = Some (FS_ERROR_INVALID_PARAM, fs_close (w_open 0) 0)) /\
  fs_tell (fs_close (w_open 0) 0) 0 = FS_ERROR_INVALID_PARAM /\
  fs_size (fs_close (w_open 0) 0) 0 = Some (FS_ERROR_INVALID_PARAM, fs_close (w_open 0) 0) /\
  fs_close (fs_close (w_open 0) 0) 0 = fs_close (w_open 0) 0.
Proof.
  apply (fs_close_releases_the_descriptor (w_open 0) 0).
  - evaluate.
  - evaluate.
Defined.

Lemma fs_seek_sets_the_position_witness :
  (forall target,
     (SEEK_END = SEEK_SET /\ target = -1 \/
      SEEK_END = SEEK_CUR /\ target = cursor w_abc 0 + -1 \/
      SEEK_END = SEEK_END /\ target = i_file_size (inode_of w_abc 2) + -1) ->
     (target < 0 -> fs_seek w_abc 0 (-1) SEEK_END = Some (FS_ERROR_INVALID_PARAM, w_abc)) /\
     (0 <= target ->
      fs_seek w_abc 0 (-1) SEEK_END = Some (to_int target, set_position w_abc 0 target) /\
      cursor (set_position w_abc 0 target) 0 = target /\
      fs_tell (set_position w_abc 0 target) 0 = to_int target /\
      (target < 2 ^ 31 -> to_int target = target) /\
      (forall fd', 0 <= fd' -> fd' <> 0 ->
                   handle_at (set_position w_abc 0 target) fd' = handle_at w_abc fd') /\
      disk (set_position w_abc 0 target) = disk w_abc)) /\
  (SEEK_END <> SEEK_SET -> SEEK_END <> SEEK_CUR -> SEEK_END <> SEEK_END ->
   fs_seek w_abc 0 (-1) SEEK_END = Some (FS_ERROR_INVALID_PARAM, w_abc)).
Proof.
  apply (fs_seek_sets_the_position w_abc 0 (-1) SEEK_END (inode_of w_abc 2)).
  - evaluate.
  - evaluate.
  - evaluate.
  - unfold int_range. lia.
  - change (cursor w_abc 0) with 3. lia.
  - change (i_file_size (inode_of w_abc 2)) with 3. lia.
Defined.

Lemma permission_is_decided_by_the_class_witness :
  (1000 <> USER_MANAGER_ROOT_UID ->
   forall k, 0 <= k < 3 ->
     let answer := Z.testbit 416 (k + class_shift 1000 1000 1000 1000) in
     user_manager_check_permission_detailed 1000 1000 1000 1000 416 (2 ^ k) = answer /\
     user_manager_check_permission_detailed 1000 1000 1000 1000 416 (2 ^ (k + 3)) = answer /\
     user_manager_check_permission_detailed 1000 1000 1000 1000 416 (2 ^ (k + 6)) = answer) /\
  (1000 <> USER_MANAGER_ROOT_UID ->
   forall required_perm, ~ In required_perm single_permission_bits ->
     user_manager_check_permission_detailed 1000 1000 1000 1000 416 required_perm
     = negb (Z.land 416 required_perm =? 0)) /\
  (forall required_perm,
     user_manager_check_permission_detailed USER_MANAGER_ROOT_UID 1000 1000 1000 416
       required_perm = true).
Proof.
  apply (permission_is_decided_by_the_class 1000 1000 1000 1000 416).
Defined.

Lemma user_manager_create_user_then_lookup_witness :
  exists w' u,
    user_manager_create_user (world_at_start 200 0) (Some name_bob) 1001 0
    = (USER_SUCCESS, w') /\
    user_manager_get_user_by_name w' name_bob = Some u /\
    user_manager_get_user_by_uid w' 1001 = Some u /\
    usr_uid u = 1001 /\
    usr_gid u = (if 0 =? 0 then USER_MANAGER_DEFAULT_GID else 0) /\
    c_str (usr_username u) = c_str name_bob /\
    (forall uid' gid',
       user_manager_create_user w' (Some name_bob) uid' gid' = (USER_ERROR_USER_EXISTS, w')) /\
    (forall name' gid',
       (0 < length (c_str name') < Z.to_nat USERNAME_SIZE)%nat ->
       user_manager_create_user w' (Some name') 1001 gid' = (USER_ERROR_USER_EXISTS, w')) /\
    (forall name', c_str name' <> c_str name_bob ->
       user_manager_get_user_by_name w' name'
       = user_manager_get_user_by_name (world_at_start 200 0) name') /\
    (forall uid', uid' <> 1001 ->
       user_manager_get_user_by_uid w' uid'
       = user_manager_get_user_by_uid (world_at_start 200 0) uid') /\
    disk w' = disk (world_at_start 200 0) /\
    current_user_uid (fs w') = current_user_uid (fs (world_at_start 200 0)).
Proof.
  apply (user_manager_create_user_then_lookup (world_at_start 200 0) name_bob 1001 0).
  - reflexivity.
  - change (length (c_str name_bob)) with 3%nat.
    change (Z.to_nat USERNAME_SIZE) with 32%nat. lia.
  - lia.
  - evaluate.
  - evaluate.
  - vm_compute. discriminate.
Defined.

Lemma user_manager_chmod_is_for_owner_and_root_witness :
  (current_user_uid (fs (w_file 1000)) <> USER_MANAGER_ROOT_UID ->
   current_user_uid (fs (w_file 1000)) <> i_owner_uid (inode_of (w_file 1000) 2) ->
   user_manager_chmod (w_file 1000) 1003 2 0 = (USER_ERROR_PERMISSION, w_file 1000)) /\
  (current_user_uid (fs (w_file 1000)) = USER_MANAGER_ROOT_UID \/
   current_user_uid (fs (w_file 1000)) = i_owner_uid (inode_of (w_file 1000) 2) ->
   exists w',
     user_manager_chmod (w_file 1000) 1003 2 0 = (USER_SUCCESS, w') /\
     fs_ops_read_inode w' 2 =
       (FS_SUCCESS,
        set_i_times (set_i_permissions (inode_of (w_file 1000) 2) (u16 0))
                    (i_access_time (inode_of (w_file 1000) 2))
                    (i_modify_time (inode_of (w_file 1000) 2)) 1003) /\
     fs w' = fs (w_file 1000)).
Proof.
  apply (user_manager_chmod_is_for_owner_and_root (w_file 1000) 1003 2 0
           (inode_of (w_file 1000) 2)).
  - evaluate.
  - evaluate.
  - lia.
Defined.

Lemma user_manager_chown_is_for_root_witness :
  (current_user_uid (fs (w_file 0)) <> USER_MANAGER_ROOT_UID ->
   user_manager_chown (w_file 0) 1003 2 1000 1000 = (USER_ERROR_PERMISSION, w_file 0)) /\
  (current_user_uid (fs (w_file 0)) = USER_MANAGER_ROOT_UID ->
   exists w',
     user_manager_chown (w_file 0) 1003 2 1000 1000 = (USER_SUCCESS, w') /\
     fs_ops_read_inode w' 2 =
       (FS_SUCCESS,
        set_i_times (set_i_owner (inode_of (w_file 0) 2) 1000 1000)
                    (i_access_time (inode_of (w_file 0) 2))
                    (i_modify_time (inode_of (w_file 0) 2)) 1003) /\
     fs w' = fs (w_file 0) /\
     forall now' new_permissions,
       0 <= now' < 2 ^ 63 ->
       fst (user_manager_chmod (set_current_user_uid w' 1000) now' 2 new_permissions)
       = USER_SUCCESS).
Proof.
  apply (user_manager_chown_is_for_root (w_file 0) 1003 2 1000 1000 (inode_of (w_file 0) 2)).
  - evaluate.
  - evaluate.
  - lia.
  - lia.
  - lia.
Defined.

Lemma fs_write_then_read_back_witness :
  exists w2 w3,
    fs_seek w_abc 0 (cursor (w_open 0) 0) SEEK_SET = Some (cursor (w_open 0) 0, w2) /\
    fs_read w2 1005 0 (Some (zeros 3)) 3
    = Some (3, Some (memcpy (zeros 3) 0 (firstn (Z.to_nat 3) abc)), w3).
Proof.
  apply (fs_write_then_read_back (w_open 0) w_abc 1004 1005 0 abc (zeros 3) 3
           (inode_of (w_open 0) 2)).
  - evaluate.
  - evaluate.
  - unfold data_area_apart. cbv zeta.
    change (fh_inode_number (handle_at (w_open 0) 0)) with 2.
    change (sb_inode_table_start (superblock (fs (w_open 0)))) with 8.
    change (sb_data_blocks_start (superblock (fs (w_open 0)))) with 156.
    change (bm_total_bits (block_bitmap (fs (w_open 0)))) with 44.
    change (2 / inodes_per_block) with 0.
    change (i_direct_blocks (inode_of (w_open 0) 2)) with (repeat 0 12).
    repeat split; try lia.
    repeat (constructor; [left; reflexivity |]). constructor.
  - change (cursor (w_open 0) 0) with 0. lia.
  - lia.
  - change (cursor (w_open 0) 0) with 0. unfold BLOCK_SIZE.
    change (0 mod 1024) with 0. lia.
  - change (length abc) with 3%nat. lia.
  - change (length (zeros 3)) with 3%nat. lia.
  - lia.
  - evaluate.
Defined.

Lemma add_file_then_find_witness :
  exists w',
    add_file_to_directory (w_file 0) 1005 ROOT_INODE_NUM file_b 3 = (FS_SUCCESS, w') /\
    find_file_in_directory w' ROOT_INODE_NUM file_b = 3 /\
    (forall name, (length name < 64)%nat -> name <> file_b ->
       find_file_in_directory w' ROOT_INODE_NUM name
       = find_file_in_directory (w_file 0) ROOT_INODE_NUM name) /\
    fs w' = fs (w_file 0).
Proof.
  apply (add_file_then_find (w_file 0) 1005 ROOT_INODE_NUM file_b 3 3
           (inode_of (w_file 0) 1)).
  - evaluate.
  - evaluate.
  - unfold data_area_apart. cbv zeta.
    change (sb_inode_table_start (superblock (fs (w_file 0)))) with 8.
    change (sb_data_blocks_start (superblock (fs (w_file 0)))) with 156.
    change (bm_total_bits (block_bitmap (fs (w_file 0)))) with 44.
    change (ROOT_INODE_NUM / inodes_per_block) with 0.
    change (i_direct_blocks (inode_of (w_file 0) 1)) with (156 :: repeat 0 11).
    unfold ROOT_INODE_NUM.
    repeat split; try lia.
    constructor; [right; lia |].
    repeat (constructor; [left; reflexivity |]). constructor.
  - evaluate.
  - vm_compute. discriminate.
  - evaluate.
  - evaluate.
  - evaluate.
  - reflexivity.
  - cbn. lia.
  - lia.
  - lia.
Defined.

Lemma fs_create_then_find_witness :
  fs_create w_formatted 1001 (Some file_b)
  = Some (FS_ERROR_NO_SPACE,
          set_inode_bitmap w_formatted
            (snd (alloc_bitmap_bit (inode_bitmap (fs w_formatted))))) /\
  exists inode w',
    fs_create (w_file 0) 1005 (Some file_b) = Some (FS_SUCCESS, w') /\
    fs_loaded w' /\
    names_regular_file w' file_b 3 inode /\
    i_permissions inode = 420 /\ i_file_size inode = 0 /\
    i_owner_uid inode = user_manager_get_current_uid (w_file 0) /\
    i_owner_gid inode = user_manager_get_current_gid (w_file 0) /\
    sb_free_inodes (superblock (fs w')) = bm_free_count (inode_bitmap (fs (w_file 0))) - 1 /\
    forall now', fs_create w' now' (Some file_b) = Some (FS_ERROR_FILE_EXISTS, w').
Proof.
  split.
  - destruct (fs_create_then_find w_formatted 1001 file_b file_b (inode_of w_formatted 1)
                (Byte.x02 :: zeros 127) 2)
      as (n & bm1 & Halloc & _ & Hzero & _).
    + evaluate.
    + evaluate.
    + discriminate.
    + evaluate.
    + evaluate.
    + unfold data_area_apart. cbv zeta.
      change (sb_inode_table_start (superblock (fs w_formatted))) with 8.
      change (sb_data_blocks_start (superblock (fs w_formatted))) with 156.
      change (bm_total_bits (block_bitmap (fs w_formatted))) with 44.
      change (ROOT_INODE_NUM / inodes_per_block) with 0.
      change (i_direct_blocks (inode_of w_formatted 1)) with (156 :: repeat 0 11).
      unfold ROOT_INODE_NUM.
      repeat split; try lia.
      constructor; [right; lia |].
      repeat (constructor; [left; reflexivity |]). constructor.
    + vm_compute. discriminate.
    + evaluate.
    + evaluate.
    + evaluate.
    + evaluate.
    + constructor.
      * evaluate.
      * change (bm_total_bits (inode_bitmap (fs w_formatted))) with 1024. lia.
      * evaluate.
      * evaluate.
      * change (bm_last_allocated (inode_bitmap (fs w_formatted))) with 0.
        change (bm_total_bits (inode_bitmap (fs w_formatted))) with 1024. lia.
    + change (bm_free_count (inode_bitmap (fs w_formatted))) with 1023. lia.
    + evaluate.
    + evaluate.
    + change (fst (alloc_bitmap_bit (inode_bitmap (fs w_formatted)))) with 0.
      change (sb_inode_table_start (superblock (fs w_formatted))) with 8.
      change (sb_data_blocks_start (superblock (fs w_formatted))) with 156.
      change (0 / inodes_per_block) with 0. lia.
    + change (sb_data_blocks_start (superblock (fs w_formatted))) with 156.
      change (d_total_blocks (disk w_formatted)) with 200. lia.
    + evaluate.
    + lia.
    + change (user_manager_get_current_uid w_formatted) with 0. lia.
    + change (user_manager_get_current_gid w_formatted) with 0. lia.
    + assert (Hn : n = 0).
      { apply (f_equal fst) in Halloc. cbn [fst] in Halloc. rewrite <- Halloc. evaluate. }
      rewrite Halloc. cbn [snd]. exact (proj1 (Hzero Hn)).
  - destruct (fs_create_then_find (w_file 0) 1005 file_b file_b (inode_of (w_file 0) 1)
                (Byte.x07 :: zeros 127) 3)
      as (n & bm1 & Halloc & _ & _ & Hok).
    + evaluate.
    + evaluate.
    + discriminate.
    + evaluate.
    + evaluate.
    + unfold data_area_apart. cbv zeta.
      change (sb_inode_table_start (superblock (fs (w_file 0)))) with 8.
      change (sb_data_blocks_start (superblock (fs (w_file 0)))) with 156.
      change (bm_total_bits (block_bitmap (fs (w_file 0)))) with 44.
      change (ROOT_INODE_NUM / inodes_per_block) with 0.
      change (i_direct_blocks (inode_of (w_file 0) 1)) with (156 :: repeat 0 11).
      unfold ROOT_INODE_NUM.
      repeat split; try lia.
      constructor; [right; lia |].
      repeat (constructor; [left; reflexivity |]). constructor.
    + vm_compute. discriminate.
    + evaluate.
    + evaluate.
    + evaluate.
    + evaluate.
    + constructor.
      * evaluate.
      * change (bm_total_bits (inode_bitmap (fs (w_file 0)))) with 1024. lia.
      * evaluate.
      * evaluate.
      * change (bm_last_allocated (inode_bitmap (fs (w_file 0)))) with 2.
        change (bm_total_bits (inode_bitmap (fs (w_file 0)))) with 1024. lia.
    + change (bm_free_count (inode_bitmap (fs (w_file 0)))) with 1021. lia.
    + evaluate.
    + evaluate.
    + change (fst (alloc_bitmap_bit (inode_bitmap (fs (w_file 0))))) with 3.
      change (sb_inode_table_start (superblock (fs (w_file 0)))) with 8.
      change (sb_data_blocks_start (superblock (fs (w_file 0)))) with 156.
      change (3 / inodes_per_block) with 0. lia.
    + change (sb_data_blocks_start (superblock (fs (w_file 0)))) with 156.
      change (d_total_blocks (disk (w_file 0))) with 200. lia.
    + evaluate.
    + lia.
    + change (user_manager_get_current_uid (w_file 0)) with 0. lia.
    + change (user_manager_get_current_gid (w_file 0)) with 0. lia.
    + assert (Hn : n = 3).
      { apply (f_equal fst) in Halloc. cbn [fst] in Halloc. rewrite <- Halloc. evaluate. }
      subst n. apply Hok. lia.
Defined.

Lemma parse_path_takes_one_name_witness :
  parse_path (file_b ++ Byte.x00 :: []) = (FS_SUCCESS, ROOT_INODE_NUM, firstn 63 file_b) /\
  parse_path (slash :: file_b ++ Byte.x00 :: [])
  = (FS_SUCCESS, ROOT_INODE_NUM, firstn 63 file_b) /\
  (forall name', c_str name' = name' -> firstn 63 name' = firstn 63 file_b ->
     existsb (Byte.eqb slash) name' = false ->
     parse_path (name' ++ Byte.x00 :: []) = parse_path (file_b ++ Byte.x00 :: [])) /\
  (forall tail,
     parse_path (file_b ++ slash :: tail) = (FS_ERROR_INVALID_PARAM, ROOT_INODE_NUM, [])) /\
  (forall tail,
     parse_path (slash :: file_b ++ slash :: tail)
     = (FS_ERROR_INVALID_PARAM, ROOT_INODE_NUM, [])).
Proof.
  apply (parse_path_takes_one_name file_b []).
  - discriminate.
  - reflexivity.
  - reflexivity.
Defined.

Lemma inode_table_runs_into_the_data_area_witness :
  exists b,
    b = sb_inode_table_start (superblock (fs (w_file 0))) + 888 / inodes_per_block /\
    sb_data_blocks_start (superblock (fs (w_file 0))) <= b /\
    d_blocks (disk (snd (fs_ops_write_inode (w_file 0) 888 (inode_of (w_file 0) 2)))) !! b
    = Some (memcpy (stored_block (disk (w_file 0)) b)
              (Z.to_nat (888 mod inodes_per_block * sizeof_fs_inode_t))
              (encode_inode (inode_of (w_file 0) 2))).
Proof.
  apply (inode_table_runs_into_the_data_area (w_file 0) _ 888 200 1000
           (inode_of (w_file 0) 2)).
  - evaluate.
  - evaluate.
  - lia.
  - evaluate.
Defined.

Lemma fs_write_stops_when_blocks_run_out_witness :
  exists w' inode',
    fs_write w_small 1004 0 (Some (repeat Byte.x41 2000)) 2000 = Some (1024, w') /\
    cursor w' 0 = 1024 /\
    read_inode_from_disk w' 2 = (FS_SUCCESS, inode') /\
    file_bytes (disk w') inode' 0 1024 = repeat Byte.x41 1024 /\
    file_ops_get_data_block inode' 1 = 0 /\
    bm_free_count (block_bitmap (fs w')) = 0.
Proof.
  assert (Hopen : open_regular w_small 0 (inode_of w_small 2) FS_PERM_OWNER_WRITE)
    by evaluate.
  assert (Hcursor : cursor w_small 0 = 0) by evaluate.
  assert (Hino : fh_inode_number (handle_at w_small 0) = 2) by evaluate.
  assert (Hfree : bm_free_count (block_bitmap (fs w_small)) = 1) by evaluate.
  assert (Harray : bm_bitmap (block_bitmap (fs w_small)) <> None)
    by (vm_compute; discriminate).
  destruct (fs_write_stops_when_blocks_run_out w_small 1004 0 (repeat Byte.x41 2000) 2000
              (inode_of w_small 2) Hopen ltac:(lia) ltac:(unfold int_range; lia)
              ltac:(lia) Harray ltac:(lia))
    as (n & w' & Hwrite & _ & Hmoved & _ & Hwritten).
  assert (Hn : n = 1024).
  { apply (f_equal (option_map fst)) in Hwrite. vm_compute in Hwrite. congruence. }
  subst n. rewrite Hcursor, Hino in *.
  destruct (Hwritten [Byte.x01]) as (inode' & Hread & _ & Hbytes & Hstop).
  - rewrite repeat_length. lia.
  - lia.
  - constructor.
    + evaluate.
    + change (bm_total_bits (block_bitmap (fs w_small))) with 2. lia.
    + evaluate.
    + evaluate.
    + change (bm_last_allocated (block_bitmap (fs w_small))) with 0.
      change (bm_total_bits (block_bitmap (fs w_small))) with 2. lia.
  - apply file_blocks_owned_none. evaluate.
  - unfold data_area_on_disk.
    change (sb_data_blocks_start (superblock (fs w_small))) with 156.
    change (bm_total_bits (block_bitmap (fs w_small))) with 2.
    change (d_total_blocks (disk w_small)) with 158.
    repeat split; try lia; evaluate.
  - unfold data_area_apart. cbv zeta.
    change (sb_inode_table_start (superblock (fs w_small))) with 8.
    change (sb_data_blocks_start (superblock (fs w_small))) with 156.
    change (bm_total_bits (block_bitmap (fs w_small))) with 2.
    change (2 / inodes_per_block) with 0.
    change (i_direct_blocks (inode_of w_small 2)) with (repeat 0 12).
    repeat split; try lia.
    repeat (constructor; [left; reflexivity |]). constructor.
  - exists w', inode'. split; [exact Hwrite |]. split; [exact Hmoved |].
    split; [apply Hread; lia |].
    change (0 + 1024) with 1024 in Hstop. change (block_index_of 1024) with 1 in Hstop.
    destruct (Hstop ltac:(lia)) as (Hnext & [Hnone | Hdirect]);
      [| unfold DIRECT_BLOCKS in Hdirect; lia].
    split; [| split; [exact Hnext | exact Hnone]].
    rewrite Hbytes. reflexivity.
Defined.
